(* ===== verification/_CoqProject ===== *)
-Q . S2P
Prelude.v
PyRuntime.v
Frames.v
Resolver.v
Filings.v
Net.v
Crawler.v
Disk.v
Xml.v
Holdings.v
Cascade.v
History.v
Timeline.v
Scheduler.v
Ownership.v
Store.v
Options.v
Vix.v
Economy.v
Prices.v
Reddit.v
Insider.v
Debug13f.v
Deploy.v
