(* ===== verification/Prelude.v ===== *)
(** * TradeTitan data fetchers: a verification development

    The program (src/datafetcher/institutional_tracker.py and
    src/datafetcher/simplified_institutional.py, run by
    src/datafetcher/scheduler.py) rebuilds the quarterly 13F filing
    history of an institution from the SEC archive, extracts holdings from
    the filing documents through a cascade of three parsers, folds the
    result into yearly summaries and writes the tables as CSV files.
    Beside it, src/datafetcher/options_flow.py reads the option chain of
    a ticker and derives the unusual rows, the put/call ratio, the strike
    of greatest open interest and an estimate of dark-pool volume, and
    src/datafetcher/vix_fetcher.py reads the series of the volatility
    indices and derives rolling columns, the term structure and the
    indicators of fear.  The other fetchers stand alone:
    src/datafetcher/economic_indicators.py (the series of FRED and the
    dashboard of the economy), src/datafetcher/GOOGL/GOOGLfetch.py and
    src/SPY/spyFetch.py (prices with their technical indicators, and
    scored news), src/datafetcher/reddit_sentiment.py (the mentions of a
    ticker), src/datafetcher/GOOGL/GOOGLinsider.py (the transactions of
    the Form 4 filings, exported and mailed) and
    src/datafetcher/debug_13f.py (a probe of the documents of one 13F
    filing).

    ** How the parts interact

    [fetch_and_save_institutional_data] asks Yahoo Finance for the current
    holders of each ticker, then calls [track_major_institutions], which
    for each target ticker calls [get_historical_holdings_for_ticker]: for
    the first three institutions of the roster it crawls the filing index
    ([get_historical_13f_filings]), picks filings, and reads each with
    [parse_13f_holdings], which requests up to three documents and parses
    them with [_parse_xml_info_table] or [_extract_holdings_from_text].
    The holdings are sorted, saved, summarised by
    [_create_historical_summary] and the summary saved.  The simplified
    tracker does the same without reading documents: a timeline of
    filings, its yearly summary and an analysis per institution.  The
    scheduler starts these scripts by the day and the hour.
    [fetch_and_save_options_data] walks its tickers on its own: for each
    it saves the chain of the nearest expiration, analyses it
    ([analyze_unusual_options_activity]), computes the indicators
    ([calculate_options_indicators]) and the dark-pool estimate
    ([track_dark_pool_activity]), and at the end appends the two
    summaries to their files.  [fetch_and_save_volatility_data] saves
    the frame of each volatility ticker ([fetch_volatility_data]), then
    appends the term structure ([calculate_vix_term_structure]) and the
    fear indicators ([get_market_fear_indicators]) to their files.
    [fetch_and_save_economic_data] saves the cleaned frame of each
    series ([get_fred_data]) and appends the dashboard, which merges the
    four dicts of metrics.  [run_complete_fetch] downloads the prices of
    each timeframe with three attempts at most ([fetch_and_save_data],
    which adds the columns of [calculate_technical_indicators]) and then
    gathers, scores and saves the news ([fetch_news_sentiment]).
    [fetch_and_save_reddit_sentiment] appends the summary that
    [get_tradestie_reddit_data] finds.  [main_task] of the insider
    script reads the index ([fetch_form4_filings]), parses each filing
    ([process_form4], with [parse_header_info] and [parse_table_i]),
    writes the file ([export_to_csv]) and mails it ([send_email]).  All
    of them meet in three interfaces only: the host ([Net]), the files
    ([Disk]) and the parser of documents ([XmlParser]); the probe of
    debug_13f.py asks for the documents that the cascade asks for.
    The scheduler starts the scripts by path and counts the runs that
    end with status 0; [Deploy] puts the [main] of each behind its path.

    ** Files, in dependency order

    - [Prelude] (this file): Python exceptions as values ([exn], [result]),
      the state-and-exception monad [io] in which effectful methods are
      written, the notation scope [py_scope], the hint database [tt], the
      stable descending sort that models [list.sort(key=..., reverse=True)],
      sums over [Q], insertion-ordered dicts, and the rules on [io] the
      components share: [returns] (a postcondition of the value),
      [total] (no exception leaves) and [keeps] (a preorder between the
      state before and after), [raises_only] (which exceptions can
      leave) and [appends] (a local list only grows, by rows of a
      kind), with the tactics [inv_bind], [inv_steps], [keeps_go],
      [raises_go] and [run_total]; the local lists of a method as a
      second component of the state ([io_zoom], [io_modify],
      [io_locals]).
    - [PyRuntime]: executable semantics of the Python built-ins the sources
      call ([str.split], [str.strip], [str.lower], [str.replace],
      [str.zfill], [int], [float], [in] on strings, string comparison) in
      [Module Py], and of the regular expressions they use ([re.findall],
      [re.search] with a literal, with and without [\b]) in [Module Re].
      These model the language runtime, not the repository.
    - [Frames]: the numbers of numpy and the columns of pandas in
      [Module Np]: a scalar that may be infinite or NaN, a cell that may
      be NaN, and [sum], [mean], [quantile], [rank(pct=True)], [tail],
      [iloc[-1]], [ffill], [pct_change], [rolling], [pd.cut], [diff],
      [where], [cumsum] and [ewm(span, adjust=False).mean()].  These
      model the libraries, not the repository.
    - [Resolver]: the ticker and CUSIP tables and [_cusip_to_ticker]
      behind the class [Roster]; the rosters of institutions.
    - [Filings]: [_process_filing_data], the loop of [get_13f_filings] and
      [_extract_13f_filings] on the parallel arrays of a filing index.
    - [Net]: the archive host as the class [Net], and the trace of
      requests, delays and printed lines that is the state of the crawls.
    - [Crawler]: [get_historical_13f_filings], [get_13f_filings] and
      [get_comprehensive_13f_history].
    - [Disk]: the files as a map from paths to lists of rows beside the
      trace ([world]); [os.makedirs], [os.path.exists], [read_csv],
      [to_csv] and the append of a frame to a file; the file system is
      the class [Disk]; the relations [untouched] and [grown] between
      the worlds before and after a run.
    - [Xml]: the ampersand repair, the document tree and the queries
      [find_all], [find] and [get_text]; BeautifulSoup is the class
      [XmlParser].
    - [Holdings]: [_parse_xml_info_table], [_extract_holdings_from_text],
      [extract_holdings_from_filing] and the conversion of numbers.
    - [Cascade]: [parse_13f_holdings].
    - [History]: [get_historical_holdings_for_ticker] and
      [_create_historical_summary].
    - [Timeline]: [create_institutional_timeline],
      [_create_yearly_summary] and the loop of
      [_create_institution_analysis].
    - [Scheduler]: [run_fetch_script], [run_daily_scripts],
      [run_weekly_scripts] and [main] of scheduler.py; the operating
      system is the class [Os].
    - [Ownership]: [get_institutional_ownership_yahoo],
      [track_smart_money_flows] and [get_current_institutional_data];
      yfinance is the class [Yahoo].
    - [Store]: [fetch_and_save_institutional_data],
      [track_major_institutions],
      [create_comprehensive_institutional_dataset] and the whole of
      [_create_institution_analysis], over the world of [Disk].
    - [Options]: [get_options_chain_yahoo],
      [analyze_unusual_options_activity], [get_options_flow_finnhub],
      [calculate_options_indicators], [track_dark_pool_activity] and
      [fetch_and_save_options_data] of options_flow.py; yfinance is the
      class [Market].
    - [Vix]: the table of tickers, [fetch_volatility_data],
      [calculate_vix_term_structure], [get_market_fear_indicators] and
      [fetch_and_save_volatility_data] of vix_fetcher.py, over the class
      [Market].
    - [Economy]: the table of indicators and the seven methods of
      [EconomicIndicatorsFetcher] of economic_indicators.py; decoding
      the answers of FRED is the class [Fred].
    - [Prices]: [calculate_technical_indicators], [fetch_and_save_data],
      [fetch_news_sentiment] and [run_complete_fetch] of GOOGLfetch.py
      and the script of spyFetch.py; yfinance is the class [Feed], the
      NewsAPI client and the two scorers the class [News].
    - [Reddit]: [get_tradestie_reddit_data],
      [get_reddit_posts_pushshift], [get_reddit_sentiment_summary] and
      [fetch_and_save_reddit_sentiment] of reddit_sentiment.py; decoding
      and scoring are the class [Reddit].
    - [Insider]: the eight functions of GOOGLinsider.py, with [find],
      [find_parent] and [find_next] of BeautifulSoup by the place of a
      tag in the tree of [Xml]; decoding the index is the class [Edgar].
    - [Debug13f]: [debug_13f_structure] of debug_13f.py.
    - [Deploy]: the scheduler over the scripts of the repository: the
      instance of [Os] on which the eight scripts that its lists name
      are installed, each ending as its [main] ends.

    ** What the theorems show

    - Crawls: they never raise; the result is sorted newest first and
      holds only 13F-HR filings of the years asked for; a shard that fails
      contributes nothing and stops nothing; the trace is the index request
      and the events of the shards. Which requests follow each other
      without a delay, and which malformed index loses the whole crawl.
    - Parsers: the table parser resolves every CUSIP through the roster
      and filters by ticker; the text parser is a function of the lines
      (one holding per line and matching ticker) and never reaches its
      handler; the conversion of numbers on every branch.
    - Cascade: it never raises, requests at most the three documents in
      order, stops at the first parse that gives a holding, and is the
      functional [first_yield] on a host that answers by URL; a request
      that raises ends it.
    - History and summaries: provenance of every holding; one summary per
      year, newest first; one row per institution and year, the most
      recent when the frame is sorted as the caller sorts it; the
      concentration between 0 and 100 and 0 on a zero total.
    - Timeline: every entry is well formed; the yearly summary partitions
      the timeline and names an institution of greatest count.
    - Scheduler: which scripts are started, in which order, and where the
      working directory is afterwards.
    - Store: the tracking file only grows; the holdings file holds the
      sorted holdings; which exceptions can leave.
    - Options: the unusual rows are the rows at or above the 0.9
      quantile of the volumes; the put/call ratio and the average strike
      within their bounds; the strike of maximum pain has the greatest
      open interest; the dark-pool estimate is between 15 and 40 on every
      input; an empty chain ends the body of the loop in its handler;
      only the [OSError] of the directory or of a summary file leaves the
      run, and the summary of the flow only grows.
    - Vix: which columns the frame of a symbol has, each as long as its
      history; the rolling volatility has no number at its first [n]
      positions; the two computations of the fear level agree above
      zero; the term structure is there exactly when the four requests
      are answered and two have a close, and its label follows the
      ratio; the fear indicators are well formed; the file of a symbol
      holds its frame when the run returns; which exceptions can leave.
    - Economy: a cleaned frame has a number in every row and is sorted
      by date; the dashboard is always there and never raises; a run
      appends one row to the dashboard file; what a missing key and a
      short series give.
    - Prices: the RSI is NaN or between 0 and 100, and NaN at its first
      thirteen rows; the averages stay between the least and the
      greatest close; the on-balance volume row by row; the download
      ends after at most [retries] attempts, whatever the feed does, and
      saves the first answer that has rows; a round of the news loop
      keeps the rows gathered before it; only the [OSError] of the news
      file leaves [run_complete_fetch].
    - Reddit: the search finds the first item of the ticker; one request
      per call, and one per subreddit whatever fails; the file of the
      posts is never written; a summary returned is a row appended.
    - Insider: the loop by position is the filter of the index; a
      footnote marker is taken out of the code and the price but makes
      the amount 0; [find_parent] returns a tag above its start; one
      unanswered filing loses all, and [main_task] writes all the
      transactions or nothing.
    - Debug13f: the probe never raises and asks for its five documents
      in order; when a round keeps a sample; three of the five are the
      documents of the cascade.
    - Deploy: on a disk that takes every file the weekly run counts
      three successes of three, whatever the hosts answer; without the
      key of NewsAPI the run of the script of SPY is logged as failed
      and the run of the script of GOOGL as completed; the tracker that
      reads the documents is in neither list of the scheduler.

    ** Conventions, bounds and fuel

    - A Python [float] is a rational ([Q], compared with [==]): every float
      the core creates is read from a decimal string, and the theorems are
      about the exact value, not about binary rounding.  A square root
      is the function [sqrt] of the class [Market], with no law: no
      theorem depends on its value.  Where the code
      divides numbers of pandas, which gives an infinity or NaN and not
      an exception, the result is an [Np.float]; a cell of a column is an
      [option Q], [None] for NaN.
    - A Python [int] is [Z]; a [str] is [string], read as a sequence of
      one-byte characters (the ASCII range is modelled exactly, bytes
      above 127 are letters of no case and no class).
    - A method that can raise returns [result]; a method that talks to the
      network or sleeps runs in [io], whose state is the trace of requests
      and delays, so that ordering and call counts are part of what is
      proved.  A method that writes files runs in [io] over [world].
      [try: ... except Exception: ...] is [try_except] (or [io_try]): the
      handler sees the state the body left behind.
    - The only recursion with fuel is [Re.findall_fuel]: the fuel is the
      length of the text plus one, and [Re.findall_fuel_enough] shows that
      more fuel changes nothing for a pattern that consumes a character
      per match.  Every other loop is structural on the list it walks;
      the retry loop of [fetch_and_save_data] is structural on the
      number of attempts left, [retries] at the start (3 where the
      source gives none).
    - The clock is a parameter: [now_year] of the crawls, [today] of the
      tracking records, the day and the hour of [main], [now] of the
      summaries.  So is the environment: the keys of FRED and NewsAPI
      and the password of the mail are [option string] parameters.
    - A collaborator whose answer may change from call to call answers
      by the trace so far ([respond] of [Net], [ticker_history] of
      [Feed]): a feed that fails twice and then answers is an instance.
    - A delay is an event of the trace in milliseconds; the SMTP
      exchange of [send_email] is one request to the mail host.
    - A script ends with status 0 when its [main] returns and with 1
      when an exception leaves it ([exit_status]); the scripts are
      installed under the paths of the scheduler, [/app] for
      src/datafetcher and [/app/SPY] for src/SPY.
    - A frame of pandas is the list of its rows; [sort_values] is the
      stable sort, [groupby(k).first()] the first row of each key.

    ** Idealisations

    Where the model is simpler than the libraries, the theorems hold of
    the model only:
    - [float()] reads signed decimal numerals, with single underscores
      between digits; the forms [1e3], [inf] and [nan], which Python
      also reads, raise in the model ([Py.py_float]).  Finite floats
      are exact rationals: rounding and signed zero are not there.
    - The ticker that [_extract_holdings_from_text] splices into its
      three patterns is searched as a literal; a ticker with a
      metacharacter of regular expressions, for which [re] raises, is
      outside the model.  The tickers of the roster are letters.
    - A file read back holds the rows that were written (no coercion
      of types, no parse error), and a write happens or raises as a
      whole: a file truncated by a write that failed is not modelled.
    - [sort_values] is a stable sort, where the default of pandas is
      not; no claim on the rows of a summary depends on the order of
      rows of one date.  [GroupBy.first()] is the first row of a group;
      pandas takes the first value that is not null column by column,
      which is the same for the columns used here, which are never
      null.  [pd.to_datetime(...).dt.year] is the integer before the
      first [-] of the date, as for the ISO dates of the archive.
    - The clock and the time arithmetic of [get_reddit_posts_pushshift]
      are integers without bound: the [OverflowError] of [timedelta]
      for an extreme [days_back], which the outer handler of the
      method would catch, does not arise.
    - [Market] answers by its arguments, the same within a run; [Feed]
      and [Net] may answer by the events so far.
    - [Deploy] assumes where the scripts are installed, that every
      directory can be entered and that no script runs into the
      time-out of the scheduler.

    ** What is not modelled

    The libraries behind the classes ([requests], BeautifulSoup, yfinance,
    the file system, [subprocess], [smtplib], the clients of FRED,
    NewsAPI, Tradestie and Pushshift); the text of printed and logged lines
    and of the CSV files; request headers and time-outs; the rounding of
    floats; the loading of the scoring models and what they compute; the
    header line and the index column of a CSV file.  The unit tests
    under src/datafetcher/ (test_datafetcher.py, tests/) are read for
    the intended behaviour and have no model: they replace the host by
    mocks and assert on them. *)

From Stdlib Require Import QArith Lqa String Ascii ZArith Lia Sorted Permutation.
From stdpp Require Import base tactics option list.

Declare Scope py_scope.
Delimit Scope py_scope with py.
#[global] Open Scope py_scope.

Create HintDb tt discriminated.
Create Rewrite HintDb py_rw.

(** ** Exceptions as values *)

Inductive exn : Set :=
| IndexError
| KeyError
| ValueError
| AttributeError
| TypeError
| ZeroDivisionError
| RequestException
| JSONDecodeError
| TimeoutExpired
| OSError.

#[global] Instance exn_eq_dec : EqDecision exn.
Proof. solve_decision. Defined.

Inductive result (A : Type) : Type :=
| Ok (a : A)
| Raise (e : exn).
Arguments Ok {A} a.
Arguments Raise {A} e.

#[global] Instance result_eq_dec {A} `{EqDecision A} : EqDecision (result A).
Proof. solve_decision. Defined.

Definition is_ok {A} (r : result A) : bool :=
  match r with Ok _ => true | Raise _ => false end.

Definition result_bind {A B} (m : result A) (k : A -> result B) : result B :=
  match m with
  | Ok a => k a
  | Raise e => Raise e
  end.

(** [try: m  except Exception as e: h e] *)
Definition try_except {A} (m : result A) (h : exn -> result A) : result A :=
  match m with
  | Ok a => Ok a
  | Raise e => h e
  end.

(** [o] when it is there, else the exception [e]: [l[i]], [d[k]]. *)
Definition from_option {A} (e : exn) (o : option A) : result A :=
  match o with
  | Some a => Ok a
  | None => Raise e
  end.

Notation "x <- m ;; k" := (result_bind m (fun x => k))
  (at level 20, m at level 99, k at level 200) : py_scope.

(** ** The effect monad: state passing with exceptions

    The state survives an exception, as the side effects of a Python
    [try] body do. *)

Definition io (S A : Type) : Type := S -> result A * S.

Definition io_ret {S A} (a : A) : io S A := fun s => (Ok a, s).

Definition io_raise {S A} (e : exn) : io S A := fun s => (Raise e, s).

Definition io_bind {S A B} (m : io S A) (k : A -> io S B) : io S B :=
  fun s =>
    match m s with
    | (Ok a, s') => k a s'
    | (Raise e, s') => (Raise e, s')
    end.

Definition io_try {S A} (m : io S A) (h : exn -> io S A) : io S A :=
  fun s =>
    match m s with
    | (Ok a, s') => (Ok a, s')
    | (Raise e, s') => h e s'
    end.

Definition io_lift {S A} (r : result A) : io S A := fun s => (r, s).

Notation "x <~ m ;; k" := (io_bind m (fun x => k))
  (at level 20, m at level 99, k at level 200) : py_scope.
Notation "m ;;; k" := (io_bind m (fun _ => k))
  (at level 100, k at level 200, right associativity) : py_scope.

(** [for x in l: body x], the body run for its effects. *)
Fixpoint io_for {S A} (l : list A) (body : A -> io S unit) : io S unit :=
  match l with
  | [] => io_ret tt
  | x :: l' => body x ;;; io_for l' body
  end.

(** [for x in l: st = body x st], the loop state threaded through. *)
Fixpoint io_foldl {S A T} (body : A -> T -> io S T) (l : list A) (st : T)
  : io S T :=
  match l with
  | [] => io_ret st
  | x :: l' => st' <~ body x st ;; io_foldl body l' st'
  end.

(** [[f(x) for x in l]] for an [f] that may raise: the first element that
    raises decides. *)
Definition result_map {A B} (f : A -> result B) (l : list A) : result (list B) :=
  foldr (fun x acc => y <- f x ;; ys <- acc ;; Ok (y :: ys)) (Ok []) l.

(** ** Lists as Python uses them *)

(** [for i, x in enumerate(l): ...] from index [i] on; the body updates the
    loop state or raises, which ends the loop. *)
Fixpoint for_enumerate {A T} (body : nat -> A -> T -> result T)
    (i : nat) (l : list A) (st : T) : result T :=
  match l with
  | [] => Ok st
  | x :: l' => st' <- body i x st ;; for_enumerate body (S i) l' st'
  end.

(** [l[i]] for a natural index. *)
Definition py_index {A} (l : list A) (i : nat) : result A :=
  from_option IndexError (l !! i).

(** [l[::k]]: every [k]-th element, the first included. *)
Fixpoint every_nth_from {A} (k skip : nat) (l : list A) : list A :=
  match l with
  | [] => []
  | x :: l' =>
      match skip with
      | O => x :: every_nth_from k (pred k) l'
      | S n => every_nth_from k n l'
      end
  end.

Definition every_nth {A} (k : nat) (l : list A) : list A :=
  every_nth_from k 0 l.

(** The distinct elements, each at its first occurrence: [Series.unique()],
    and the key order of a dict built by successive assignments. *)
Fixpoint unique {A} `{EqDecision A} (l : list A) : list A :=
  match l with
  | [] => []
  | x :: l' => x :: List.filter (fun y => bool_decide (y <> x)) (unique l')
  end.

(** ** Dictionaries: insertion-ordered, one binding per key

    A [dict] is the list of its items in insertion order.  Assigning to a
    key that is present replaces the value where the key stands, which is
    what a literal with a repeated key and a comprehension do. *)

Section Dict.
Context {K V : Type} `{EqDecision K}.

Fixpoint dict_set (k : K) (v : V) (d : list (K * V)) : list (K * V) :=
  match d with
  | [] => [(k, v)]
  | (k', v') :: d' =>
      if decide (k' = k) then (k', v) :: d' else (k', v') :: dict_set k v d'
  end.

(** [{k1: v1, k2: v2, ...}] and [{k: v for ...}] *)
Definition dict_of (items : list (K * V)) : list (K * V) :=
  foldl (fun d kv => dict_set kv.1 kv.2 d) [] items.

(** [d.get(k)] *)
Fixpoint dict_get (k : K) (d : list (K * V)) : option V :=
  match d with
  | [] => None
  | (k', v) :: d' => if decide (k' = k) then Some v else dict_get k d'
  end.

Lemma dict_get_set k v d : dict_get k (dict_set k v d) = Some v.
Proof.
  induction d as [|[k' v'] d IH]; simpl; repeat case_decide; simpl;
    repeat case_decide; done.
Qed.

Lemma dict_get_set_ne k k' v d :
  k <> k' -> dict_get k' (dict_set k v d) = dict_get k' d.
Proof.
  intros Hne. induction d as [|[k0 v0] d IH]; simpl;
    repeat (case_decide; simpl); congruence.
Qed.

Lemma dict_set_keys k v d :
  k ∈ d.*1 -> (dict_set k v d).*1 = d.*1.
Proof.
  induction d as [|[k0 v0] d IH]; csimpl; [by intros ?%elem_of_nil|].
  intros [->|Hin]%elem_of_cons; case_decide; csimpl; try done.
  by rewrite IH.
Qed.

Lemma dict_set_keys_fresh k v d :
  k ∉ d.*1 -> (dict_set k v d).*1 = d.*1 ++ [k].
Proof.
  induction d as [|[k0 v0] d IH]; csimpl; [done|].
  intros Hnin. apply not_elem_of_cons in Hnin as [Hne Hnin].
  case_decide; [congruence|]. csimpl. by rewrite IH.
Qed.

Lemma dict_set_nodup k v d : NoDup d.*1 -> NoDup (dict_set k v d).*1.
Proof.
  intros Hd. destruct (decide (k ∈ d.*1)) as [Hin|Hnin].
  - by rewrite dict_set_keys.
  - rewrite dict_set_keys_fresh by done.
    apply NoDup_app. split_and!; [done| |apply NoDup_singleton].
    intros x Hx ->%list_elem_of_singleton. done.
Qed.

Lemma dict_fold_nodup items d :
  NoDup d.*1 -> NoDup (foldl (fun d kv => dict_set kv.1 kv.2 d) d items).*1.
Proof.
  revert d. induction items as [|[k v] items IH]; intros d Hd; simpl; [done|].
  apply IH. by apply dict_set_nodup.
Qed.

Lemma dict_of_nodup items : NoDup (dict_of items).*1.
Proof. apply dict_fold_nodup. constructor. Qed.

Lemma dict_fold_keys items d k :
  k ∈ (foldl (fun d kv => dict_set kv.1 kv.2 d) d items).*1 ->
  k ∈ d.*1 \/ k ∈ items.*1.
Proof.
  revert d. induction items as [|[k0 v0] items IH]; intros d Hk; csimpl in *.
  - by left.
  - destruct (IH _ Hk) as [H|H]; [|right; by right].
    destruct (decide (k0 ∈ d.*1)).
    + rewrite dict_set_keys in H by done. by left.
    + rewrite dict_set_keys_fresh in H by done.
      apply elem_of_app in H as [H|H%list_elem_of_singleton]; [by left|].
      subst. right. by left.
Qed.

Lemma dict_of_keys items k : k ∈ (dict_of items).*1 -> k ∈ items.*1.
Proof.
  intros [H|H]%dict_fold_keys; [by apply elem_of_nil in H|done].
Qed.

(** A literal whose keys are distinct is the list of its items. *)
Lemma dict_of_distinct_from items d :
  NoDup (d.*1 ++ items.*1) ->
  foldl (fun d kv => dict_set kv.1 kv.2 d) d items = d ++ items.
Proof.
  revert d. induction items as [|[k v] items IH]; intros d Hd; simpl.
  - by rewrite app_nil_r.
  - assert (Hk : k ∉ d.*1).
    { apply NoDup_app in Hd as (_ & Hd & _). intros Hin.
      apply (Hd k Hin). by left. }
    assert (Hset : dict_set k v d = d ++ [(k, v)]).
    { clear -Hk. induction d as [|[k0 v0] d IH]; csimpl; [done|].
      csimpl in Hk. apply not_elem_of_cons in Hk as [Hne Hk].
      case_decide; [congruence|]. by rewrite IH. }
    rewrite Hset, IH; [by rewrite <- app_assoc|].
    by rewrite fmap_app, <- app_assoc.
Qed.

Lemma dict_of_distinct items : NoDup items.*1 -> dict_of items = items.
Proof. intros H. by apply (dict_of_distinct_from items []). Qed.

Lemma dict_get_Some k v d : dict_get k d = Some v -> (k, v) ∈ d.
Proof.
  induction d as [|[k0 v0] d IH]; simpl; [done|].
  case_decide; [intros [= ->]; subst; by left|]. right. auto.
Qed.

Lemma dict_get_elem k v d : NoDup d.*1 -> (k, v) ∈ d -> dict_get k d = Some v.
Proof.
  induction d as [|[k0 v0] d IH]; csimpl; [by intros _ ?%elem_of_nil|].
  intros [Hk Hd]%NoDup_cons [[= -> ->]|Hin]%elem_of_cons.
  - by case_decide.
  - case_decide as E; [|by apply IH]. subst. destruct Hk.
    apply list_elem_of_fmap. by exists (k, v).
Qed.

End Dict.

(** ** Stable descending sort: [list.sort(key=key, reverse=True)]

    Python's sort is stable, also with [reverse=True]: elements with equal
    keys keep their order.  [insert_desc] puts [x], which stood before
    every element of [l], in front of the first element whose key is not
    greater. *)

Section Sort.
Context {A K : Type} (key : A -> K) (leb : K -> K -> bool).

Fixpoint insert_desc (x : A) (l : list A) : list A :=
  match l with
  | [] => [x]
  | y :: l' =>
      if leb (key y) (key x) then x :: y :: l' else y :: insert_desc x l'
  end.

Definition sort_desc (l : list A) : list A := foldr insert_desc [] l.

(** [desc a b]: [a] may stand before [b] in a descending list. *)
Definition desc (a b : A) : Prop := leb (key b) (key a) = true.

Lemma insert_desc_perm x l : Permutation (insert_desc x l) (x :: l).
Proof.
  induction l as [|y l IH]; simpl; [done|].
  destruct (leb (key y) (key x)); [done|].
  rewrite IH. apply perm_swap.
Qed.

Lemma sort_desc_perm l : Permutation (sort_desc l) l.
Proof.
  induction l as [|x l IH]; simpl; [done|].
  rewrite insert_desc_perm. by constructor.
Qed.

Lemma sort_desc_length l : length (sort_desc l) = length l.
Proof. apply Permutation_length, sort_desc_perm. Qed.

Lemma sort_desc_elem x l : x ∈ sort_desc l <-> x ∈ l.
Proof. by rewrite (sort_desc_perm l). Qed.

Hypothesis leb_total : forall a b, leb a b = true \/ leb b a = true.

Lemma insert_desc_hdrel a x l :
  desc a x -> HdRel desc a l -> HdRel desc a (insert_desc x l).
Proof.
  intros Hax Hal. destruct l as [|y l]; simpl; [by constructor|].
  destruct (leb (key y) (key x)); constructor; [done|].
  by inversion Hal.
Qed.

Lemma insert_desc_sorted x l :
  Sorted desc l -> Sorted desc (insert_desc x l).
Proof.
  induction 1 as [|y l Hl IH Hy]; simpl; [by repeat constructor|].
  destruct (leb (key y) (key x)) eqn:E.
  - constructor; [by constructor|]. by constructor.
  - constructor; [done|]. apply insert_desc_hdrel; [|done].
    unfold desc. destruct (leb_total (key x) (key y)); congruence.
Qed.

Lemma sort_desc_sorted l : Sorted desc (sort_desc l).
Proof.
  induction l as [|x l IH]; simpl; [constructor|].
  by apply insert_desc_sorted.
Qed.

Hypothesis leb_trans :
  forall a b c, leb a b = true -> leb b c = true -> leb a c = true.

Lemma sort_desc_strongly_sorted l : StronglySorted desc (sort_desc l).
Proof.
  apply Sorted_StronglySorted; [|apply sort_desc_sorted].
  intros a b c Hab Hbc. unfold desc in *. eauto.
Qed.

(** Stability: among the elements that satisfy [P], a predicate that only
    looks at the key class a sort cannot split, the order is the input's.
    [P] is any predicate compatible with key equivalence. *)
Lemma insert_desc_filter (P : A -> bool) x l :
  (forall y, y ∈ l -> P y = true -> P x = true ->
     leb (key y) (key x) = true) ->
  List.filter P (insert_desc x l) = List.filter P (x :: l).
Proof.
  induction l as [|y l IH]; intros HP; simpl; [done|].
  destruct (leb (key y) (key x)) eqn:E; simpl; [done|].
  rewrite IH by (intros z Hz; apply HP; by right). simpl.
  destruct (P y) eqn:Py, (P x) eqn:Px; try done.
  rewrite HP in E; [done| by left |done|done].
Qed.

End Sort.

(** ** Sums of rationals *)

Definition Qsum (l : list Q) : Q := foldr Qplus 0%Q l.

Lemma Qsum_app l1 l2 : (Qsum (l1 ++ l2) == Qsum l1 + Qsum l2)%Q.
Proof.
  induction l1 as [|x l1 IH]; simpl; [lra|]. rewrite IH. lra.
Qed.

Lemma Qsum_nonneg l : Forall (fun x => (0 <= x)%Q) l -> (0 <= Qsum l)%Q.
Proof. induction 1; simpl; lra. Qed.

Lemma Qsum_perm l1 l2 : Permutation l1 l2 -> (Qsum l1 == Qsum l2)%Q.
Proof. induction 1; simpl; lra. Qed.

(** ** Monad laws used by the components *)

Lemma result_bind_ok {A B} (m : result A) (k : A -> result B) b :
  result_bind m k = Ok b <-> exists a, m = Ok a /\ k a = Ok b.
Proof.
  destruct m as [a|e]; simpl; split.
  - intros H. by exists a.
  - by intros (a' & [= <-] & H).
  - done.
  - by intros (a' & [=] & _).
Qed.

Lemma try_except_ok {A} (m : result A) h :
  (forall e, is_ok (h e) = true) -> is_ok (try_except m h) = true.
Proof. destruct m; simpl; auto. Qed.

Lemma io_for_app {S A} (l1 l2 : list A) (body : A -> io S unit) s :
  io_for (l1 ++ l2) body s =
  (io_for l1 body ;;; io_for l2 body) s.
Proof.
  revert s. induction l1 as [|x l1 IH]; intros s; simpl; [done|].
  unfold io_bind in *. destruct (body x s) as [[[]|e] s']; [|done].
  by rewrite IH.
Qed.

Lemma omap_sublist {A B} (f g : A -> option B) l :
  (forall x y, f x = Some y -> g x = Some y) -> omap f l `sublist_of` omap g l.
Proof.
  intros H. induction l as [|x l IH]; simpl; [done|].
  destruct (f x) as [y|] eqn:E.
  - rewrite (H x y E). by constructor.
  - destruct (g x); [by constructor|done].
Qed.

(** A loop whose body only appends to the state appends the bodies'
    contributions in order, and does not raise. *)
Lemma io_for_appends {A B} (f : A -> list B) (body : A -> io (list B) unit) l st :
  (forall x st, body x st = (Ok tt, st ++ f x)) ->
  io_for l body st = (Ok tt, st ++ flat_map f l).
Proof.
  intros Hb. revert st. induction l as [|x l IH]; intros st; simpl.
  - by rewrite app_nil_r.
  - unfold io_bind. by rewrite Hb, IH, app_assoc.
Qed.

#[export] Hint Resolve sort_desc_perm sort_desc_length : tt.
#[export] Hint Rewrite @sort_desc_length @dict_get_set : py_rw.

Lemma py_index_ok {A} (l : list A) i x : py_index l i = Ok x <-> l !! i = Some x.
Proof. unfold py_index. destruct (l !! i); simpl; split; congruence. Qed.

Lemma py_index_raise {A} (l : list A) i e :
  py_index l i = Raise e <-> (length l <= i)%nat /\ e = IndexError.
Proof.
  unfold py_index. destruct (l !! i) eqn:E; simpl.
  - apply lookup_lt_Some in E. split; [done|]. intros [? _]. lia.
  - apply lookup_ge_None in E. split; [by intros [= <-]|by intros [_ ->]].
Qed.

(** ** Loop rules *)

Section ForEnumerate.
Context {A T : Type} (body : nat -> A -> T -> result T).

(** The invariant rule. *)
Lemma for_enumerate_inv (P : T -> Prop) i l st st' :
  (forall i x s s', P s -> body i x s = Ok s' -> P s') ->
  P st -> for_enumerate body i l st = Ok st' -> P st'.
Proof.
  intros Hstep. revert i st. induction l as [|x l IH]; intros i st Hst; simpl.
  - by intros [= <-].
  - destruct (body i x st) as [s1|] eqn:E; simpl; [|done]. eauto.
Qed.

(** The loop raises only what its body raises. *)
Lemma for_enumerate_raises (E : exn -> Prop) i l st e :
  (forall i x s e, body i x s = Raise e -> E e) ->
  for_enumerate body i l st = Raise e -> E e.
Proof.
  intros Hstep. revert i st. induction l as [|x l IH]; intros i st; simpl.
  - done.
  - destruct (body i x st) as [s1|e1] eqn:E1; simpl; [eauto|].
    intros [= <-]. eauto.
Qed.

Lemma for_enumerate_app i l1 l2 st :
  for_enumerate body i (l1 ++ l2) st =
  (st' <- for_enumerate body i l1 st ;;
   for_enumerate body (i + length l1) l2 st').
Proof.
  revert i st. induction l1 as [|x l1 IH]; intros i st; simpl.
  - by rewrite Nat.add_0_r.
  - destruct (body i x st); simpl; [|done].
    rewrite IH. by replace (S i + length l1)%nat with (i + S (length l1))%nat by lia.
Qed.

End ForEnumerate.

(** ** Postconditions of effectful code

    [returns m Q]: whenever [m] returns a value, the value satisfies [Q].
    [total m]: [m] returns from every state (it never raises). *)

Section Returns.
Context {S : Type}.

Definition returns {A} (m : io S A) (Q : A -> Prop) : Prop :=
  forall s a s', m s = (Ok a, s') -> Q a.

Definition total {A} (m : io S A) : Prop :=
  forall s, is_ok (m s).1 = true.

Lemma returns_top {A} (m : io S A) : returns m (fun _ => True).
Proof. by intros s a s' _. Qed.

(** A step whose value does not matter for the postcondition. *)
Lemma returns_bind_any {A B} (m : io S A) (k : A -> io S B) Q :
  (forall a, returns (k a) Q) -> returns (io_bind m k) Q.
Proof.
  intros Hk s b s'. unfold io_bind.
  destruct (m s) as [[a|e] s1]; [apply Hk|done].
Qed.

Lemma returns_ret {A} (a : A) (Q : A -> Prop) : Q a -> returns (io_ret a) Q.
Proof. intros Ha s a' s' [= <- _]. done. Qed.

Lemma returns_lift {A} (r : result A) (Q : A -> Prop) :
  (forall a, r = Ok a -> Q a) -> returns (io_lift r) Q.
Proof. intros Hr s a s' [= -> _]. auto. Qed.

Lemma returns_bind {A B} (m : io S A) (k : A -> io S B) P Q :
  returns m P -> (forall a, P a -> returns (k a) Q) -> returns (io_bind m k) Q.
Proof.
  intros Hm Hk s b s'. unfold io_bind.
  destruct (m s) as [[a|e] s1] eqn:E; [|done]. intros Hb.
  eapply Hk; [|exact Hb]. eapply Hm, E.
Qed.

Lemma returns_try {A} (m : io S A) (h : exn -> io S A) Q :
  returns m Q -> (forall e, returns (h e) Q) -> returns (io_try m h) Q.
Proof.
  intros Hm Hh s a s'. unfold io_try.
  destruct (m s) as [[a'|e] s1] eqn:E.
  - intros [= <- <-]. eapply Hm, E.
  - apply Hh.
Qed.

Lemma returns_foldl {A T} (body : A -> T -> io S T) (I : T -> Prop) l st :
  (forall x st, I st -> returns (body x st) I) ->
  I st -> returns (io_foldl body l st) I.
Proof.
  intros Hb. revert st. induction l as [|x l IH]; intros st Hst; simpl.
  - by apply returns_ret.
  - eapply returns_bind; [by apply Hb|]. auto.
Qed.

Lemma returns_weaken {A} (m : io S A) (P Q : A -> Prop) :
  returns m P -> (forall a, P a -> Q a) -> returns m Q.
Proof. intros Hm HPQ s a s' E. eapply HPQ, Hm, E. Qed.

Lemma total_try {A} (m : io S A) (h : exn -> io S A) :
  (forall e, total (h e)) -> total (io_try m h).
Proof.
  intros Hh s. unfold io_try. destruct (m s) as [[a|e] s1]; [done|apply Hh].
Qed.

Lemma total_ret {A} (a : A) : total (io_ret (S:=S) a).
Proof. done. Qed.

Lemma total_bind {A B} (m : io S A) (k : A -> io S B) :
  total m -> (forall a, total (k a)) -> total (io_bind m k).
Proof.
  intros Hm Hk s. unfold io_bind. specialize (Hm s).
  destruct (m s) as [[a|e] s1]; [apply Hk|done].
Qed.

(** What a total computation with a postcondition gives. *)
Lemma total_returns {A} (m : io S A) Q s :
  total m -> returns m Q -> exists a, (m s).1 = Ok a /\ Q a.
Proof.
  intros Ht Hr. specialize (Ht s). destruct (m s) as [[a|e] s'] eqn:E; [|done].
  exists a. split; [done|]. eapply Hr, E.
Qed.

End Returns.

(** [inv_bind]: in a hypothesis that a monadic computation returned, name
    the result of every step (the failing branches are discharged). *)
Ltac inv_bind :=
  repeat match goal with
  | H : result_bind ?m _ = Ok _ |- _ =>
      let E := fresh "E" in destruct m eqn:E; simpl in H; [|discriminate H]
  | H : (if ?b then _ else _) = Ok _ |- _ =>
      let E := fresh "E" in destruct b eqn:E
  | H : Ok _ = Ok _ |- _ => injection H as H
  | H : Raise _ = Ok _ |- _ => discriminate H
  | H : py_index _ _ = Ok _ |- _ => apply py_index_ok in H
  end.

(** [py_cases]: split on the outcome of every monadic step in the goal. *)
Ltac py_cases :=
  repeat match goal with
  | |- context [match ?m with Ok _ => _ | Raise _ => _ end] =>
      destruct m eqn:?; simpl
  | |- context [match ?m with Some _ => _ | None => _ end] =>
      destruct m eqn:?; simpl
  | |- context [if ?b then _ else _] => destruct b eqn:?; simpl
  end.

(** ** More on sums, loops and sorted lists *)

Lemma Qsum_take_le k l :
  Forall (fun x => (0 <= x)%Q) l -> (Qsum (take k l) <= Qsum l)%Q.
Proof.
  intros Hl. rewrite <- (take_drop k l) at 2. rewrite Qsum_app.
  assert (0 <= Qsum (drop k l))%Q by (apply Qsum_nonneg; by apply Forall_drop).
  lra.
Qed.

Lemma Qle_bool_total a b : Qle_bool a b = true \/ Qle_bool b a = true.
Proof. rewrite !Qle_bool_iff. destruct (Qlt_le_dec a b); [left|right]; lra. Qed.

Lemma result_map_Ok {A B} (f : A -> result B) l ys :
  result_map f l = Ok ys -> Forall2 (fun x y => f x = Ok y) l ys.
Proof.
  revert ys. induction l as [|x l IH]; simpl; intros ys.
  - intros [= <-]. constructor.
  - intros H. inv_bind. subst. constructor; auto.
Qed.

Lemma unique_elem {A} `{EqDecision A} (x : A) l : x ∈ unique l <-> x ∈ l.
Proof.
  induction l as [|y l IH]; simpl; [done|].
  rewrite !elem_of_cons, list_elem_of_In, filter_In, <- list_elem_of_In, IH.
  rewrite bool_decide_eq_true. destruct (decide (x = y)); tauto.
Qed.

Lemma unique_nodup {A} `{EqDecision A} (l : list A) : NoDup (unique l).
Proof.
  induction l as [|y l IH]; simpl; constructor.
  - rewrite list_elem_of_In, filter_In, bool_decide_eq_true. by intros [_ ?].
  - apply NoDup_ListNoDup, List.NoDup_filter, NoDup_ListNoDup, IH.
Qed.

Lemma sort_desc_nodup {A K} (key : A -> K) leb (l : list A) :
  NoDup l -> NoDup (sort_desc key leb l).
Proof. intros H. by rewrite (sort_desc_perm key leb l). Qed.

Lemma strongly_sorted_omap {A B} (R : A -> A -> Prop) (R' : B -> B -> Prop)
    (f : A -> option B) l :
  (forall x y x' y', f x = Some x' -> f y = Some y' -> R x y -> R' x' y') ->
  StronglySorted R l -> StronglySorted R' (omap f l).
Proof.
  intros Hf. induction 1 as [|x l Hl IH Hx]; simpl; [constructor|].
  destruct (f x) as [x'|] eqn:Ex; [|done]. constructor; [done|].
  apply Forall_forall. intros y' (y & Hy & Ey)%list_elem_of_omap.
  rewrite Forall_forall in Hx. eauto.
Qed.

Lemma strongly_sorted_strict (l : list Z) :
  NoDup l -> StronglySorted (desc id Z.leb) l ->
  StronglySorted (fun a b => (b < a)%Z) l.
Proof.
  induction 2 as [|x l Hl IH Hx]; [constructor|].
  apply NoDup_cons in H as [Hx' Hn]. constructor; [auto|].
  rewrite Forall_forall in *. intros y Hy. specialize (Hx y Hy).
  apply Z.leb_le in Hx. unfold id in Hx. assert (x <> y) by congruence. lia.
Qed.

Lemma total_foldl {S A T} (body : A -> T -> io S T) l st :
  (forall x st, total (body x st)) -> total (io_foldl body l st).
Proof.
  intros Hb. revert st. induction l as [|x l IH]; intros st; simpl.
  - apply total_ret.
  - apply total_bind; auto.
Qed.

Lemma returns_foldl_elem {S A T} (body : A -> T -> io S T) (I : T -> Prop) l st :
  (forall x st, x ∈ l -> I st -> returns (body x st) I) ->
  I st -> returns (io_foldl body l st) I.
Proof.
  revert st. induction l as [|x l IH]; intros st Hb Hst; simpl.
  - by apply returns_ret.
  - eapply returns_bind; [apply Hb; [left|done]|].
    intros st' Hst'. apply IH; [|done]. intros y s Hy. apply Hb. by right.
Qed.

Lemma every_nth_from_elem {A} k skip (l : list A) x :
  x ∈ every_nth_from k skip l -> x ∈ l.
Proof.
  revert skip. induction l as [|y l IH]; intros skip; simpl; [done|].
  destruct skip; [intros [->|?]%elem_of_cons; [left|right; eauto]|].
  intros ?. right. eauto.
Qed.

Lemma take_elem {A} n (l : list A) x : x ∈ take n l -> x ∈ l.
Proof. intros H. rewrite <- (take_drop n l). apply elem_of_app. by left. Qed.

(** ** Counting the rows of a frame by key *)

Section Partition.
Context {A K : Type} `{EqDecision K} (key : A -> K).

Definition rows_with (k : K) (l : list A) : list A := filter (fun x => key x = k) l.

Lemma rows_with_cons k x l :
  length (rows_with k (x :: l)) =
  ((if decide (key x = k) then 1 else 0) + length (rows_with k l))%nat.
Proof. unfold rows_with. rewrite filter_cons. by destruct (decide (key x = k)). Qed.

Lemma indicator_sum (k0 : K) ks :
  NoDup ks -> k0 ∈ ks ->
  sum_list ((fun k => if decide (k0 = k) then 1 else 0)%nat <$> ks) = 1%nat.
Proof.
  induction 1 as [|k ks Hk Hn IH]; [by intros ?%not_elem_of_nil|].
  csimpl. intros [->|Hin]%elem_of_cons.
  - rewrite decide_True by done. f_equal.
    clear IH Hn. induction ks as [|k' ks IH]; [done|]. csimpl.
    apply not_elem_of_cons in Hk as [Hne Hk]. rewrite decide_False by done. auto.
  - rewrite decide_False by (intros ->; done). by apply IH.
Qed.

(** The rows of a frame split by key: every row is counted under one key. *)
Lemma partition_length ks l :
  NoDup ks -> (forall x, x ∈ l -> key x ∈ ks) ->
  sum_list ((fun k => length (rows_with k l)) <$> ks) = length l.
Proof.
  intros Hn. induction l as [|x l IH]; intros Hin.
  - clear. induction ks as [|k ks IHk]; [done|]. csimpl. simpl in IHk. by rewrite IHk.
  - replace (length (x :: l)) with (1 + length l)%nat by done.
    rewrite <- IH by (intros; apply Hin; by right).
    rewrite <- (indicator_sum (key x) ks Hn) by (apply Hin; left).
    clear. induction ks as [|k ks IHk]; [done|]. csimpl.
    rewrite rows_with_cons, IHk. lia.
Qed.

End Partition.

Lemma unique_length {A} `{EqDecision A} (l : list A) : (length (unique l) <= length l)%nat.
Proof.
  induction l as [|x l IH]; simpl; [done|].
  pose proof (List.filter_length_le (fun y => bool_decide (y <> x)) (unique l)). lia.
Qed.

Lemma returns_foldl_prefix {S A T} (body : A -> T -> io S T)
    (I : list A -> T -> Prop) l : forall pre st,
  (forall pre x st, I pre st -> returns (body x st) (I (pre ++ [x]))) ->
  I pre st -> returns (io_foldl body l st) (I (pre ++ l)).
Proof.
  induction l as [|x l IH]; intros pre st Hb Hst; simpl.
  - rewrite app_nil_r. by apply returns_ret.
  - eapply returns_bind; [by apply Hb|]. intros st' Hst'.
    replace (pre ++ x :: l) with ((pre ++ [x]) ++ l) by (by rewrite <- app_assoc).
    by apply IH.
Qed.

(** [inv_steps H]: name the result of every step of the computation that
    [H] says returned, without splitting the conditionals inside. *)
Ltac inv_steps H :=
  repeat match type of H with
  | result_bind ?m _ = Ok _ =>
      let E := fresh "E" in destruct m eqn:E; simpl in H; [|discriminate H]
  end;
  try (injection H as H).

(** ** Steps that keep a relation between the states

    [keeps R m]: whatever [m] returns or raises, the state it leaves is
    related by [R] to the state it started in.  For a preorder [R] the
    property is closed under sequencing, handlers and loops. *)

Section Keeps.
Context {S : Type} (R : relation S) `{!PreOrder R}.

Definition keeps {A} (m : io S A) : Prop := forall s, R s (m s).2.

Lemma keeps_ret {A} (a : A) : keeps (io_ret a).
Proof. by intros s. Qed.

Lemma keeps_raise {A} e : keeps (io_raise (A:=A) e).
Proof. by intros s. Qed.

Lemma keeps_lift {A} (r : result A) : keeps (io_lift r).
Proof. by intros s. Qed.

Lemma keeps_bind {A B} (m : io S A) (k : A -> io S B) :
  keeps m -> (forall a, keeps (k a)) -> keeps (io_bind m k).
Proof.
  intros Hm Hk s. unfold io_bind. specialize (Hm s).
  destruct (m s) as [[a|e] s1]; [|done]. by etrans; [|apply Hk].
Qed.

Lemma keeps_try {A} (m : io S A) (h : exn -> io S A) :
  keeps m -> (forall e, keeps (h e)) -> keeps (io_try m h).
Proof.
  intros Hm Hh s. unfold io_try. specialize (Hm s).
  destruct (m s) as [[a|e] s1]; [done|]. by etrans; [|apply Hh].
Qed.

Lemma keeps_foldl {A T} (body : A -> T -> io S T) l st :
  (forall x st, keeps (body x st)) -> keeps (io_foldl body l st).
Proof.
  intros Hb. revert st. induction l as [|x l IH]; intros st; simpl.
  - apply keeps_ret.
  - apply keeps_bind; auto.
Qed.

Lemma keeps_for {A} (body : A -> io S unit) l :
  (forall x, keeps (body x)) -> keeps (io_for l body).
Proof.
  intros Hb. induction l as [|x l IH]; simpl.
  - apply keeps_ret.
  - apply keeps_bind; auto.
Qed.

End Keeps.

Lemma total_for {S A} (body : A -> io S unit) l :
  (forall x, total (body x)) -> total (io_for l body).
Proof.
  intros Hb. induction l as [|x l IH]; simpl.
  - apply total_ret.
  - apply total_bind; auto.
Qed.

(** [keeps_go] takes a goal [keeps R m] apart along the structure of [m];
    what is left are the primitive steps. *)
Ltac keeps_go :=
  repeat lazymatch goal with
  | |- keeps _ (io_ret _) => apply keeps_ret; [tc_solve]
  | |- keeps _ (io_raise _) => apply keeps_raise; [tc_solve]
  | |- keeps _ (io_lift _) => apply keeps_lift; [tc_solve]
  | |- keeps _ (io_bind _ _) => apply keeps_bind; [tc_solve | | intros ?]
  | |- keeps _ (io_try _ _) => apply keeps_try; [tc_solve | | intros ?]
  | |- keeps _ (io_foldl _ _ _) => apply keeps_foldl; [tc_solve | intros ? ?]
  | |- keeps _ (io_for _ _) => apply keeps_for; [tc_solve | intros ?]
  | |- keeps _ (match ?x with _ => _ end) => destruct x
  end.

(** A step that never raises hands its value and its state to what
    follows. *)
Lemma total_bind_run {S A B} (m : io S A) (k : A -> io S B) s :
  total m -> exists a s', m s = (Ok a, s') /\ io_bind m k s = k a s'.
Proof.
  intros Hm. specialize (Hm s). unfold io_bind.
  destruct (m s) as [[a|e] s']; [|done]. by exists a, s'.
Qed.

(** [run_total a tac] runs the first step of the sequence in the goal,
    whose totality [tac] proves, and names its value [a]. *)
Ltac run_total a tac :=
  lazymatch goal with
  | |- context [io_bind ?m ?k ?s] =>
      let H := fresh in
      assert (H : total m) by tac;
      destruct (total_bind_run m k s H) as (a & ? & _ & ->); clear H
  end.

Lemma total_unit {S} (m : io S unit) s : total m -> (m s).1 = Ok tt.
Proof. intros Hm. specialize (Hm s). by destruct (m s) as [[[]|e] s']. Qed.

Lemma strongly_sorted_filter {A} (R : A -> A -> Prop) (P : A -> Prop)
    `{forall x, Decision (P x)} l :
  StronglySorted R l -> StronglySorted R (filter P l).
Proof.
  induction 1 as [|x l Hl IH Hx]; [constructor|].
  rewrite filter_cons. case_decide; [|done]. constructor; [done|].
  rewrite Forall_forall in *. intros y [_ Hy]%list_elem_of_filter. auto.
Qed.

(** An element of a strongly sorted list is related to every element after
    it. *)
Lemma strongly_sorted_later {A} (R : A -> A -> Prop) l1 x l2 y :
  StronglySorted R (l1 ++ x :: l2) -> y ∈ l2 -> R x y.
Proof.
  induction l1 as [|z l1 IH]; simpl; intros Hs Hy.
  - apply StronglySorted_inv in Hs as [_ Hx]. rewrite Forall_forall in Hx. auto.
  - apply StronglySorted_inv in Hs as [Hs _]. auto.
Qed.

Lemma strongly_sorted_impl {A} (R R' : A -> A -> Prop) l :
  (forall a b, R a b -> R' a b) -> StronglySorted R l -> StronglySorted R' l.
Proof.
  intros H. induction 1 as [|x l Hl IH Hx]; constructor; [done|].
  eapply Forall_impl; [exact Hx|]. auto.
Qed.

Lemma strongly_sorted_lookup {A} (R : A -> A -> Prop) l i j a b :
  StronglySorted R l -> l !! i = Some a -> l !! j = Some b -> (i < j)%nat -> R a b.
Proof.
  intros Hs. revert i j. induction Hs as [|x l Hl IH Hx]; intros i j Hi Hj Hij.
  { by rewrite lookup_nil in Hi. }
  destruct j as [|j]; [lia|]. destruct i as [|i]; simpl in *.
  - injection Hi as ->. rewrite Forall_forall in Hx. eapply Hx, list_elem_of_lookup_2, Hj.
  - eapply IH; [exact Hi|exact Hj|lia].
Qed.

(** [q > 0] *)
Definition Qpos (q : Q) : bool := negb (Qle_bool q 0).

Lemma Qpos_spec q : Qpos q = true <-> (0 < q)%Q.
Proof.
  unfold Qpos. rewrite negb_true_iff. split.
  - intros H. apply Qnot_le_lt. intros Hle%Qle_bool_iff. congruence.
  - intros H. destruct (Qle_bool q 0) eqn:E; [|done].
    apply Qle_bool_iff in E. lra.
Qed.

(** [qbool] turns the comparisons of rationals in the hypotheses into
    inequalities. *)
Ltac qbool :=
  repeat match goal with
  | H : Qle_bool _ _ = true |- _ => apply Qle_bool_iff in H
  | H : Qle_bool ?a ?b = false |- _ =>
      assert (b < a)%Q by (apply Qnot_le_lt; intros ?%Qle_bool_iff; congruence);
      clear H
  | H : Qeq_bool _ _ = true |- _ => apply Qeq_bool_iff in H
  | H : Qeq_bool ?a ?b = false |- _ =>
      assert (~ a == b)%Q by (intros ?%Qeq_bool_iff; congruence); clear H
  end.

(** ** Local variables that a loop body mutates

    A list that the body of a loop appends to is an object of its own:
    what was appended before an exception stays appended for the handler
    and for the next round.  Such locals are a second component of the
    state: [io_zoom] runs a step that knows nothing of them,
    [io_modify] changes them, and [io_locals] runs a block from their
    initial value and returns them with its result. *)

Definition io_zoom {S L A} (m : io S A) : io (S * L) A :=
  fun s => let '(r, s1) := m s.1 in (r, (s1, s.2)).

Definition io_modify {S L} (f : L -> L) : io (S * L) unit :=
  fun s => (Ok tt, (s.1, f s.2)).

Definition io_locals {S L A} (init : L) (m : io (S * L) A) : io S (A * L) :=
  fun s =>
    let '(r, s') := m (s, init) in
    (match r with Ok a => Ok (a, s'.2) | Raise e => Raise e end, s'.1).

(** A relation on the state, read on the first component. *)
Definition on_fst {S L} (R : relation S) : relation (S * L) :=
  fun a b => R a.1 b.1.

#[global] Instance on_fst_preorder {S L} (R : relation S) `{!PreOrder R} :
  PreOrder (on_fst (L:=L) R).
Proof.
  split; [by intros a; unfold on_fst|].
  intros a b c. unfold on_fst. by etrans.
Qed.

Lemma total_zoom {S L A} (m : io S A) : total m -> total (io_zoom (L:=L) m).
Proof. intros H s. unfold io_zoom. specialize (H s.1). by destruct (m s.1). Qed.

Lemma total_modify {S L} (f : L -> L) : total (io_modify (S:=S) f).
Proof. done. Qed.

Lemma total_locals {S L A} (init : L) (m : io (S * L) A) :
  total m -> total (io_locals init m).
Proof.
  intros H s. unfold io_locals. specialize (H (s, init)).
  by destruct (m (s, init)) as [[a|e] s'].
Qed.

Lemma keeps_zoom {S L A} (R : relation S) (m : io S A) :
  keeps R m -> keeps (on_fst (L:=L) R) (io_zoom m).
Proof.
  intros H s. unfold io_zoom, on_fst. specialize (H s.1). by destruct (m s.1).
Qed.

Lemma keeps_modify {S L} (R : relation S) `{!Reflexive R} (f : L -> L) :
  keeps (on_fst R) (io_modify f).
Proof. by intros s; unfold on_fst. Qed.

Lemma keeps_locals {S L A} (R : relation S) (init : L) (m : io (S * L) A) :
  keeps (on_fst R) m -> keeps R (io_locals init m).
Proof.
  intros H s. unfold io_locals. specialize (H (s, init)). unfold on_fst in H.
  by destruct (m (s, init)) as [r s'].
Qed.

(** A frame under a boolean mask, [df[mask]]. *)
Lemma elem_of_mask {A} (p : A -> bool) l x :
  x ∈ List.filter p l <-> x ∈ l /\ p x = true.
Proof. rewrite !list_elem_of_In. apply filter_In. Qed.

Lemma mask_sublist {A} (p : A -> bool) l : List.filter p l `sublist_of` l.
Proof.
  induction l as [|x l IH]; simpl; [done|].
  destruct (p x); by constructor.
Qed.

(** ** The exceptions that can leave a computation

    [raises_only E m]: an exception that leaves [m] satisfies [E]. *)

Section RaisesOnly.
Context {S : Type} (E : exn -> Prop).

Definition raises_only {A} (m : io S A) : Prop :=
  forall s e, (m s).1 = Raise e -> E e.

Lemma raises_only_total {A} (m : io S A) : total m -> raises_only m.
Proof. intros H s e He. specialize (H s). by rewrite He in H. Qed.

Lemma raises_only_ret {A} (a : A) : raises_only (io_ret a).
Proof. by intros s e. Qed.

Lemma raises_only_bind {A B} (m : io S A) (k : A -> io S B) :
  raises_only m -> (forall a, raises_only (k a)) -> raises_only (io_bind m k).
Proof.
  intros Hm Hk s e. unfold io_bind. specialize (Hm s).
  destruct (m s) as [[a|e'] s']; [apply Hk|]. simpl in *. intros [= <-]. auto.
Qed.

Lemma raises_only_try {A} (m : io S A) (h : exn -> io S A) :
  (forall e, raises_only (h e)) -> raises_only (io_try m h).
Proof.
  intros Hh s e. unfold io_try. destruct (m s) as [[a|e'] s']; [done|apply Hh].
Qed.

Lemma raises_only_for {A} (body : A -> io S unit) l :
  (forall x, raises_only (body x)) -> raises_only (io_for l body).
Proof.
  intros Hb. induction l as [|x l IH]; simpl.
  - apply raises_only_ret.
  - apply raises_only_bind; auto.
Qed.

Lemma raises_only_foldl {A T} (body : A -> T -> io S T) l st :
  (forall x st, raises_only (body x st)) -> raises_only (io_foldl body l st).
Proof.
  intros Hb. revert st. induction l as [|x l IH]; intros st; simpl.
  - apply raises_only_ret.
  - apply raises_only_bind; auto.
Qed.

End RaisesOnly.

Lemma raises_only_weaken {S A} (E E' : exn -> Prop) (m : io S A) :
  raises_only E m -> (forall e, E e -> E' e) -> raises_only E' m.
Proof. intros H HE s e He. eapply HE, H, He. Qed.

(** A block that returns nothing ends well or with an exception of [E]. *)
Lemma raises_only_unit {S} (E : exn -> Prop) (m : io S unit) s :
  raises_only E m -> (m s).1 = Ok tt \/ exists e, (m s).1 = Raise e /\ E e.
Proof.
  intros H. specialize (H s). destruct (m s) as [[[]|e] s']; [by left|].
  right. exists e. auto.
Qed.

(** [raises_go] takes a goal [raises_only E m] apart along the structure
    of [m]; a handler closes its [try]. *)
Ltac raises_go :=
  repeat lazymatch goal with
  | |- raises_only _ (io_ret _) => apply raises_only_ret
  | |- raises_only _ (io_bind _ _) => apply raises_only_bind; [|intros ?]
  | |- raises_only _ (io_try _ _) => apply raises_only_try; intros ?
  | |- raises_only _ (io_foldl _ _ _) => apply raises_only_foldl; intros ? ?
  | |- raises_only _ (io_for _ _) => apply raises_only_for; intros ?
  | |- raises_only _ (match ?x with _ => _ end) => destruct x
  end.

(** ** Loops by their rounds *)

Lemma io_bind_ok {S A B} (m : io S A) (k : A -> io S B) s b s' :
  io_bind m k s = (Ok b, s') -> exists a s1, m s = (Ok a, s1) /\ k a s1 = (Ok b, s').
Proof. unfold io_bind. destruct (m s) as [[a|e] s1]; [by exists a, s1|done]. Qed.

(** A property of the state that every round keeps is kept by the loop. *)
Lemma io_for_preserves {S A} (body : A -> io S unit) (Q : S -> Prop) l :
  (forall y, y ∈ l -> forall s, Q s -> Q (body y s).2) ->
  forall s, Q s -> Q (io_for l body s).2.
Proof.
  induction l as [|y l IH]; intros Hk s Hs; [done|]. cbn [io_for]. unfold io_bind.
  assert (Hy : Q (body y s).2) by (apply Hk; [by left|done]).
  destruct (body y s) as [[[]|e] s1]; [|done]. apply IH; [|done].
  intros z Hz. apply Hk. by right.
Qed.

(** A property that the round of [x] establishes when it returns, and
    that the other rounds keep, holds when the loop returns. *)
Lemma io_for_establishes {S A} `{EqDecision A} (body : A -> io S unit)
    (Q : S -> Prop) l x :
  x ∈ l ->
  (forall s s', body x s = (Ok tt, s') -> Q s') ->
  (forall y, y ∈ l -> y <> x -> forall s, Q s -> Q (body y s).2) ->
  forall s s', io_for l body s = (Ok tt, s') -> Q s'.
Proof.
  intros Hx Hest. induction l as [|y l IH]; intros Hkeep s s' H;
    [by apply elem_of_nil in Hx|].
  cbn [io_for] in H. apply io_bind_ok in H as ([] & s1 & Hy & Hl).
  destruct (decide (x ∈ l)) as [Hin|Hnin].
  - eapply IH; [done| |done]. intros z Hz. apply Hkeep. by right.
  - apply elem_of_cons in Hx as [->|]; [|done].
    replace s' with (io_for l body s1).2 by (by rewrite Hl).
    apply io_for_preserves; [|by eauto].
    intros z Hz. apply Hkeep; [by right|]. by intros ->.
Qed.

Lemma raises_only_for_in {S A} (E : exn -> Prop) (body : A -> io S unit) l :
  (forall x, x ∈ l -> raises_only E (body x)) -> raises_only E (io_for l body).
Proof.
  induction l as [|x l IH]; intros Hb; cbn [io_for]; [apply raises_only_ret|].
  apply raises_only_bind; [apply Hb; by left|]. intros _. apply IH.
  intros y Hy. apply Hb. by right.
Qed.

(** ** More on lists *)

Lemma last_default {A} (d : A) (l : list A) :
  l <> [] -> last l = Some (default d (last l)).
Proof. intros Hl. destruct (last l) eqn:E; [done|]. by apply last_None in E. Qed.

Lemma filter_disjoint_length {A} (P Q : A -> Prop)
    `{!forall x, Decision (P x)} `{!forall x, Decision (Q x)} (l : list A) :
  (forall x, P x -> Q x -> False) ->
  (length (filter P l) + length (filter Q l) <= length l)%nat.
Proof.
  intros Hd. induction l as [|x l IH]; [done|]. rewrite !filter_cons.
  repeat case_decide; simpl; try lia. by destruct (Hd x).
Qed.

Lemma filter_elem_length {A} (P : A -> Prop) `{!forall x, Decision (P x)} (l : list A) x :
  x ∈ l -> P x -> (0 < length (filter P l))%nat.
Proof.
  intros Hx HP. assert (Hf : x ∈ filter P l) by (by apply list_elem_of_filter).
  destruct (filter P l); [by apply not_elem_of_nil in Hf|simpl; lia].
Qed.

Lemma omap_length_le {A B} (f : A -> option B) l : (length (omap f l) <= length l)%nat.
Proof. induction l as [|x l IH]; [done|]. csimpl. destruct (f x); simpl; lia. Qed.

(** ** More on dicts *)

Lemma dict_set_elem {K V} `{EqDecision K} (k : K) (v : V) d x :
  x ∈ dict_set k v d -> x = (k, v) \/ x ∈ d.
Proof.
  induction d as [|[k0 v0] d IH]; simpl.
  - intros ->%list_elem_of_singleton. by left.
  - case_decide; subst.
    + intros [->|Hx]%elem_of_cons; [by left|]. right. by right.
    + intros [->|Hx]%elem_of_cons; [right; by left|].
      destruct (IH Hx); [by left|]. right. by right.
Qed.

Lemma dict_set_nonempty {K V} `{EqDecision K} (k : K) (v : V) d : dict_set k v d <> [].
Proof. destruct d as [|[k0 v0] d]; simpl; [done|]. by case_decide. Qed.

(** ** More on steps *)

(** [run_total_as a E tac]: as [run_total], keeping the equation of the run
    as [E]. *)
Ltac run_total_as a E tac :=
  lazymatch goal with
  | |- context [io_bind ?m ?k ?s] =>
      let H := fresh in assert (H : total m) by tac;
      destruct (total_bind_run m k s H) as (a & ? & E & ->); clear H
  end.

Lemma keeps_for_in {S A} (R : relation S) `{!PreOrder R} (body : A -> io S unit) l :
  (forall x, x ∈ l -> keeps R (body x)) -> keeps R (io_for l body).
Proof.
  induction l as [|x l IH]; intros Hb; cbn [io_for]; [by apply keeps_ret|].
  apply keeps_bind; [done|apply Hb; by left|]. intros _. apply IH.
  intros y Hy. apply Hb. by right.
Qed.

(** ** Steps that append to a local list

    [appends P m]: whatever [m] does, it leaves the first component of
    the state alone and appends rows that satisfy [P] to the local
    list, also when it raises. *)

Section Appends.
Context {S L : Type}.

Definition appends {A} (P : L -> Prop) (m : io (S * list L) A) : Prop :=
  forall s, exists rows, (m s).2 = (s.1, s.2 ++ rows) /\ Forall P rows.

Lemma appends_nothing {A} P (m : io (S * list L) A) :
  (forall s, (m s).2 = s) -> appends P m.
Proof.
  intros H [s l]. exists []. rewrite H, app_nil_r. split; [done|constructor].
Qed.

Lemma appends_ret {A} P (a : A) : appends P (io_ret a).
Proof. by apply appends_nothing. Qed.

Lemma appends_lift {A} P (r : result A) : appends P (io_lift r).
Proof. by apply appends_nothing. Qed.

Lemma appends_modify P (row : L) : P row -> appends P (io_modify (fun l => l ++ [row])).
Proof. intros H [s l]. exists [row]. split; [done|by repeat constructor]. Qed.

Lemma appends_bind {A B} P (m : io (S * list L) A) (k : A -> io (S * list L) B) :
  appends P m -> (forall a, appends P (k a)) -> appends P (io_bind m k).
Proof.
  intros Hm Hk s. unfold io_bind. destruct (Hm s) as (r1 & E1 & H1).
  destruct (m s) as [[a|e] s1]; simpl in E1; subst s1; [|by exists r1].
  destruct (Hk a (s.1, s.2 ++ r1)) as (r2 & E2 & H2). exists (r1 ++ r2).
  rewrite E2. cbn [fst snd]. rewrite <- app_assoc. split; [done|by apply Forall_app].
Qed.

Lemma appends_for {A} P (body : A -> io (S * list L) unit) l :
  (forall a, appends P (body a)) -> appends P (io_for l body).
Proof.
  intros Hb. induction l as [|a l IH]; cbn [io_for]; [apply appends_ret|].
  apply appends_bind; [apply Hb|by intros _].
Qed.

End Appends.

(** Sequencing when what follows keeps the relation only for the values
    that the first step can return. *)
Lemma keeps_bind_returns {S A B} (R : relation S) `{!PreOrder R}
    (m : io S A) (k : A -> io S B) (Q : A -> Prop) :
  returns m Q -> keeps R m -> (forall a, Q a -> keeps R (k a)) -> keeps R (io_bind m k).
Proof.
  intros Hq Hm Hk s. unfold io_bind. specialize (Hm s). specialize (Hq s).
  destruct (m s) as [[a|e] s1]; [|done]. etrans; [exact Hm|]. by apply Hk, (Hq a s1).
Qed.
