(* ===== verification/PyRuntime.v ===== *)
(** * PyRuntime: the Python built-ins the sources call

    Executable semantics of [str] methods, [int()], [float()] and string
    comparison, for one-byte characters.  The ASCII range is exact; a byte
    above 127 is a character that is no digit, no letter and no space.
    [float()] is modelled on signed decimal numerals (digits, one dot,
    underscores between digits): exponents, [inf] and [nan] are outside
    the model.  No caller in the trackers can pass them, because each
    filters its argument first ([keep_numeric]) or passes a number
    token; the parser of the insider forms passes the text of a cell,
    and a cell that is written in one of those forms is read as 0 by the
    model where Python reads a number. *)

From Stdlib Require Import QArith Lqa String Ascii ZArith Lia DecimalString DecimalZ.
From stdpp Require Import base tactics option list strings.
From S2P Require Import Prelude.

#[local] Open Scope string_scope.

Module Py.

(** ** Character classes *)

Definition code (c : ascii) : N := N_of_ascii c.

Definition in_range (lo hi : N) (c : ascii) : bool :=
  ((lo <=? code c) && (code c <=? hi))%N.

Definition is_digit (c : ascii) : bool := in_range 48 57 c.
Definition is_upper (c : ascii) : bool := in_range 65 90 c.
Definition is_lower (c : ascii) : bool := in_range 97 122 c.
Definition is_alpha (c : ascii) : bool := is_upper c || is_lower c.

(** [\w] of [re] on ASCII text. *)
Definition is_word (c : ascii) : bool :=
  is_alpha c || is_digit c || (c =? "_")%char.

(** [str.isspace] on the ASCII range: TAB..CR, FS..US and the space. *)
Definition is_space (c : ascii) : bool := in_range 9 13 c || in_range 28 32 c.

Definition lower_char (c : ascii) : ascii :=
  if is_upper c then ascii_of_N (code c + 32) else c.

Definition upper_char (c : ascii) : ascii :=
  if is_lower c then ascii_of_N (code c - 32) else c.

Definition digit_val (c : ascii) : Z := (Z.of_N (code c) - 48)%Z.

(** ** [str] methods *)

Fixpoint smap (f : ascii -> ascii) (s : string) : string :=
  match s with
  | "" => ""
  | String c s' => String (f c) (smap f s')
  end.

Definition lower : string -> string := smap lower_char.
Definition upper : string -> string := smap upper_char.

Fixpoint sfilter (f : ascii -> bool) (s : string) : string :=
  match s with
  | "" => ""
  | String c s' => if f c then String c (sfilter f s') else sfilter f s'
  end.

Fixpoint sall (f : ascii -> bool) (s : string) : bool :=
  match s with
  | "" => true
  | String c s' => f c && sall f s'
  end.

(** [s.replace(c, '')] for a one-character [c]. *)
Definition remove_char (c : ascii) : string -> string :=
  sfilter (fun d => negb (d =? c)%char).

(** [s.replace(c, d)] for one-character [c] and [d]. *)
Definition replace_char (c d : ascii) : string -> string :=
  smap (fun x => if (x =? c)%char then d else x).

Fixpoint lstrip (s : string) : string :=
  match s with
  | "" => ""
  | String c s' => if is_space c then lstrip s' else s
  end.

Fixpoint rstrip (s : string) : string :=
  match s with
  | "" => ""
  | String c s' =>
      let r := rstrip s' in
      if is_space c && (r =? "") then "" else String c r
  end.

(** [s.strip()] *)
Definition strip (s : string) : string := rstrip (lstrip s).

(** [s.split(sep)] for a one-character separator: the first part and the
    parts after it, so that the result is never empty. *)
Fixpoint split_parts (sep : ascii) (s : string) : string * list string :=
  match s with
  | "" => ("", [])
  | String c s' =>
      let (w, ws) := split_parts sep s' in
      if (c =? sep)%char then ("", w :: ws) else (String c w, ws)
  end.

Definition split_on (sep : ascii) (s : string) : list string :=
  let (w, ws) := split_parts sep s in w :: ws.

(** [sep.join(parts)] for a one-character separator. *)
Fixpoint join (sep : ascii) (parts : list string) : string :=
  match parts with
  | [] => ""
  | [w] => w
  | w :: ws => w ++ String sep (join sep ws)
  end.

(** [sub in s] *)
Fixpoint contains (sub s : string) : bool :=
  String.prefix sub s ||
  match s with
  | "" => false
  | String _ s' => contains sub s'
  end.

Fixpoint repeat_char (c : ascii) (n : nat) : string :=
  match n with
  | O => ""
  | S n' => String c (repeat_char c n')
  end.

(** [s.zfill(width)]: zeros go after a leading sign. *)
Definition zfill (width : nat) (s : string) : string :=
  let pad := repeat_char "0" (width - String.length s) in
  match s with
  | String c s' =>
      if (c =? "+")%char || (c =? "-")%char then String c (pad ++ s')
      else pad ++ s
  | "" => pad
  end.

(** [str(n)] for an integer. *)
Definition str_of_Z (n : Z) : string := NilZero.string_of_int (Z.to_int n).

(** ** String comparison: [<=] on [str], by code point *)

Definition str_leb (a b : string) : bool := String.leb a b.

(** ** [int()] and [float()] *)

(** A run of digits with single underscores between them: its value and
    the number of its digits.  [prev] says that the character before was
    a digit. *)
Fixpoint digits (acc : Z) (n : nat) (prev : bool) (s : string)
  : option (Z * nat) :=
  match s with
  | "" => if prev then Some (acc, n) else None
  | String c s' =>
      if is_digit c then digits (acc * 10 + digit_val c)%Z (S n) true s'
      else if (c =? "_")%char && prev then digits acc n false s'
      else None
  end.

Definition unsigned_int (s : string) : option Z :=
  fst <$> digits 0%Z 0 false s.

(** The sign, if any, and what follows it. *)
Definition split_sign (s : string) : bool * string :=
  match s with
  | String c s' =>
      if (c =? "-")%char then (true, s')
      else if (c =? "+")%char then (false, s')
      else (false, s)
  | "" => (false, "")
  end.

(** [int(s)] *)
Definition py_int (s : string) : result Z :=
  let (neg, body) := split_sign (strip s) in
  match unsigned_int body with
  | Some v => Ok (if neg then - v else v)%Z
  | None => Raise ValueError
  end.

(** One side of the dot: its digits, or nothing, which counts as 0. *)
Definition part (s : string) : option (Z * nat) :=
  if (s =? "")%string then Some (0%Z, O) else digits 0%Z 0 false s.

(** The mantissa [i.f]: either part may be missing, not both. *)
Definition unsigned_float (s : string) : option Q :=
  match split_parts "." s with
  | (ip, []) => (fun v => inject_Z v) <$> unsigned_int ip
  | (ip, [fp]) =>
      if (ip =? "")%string && (fp =? "")%string then None
      else
        '(i, _) ← part ip;
        '(f, k) ← part fp;
        Some (inject_Z i + inject_Z f / inject_Z (10 ^ Z.of_nat k))%Q
  | _ => None
  end.

(** [float(s)] *)
Definition py_float (s : string) : result Q :=
  let (neg, body) := split_sign (strip s) in
  match unsigned_float body with
  | Some v => Ok (if neg then - v else v)%Q
  | None => Raise ValueError
  end.

(** ** The order on strings *)

Lemma str_leb_refl a : str_leb a a = true.
Proof.
  unfold str_leb, String.leb. induction a as [|x a IH]; simpl; [done|].
  unfold Ascii.compare. by rewrite N.compare_refl.
Qed.

Lemma str_leb_total a b : str_leb a b = true \/ str_leb b a = true.
Proof. apply String.leb_total. Qed.

Lemma str_leb_antisym a b : str_leb a b = true -> str_leb b a = true -> a = b.
Proof. apply String.leb_antisym. Qed.

Lemma str_leb_trans a b c :
  str_leb a b = true -> str_leb b c = true -> str_leb a c = true.
Proof.
  unfold str_leb, String.leb. revert b c.
  induction a as [|x a IH]; intros [|y b] [|z c]; simpl; try done.
  unfold Ascii.compare.
  destruct (N.compare_spec (N_of_ascii x) (N_of_ascii y)),
    (N.compare_spec (N_of_ascii y) (N_of_ascii z)),
    (N.compare_spec (N_of_ascii x) (N_of_ascii z));
    try done; try lia; eauto.
Qed.

(** ** Splitting *)

Lemma split_on_nonempty sep s : split_on sep s <> [].
Proof. unfold split_on. by destruct (split_parts sep s). Qed.

Lemma join_split sep s : join sep (split_on sep s) = s.
Proof.
  unfold split_on. induction s as [|c s IH]; simpl; [done|].
  destruct (split_parts sep s) as [w ws].
  destruct (Ascii.eqb_spec c sep) as [->|Hne]; rewrite <- IH.
  - reflexivity.
  - by destruct ws.
Qed.

(** ** Characters and [sall] *)

Lemma lower_char_idemp c : lower_char (lower_char c) = lower_char c.
Proof. by destruct c as [[] [] [] [] [] [] [] []]. Qed.

Lemma lower_upper_char c : lower_char (upper_char c) = lower_char c.
Proof. by destruct c as [[] [] [] [] [] [] [] []]. Qed.

Lemma sall_impl (P Q : ascii -> bool) s :
  (forall c, P c = true -> Q c = true) -> sall P s = true -> sall Q s = true.
Proof.
  intros H. induction s as [|c s IH]; simpl; [done|].
  intros [Hc Hs]%andb_prop. by rewrite (H c Hc), IH.
Qed.

Lemma append_cons c s t : String c s +:+ t = String c (s +:+ t).
Proof. done. Qed.

Lemma append_assoc s t u : (s +:+ t) +:+ u = s +:+ t +:+ u.
Proof. induction s as [|c s IH]; [done|]. by rewrite !append_cons, IH. Qed.

Lemma sall_app P s t : sall P (s +:+ t) = sall P s && sall P t.
Proof.
  induction s as [|c s IH]; [done|]. cbv [String.append]. simpl.
  fold String.append. fold (s +:+ t). by rewrite IH, andb_assoc.
Qed.

Lemma sall_sfilter_keep P Q s : sall P s = true -> sall P (sfilter Q s) = true.
Proof.
  induction s as [|c s IH]; simpl; [done|].
  intros [Hc Hs]%andb_prop. destruct (Q c); simpl; rewrite ?Hc; auto.
Qed.

Lemma sfilter_fixed P s : sall P s = true -> sfilter P s = s.
Proof.
  induction s as [|c s IH]; simpl; [done|].
  intros [-> Hs]%andb_prop. by rewrite IH.
Qed.

Lemma sfilter_app P s t : sfilter P (s +:+ t) = sfilter P s +:+ sfilter P t.
Proof.
  induction s as [|c s IH]; [done|]. cbv [String.append]. simpl.
  fold String.append. fold (s +:+ t). rewrite IH. by destruct (P c).
Qed.

Lemma length_app s t :
  String.length (s +:+ t) = (String.length s + String.length t)%nat.
Proof.
  induction s as [|c s IH]; [done|]. cbv [String.append]. simpl.
  fold String.append. fold (s +:+ t). by rewrite IH.
Qed.

Lemma sall_sfilter P s : sall P (sfilter P s) = true.
Proof.
  induction s as [|c s IH]; simpl; [done|].
  destruct (P c) eqn:E; simpl; by rewrite ?E.
Qed.

Lemma lstrip_fixed s : sall (fun c => negb (is_space c)) s = true -> lstrip s = s.
Proof. destruct s as [|c s]; simpl; [done|]. by intros [->%negb_true_iff _]%andb_prop. Qed.

Lemma rstrip_fixed s : sall (fun c => negb (is_space c)) s = true -> rstrip s = s.
Proof.
  induction s as [|c s IH]; simpl; [done|].
  intros [->%negb_true_iff Hs]%andb_prop. simpl. by rewrite IH.
Qed.

Lemma strip_fixed s : sall (fun c => negb (is_space c)) s = true -> strip s = s.
Proof. intros H. unfold strip. by rewrite lstrip_fixed, rstrip_fixed. Qed.

(** ** Numerals

    What [float()] accepts among the texts the parsers pass to it, and
    that a text without a minus sign is no negative number. *)

#[local] Open Scope Z_scope.

Lemma digit_val_nonneg c : is_digit c = true -> 0 <= digit_val c <= 9.
Proof.
  unfold is_digit, in_range, digit_val.
  intros [H1%N.leb_le H2%N.leb_le]%andb_prop. lia.
Qed.

Lemma digits_nonneg s : forall acc n prev v k,
  0 <= acc -> digits acc n prev s = Some (v, k) -> 0 <= v.
Proof.
  induction s as [|c s IH]; simpl; intros acc n prev v k Hacc.
  - destruct prev; naive_solver.
  - destruct (is_digit c) eqn:Ec.
    + apply IH. pose proof (digit_val_nonneg c Ec). lia.
    + destruct (_ && _); [by apply IH|done].
Qed.

Lemma digits_all s : forall acc n prev,
  sall is_digit s = true -> s <> "" \/ prev = true ->
  is_Some (digits acc n prev s).
Proof.
  induction s as [|c s IH]; simpl; intros acc n prev Hs Hne.
  - destruct Hne as [ | -> ]; [done|by eexists].
  - apply andb_prop in Hs as [-> Hs]. apply IH; auto.
Qed.

Lemma unsigned_int_all s :
  sall is_digit s = true -> s <> "" -> is_Some (unsigned_int s).
Proof.
  intros Hs Hne. unfold unsigned_int.
  destruct (digits_all s 0 0%nat false Hs) as [[v k] ->]; [auto|by eexists].
Qed.

Lemma inject_Z_nonneg v : 0 <= v -> (0 <= inject_Z v)%Q.
Proof. unfold Qle. simpl. lia. Qed.

Lemma ratio_nonneg f k : 0 <= f -> (0 <= inject_Z f / inject_Z (10 ^ Z.of_nat k))%Q.
Proof.
  intros Hf. apply Qmult_le_0_compat; [by apply inject_Z_nonneg|].
  apply Qinv_le_0_compat, inject_Z_nonneg. lia.
Qed.

Lemma part_nonneg s v k : part s = Some (v, k) -> 0 <= v.
Proof.
  unfold part. destruct (s =? "")%string; [by intros [= <- _]|].
  by apply digits_nonneg.
Qed.

Lemma unsigned_float_nonneg s q : unsigned_float s = Some q -> (0 <= q)%Q.
Proof.
  unfold unsigned_float, unsigned_int.
  destruct (split_parts "." s) as [ip [|fp [|? ?]]]; [| |done].
  - destruct (digits 0 0 false ip) as [[v k]|] eqn:E; intros [= <-].
    apply inject_Z_nonneg. by eapply digits_nonneg.
  - destruct (_ && _); [done|].
    destruct (part ip) as [[i ki]|] eqn:Ei; [|done].
    destruct (part fp) as [[f k]|] eqn:Ef; [|done].
    intros [= <-]. apply part_nonneg in Ei, Ef.
    pose proof (inject_Z_nonneg i Ei). pose proof (ratio_nonneg f k Ef). lra.
Qed.

Lemma sall_lstrip P s : sall P s = true -> sall P (lstrip s) = true.
Proof.
  induction s as [|c s IH]; simpl; [done|].
  intros [Hc Hs]%andb_prop. destruct (is_space c); [auto|].
  simpl. by rewrite Hc.
Qed.

Lemma sall_rstrip P s : sall P s = true -> sall P (rstrip s) = true.
Proof.
  induction s as [|c s IH]; simpl; [done|].
  intros [Hc Hs]%andb_prop. destruct (_ && _); [done|].
  simpl. by rewrite Hc, IH.
Qed.

Lemma sall_strip P s : sall P s = true -> sall P (strip s) = true.
Proof. intros. by apply sall_rstrip, sall_lstrip. Qed.

(** A text without a minus sign is no negative number. *)
Lemma py_float_nonneg s q :
  sall (fun c => negb (c =? "-")%char) s = true ->
  py_float s = Ok q -> (0 <= q)%Q.
Proof.
  intros Hs%sall_strip. unfold py_float, split_sign.
  destruct (strip s) as [|c t] eqn:E; simpl in *.
  - by destruct (unsigned_float "").
  - apply andb_prop in Hs as [->%negb_true_iff _].
    destruct (c =? "+")%char;
      destruct (unsigned_float _) eqn:Eu; intros [= <-];
      by eapply unsigned_float_nonneg.
Qed.

Lemma split_parts_no_sep sep s :
  sall (fun c => negb (c =? sep)%char) s = true -> split_parts sep s = (s, []).
Proof.
  induction s as [|c s IH]; simpl; [done|].
  intros [->%negb_true_iff Hs]%andb_prop. by rewrite IH.
Qed.

Lemma split_parts_app sep a b :
  sall (fun c => negb (c =? sep)%char) a = true ->
  split_parts sep (a +:+ String sep b) = (a, split_on sep b).
Proof.
  unfold split_on. induction a as [|c a IH]; cbv [String.append]; simpl.
  - intros _. rewrite Ascii.eqb_refl. by destruct (split_parts sep b).
  - intros [->%negb_true_iff Hs]%andb_prop. fold String.append.
    fold (a +:+ String sep b). by rewrite IH.
Qed.

Lemma digit_not_dot c : is_digit c = true -> negb (c =? ".")%char = true.
Proof. by destruct c as [[] [] [] [] [] [] [] []]. Qed.

Lemma digit_not_space c : is_digit c = true -> negb (is_space c) = true.
Proof. by destruct c as [[] [] [] [] [] [] [] []]. Qed.

Lemma digit_not_comma c : is_digit c = true -> negb (c =? ",")%char = true.
Proof. by destruct c as [[] [] [] [] [] [] [] []]. Qed.

Lemma digit_not_minus c : is_digit c = true -> negb (c =? "-")%char = true.
Proof. by destruct c as [[] [] [] [] [] [] [] []]. Qed.

Definition numeral (s : string) : Prop := s <> "" /\ sall is_digit s = true.

Definition fraction (f : string) : Prop :=
  f = "" \/ exists fd, f = String "." fd /\ numeral fd.

Lemma part_numeral s : numeral s -> is_Some (part s).
Proof.
  intros [Hne Hs]. unfold part. destruct (String.eqb_spec s ""); [done|].
  apply digits_all; auto.
Qed.

Lemma append_empty_r s : s +:+ "" = s.
Proof.
  induction s as [|c s IH]; [done|]. cbv [String.append]. fold String.append.
  fold (s +:+ ""). by rewrite IH.
Qed.

Lemma unsigned_float_decimal ds f :
  numeral ds -> fraction f -> is_Some (unsigned_float (ds +:+ f)).
Proof.
  intros Hds [->|(fd & -> & Hfd)]; unfold unsigned_float.
  - rewrite append_empty_r, split_parts_no_sep
      by (eapply sall_impl, Hds; apply digit_not_dot).
    destruct (unsigned_int_all ds) as [v ->]; [apply Hds..|]. by eexists.
  - rewrite split_parts_app by (eapply sall_impl, Hds; apply digit_not_dot).
    unfold split_on. rewrite split_parts_no_sep
      by (eapply sall_impl, Hfd; apply digit_not_dot).
    destruct (String.eqb_spec ds ""); [by destruct Hds|]. simpl.
    destruct (part_numeral ds Hds) as [[i ?] ->].
    destruct (part_numeral fd Hfd) as [[g k] ->]. by eexists.
Qed.

(** A numeral [ds] or [ds.fd] is a float, and not a negative one. *)
Lemma py_float_decimal ds f :
  numeral ds -> fraction f ->
  exists q, py_float (ds +:+ f) = Ok q /\ (0 <= q)%Q.
Proof.
  intros Hds Hf. destruct (unsigned_float_decimal ds f Hds Hf) as [q Hq].
  assert (Hc : sall (fun c => is_digit c || (c =? ".")%char) (ds +:+ f) = true).
  { rewrite sall_app. apply andb_true_intro. split.
    - eapply sall_impl, Hds. by intros c ->.
    - destruct Hf as [->|(fd & -> & Hfd)]; [done|]. simpl.
      eapply sall_impl, Hfd. by intros c ->. }
  assert (Hq' : py_float (ds +:+ f) = Ok q).
  { unfold py_float. rewrite strip_fixed.
    2:{ eapply sall_impl, Hc. intros c [H|H%Ascii.eqb_eq]%orb_prop;
        [by apply digit_not_space|by subst]. }
    destruct Hds as [Hne Hd]. destruct ds as [|c ds]; [done|].
    apply andb_prop in Hd as [Hd%digit_not_minus _].
    revert Hq. cbv [String.append]. fold String.append. simpl.
    apply negb_true_iff in Hd. rewrite Hd.
    destruct (Ascii.eqb_spec c "+") as [->|_]; [done|]. by intros ->. }
  exists q. split; [done|]. by eapply unsigned_float_nonneg.
Qed.

(** ** The characters of a number *)

(** The characters of a mantissa. *)
Definition mantissa_char (c : ascii) : bool :=
  is_digit c || (c =? "_")%char || (c =? ".")%char.

(** The characters that [float] lets through: a mantissa, a sign, and
    the white space it strips. *)
Definition float_char (c : ascii) : bool :=
  mantissa_char c || (c =? "-")%char || (c =? "+")%char || is_space c.

Lemma digits_chars s : forall acc n prev,
  is_Some (digits acc n prev s) -> sall mantissa_char s = true.
Proof.
  unfold mantissa_char. induction s as [|c s IH]; simpl; intros acc n prev H; [done|].
  destruct (is_digit c); simpl; [by eapply IH|].
  destruct (c =? "_")%char; simpl; [|by destruct H].
  destruct prev; simpl in H; [by eapply IH|by destruct H].
Qed.

Lemma part_chars s : is_Some (part s) -> sall mantissa_char s = true.
Proof. unfold part. destruct (String.eqb_spec s "") as [->|_]; [done|apply digits_chars]. Qed.

(** The characters of a text are those of its parts and the separator. *)
Lemma split_parts_chars (P : ascii -> bool) sep s :
  P sep = true ->
  sall P s = sall P (split_parts sep s).1 && forallb (sall P) (split_parts sep s).2.
Proof.
  intros Hsep. induction s as [|c s IH]; simpl; [done|].
  destruct (split_parts sep s) as [w ws]. simpl in IH. rewrite IH.
  destruct (Ascii.eqb_spec c sep) as [->|_]; simpl; [by rewrite Hsep|].
  by rewrite andb_assoc.
Qed.

Lemma unsigned_float_chars s :
  is_Some (unsigned_float s) -> sall mantissa_char s = true.
Proof.
  unfold unsigned_float. rewrite (split_parts_chars mantissa_char "." s eq_refl).
  destruct (split_parts "." s) as [ip [|fp [|]]]; simpl; [| |by intros []].
  - unfold unsigned_int. intros H. rewrite (digits_chars ip 0 0%nat false); [done|].
    destruct (digits 0 0 false ip); [done|by destruct H].
  - destruct (_ && _); [by intros []|].
    destruct (part ip) as [[i ki]|] eqn:Ei; [|by intros []].
    destruct (part fp) as [[f k]|] eqn:Ef; [|by intros []]. intros _.
    by rewrite !part_chars by (by rewrite ?Ei, ?Ef).
Qed.

(** What [strip] takes away is white space. *)
Lemma sall_lstrip_inv P s :
  sall P (lstrip s) = true -> sall (fun c => P c || is_space c) s = true.
Proof.
  induction s as [|c s IH]; simpl; [done|]. destruct (is_space c) eqn:Ec.
  - intros H. by rewrite orb_true_r, IH.
  - simpl. intros [-> Hs]%andb_prop. simpl. eapply sall_impl, Hs. by intros d ->.
Qed.

Lemma sall_rstrip_inv P s :
  sall P (rstrip s) = true -> sall (fun c => P c || is_space c) s = true.
Proof.
  induction s as [|c s IH]; simpl; [done|].
  destruct (is_space c) eqn:Ec; simpl.
  - destruct (rstrip s =? "")%string eqn:Er; simpl.
    + intros _. rewrite orb_true_r. apply IH. apply String.eqb_eq in Er. by rewrite Er.
    + intros [_ Hs]%andb_prop. rewrite orb_true_r. by apply IH.
  - intros [-> Hs]%andb_prop. by apply IH.
Qed.

Lemma sall_strip_inv P s :
  sall P (strip s) = true -> sall (fun c => P c || is_space c) s = true.
Proof.
  intros H%sall_rstrip_inv%sall_lstrip_inv. eapply sall_impl, H.
  intros c. simpl. by destruct (P c), (is_space c).
Qed.

(** A text that [float] reads holds nothing but the characters of a
    number: a bracket, a letter or a currency sign makes it raise. *)
Lemma py_float_chars s : is_ok (py_float s) = true -> sall float_char s = true.
Proof.
  unfold py_float. intros H.
  assert (Hb : sall (fun c => mantissa_char c || (c =? "-")%char || (c =? "+")%char)
                 (strip s) = true).
  { unfold split_sign in H. destruct (strip s) as [|c t]; [done|].
    destruct (c =? "-")%char eqn:E1; [|destruct (c =? "+")%char eqn:E2].
    1,2: simpl; rewrite ?E1, ?E2, ?orb_true_r; simpl;
      (eapply sall_impl; [|apply (unsigned_float_chars t)];
       [by intros d ->|by destruct (unsigned_float t)]).
    eapply sall_impl; [|apply (unsigned_float_chars (String c t))];
      [by intros d ->|by destruct (unsigned_float (String c t))]. }
  by apply sall_strip_inv in Hb.
Qed.

Lemma py_float_raises s : sall float_char s = false -> py_float s = Raise ValueError.
Proof.
  intros Hs. destruct (py_float s) as [q|e] eqn:E.
  - by rewrite py_float_chars in Hs by (by rewrite E).
  - unfold py_float in E. destruct (split_sign _), (unsigned_float _); naive_solver.
Qed.

#[local] Close Scope Z_scope.

End Py.

#[export] Hint Resolve Py.str_leb_refl Py.str_leb_total Py.str_leb_trans : tt.

(** * The [re] module, for the patterns the sources use

    A pattern is given by its matcher at the start of a string: the text
    it matches there and what follows, or nothing.  Matching a literal
    ignores case the way [re.IGNORECASE] does on ASCII text. *)

Module Re.

Definition matcher : Type := string -> option (string * string).

(** [re.findall(p, s)] for a pattern that never matches the empty string:
    scan from the left, keep each match and go on after it.  [fuel] bounds
    the number of steps; the length of [s] is enough. *)
Fixpoint findall_fuel (m : matcher) (fuel : nat) (s : string) : list string :=
  match fuel with
  | O => []
  | S fuel' =>
      match m s with
      | Some (tok, rest) => tok :: findall_fuel m fuel' rest
      | None =>
          match s with
          | "" => []
          | String _ s' => findall_fuel m fuel' s'
          end
      end
  end.

Definition findall (m : matcher) (s : string) : list string :=
  findall_fuel m (S (String.length s)) s.

(** The literal [lit] at the start of [s], case ignored: what follows. *)
Fixpoint match_lit_ci (lit s : string) : option string :=
  match lit, s with
  | "", _ => Some s
  | String a lit', String b s' =>
      if (Py.lower_char a =? Py.lower_char b)%char then match_lit_ci lit' s'
      else None
  | String _ _, "" => None
  end.

(** [re.search(lit, s, re.IGNORECASE)] for a literal pattern. *)
Fixpoint search_lit_ci (lit s : string) : bool :=
  bool_decide (is_Some (match_lit_ci lit s)) ||
  match s with
  | "" => false
  | String _ s' => search_lit_ci lit s'
  end.

(** [\b] between the character before ([None] at the start) and the
    character after ([None] at the end): exactly one of them is a word
    character. *)
Definition boundary (before after : option ascii) : bool :=
  xorb (default false (Py.is_word <$> before)) (default false (Py.is_word <$> after)).

Definition first_char (s : string) : option ascii :=
  match s with "" => None | String c _ => Some c end.

Fixpoint last_char_or (d : option ascii) (s : string) : option ascii :=
  match s with "" => d | String c s' => last_char_or (Some c) s' end.

(** [\blit\b] at the start of [s], where [before] precedes [s]. *)
Definition match_word_ci (lit : string) (before : option ascii) (s : string) : bool :=
  match match_lit_ci lit s with
  | Some rest =>
      boundary before (first_char s) &&
      boundary (last_char_or before (substring 0 (String.length lit) s))
               (first_char rest)
  | None => false
  end.

Fixpoint search_word_from (lit : string) (before : option ascii) (s : string) : bool :=
  match_word_ci lit before s ||
  match s with
  | "" => false
  | String c s' => search_word_from lit (Some c) s'
  end.

(** [re.search(rf'\b{lit}\b', s, re.IGNORECASE)] for a literal [lit]. *)
Definition search_word_ci (lit s : string) : bool := search_word_from lit None s.

(** ** Facts *)

(** A matcher that takes at least one character. *)
Definition consuming (m : matcher) : Prop :=
  forall s tok rest, m s = Some (tok, rest) -> (String.length rest < String.length s)%nat.

Lemma findall_fuel_stable m : consuming m -> forall n1 n2 s,
  (String.length s < n1)%nat -> (String.length s < n2)%nat ->
  findall_fuel m n1 s = findall_fuel m n2 s.
Proof.
  intros Hm. induction n1 as [|n1 IH]; intros [|n2] s H1 H2; try lia. simpl.
  destruct (m s) as [[tok rest]|] eqn:E.
  - f_equal. apply Hm in E. apply IH; lia.
  - destruct s; [done|]. simpl in *. apply IH; lia.
Qed.

Lemma findall_fuel_Forall m (P : string -> Prop) :
  (forall s tok rest, m s = Some (tok, rest) -> P tok) ->
  forall n s, Forall P (findall_fuel m n s).
Proof.
  intros Hm. induction n as [|n IH]; intros s; simpl; [constructor|].
  destruct (m s) as [[tok rest]|] eqn:E; [constructor; eauto|].
  destruct s; [constructor|apply IH].
Qed.

(** More fuel than the length of the text changes nothing. *)
Lemma findall_fuel_enough m n s :
  consuming m -> (String.length s < n)%nat -> findall_fuel m n s = findall m s.
Proof. intros. apply findall_fuel_stable; auto. Qed.

Lemma findall_nil m : findall m "" = match m "" with Some (tok, _) => [tok] | None => [] end.
Proof. unfold findall. simpl. by destruct (m "") as [[tok [|]]|]. Qed.

(** The equations of [findall], without fuel. *)
Lemma findall_match m s tok rest :
  consuming m -> m s = Some (tok, rest) -> findall m s = tok :: findall m rest.
Proof.
  intros Hm E. unfold findall at 1. simpl. rewrite E. f_equal.
  apply findall_fuel_enough; [done|]. by apply Hm in E.
Qed.

Lemma findall_skip m c s :
  consuming m -> m (String c s) = None -> findall m (String c s) = findall m s.
Proof.
  intros Hm E. unfold findall at 1.
  change (findall_fuel m (S ?n) ?t) with
    (match m t with
     | Some (tok, rest) => tok :: findall_fuel m n rest
     | None => match t with "" => [] | String _ s' => findall_fuel m n s' end
     end).
  rewrite E. apply findall_fuel_enough; [done|]. simpl. lia.
Qed.

Lemma match_lit_ci_lower lit s : match_lit_ci (Py.lower lit) s = match_lit_ci lit s.
Proof.
  revert s. induction lit as [|a lit IH]; intros [|b s]; simpl; try done.
  by rewrite Py.lower_char_idemp, IH.
Qed.

Lemma match_lit_ci_upper lit s : match_lit_ci (Py.upper lit) s = match_lit_ci lit s.
Proof.
  revert s. induction lit as [|a lit IH]; intros [|b s]; simpl; try done.
  by rewrite Py.lower_upper_char, IH.
Qed.

Lemma search_lit_ci_lower lit s : search_lit_ci (Py.lower lit) s = search_lit_ci lit s.
Proof. induction s as [|c s IH]; simpl; by rewrite match_lit_ci_lower, ?IH. Qed.

Lemma search_lit_ci_upper lit s : search_lit_ci (Py.upper lit) s = search_lit_ci lit s.
Proof. induction s as [|c s IH]; simpl; by rewrite match_lit_ci_upper, ?IH. Qed.

(** A match between word boundaries is a match. *)
Lemma search_word_from_lit lit before s :
  search_word_from lit before s = true -> search_lit_ci lit s = true.
Proof.
  revert before. induction s as [|c s IH]; intros before; simpl;
    unfold match_word_ci; intros [H|H]%orb_prop; try done;
    try (apply orb_true_intro; right; by eapply IH).
  all: apply orb_true_intro; left; apply bool_decide_eq_true;
    by destruct (match_lit_ci lit _).
Qed.

Lemma search_word_ci_lit lit s :
  search_word_ci lit s = true -> search_lit_ci lit s = true.
Proof. apply search_word_from_lit. Qed.

End Re.
