(* ===== verification/Frames.v ===== *)
(** * Frames: numbers and columns as numpy and pandas have them

    The fetchers compute with pandas columns and numpy scalars
    (options_flow.py, vix_fetcher.py).  This file models what they call:
    a number of a column that may be missing ([cell], where [None] is
    NaN), a scalar that a division may have made infinite or NaN
    ([float]), and the column methods [sum], [mean], [quantile],
    [rank(pct=True)], [tail] and [iloc[-1]].

    Finite numbers are rationals and the arithmetic on them is exact: the
    rounding of binary floats is not modelled.  A column holds finite
    numbers and NaN, as the data of the library does; infinities arise
    from divisions only.  The sign of a zero is not kept: a finite number
    divided by zero is an infinity of the sign of the number.

    These definitions model the libraries, not the repository. *)

From Stdlib Require Import QArith Qround Lqa ZArith Lia Sorted Permutation.
From stdpp Require Import base tactics option list.
From S2P Require Import Prelude.

#[local] Open Scope Q_scope.

Module Np.

(** A numpy scalar. *)
Inductive float : Type := Fin (q : Q) | PInf | NInf | NaN.

(** A number of a column. *)
Definition cell : Type := option Q.

Definition of_cell (c : cell) : float :=
  match c with Some q => Fin q | None => NaN end.

Definition of_nat (n : nat) : Q := inject_Z (Z.of_nat n).

(** The infinity of the sign of [x], NaN for zero. *)
Definition inf_of (x : Q) : float :=
  match x ?= 0 with Eq => NaN | Gt => PInf | Lt => NInf end.

Definition neg (a : float) : float :=
  match a with Fin q => Fin (- q) | PInf => NInf | NInf => PInf | NaN => NaN end.

Definition add (a b : float) : float :=
  match a, b with
  | NaN, _ | _, NaN => NaN
  | Fin x, Fin y => Fin (x + y)
  | PInf, NInf | NInf, PInf => NaN
  | PInf, _ | _, PInf => PInf
  | NInf, _ | _, NInf => NInf
  end.

Definition sub (a b : float) : float := add a (neg b).

Definition mul (a b : float) : float :=
  match a, b with
  | NaN, _ | _, NaN => NaN
  | Fin x, Fin y => Fin (x * y)
  | Fin x, PInf | PInf, Fin x => inf_of x
  | Fin x, NInf | NInf, Fin x => inf_of (- x)
  | PInf, PInf | NInf, NInf => PInf
  | PInf, NInf | NInf, PInf => NInf
  end.

Definition div (a b : float) : float :=
  match a, b with
  | NaN, _ | _, NaN => NaN
  | Fin x, Fin y => if Qeq_bool y 0 then inf_of x else Fin (x / y)
  | Fin _, _ => Fin 0
  | PInf, Fin y => if Qle_bool 0 y then PInf else NInf
  | NInf, Fin y => if Qle_bool 0 y then NInf else PInf
  | _, _ => NaN
  end.

(** [a < b]: false as soon as one side is NaN. *)
Definition lt (a b : float) : bool :=
  match a, b with
  | NaN, _ | _, NaN => false
  | Fin x, Fin y => negb (Qle_bool y x)
  | _, NInf | PInf, _ => false
  | NInf, _ | _, PInf => true
  end.

Definition gt (a b : float) : bool := lt b a.

(** [bool(a)]: a number is true unless it is zero; NaN is true. *)
Definition truthy (a : float) : bool :=
  match a with Fin q => negb (Qeq_bool q 0) | _ => true end.

(** [max(a, b)] and [min(a, b)] of Python: the first argument unless the
    second is greater, or smaller. *)
Definition py_max (a b : float) : float := if gt b a then b else a.
Definition py_min (a b : float) : float := if lt b a then b else a.

(** ** Columns *)

(** The numbers of a column, NaN left out. *)
Definition valid (s : list cell) : list Q := omap id s.

(** [s.sum()] *)
Definition sum (s : list cell) : Q := Qsum (valid s).

(** [s.mean()]: NaN when no number is left. *)
Definition mean (s : list cell) : float :=
  match valid s with
  | [] => NaN
  | v => Fin (Qsum v / of_nat (length v))
  end.

(** Ascending order. *)
Definition asc (l : list Q) : list Q := sort_desc id (fun a b => Qle_bool b a) l.

(** The numbers of a list, each once, in the order they first occur:
    the keys of a [groupby] before they are sorted. *)
Fixpoint uniq (l : list Q) : list Q :=
  match l with
  | [] => []
  | x :: l' => x :: List.filter (fun y => negb (Qeq_bool y x)) (uniq l')
  end.

(** [s.quantile(q)], linear interpolation between the two numbers around
    position [q * (n - 1)] of the sorted column. *)
Definition quantile (q : Q) (s : list cell) : cell :=
  let v := asc (valid s) in
  let h := (of_nat (length v) - 1) * q in
  let lo := Z.to_nat (Qfloor h) in
  let frac := h - inject_Z (Qfloor h) in
  match v !! lo with
  | Some a => let b := default a (v !! S lo) in Some (a + (b - a) * frac)
  | None => None
  end.

(** [s.iloc[-1]] *)
Definition iloc_last {A} (l : list A) : result A := from_option IndexError (last l).

(** [s.iloc[-n]] for [n] from 1 on. *)
Definition iloc_neg {A} (n : nat) (l : list A) : result A :=
  if (n <=? length l)%nat then from_option IndexError (l !! (length l - n)%nat)
  else Raise IndexError.

(** [s.tail(n)] *)
Definition tail {A} (n : nat) (l : list A) : list A := drop (length l - n) l.

(** [s.rank(pct=True)] at a cell of the column: the average rank of the
    number among the numbers of the column, over their count. *)
Definition rank_pct (s : list cell) (c : cell) : float :=
  match c with
  | None => NaN
  | Some x =>
      let v := valid s in
      let less := length (filter (fun y => Qle_bool x y = false) v) in
      let same := length (filter (fun y => Qeq_bool y x = true) v) in
      div (Fin (of_nat less + (of_nat same + 1) / 2)) (Fin (of_nat (length v)))
  end.

(** [a >= b] on cells: false as soon as one side is NaN. *)
Definition cell_ge (a b : cell) : bool :=
  match a, b with
  | Some x, Some y => Qle_bool y x
  | _, _ => false
  end.

(** [a * b] and [a / (b + 1)] on cells keep NaN. *)
Definition cell_mul (a b : cell) : cell :=
  match a, b with Some x, Some y => Some (x * y) | _, _ => None end.

(** ** Columns of scalars

    What a column becomes once it has been divided: a list of scalars,
    where an infinity can stand. *)

Definition to_cell (a : float) : cell :=
  match a with Fin q => Some q | _ => None end.

Definition is_inf (a : float) : bool :=
  match a with PInf | NInf => true | _ => false end.

(** The numbers of a list of scalars, when every one of them is a number. *)
Definition numbers (s : list float) : option (list Q) :=
  mapM (fun a => match a with Fin q => Some q | _ => None end) s.

(** [s.ffill()]: a NaN takes the number before it. *)
Fixpoint ffill_from (prev : cell) (s : list cell) : list cell :=
  match s with
  | [] => []
  | c :: s' =>
      let c' := match c with Some _ => c | None => prev end in
      c' :: ffill_from c' s'
  end.

Definition ffill (s : list cell) : list cell := ffill_from None s.

(** [s.pct_change()]: the column, forward filled, over itself shifted by
    one, minus one.  The first scalar is NaN. *)
Fixpoint pct_from (prev : cell) (s : list cell) : list float :=
  match s with
  | [] => []
  | c :: s' => sub (div (of_cell c) (of_cell prev)) (Fin 1) :: pct_from c s'
  end.

Definition pct_change (s : list cell) : list float := pct_from None (ffill s).

(** The window of [n] elements that ends at each position, none at the
    positions before the [n]-th. *)
Definition windows {A} (n : nat) (l : list A) : list (option (list A)) :=
  (fun i => if (n <=? S i)%nat then Some (take n (drop (S i - n) l)) else None)
    <$> seq 0 (length l).

(** [s.rolling(window=n).f()]: [f] of the window where it holds [n]
    numbers, NaN elsewhere (an infinity counts as NaN). *)
Definition rolling (n : nat) (f : list Q -> float) (s : list float) : list float :=
  (fun w => match w ≫= numbers with Some v => f v | None => NaN end)
    <$> windows n s.

(** The mean of a window. *)
Definition mean_of (v : list Q) : float := mean (Some <$> v).

(** [rank(pct=True)] of the last number of a window. *)
Definition rank_of_last (v : list Q) : float := rank_pct (Some <$> v) (last v).

(** [pd.cut(s, bins, labels)] at a cell: the label of the interval
    [(lo, hi]] that holds the number, none for NaN and for a number in no
    interval. *)
Fixpoint cut_from {L} (lo : float) (bins : list (float * L)) (x : Q) : option L :=
  match bins with
  | [] => None
  | (hi, l) :: bins' =>
      if lt lo (Fin x) && negb (lt hi (Fin x)) then Some l else cut_from hi bins' x
  end.

Definition cut {L} (lo : float) (bins : list (float * L)) (c : cell) : option L :=
  c ≫= cut_from lo bins.

(** [s.diff()]: each number minus the one before it; NaN at the first
    position and wherever one of the two is NaN. *)
Fixpoint diff_from (prev : cell) (s : list cell) : list cell :=
  match s with
  | [] => []
  | c :: s' =>
      match prev, c with Some p, Some x => Some (x - p) | _, _ => None end
        :: diff_from c s'
  end.

Definition diff (s : list cell) : list cell := diff_from None s.

(** [s.where(cond, other)]: the number where [cond] holds of it, [other]
    elsewhere; no comparison holds of NaN. *)
Definition where_ (cond : Q -> bool) (other : Q) (s : list cell) : list Q :=
  (fun c => match c with Some x => if cond x then x else other | None => other end) <$> s.

(** [s.cumsum()] of a column of numbers. *)
Fixpoint cumsum_from (acc : Q) (s : list Q) : list Q :=
  match s with
  | [] => []
  | x :: s' => (acc + x) :: cumsum_from (acc + x) s'
  end.

Definition cumsum (s : list Q) : list Q := cumsum_from 0 s.

(** [alpha] of [ewm(span=span)] *)
Definition alpha (span : Q) : Q := 2 / (span + 1).

(** [s.ewm(span=span, adjust=False).mean()], as pandas computes it: the
    first number starts the average; a number moves it by [alpha]; a NaN
    leaves it and lets the weight of the past decay, so that the number
    after a gap counts for more. *)
Fixpoint ewm_from (a : Q) (weighted : cell) (old_wt : Q) (s : list cell) : list cell :=
  match s with
  | [] => []
  | cur :: s' =>
      match weighted, cur with
      | Some w, Some x =>
          let old_wt := old_wt * (1 - a) in
          let w' := (old_wt * w + a * x) / (old_wt + a) in
          Some w' :: ewm_from a (Some w') 1 s'
      | Some w, None => Some w :: ewm_from a (Some w) (old_wt * (1 - a)) s'
      | None, _ => cur :: ewm_from a cur 1 s'
      end
  end.

Definition ewm (span : Q) (s : list cell) : list cell :=
  ewm_from (alpha span) None 1 s.

(** ** Facts *)

Definition finite (a : float) : Prop := exists q, a = Fin q.

Lemma div_fin x y : ~ y == 0 -> div (Fin x) (Fin y) = Fin (x / y).
Proof.
  intros Hy. simpl. destruct (Qeq_bool y 0) eqn:E; [|done].
  by apply Qeq_bool_iff in E.
Qed.

Lemma valid_app s t : valid (s ++ t) = valid s ++ valid t.
Proof. apply omap_app. Qed.

Lemma sum_app s t : sum (s ++ t) == sum s + sum t.
Proof. unfold sum. rewrite valid_app. apply Qsum_app. Qed.

Lemma sum_nonneg s : Forall (fun q => 0 <= q) (valid s) -> 0 <= sum s.
Proof. apply Qsum_nonneg. Qed.

Lemma asc_elem x l : x ∈ asc l <-> x ∈ l.
Proof. apply sort_desc_elem. Qed.

Lemma asc_length l : length (asc l) = length l.
Proof. apply sort_desc_length. Qed.

Lemma asc_sorted l : StronglySorted Qle (asc l).
Proof.
  unfold asc.
  apply (strongly_sorted_impl (desc id (fun a b => Qle_bool b a)));
    [intros a b H; by apply Qle_bool_iff in H|].
  apply sort_desc_strongly_sorted.
  - intros a b. destruct (Qle_bool_total b a); auto.
  - intros a b c H1%Qle_bool_iff H2%Qle_bool_iff. apply Qle_bool_iff. lra.
Qed.

(** The clamp of [min(hi, max(lo, x))] is a number between the bounds,
    whatever [x] is. *)
Lemma clamp_bounds lo hi x :
  lo <= hi ->
  exists q, py_min (Fin hi) (py_max (Fin lo) x) = Fin q /\ lo <= q <= hi.
Proof.
  intros H. unfold py_min, py_max, gt.
  destruct x as [q| | |]; simpl;
    repeat (match goal with
            | |- context [Qle_bool ?a ?b] => destruct (Qle_bool a b) eqn:?
            end; simpl);
    eexists; (split; [reflexivity|]); qbool; lra.
Qed.

Lemma quantile_bounds q s t :
  quantile q s = Some t ->
  exists a b, a ∈ valid s /\ b ∈ valid s /\ a <= t <= b.
Proof.
  unfold quantile.
  set (v := asc (valid s)). set (h := (of_nat (length v) - 1) * q).
  set (lo := Z.to_nat (Qfloor h)). set (frac := h - inject_Z (Qfloor h)).
  assert (Hf : 0 <= frac < 1).
  { pose proof (Qfloor_le h). pose proof (Qlt_floor h) as H2.
    rewrite inject_Z_plus in H2. unfold frac. split; [lra|].
    change (inject_Z 1) with 1 in H2. lra. }
  clearbody frac lo.
  destruct (v !! lo) as [a|] eqn:Ea; [|done].
  assert (Ha : a ∈ valid s) by (by eapply asc_elem, list_elem_of_lookup_2).
  destruct (v !! S lo) as [b|] eqn:Eb; simpl; intros [= <-].
  - assert (a <= b) by (eapply (strongly_sorted_lookup Qle v); [apply asc_sorted|done..|lia]).
    assert (0 <= (b - a) * frac) by (apply Qmult_le_0_compat; lra).
    assert (0 <= (b - a) * (1 - frac)) by (apply Qmult_le_0_compat; lra).
    exists a, b. split_and!; [done|by eapply asc_elem, list_elem_of_lookup_2| |]; lra.
  - exists a, a. split_and!; [done..| |]; lra.
Qed.

Lemma quantile_some q s :
  0 <= q <= 1 -> valid s <> [] -> is_Some (quantile q s).
Proof.
  intros Hq Hv. unfold quantile.
  set (v := asc (valid s)). set (h := (of_nat (length v) - 1) * q).
  assert (Hn : (0 < length v)%nat).
  { unfold v. rewrite asc_length. destruct (valid s); [done|simpl; lia]. }
  assert (Hlo : (Z.to_nat (Qfloor h) < length v)%nat).
  { assert (He : inject_Z (Z.of_nat (length v) - 1) == of_nat (length v) - 1).
    { unfold of_nat, Z.sub. rewrite inject_Z_plus, inject_Z_opp. reflexivity. }
    assert (Hh : h <= inject_Z (Z.of_nat (length v) - 1)).
    { assert (0 <= inject_Z (Z.of_nat (length v) - 1)).
      { change 0 with (inject_Z 0). rewrite <- Zle_Qle. lia. }
      assert (0 <= (of_nat (length v) - 1) * (1 - q))
        by (apply Qmult_le_0_compat; lra).
      unfold h. lra. }
    apply Qfloor_resp_le in Hh. rewrite Qfloor_Z in Hh. lia. }
  destruct (lookup_lt_is_Some_2 v _ Hlo) as [a ->]. by eexists.
Qed.

(** ** Facts about the columns of scalars *)

Lemma ffill_from_length prev s : length (ffill_from prev s) = length s.
Proof. revert prev. induction s as [|c s IH]; intros prev; simpl; [done|]. by rewrite IH. Qed.

Lemma pct_from_length prev s : length (pct_from prev s) = length s.
Proof. revert prev. induction s as [|c s IH]; intros prev; simpl; [done|]. by rewrite IH. Qed.

Lemma pct_change_length s : length (pct_change s) = length s.
Proof. unfold pct_change, ffill. by rewrite pct_from_length, ffill_from_length. Qed.

(** The first change of a column is NaN. *)
Lemma pct_change_first s : s <> [] -> pct_change s !! 0%nat = Some NaN.
Proof. by destruct s as [|[x|] s]. Qed.

Lemma windows_length {A} n (l : list A) : length (windows n l) = length l.
Proof. unfold windows. by rewrite length_fmap, length_seq. Qed.

Lemma windows_lookup {A} n (l : list A) i :
  (i < length l)%nat ->
  windows n l !! i =
    Some (if (n <=? S i)%nat then Some (take n (drop (S i - n) l)) else None).
Proof.
  intros Hi. unfold windows. rewrite list_lookup_fmap, lookup_seq_lt by done. done.
Qed.

Lemma rolling_length n f s : length (rolling n f s) = length s.
Proof. unfold rolling. by rewrite length_fmap, windows_length. Qed.

(** Before the [n]-th position a rolling column is NaN. *)
Lemma rolling_early n f s i :
  (i < length s)%nat -> (S i < n)%nat -> rolling n f s !! i = Some NaN.
Proof.
  intros Hi Hn. unfold rolling. rewrite list_lookup_fmap, windows_lookup by done.
  destruct (Nat.leb_spec n (S i)); [lia|done].
Qed.

Lemma numbers_nan s : NaN ∈ s -> numbers s = None.
Proof.
  intros H. unfold numbers. destruct (mapM _ s) as [v|] eqn:E; [|done].
  apply mapM_Some in E. apply list_elem_of_lookup in H as [i Hi].
  destruct (Forall2_lookup_l _ _ _ _ _ E Hi) as (q & _ & Hq). done.
Qed.

(** A window that holds a NaN gives NaN. *)
Lemma rolling_nan n f s i j :
  (i < length s)%nat -> s !! j = Some NaN -> (j <= i < j + n)%nat ->
  rolling n f s !! i = Some NaN.
Proof.
  intros Hi Hj Hij. unfold rolling. rewrite list_lookup_fmap, windows_lookup by done.
  destruct (Nat.leb_spec n (S i)); [|done]. simpl.
  rewrite numbers_nan; [done|]. apply list_elem_of_lookup. exists (j - (S i - n))%nat.
  rewrite lookup_take_lt by lia. rewrite lookup_drop. rewrite <- Hj. f_equal. lia.
Qed.

Lemma of_nat_le a b : (a <= b)%nat -> (of_nat a <= of_nat b)%Q.
Proof. intros H. unfold of_nat. rewrite <- Zle_Qle. lia. Qed.

Lemma of_nat_add a b : (of_nat (a + b) == of_nat a + of_nat b)%Q.
Proof. unfold of_nat. by rewrite Nat2Z.inj_add, inject_Z_plus. Qed.

Lemma of_nat_pos a : (0 < a)%nat -> (1 <= of_nat a)%Q.
Proof. intros H. apply (of_nat_le 1 a). lia. Qed.

(** The rank of a number of the column, as a share, is more than 0 and at
    most 1. *)
Lemma rank_pct_bounds s x :
  Some x ∈ s -> exists q, rank_pct s (Some x) = Fin q /\ (0 < q <= 1)%Q.
Proof.
  intros Hx. unfold rank_pct.
  set (v := valid s).
  assert (Hv : x ∈ v) by (apply list_elem_of_omap; by exists (Some x)).
  set (less := length (filter (fun y => Qle_bool x y = false) v)).
  set (same := length (filter (fun y => Qeq_bool y x = true) v)).
  assert (Hs : (0 < same)%nat).
  { apply (filter_elem_length _ _ x); [done|]. apply Qeq_bool_iff. reflexivity. }
  assert (Hl : (less + same <= length v)%nat).
  { apply filter_disjoint_length. intros y H1 H2%Qeq_bool_iff.
    rewrite <- H2 in H1. assert (Qle_bool y y = true) by (apply Qle_bool_iff; lra).
    congruence. }
  apply of_nat_pos in Hs. apply of_nat_le in Hl. rewrite of_nat_add in Hl.
  assert (Hn : (1 <= of_nat (length v))%Q) by (
    apply of_nat_pos; destruct v; [by apply not_elem_of_nil in Hv|simpl; lia]).
  assert (H0 : (0 <= of_nat less)%Q) by (apply (of_nat_le 0 less); lia).
  set (a := of_nat less) in *. set (b := of_nat same) in *.
  set (n := of_nat (length v)) in *. clearbody a b n. clear less same Hv v.
  assert (Hh : ((b + 1) / 2 == (1 # 2) * b + (1 # 2))%Q) by field.
  eexists. split; [apply div_fin; intros E; lra|]. rewrite Hh. split.
  - apply Qlt_shift_div_l; lra.
  - apply Qle_shift_div_r; lra.
Qed.

Lemma iloc_last_Some {A} (l : list A) x : last l = Some x -> iloc_last l = Ok x.
Proof. unfold iloc_last. by intros ->. Qed.

Lemma iloc_last_ok {A} (l : list A) : l <> [] -> exists x, iloc_last l = Ok x /\ last l = Some x.
Proof.
  intros Hl. unfold iloc_last. destruct (last l) as [x|] eqn:E; [by exists x|].
  by apply last_None in E.
Qed.

Lemma iloc_neg_Some {A} n (l : list A) x :
  (n <= length l)%nat -> l !! (length l - n)%nat = Some x -> iloc_neg n l = Ok x.
Proof.
  intros Hn Hx. unfold iloc_neg. destruct (Nat.leb_spec n (length l)); [|lia].
  by rewrite Hx.
Qed.

Lemma tail_app {A} n (pre l : list A) : length l = n -> tail n (pre ++ l) = l.
Proof.
  intros <-. unfold tail. rewrite length_app.
  replace (length pre + length l - length l)%nat with (length pre) by lia.
  by rewrite drop_app_length.
Qed.

Lemma valid_some (v : list Q) : valid (Some <$> v) = v.
Proof. unfold valid. induction v as [|x v IH]; [done|]. csimpl. by rewrite IH. Qed.

Lemma mean_some x (v : list Q) :
  mean (Some <$> x :: v) = Fin (Qsum (x :: v) / of_nat (length (x :: v))).
Proof. unfold mean. by rewrite valid_some. Qed.

(** ** Facts about differences and running columns *)

Lemma diff_from_length prev s : length (diff_from prev s) = length s.
Proof. revert prev. induction s as [|c s IH]; intros prev; simpl; [done|by rewrite IH]. Qed.

Lemma diff_length s : length (diff s) = length s.
Proof. apply diff_from_length. Qed.

Lemma diff_first s : s <> [] -> diff s !! 0%nat = Some None.
Proof. by destruct s. Qed.

Lemma diff_from_lookup prev s i :
  diff_from prev s !! S i =
    (fun c => match s !! i, c with
              | Some (Some p), Some x => Some (x - p)
              | _, _ => None
              end) <$> s !! S i.
Proof.
  revert prev i. induction s as [|c s IH]; intros prev i; [done|].
  destruct i as [|i]; [by destruct s|]. simpl. apply IH.
Qed.

(** Behind the first position the difference is of the two cells. *)
Lemma diff_lookup s i p x :
  s !! i = Some (Some p) -> s !! S i = Some (Some x) -> diff s !! S i = Some (Some (x - p)).
Proof. intros Hp Hx. unfold diff. by rewrite diff_from_lookup, Hp, Hx. Qed.

Lemma where_length cond other s : length (where_ cond other s) = length s.
Proof. apply length_fmap. Qed.

Lemma cumsum_from_length acc s : length (cumsum_from acc s) = length s.
Proof. revert acc. induction s as [|x s IH]; intros acc; simpl; [done|by rewrite IH]. Qed.

Lemma cumsum_length s : length (cumsum s) = length s.
Proof. apply cumsum_from_length. Qed.

(** A running sum moves by the number at each position. *)
Lemma cumsum_from_step acc s i y x :
  cumsum_from acc s !! i = Some y -> s !! S i = Some x ->
  cumsum_from acc s !! S i = Some (y + x).
Proof.
  revert acc i. induction s as [|a s IH]; intros acc i; [done|].
  destruct i as [|i]; simpl.
  - intros [= <-] Hx. destruct s as [|b s]; [done|]. simpl in *. by injection Hx as ->.
  - apply IH.
Qed.

Lemma ewm_from_length a w o s : length (ewm_from a w o s) = length s.
Proof.
  revert w o. induction s as [|c s IH]; intros w o; [done|].
  simpl. destruct w, c; simpl; by rewrite IH.
Qed.

Lemma ewm_length span s : length (ewm span s) = length s.
Proof. apply ewm_from_length. Qed.

(** A weighted mean of two numbers lies between them. *)
Lemma weighted_between lo hi o a w x :
  0 <= o -> 0 < a -> lo <= w <= hi -> lo <= x <= hi ->
  lo <= (o * w + a * x) / (o + a) <= hi.
Proof.
  intros Ho Ha [Hw1 Hw2] [Hx1 Hx2]. split.
  - apply Qle_shift_div_l; [lra|]. nra.
  - apply Qle_shift_div_r; [lra|]. nra.
Qed.

(** The cells of a column that are numbers lie between [lo] and [hi]. *)
Definition within (lo hi : Q) (s : list cell) : Prop :=
  Forall (fun c => forall x, c = Some x -> lo <= x <= hi) s.

Lemma ewm_from_within lo hi a w o s :
  0 < a <= 1 -> 0 <= o -> within lo hi [w] -> within lo hi s ->
  within lo hi (ewm_from a w o s).
Proof.
  intros Ha. revert w o. induction s as [|c s IH]; intros w o Ho Hw Hs; [constructor|].
  apply Forall_cons in Hs as [Hc Hs]. apply Forall_cons in Hw as [Hw _].
  assert (0 <= o * (1 - a)) by nra.
  destruct w as [w|], c as [x|]; simpl.
  - assert (lo <= (o * (1 - a) * w + a * x) / (o * (1 - a) + a) <= hi)
      by (apply weighted_between; [done|lra|auto..]).
    constructor; [by intros ? [= <-]|].
    apply IH; [lra| |done]. constructor; [by intros ? [= <-]|constructor].
  - constructor; [done|]. apply IH; [done| |done]. by constructor.
  - constructor; [done|]. apply IH; [lra| |done]. by constructor.
  - constructor; [done|]. apply IH; [lra| |done]. by constructor.
Qed.

(** An average of [ewm] never leaves the range of its column. *)
Lemma ewm_within lo hi span s :
  1 <= span -> within lo hi s -> within lo hi (ewm span s).
Proof.
  intros Hs H. apply ewm_from_within; [|lra| |done].
  - unfold alpha. split.
    + apply Qlt_shift_div_l; lra.
    + apply Qle_shift_div_r; lra.
  - by constructor.
Qed.

(** On numbers without a gap the average moves by [alpha] towards the
    next number. *)
Lemma ewm_from_step a w x s :
  exists w', ewm_from a (Some w) 1 (Some x :: s) = Some w' :: ewm_from a (Some w') 1 s /\
             w' == (1 - a) * w + a * x.
Proof. eexists. split; [done|]. simpl. field. lra. Qed.

(** The scalars of a window that holds numbers only. *)
Lemma numbers_Some s v : numbers s = Some v -> s = Fin <$> v.
Proof.
  unfold numbers. intros H%mapM_Some. induction H as [|a q s v Ha _ IH]; [done|].
  destruct a; try done. injection Ha as ->. by rewrite IH.
Qed.

(** What holds of NaN and of [f] on every window of numbers of the column
    holds of the rolling column. *)
Lemma rolling_Forall n f s (P : float -> Prop) :
  P NaN ->
  (forall v, length v = n -> Forall (fun q => Fin q ∈ s) v -> P (f v)) ->
  Forall P (rolling n f s).
Proof.
  intros Hn Hf. unfold rolling, windows. apply Forall_fmap, Forall_fmap.
  apply Forall_forall. intros i Hi%elem_of_seq. simpl.
  destruct (n <=? S i)%nat eqn:E; [|done]. simpl. apply Nat.leb_le in E.
  destruct (numbers _) as [v|] eqn:Ev; [|done]. apply numbers_Some in Ev.
  apply Hf.
  - apply (f_equal length) in Ev. rewrite length_fmap, length_take, length_drop in Ev. lia.
  - apply Forall_forall. intros q Hq.
    assert (H : Fin q ∈ take n (drop (S i - n) s)).
    { rewrite Ev. by apply list_elem_of_fmap_2. }
    apply elem_of_take in H as (j & Hj & _). rewrite lookup_drop in Hj.
    by apply list_elem_of_lookup_2 in Hj.
Qed.

(** The mean of numbers that are not negative is a number that is not
    negative. *)
Lemma mean_of_nonneg v :
  v <> [] -> Forall (fun q => 0 <= q) v -> exists m, mean_of v = Fin m /\ 0 <= m.
Proof.
  intros Hv Hp. destruct v as [|x v]; [done|]. unfold mean_of. rewrite mean_some.
  eexists. split; [done|].
  pose proof (of_nat_pos (length (x :: v)) ltac:(simpl; lia)).
  apply Qle_shift_div_l; [lra|]. rewrite Qmult_0_l. by apply Qsum_nonneg.
Qed.

End Np.
