(* ===== verification/Resolver.v ===== *)
(** * Resolver: tickers, CUSIPs and the institution roster

    Models the static tables of [InstitutionalTracker.__init__]
    ([target_tickers], [ticker_to_cusip]), [get_major_institutions] and
    [_cusip_to_ticker] of src/datafetcher/institutional_tracker.py, and
    the roster of [SimplifiedInstitutionalTracker.__init__].

    The table is reached through the class [Roster], so that the parsers
    are proved for any table; [RosterOk] is what a table must satisfy for
    the two directions of the lookup to be inverse, and the program's own
    table is shown to satisfy it. *)

From Stdlib Require Import String Ascii ZArith.
From stdpp Require Import base tactics option list strings.
From S2P Require Import Prelude PyRuntime.

#[local] Open Scope string_scope.

(** [self.ticker_to_cusip] and [self.target_tickers], as configuration. *)
Class Roster := {
  ticker_to_cusip : list (string * string);
  target_tickers : list string;
}.

(** What the lookups need: one CUSIP per ticker and one ticker per CUSIP. *)
Class RosterOk (R : Roster) := {
  tickers_distinct : NoDup ticker_to_cusip.*1;
  cusips_distinct : NoDup ticker_to_cusip.*2;
}.

Definition swap_item (kv : string * string) : string * string := (kv.2, kv.1).

Section Lookup.
Context `{R : Roster}.

(** [{v: k for k, v in self.ticker_to_cusip.items()}] *)
Definition cusip_to_ticker_map : list (string * string) :=
  dict_of (swap_item <$> ticker_to_cusip).

(** [_cusip_to_ticker(cusip)]: the ticker, or [''] when the CUSIP is not
    in the table. *)
Definition _cusip_to_ticker (cusip : string) : string :=
  default "" (dict_get cusip cusip_to_ticker_map).

(** [self.ticker_to_cusip.get(ticker, '')] *)
Definition cusip_of_ticker (ticker : string) : string :=
  default "" (dict_get ticker ticker_to_cusip).

End Lookup.

(** The table of the program. *)
#[export] Instance tradetitan_roster : Roster := {|
  ticker_to_cusip := dict_of [
    ("NVDA", "67066G104");
    ("AMZN", "023135106");
    ("GOOGL", "02079K305");
    ("MSFT", "594918104");
    ("AAPL", "037833100");
    ("TSLA", "88160R101")];
  target_tickers := ["NVDA"; "AMZN"; "GOOGL"; "MSFT"; "AAPL"; "TSLA"];
|}.

(** [get_major_institutions()]: CIK to name.  The literal names Vanguard's
    CIK twice; a dict keeps the key where it first stood. *)
Definition get_major_institutions : list (string * string) :=
  dict_of [
    ("0001067983", "Berkshire Hathaway Inc");
    ("0001364742", "Vanguard Group Inc");
    ("0000950123", "BlackRock Inc");
    ("0001418814", "State Street Corp");
    ("0000315066", "Fidelity Management & Research");
    ("0001364742", "Vanguard Group Inc");
    ("0001159556", "T. Rowe Price Associates Inc");
    ("0000820932", "Capital Research Global Investors");
    ("0001011006", "Northern Trust Corp");
    ("0000929351", "Goldman Sachs Group Inc");
    ("0000886982", "Invesco Ltd");
    ("0001019687", "Wellington Management Co");
    ("0000902165", "Dimensional Fund Advisors");
    ("0001166559", "Ark Investment Management LLC")].

(** [SimplifiedInstitutionalTracker.major_institutions] *)
Definition major_institutions : list (string * string) :=
  dict_of [
    ("0001067983", "Berkshire Hathaway Inc");
    ("0001364742", "Vanguard Group Inc");
    ("0000950123", "BlackRock Inc");
    ("0001418814", "State Street Corp");
    ("0000315066", "Fidelity Management & Research")].

(** ** The lookups are inverse to each other *)

Section Laws.
Context `{R : Roster} `{!RosterOk R}.

Lemma cusip_to_ticker_map_eq :
  cusip_to_ticker_map = swap_item <$> ticker_to_cusip.
Proof.
  apply dict_of_distinct. rewrite <- list_fmap_compose.
  apply cusips_distinct.
Qed.

Lemma cusip_to_ticker_map_lookup t c :
  (t, c) ∈ ticker_to_cusip -> dict_get c cusip_to_ticker_map = Some t.
Proof.
  intros Hin. rewrite cusip_to_ticker_map_eq. apply dict_get_elem.
  - rewrite <- list_fmap_compose. apply cusips_distinct.
  - apply list_elem_of_fmap. by exists (t, c).
Qed.

(** C33. Resolving the CUSIP of a roster ticker gives the ticker back. *)
Theorem cusip_ticker_roundtrip t c :
  (t, c) ∈ ticker_to_cusip -> _cusip_to_ticker c = t.
Proof.
  intros Hin. unfold _cusip_to_ticker.
  by rewrite (cusip_to_ticker_map_lookup t c).
Qed.

(** Composed with the forward table: a ticker of the roster survives the
    trip through its CUSIP. *)
Lemma ticker_cusip_ticker t :
  t ∈ ticker_to_cusip.*1 -> _cusip_to_ticker (cusip_of_ticker t) = t.
Proof.
  intros ([t' c] & -> & Hin)%list_elem_of_fmap. simpl.
  unfold cusip_of_ticker.
  rewrite (dict_get_elem t' c) by (done || apply tickers_distinct).
  simpl. unfold _cusip_to_ticker. by rewrite (cusip_to_ticker_map_lookup t' c).
Qed.

(** A resolved ticker is a ticker of the table, and its CUSIP is the
    one that was asked for: the resolver never invents an identity. *)
Theorem cusip_to_ticker_sound c t :
  _cusip_to_ticker c = t -> t <> "" -> (t, c) ∈ ticker_to_cusip.
Proof.
  unfold _cusip_to_ticker. rewrite cusip_to_ticker_map_eq.
  destruct (dict_get c _) as [t'|] eqn:E; simpl; [|congruence].
  intros -> _. apply dict_get_Some, list_elem_of_fmap in E as ([a b] & [= -> ->] & Hin).
  done.
Qed.

End Laws.

(** A CUSIP that is not in the table resolves to [''], for any table. *)
Theorem cusip_unknown `{R : Roster} c :
  c ∉ ticker_to_cusip.*2 -> _cusip_to_ticker c = "".
Proof.
  intros Hc. unfold _cusip_to_ticker.
  destruct (dict_get c cusip_to_ticker_map) as [t|] eqn:E; [|done].
  destruct Hc. apply dict_get_Some in E.
  assert (Hk : c ∈ cusip_to_ticker_map.*1).
  { apply list_elem_of_fmap. by exists (c, t). }
  apply dict_of_keys in Hk. by rewrite <- list_fmap_compose in Hk.
Qed.

(** The program's table satisfies the interface. *)
#[export] Instance tradetitan_roster_ok : RosterOk tradetitan_roster.
Proof. split; apply (bool_decide_unpack _); by vm_compute. Qed.

Lemma cusip_ticker_roundtrip_witness :
  ("NVDA", "67066G104") ∈ ticker_to_cusip /\ _cusip_to_ticker "67066G104" = "NVDA".
Proof.
  assert (H : ("NVDA", "67066G104") ∈ ticker_to_cusip)
    by (apply (bool_decide_unpack _); by vm_compute).
  split; [exact H | exact (cusip_ticker_roundtrip "NVDA" "67066G104" H)].
Defined.

Lemma cusip_to_ticker_sound_witness : ("AAPL", "037833100") ∈ ticker_to_cusip.
Proof. by apply (cusip_to_ticker_sound "037833100" "AAPL"). Defined.

Lemma cusip_unknown_witness : _cusip_to_ticker "191216100" = "".
Proof.
  apply (cusip_unknown "191216100").
  apply (bool_decide_unpack _). by vm_compute.
Defined.
