(* ===== verification/Filings.v ===== *)
(** * Filings: filing-index entries and the loops that select them

    Models the pure part of the Filing Index Crawler:
    [InstitutionalTracker._process_filing_data] and the selection loop of
    [get_13f_filings] (src/datafetcher/institutional_tracker.py), and
    [SimplifiedInstitutionalTracker._extract_13f_filings]
    (src/datafetcher/simplified_institutional.py).

    A filing-data object is the JSON object with the three parallel
    arrays [form], [accessionNumber], [filingDate]; each may be absent
    ([.get(key, [])]) and the arrays may differ in length, in which case
    the loops raise [IndexError] as the code does. *)

From Stdlib Require Import String Ascii ZArith Lia.
From stdpp Require Import base tactics option list strings.
From S2P Require Import Prelude PyRuntime.

#[local] Open Scope string_scope.
#[local] Open Scope Z_scope.
#[local] Open Scope list_scope.

(** ** Data *)

(** The [filings.recent] object, or an archived shard: the keys the code
    reads, and whether the object has any other key. *)
Record filing_data := {
  fd_form : option (list string);
  fd_accession : option (list string);
  fd_dates : option (list string);
  fd_other : bool;
}.

(** [{}] *)
Definition empty_filing_data : filing_data :=
  {| fd_form := None; fd_accession := None; fd_dates := None; fd_other := false |}.

(** [d.get(key, [])] *)
Definition get_list (o : option (list string)) : list string := default [] o.

(** [if d:] for a dict: it has a key. *)
Definition dict_truthy (d : filing_data) : bool :=
  bool_decide (is_Some (fd_form d)) || bool_decide (is_Some (fd_accession d))
  || bool_decide (is_Some (fd_dates d)) || fd_other d.

(** An entry of [get_historical_13f_filings]. *)
Record filing := {
  accession_number : string;
  filing_date : string;
  form : string;
  filing_year : Z;
}.

(** An entry of [get_13f_filings]: no year. *)
Record recent_filing := {
  r_accession_number : string;
  r_filing_date : string;
  r_form : string;
}.

(** An entry of [_extract_13f_filings]: with the quarter. *)
Record quarterly_filing := {
  q_accession_number : string;
  q_filing_date : string;
  q_form : string;
  q_filing_year : Z;
  q_filing_quarter : string;
}.

#[global] Instance filing_data_eq_dec : EqDecision filing_data.
Proof. solve_decision. Defined.
#[global] Instance filing_eq_dec : EqDecision filing.
Proof. solve_decision. Defined.
#[global] Instance recent_filing_eq_dec : EqDecision recent_filing.
Proof. solve_decision. Defined.
#[global] Instance quarterly_filing_eq_dec : EqDecision quarterly_filing.
Proof. solve_decision. Defined.

(** ** Dates *)

(** [int(filing_date.split('-')[0])] *)
Definition year_of (filing_date : string) : result Z :=
  y <- py_index (Py.split_on "-" filing_date) 0 ;; Py.py_int y.

(** [int(filing_date.split('-')[1])] *)
Definition month_of (filing_date : string) : result Z :=
  m <- py_index (Py.split_on "-" filing_date) 1 ;; Py.py_int m.

(** [((month - 1) // 3) + 1] *)
Definition quarter_number (month : Z) : Z := (month - 1) / 3 + 1.

(** [f"Q{((int(filing_date.split('-')[1]) - 1) // 3) + 1}"] *)
Definition quarter_of (filing_date : string) : result string :=
  m <- month_of filing_date ;; Ok ("Q" +:+ Py.str_of_Z (quarter_number m)).

(** [start_year <= filing_year <= end_year] *)
Definition in_years (start_year end_year filing_year : Z) : bool :=
  (start_year <=? filing_year) && (filing_year <=? end_year).

Definition is_13f (form : string) : bool := String.eqb form "13F-HR".

(** ** [_process_filing_data] *)

Section Process.
Variables (accession_numbers filing_dates : list string).
Variables (start_year end_year : Z).

(** The body of [for i, form in enumerate(forms)]: [filings] is the list
    built so far. *)
Definition process_step (i : nat) (form : string) (filings : list filing)
  : result (list filing) :=
  if is_13f form then
    filing_date <- py_index filing_dates i ;;
    filing_year <- year_of filing_date ;;
    if in_years start_year end_year filing_year then
      acc <- py_index accession_numbers i ;;
      Ok (filings ++ [{| accession_number := acc; filing_date := filing_date;
                         form := form; filing_year := filing_year |}])
    else Ok filings
  else Ok filings.

End Process.

Definition _process_filing_data (filing_data : filing_data)
    (start_year end_year : Z) : result (list filing) :=
  let forms := get_list (fd_form filing_data) in
  let accession_numbers := get_list (fd_accession filing_data) in
  let filing_dates := get_list (fd_dates filing_data) in
  for_enumerate
    (process_step accession_numbers filing_dates start_year end_year)
    0 forms [].

(** ** The selection loop of [get_13f_filings] *)

Section Recent.
Variables (accession_numbers filing_dates : list string) (limit : Z).

Definition recent_step (i : nat) (form : string)
    (f13_filings : list recent_filing) : result (list recent_filing) :=
  if is_13f form && (Z.of_nat (length f13_filings) <? limit) then
    acc <- py_index accession_numbers i ;;
    filing_date <- py_index filing_dates i ;;
    Ok (f13_filings ++ [{| r_accession_number := acc;
                           r_filing_date := filing_date; r_form := form |}])
  else Ok f13_filings.

End Recent.

Definition select_recent_13f (filings : filing_data) (limit : Z)
  : result (list recent_filing) :=
  for_enumerate
    (recent_step (get_list (fd_accession filings))
       (get_list (fd_dates filings)) limit)
    0 (get_list (fd_form filings)) [].

(** ** [_extract_13f_filings] *)

Section Extract.
Variables (accession_numbers filing_dates : list string) (cutoff_year : Z).

Definition extract_step (i : nat) (form : string)
    (filings : list quarterly_filing) : result (list quarterly_filing) :=
  if is_13f form then
    filing_date <- py_index filing_dates i ;;
    filing_year <- year_of filing_date ;;
    if cutoff_year <=? filing_year then
      acc <- py_index accession_numbers i ;;
      quarter <- quarter_of filing_date ;;
      Ok (filings ++ [{| q_accession_number := acc;
                         q_filing_date := filing_date; q_form := form;
                         q_filing_year := filing_year;
                         q_filing_quarter := quarter |}])
    else Ok filings
  else Ok filings.

End Extract.

(** [now_year] is [datetime.now().year]. *)
Definition _extract_13f_filings (now_year : Z) (filing_data : filing_data)
    (years_back : Z) : result (list quarterly_filing) :=
  let cutoff_year := now_year - years_back in
  for_enumerate
    (extract_step (get_list (fd_accession filing_data))
       (get_list (fd_dates filing_data)) cutoff_year)
    0 (get_list (fd_form filing_data)) [].

(** ** Specification: rows of an aligned index *)

(** One row of an index whose arrays are aligned: form, accession
    number, filing date. *)
Definition row : Type := string * string * string.
Definition row_form (r : row) : string := r.1.1.
Definition row_accession (r : row) : string := r.1.2.
Definition row_date (r : row) : string := r.2.

Definition filing_data_of_rows (rows : list row) : filing_data :=
  {| fd_form := Some (row_form <$> rows);
     fd_accession := Some (row_accession <$> rows);
     fd_dates := Some (row_date <$> rows);
     fd_other := false |}.

(** What the crawler is to keep of a row: the holdings reports of the
    requested years. *)
Definition entry_of (start_year end_year : Z) (r : row) : option filing :=
  if is_13f (row_form r) then
    match year_of (row_date r) with
    | Ok y =>
        if in_years start_year end_year y then
          Some {| accession_number := row_accession r;
                  filing_date := row_date r;
                  form := row_form r; filing_year := y |}
        else None
    | Raise _ => None
    end
  else None.

Definition select_13f (start_year end_year : Z) (rows : list row) : list filing :=
  omap (entry_of start_year end_year) rows.

(** A row the loop can process: a holdings report has a year. *)
Definition row_ok (r : row) : Prop :=
  is_13f (row_form r) = true -> is_ok (year_of (row_date r)) = true.

Definition filing_wf (start_year end_year : Z) (f : filing) : Prop :=
  form f = "13F-HR" /\
  year_of (filing_date f) = Ok (filing_year f) /\
  start_year <= filing_year f <= end_year.

Definition quarterly_wf (cutoff_year : Z) (f : quarterly_filing) : Prop :=
  q_form f = "13F-HR" /\
  year_of (q_filing_date f) = Ok (q_filing_year f) /\
  cutoff_year <= q_filing_year f /\
  quarter_of (q_filing_date f) = Ok (q_filing_quarter f).

(** ** Facts *)

Lemma is_13f_eq form : is_13f form = true <-> form = "13F-HR".
Proof. unfold is_13f. by destruct (String.eqb_spec form "13F-HR"). Qed.

Lemma in_years_spec s e y : in_years s e y = true <-> s <= y <= e.
Proof. unfold in_years. lia. Qed.

Lemma year_of_raises d e : year_of d = Raise e -> e = ValueError.
Proof.
  unfold year_of, py_index. pose proof (Py.split_on_nonempty "-" d).
  destruct (Py.split_on "-" d) as [|y ys]; [done|]. simpl.
  unfold Py.py_int. destruct (Py.split_sign _), (Py.unsigned_int _); congruence.
Qed.

Section ProcessFacts.
Context (accs dates : list string) (s e : Z).

Lemma process_step_wf i form fs fs' :
  Forall (filing_wf s e) fs ->
  process_step accs dates s e i form fs = Ok fs' ->
  Forall (filing_wf s e) fs'.
Proof.
  unfold process_step. intros Hfs H.
  destruct (is_13f form) eqn:F; inv_bind; subst; try done.
  apply Forall_app. split; [done|]. constructor; [|done].
  split; [by apply is_13f_eq|split; [done|by apply in_years_spec]].
Qed.

Lemma process_step_raises i form fs err :
  process_step accs dates s e i form fs = Raise err ->
  err = IndexError \/ err = ValueError.
Proof.
  unfold process_step. destruct (is_13f form); [|done].
  destruct (py_index dates i) as [d|e1] eqn:E1; simpl.
  2:{ apply py_index_raise in E1 as [_ ->]. intros [= <-]. by left. }
  destruct (year_of d) as [y|e2] eqn:E2; simpl.
  2:{ apply year_of_raises in E2 as ->. intros [= <-]. by right. }
  destruct (in_years s e y); [|done].
  destruct (py_index accs i) as [a|e3] eqn:E3; simpl; [done|].
  apply py_index_raise in E3 as [_ ->]. intros [= <-]. by left.
Qed.

End ProcessFacts.

(** Every entry [_process_filing_data] returns is a 13F-HR filing whose
    year is the year component of its date and lies in the requested
    range. *)
Lemma process_filing_data_wf fd s e fs :
  _process_filing_data fd s e = Ok fs -> Forall (filing_wf s e) fs.
Proof.
  apply for_enumerate_inv; [|constructor].
  intros i x st st'. apply process_step_wf.
Qed.

Lemma process_filing_data_wf_witness :
  Forall (filing_wf 2005 2022)
    [{| accession_number := "0001067983-21-000012"; filing_date := "2021-11-15";
        form := "13F-HR"; filing_year := 2021 |}].
Proof.
  apply (process_filing_data_wf
    {| fd_form := Some ["4"; "13F-HR"; "13F-HR"];
       fd_accession := Some ["x"; "0001067983-21-000012"; "y"];
       fd_dates := Some ["2021-12-01"; "2021-11-15"; "2003-02-14"];
       fd_other := true |} 2005 2022).
  vm_compute. reflexivity.
Defined.

(** [_process_filing_data] raises nothing but [IndexError] (an array
    shorter than [form]) and [ValueError] (a date whose year is no
    integer). *)
Theorem process_filing_data_raises fd s e err :
  _process_filing_data fd s e = Raise err ->
  err = IndexError \/ err = ValueError.
Proof.
  apply (for_enumerate_raises _ (fun err => err = IndexError \/ err = ValueError)).
  intros i x st e'. apply process_step_raises.
Qed.

(** ** The loop implements the selection *)

Section Refinement.
Context (s e : Z).

Lemma process_step_row pre r post xa xd fs :
  row_ok r ->
  process_step ((row_accession <$> pre ++ r :: post) ++ xa)
    ((row_date <$> pre ++ r :: post) ++ xd) s e (length pre) (row_form r) fs
  = Ok (fs ++ option_list (entry_of s e r)).
Proof.
  intros Hr. unfold process_step, entry_of, row_ok in *.
  destruct (is_13f (row_form r)); simpl; [|by rewrite app_nil_r].
  unfold py_index.
  rewrite !lookup_app_l by (rewrite length_fmap, length_app; simpl; lia).
  rewrite !list_lookup_fmap, !list_lookup_middle by done. simpl.
  destruct (year_of (row_date r)) as [y|]; simpl; [|by specialize (Hr eq_refl)].
  destruct (in_years s e y); simpl; [done|by rewrite app_nil_r].
Qed.

Lemma process_rows pre rows xa xd fs :
  Forall row_ok rows ->
  for_enumerate
    (process_step ((row_accession <$> pre ++ rows) ++ xa)
       ((row_date <$> pre ++ rows) ++ xd) s e)
    (length pre) (row_form <$> rows) fs
  = Ok (fs ++ select_13f s e rows).
Proof.
  intros Hrows. revert pre fs.
  induction Hrows as [|r rows Hr _ IH]; intros pre fs; csimpl.
  { by rewrite app_nil_r. }
  rewrite process_step_row by done. csimpl.
  specialize (IH (pre ++ [r]) (fs ++ option_list (entry_of s e r))).
  rewrite length_app, <- !(assoc_L (++) pre) in IH. csimpl in IH.
  rewrite Nat.add_1_r in IH. rewrite IH. f_equal.
  rewrite <- (assoc_L (++)). f_equal. unfold select_13f.
  by destruct (entry_of s e r).
Qed.

End Refinement.

(** C4. On an index whose arrays are aligned and whose holdings reports
    carry a year, [_process_filing_data] returns exactly the selection
    [select_13f]: the 13F-HR rows of the requested years, in the order of
    the index. *)
Theorem process_filing_data_refines rows s e :
  Forall row_ok rows ->
  _process_filing_data (filing_data_of_rows rows) s e = Ok (select_13f s e rows).
Proof.
  intros H. unfold _process_filing_data, filing_data_of_rows. simpl.
  pose proof (process_rows s e [] rows [] [] [] H) as P.
  by rewrite !app_nil_r in P.
Qed.

(** When [filingDate] is shorter than [form], the first holdings
    report past its end raises [IndexError], whatever was collected
    before is lost. *)
Theorem process_filing_data_short_dates rows form rest accs s e :
  Forall row_ok rows -> is_13f form = true ->
  _process_filing_data
    {| fd_form := Some ((row_form <$> rows) ++ form :: rest);
       fd_accession := Some ((row_accession <$> rows) ++ accs);
       fd_dates := Some (row_date <$> rows);
       fd_other := false |} s e
  = Raise IndexError.
Proof.
  intros H F. unfold _process_filing_data. csimpl.
  rewrite for_enumerate_app.
  pose proof (process_rows s e [] rows accs [] [] H) as P.
  rewrite app_nil_r in P. csimpl in P. rewrite P. csimpl.
  unfold process_step. rewrite F, length_fmap. unfold py_index.
  by rewrite lookup_ge_None_2 by (rewrite length_fmap; lia).
Qed.

(** ** Quarters *)

Lemma quarter_number_range m : 1 <= m <= 12 -> 1 <= quarter_number m <= 4.
Proof. unfold quarter_number. intros. Z.div_mod_to_equations. lia. Qed.

(** For a date whose month component is a month, the derived quarter
    is [((month - 1) // 3) + 1] and one of Q1..Q4. *)
Theorem quarter_of_valid_month d m :
  month_of d = Ok m -> 1 <= m <= 12 ->
  quarter_of d = Ok ("Q" +:+ Py.str_of_Z ((m - 1) / 3 + 1)) /\
  "Q" +:+ Py.str_of_Z ((m - 1) / 3 + 1) ∈ ["Q1"; "Q2"; "Q3"; "Q4"].
Proof.
  intros Hm Hr. unfold quarter_of. rewrite Hm. split; [done|].
  pose proof (quarter_number_range m Hr) as Hq. unfold quarter_number in Hq.
  assert (H : (m - 1) / 3 + 1 ∈ [1; 2; 3; 4]).
  { set (q := (m - 1) / 3 + 1) in *. clearbody q. rewrite !elem_of_cons. lia. }
  set (q := (m - 1) / 3 + 1) in *. clearbody q.
  repeat (apply elem_of_cons in H as [->|H];
          [apply (bool_decide_unpack _); by vm_compute|]).
  by apply elem_of_nil in H.
Qed.

Lemma quarter_of_valid_month_witness :
  quarter_of "2021-11-15" = Ok ("Q" +:+ Py.str_of_Z ((11 - 1) / 3 + 1)) /\
  "Q" +:+ Py.str_of_Z ((11 - 1) / 3 + 1) ∈ ["Q1"; "Q2"; "Q3"; "Q4"].
Proof. apply (quarter_of_valid_month "2021-11-15" 11); [reflexivity|lia]. Defined.

(** The month is not validated: a date with month 00 gets quarter Q0. *)
Example quarter_of_month_zero : quarter_of "2021-00-15" = Ok "Q0".
Proof. reflexivity. Qed.

Lemma extract_step_wf accs dates c i form fs fs' :
  Forall (quarterly_wf c) fs ->
  extract_step accs dates c i form fs = Ok fs' ->
  Forall (quarterly_wf c) fs'.
Proof.
  unfold extract_step. intros Hfs H.
  destruct (is_13f form) eqn:F; inv_bind; subst; try done.
  apply Forall_app. split; [done|]. constructor; [|done].
  split; [by apply is_13f_eq|]. split; [done|]. split; [simpl; lia|done].
Qed.

(** Every entry of [_extract_13f_filings] is a 13F-HR filing not older
    than the cutoff year whose year and quarter are those of its date. *)
Lemma extract_13f_filings_wf now fd years_back fs :
  _extract_13f_filings now fd years_back = Ok fs ->
  Forall (quarterly_wf (now - years_back)) fs.
Proof.
  apply for_enumerate_inv; [|constructor].
  intros i x st st'. apply extract_step_wf.
Qed.

(** ** The limit of [get_13f_filings] *)

Lemma recent_step_limit accs dates limit i form fs fs' :
  Z.of_nat (length fs) <= Z.max 0 limit /\ Forall (fun f => r_form f = "13F-HR") fs ->
  recent_step accs dates limit i form fs = Ok fs' ->
  Z.of_nat (length fs') <= Z.max 0 limit /\ Forall (fun f => r_form f = "13F-HR") fs'.
Proof.
  unfold recent_step. intros [Hlen Hfs] H.
  destruct (is_13f form && _) eqn:F; inv_bind; subst; [|done].
  apply andb_prop in F as [F%is_13f_eq L].
  rewrite length_app, Forall_app, Forall_singleton. simpl. split; [lia|done].
Qed.

(** [get_13f_filings] keeps at most [limit] entries, all of them
    13F-HR filings. *)
Lemma select_recent_13f_limit fd limit fs :
  select_recent_13f fd limit = Ok fs ->
  Z.of_nat (length fs) <= Z.max 0 limit /\ Forall (fun f => r_form f = "13F-HR") fs.
Proof.
  apply (for_enumerate_inv _ (fun fs =>
    Z.of_nat (length fs) <= Z.max 0 limit /\ Forall (fun f => r_form f = "13F-HR") fs)).
  - intros i x st st'. apply recent_step_limit.
  - split; [simpl; lia|constructor].
Qed.

(** ** The theorems on an index of three rows *)

Lemma process_filing_data_refines_witness :
  _process_filing_data
    (filing_data_of_rows [("4", "x", "2021-12-01");
                          ("13F-HR", "0001067983-21-000012", "2021-11-15");
                          ("13F-HR", "y", "2003-02-14")]) 2005 2022 =
  Ok (select_13f 2005 2022 [("4", "x", "2021-12-01");
                            ("13F-HR", "0001067983-21-000012", "2021-11-15");
                            ("13F-HR", "y", "2003-02-14")]).
Proof.
  apply (process_filing_data_refines
    [("4", "x", "2021-12-01"); ("13F-HR", "0001067983-21-000012", "2021-11-15");
     ("13F-HR", "y", "2003-02-14")] 2005 2022).
  repeat constructor.
Defined.

Lemma process_filing_data_raises_witness :
  ValueError = IndexError \/ ValueError = ValueError.
Proof.
  apply (process_filing_data_raises
    {| fd_form := Some ["13F-HR"]; fd_accession := Some ["a"];
       fd_dates := Some ["n/a"]; fd_other := false |} 2005 2022 ValueError).
  reflexivity.
Defined.

Lemma process_filing_data_short_dates_witness :
  _process_filing_data
    {| fd_form := Some ((row_form <$> [("13F-HR", "a", "2021-11-15")]) ++ "13F-HR" :: ["4"]);
       fd_accession := Some ((row_accession <$> [("13F-HR", "a", "2021-11-15")]) ++ ["b"; "c"]);
       fd_dates := Some (row_date <$> [("13F-HR", "a", "2021-11-15")]);
       fd_other := false |} 2005 2022
  = Raise IndexError.
Proof.
  apply (process_filing_data_short_dates [("13F-HR", "a", "2021-11-15")]
           "13F-HR" ["4"] ["b"; "c"] 2005 2022).
  - repeat constructor.
  - reflexivity.
Defined.
