(* ===== verification/Net.v ===== *)
(** * Net: the archive host, the clock and the console as a trace

    What the methods do to the world is a list of events, oldest first:
    a request with the answer it got, a delay, a line printed.  The host
    is any function from the history so far and a URL to an answer
    ([None]: [requests.get] raised), so that an answer may change from one
    request to the next (a transient failure).

    A response carries its status, its text and, when the body is JSON,
    the document; the document is read through the keys the code reads
    ([filings.recent], [filings.files[].name] and the three arrays of an
    archived shard).  Request headers and the time-out are not modelled. *)

From Stdlib Require Import String Ascii ZArith Lia.
From stdpp Require Import base tactics option list strings.
From S2P Require Import Prelude PyRuntime Filings.

#[local] Open Scope string_scope.
#[local] Open Scope Z_scope.
#[local] Open Scope list_scope.

(** An entry of [filings.files]: [name] may be missing. *)
Record file_info := { fi_name : option string }.

(** [data['filings']] *)
Record filings_obj := {
  recent : filing_data;
  files : list file_info;
}.

(** [{}.get('recent', {})] and [{}.get('files', [])] *)
Definition empty_filings_obj : filings_obj :=
  {| recent := empty_filing_data; files := [] |}.

(** A JSON document of the host: the [filings] object of a submissions
    page, and the top-level arrays of an archived shard. *)
Record json_doc := {
  filings : option filings_obj;
  top_level : filing_data;
}.

Record response := {
  status_code : Z;
  text : string;
  json_body : option json_doc;
}.

Inductive event :=
| EGet (url : string) (answer : option response)
| ESleep (millis : Z)
| EPrint.

Definition trace := list event.

#[global] Instance file_info_eq_dec : EqDecision file_info.
Proof. solve_decision. Defined.
#[global] Instance filings_obj_eq_dec : EqDecision filings_obj.
Proof. solve_decision. Defined.
#[global] Instance json_doc_eq_dec : EqDecision json_doc.
Proof. solve_decision. Defined.
#[global] Instance response_eq_dec : EqDecision response.
Proof. solve_decision. Defined.
#[global] Instance event_eq_dec : EqDecision event.
Proof. solve_decision. Defined.

(** The host. *)
Class Net := { respond : trace -> string -> option response }.

(** A host that answers by URL alone. *)
Definition static_net (pages : string -> option response) : Net :=
  {| respond := fun _ url => pages url |}.

Definition emit (e : event) : io trace unit := fun tr => (Ok tt, tr ++ [e]).

(** [requests.get(url, headers=self.headers, timeout=15)] *)
Definition requests_get `{Net} (url : string) : io trace response :=
  fun tr =>
    let answer := respond tr url in
    (from_option RequestException answer, tr ++ [EGet url answer]).

(** [time.sleep(seconds)], in milliseconds *)
Definition sleep (millis : Z) : io trace unit := emit (ESleep millis).

(** [print(...)]: the text is not kept. *)
Definition print : io trace unit := emit EPrint.

(** [response.json()] *)
Definition response_json (r : response) : result json_doc :=
  from_option JSONDecodeError (json_body r).

(** ** Observations on traces *)

Definition is_get (e : event) : bool :=
  match e with EGet _ _ => true | _ => false end.

(** The URLs requested, in order. *)
Definition requested (tr : trace) : list string :=
  omap (fun e => match e with EGet u _ => Some u | _ => None end) tr.

(** The answers received, in order. *)
Definition answers (tr : trace) : list (option response) :=
  omap (fun e => match e with EGet _ a => Some a | _ => None end) tr.

(** [throttled tr]: no request follows another without a delay between
    them (lines printed do not count). *)
Fixpoint throttled_from (pending : bool) (tr : trace) : bool :=
  match tr with
  | [] => true
  | EGet _ _ :: tr' => negb pending && throttled_from true tr'
  | ESleep _ :: tr' => throttled_from false tr'
  | EPrint :: tr' => throttled_from pending tr'
  end.

Definition throttled (tr : trace) : bool := throttled_from false tr.

(** ** Facts *)

Lemma requested_app tr1 tr2 : requested (tr1 ++ tr2) = requested tr1 ++ requested tr2.
Proof. apply omap_app. Qed.

Lemma answers_app tr1 tr2 : answers (tr1 ++ tr2) = answers tr1 ++ answers tr2.
Proof. apply omap_app. Qed.

(** Every operation only appends to the trace. *)
Definition extends {A} (m : io trace A) : Prop :=
  forall tr, exists evs, (m tr).2 = tr ++ evs.

Lemma extends_ret {A} (a : A) : extends (io_ret a).
Proof. intros tr. exists []. by rewrite app_nil_r. Qed.

Lemma extends_lift {A} (r : result A) : extends (io_lift r).
Proof. intros tr. exists []. by rewrite app_nil_r. Qed.

Lemma extends_emit e : extends (emit e).
Proof. intros tr. by exists [e]. Qed.

Lemma extends_get `{Net} url : extends (requests_get url).
Proof. intros tr. by eexists [_]. Qed.

Lemma extends_bind {A B} (m : io trace A) (k : A -> io trace B) :
  extends m -> (forall a, extends (k a)) -> extends (io_bind m k).
Proof.
  intros Hm Hk tr. unfold io_bind. destruct (Hm tr) as [e1 E1].
  destruct (m tr) as [[a|e] tr1]; simpl in *; subst.
  - destruct (Hk a (tr ++ e1)) as [e2 E2]. exists (e1 ++ e2).
    by rewrite E2, <- app_assoc.
  - by exists e1.
Qed.

Lemma extends_try {A} (m : io trace A) (h : exn -> io trace A) :
  extends m -> (forall e, extends (h e)) -> extends (io_try m h).
Proof.
  intros Hm Hh tr. unfold io_try. destruct (Hm tr) as [e1 E1].
  destruct (m tr) as [[a|e] tr1]; simpl in *; subst.
  - by exists e1.
  - destruct (Hh e (tr ++ e1)) as [e2 E2]. exists (e1 ++ e2).
    by rewrite E2, <- app_assoc.
Qed.

Lemma extends_foldl {A T} (body : A -> T -> io trace T) l st :
  (forall x s, extends (body x s)) -> extends (io_foldl body l st).
Proof.
  intros Hb. revert st. induction l as [|x l IH]; intros st; simpl.
  - apply extends_ret.
  - apply extends_bind; auto.
Qed.

(** A handler that returns makes the whole [try] return. *)
Lemma io_try_ok {A} (m : io trace A) (h : exn -> io trace A) tr :
  (forall e tr', is_ok (h e tr').1 = true) -> is_ok (io_try m h tr).1 = true.
Proof.
  intros Hh. unfold io_try. destruct (m tr) as [[a|e] tr1]; simpl; auto.
Qed.

#[export] Hint Resolve extends_ret extends_lift extends_emit extends_get
  extends_bind extends_try extends_foldl : tt.
