(* ===== verification/Crawler.v ===== *)
(** * Crawler: the filing index of an institution

    Models [InstitutionalTracker.get_historical_13f_filings] and
    [get_13f_filings] (src/datafetcher/institutional_tracker.py) and
    [SimplifiedInstitutionalTracker.get_comprehensive_13f_history]
    (src/datafetcher/simplified_institutional.py): the request for the
    submissions page, the loop over the archived shards with its inner
    [try], the delay after a shard, the final sort, and the outer [try]
    that turns every exception into an empty list. *)

From Stdlib Require Import String Ascii ZArith Lia Sorted Permutation.
From stdpp Require Import base tactics option list strings.
From S2P Require Import Prelude PyRuntime Filings Net.

#[local] Open Scope string_scope.
#[local] Open Scope Z_scope.
#[local] Open Scope list_scope.

(** [self.base_url] *)
Definition base_url : string := "https://data.sec.gov".

(** [f"{self.base_url}/submissions/CIK{formatted_cik}.json"] *)
Definition submissions_url (cik : string) : string :=
  base_url +:+ "/submissions/CIK" +:+ Py.zfill 10 cik +:+ ".json".

(** [f"{self.base_url}/submissions/{file_info['name']}"] *)
Definition archive_url (name : string) : string :=
  base_url +:+ "/submissions/" +:+ name.

(** [file_info['name']] *)
Definition file_name (file_info : file_info) : result string :=
  from_option KeyError (fi_name file_info).

Section Crawler.
Context {net : Net}.

(** ** [get_historical_13f_filings] *)

(** The body of [for file_info in archived_files], with its [try].  The
    handler formats [file_info['name']] again before it prints. *)
Definition fetch_shard (start_year end_year : Z) (file_info : file_info)
    (all_filings : list filing) : io trace (list filing) :=
  io_try
    (name <~ io_lift (file_name file_info) ;;
     archive_response <~ requests_get (archive_url name) ;;
     all_filings' <~
       (if status_code archive_response =? 200 then
          archive_data <~ io_lift (response_json archive_response) ;;
          filings <~ io_lift
            (_process_filing_data (top_level archive_data) start_year end_year) ;;
          io_ret (all_filings ++ filings)
        else io_ret all_filings) ;;
     sleep 200 ;;;
     io_ret all_filings')
    (fun e =>
       name <~ io_lift (file_name file_info) ;;
       print ;;;
       io_ret all_filings).

(** [now_year] is [datetime.now().year], read when [end_year] is [None]. *)
Definition get_historical_13f_filings (now_year : Z) (cik : string)
    (start_year : Z) (end_year : option Z) : io trace (list filing) :=
  let end_year := default now_year end_year in
  io_try
    (response <~ requests_get (submissions_url cik) ;;
     if status_code response =? 200 then
       data <~ io_lift (response_json response) ;;
       let filings_obj := default empty_filings_obj (filings data) in
       let recent_filings := recent filings_obj in
       all_filings <~
         (if dict_truthy recent_filings then
            io_lift (_process_filing_data recent_filings start_year end_year)
          else io_ret []) ;;
       let archived_files := files filings_obj in
       all_filings <~
         io_foldl (fetch_shard start_year end_year) archived_files all_filings ;;
       io_ret (sort_desc filing_date Py.str_leb all_filings)
     else
       print ;;;
       io_ret [])
    (fun e => print ;;; io_ret []).

(** ** [get_13f_filings] *)

Definition get_13f_filings (cik : string) (limit : Z)
  : io trace (list recent_filing) :=
  io_try
    (response <~ requests_get (submissions_url cik) ;;
     if status_code response =? 200 then
       data <~ io_lift (response_json response) ;;
       let filings := recent (default empty_filings_obj (filings data)) in
       io_lift (select_recent_13f filings limit)
     else
       print ;;;
       io_ret [])
    (fun e => print ;;; io_ret []).

(** ** [get_comprehensive_13f_history] *)

Definition fetch_shard_quarterly (now_year years_back : Z)
    (file_info : file_info) (all_filings : list quarterly_filing)
  : io trace (list quarterly_filing) :=
  io_try
    (name <~ io_lift (file_name file_info) ;;
     archive_response <~ requests_get (archive_url name) ;;
     all_filings' <~
       (if status_code archive_response =? 200 then
          archive_data <~ io_lift (response_json archive_response) ;;
          filings <~ io_lift
            (_extract_13f_filings now_year (top_level archive_data) years_back) ;;
          io_ret (all_filings ++ filings)
        else io_ret all_filings) ;;
     sleep 200 ;;;
     io_ret all_filings')
    (fun e =>
       name <~ io_lift (file_name file_info) ;;
       print ;;;
       io_ret all_filings).

Definition get_comprehensive_13f_history (now_year : Z) (cik : string)
    (years_back : Z) : io trace (list quarterly_filing) :=
  io_try
    (response <~ requests_get (submissions_url cik) ;;
     if status_code response =? 200 then
       data <~ io_lift (response_json response) ;;
       let filings_obj := default empty_filings_obj (filings data) in
       let recent_filings := recent filings_obj in
       all_filings <~
         (if dict_truthy recent_filings then
            io_lift (_extract_13f_filings now_year recent_filings years_back)
          else io_ret []) ;;
       let archived_files := files filings_obj in
       all_filings <~
         io_foldl (fetch_shard_quarterly now_year years_back)
           archived_files all_filings ;;
       io_ret (sort_desc q_filing_date Py.str_leb all_filings)
     else io_ret [])
    (fun e => print ;;; io_ret []).

End Crawler.

(** ** The crawl, once for both trackers *)

Section Generic.
Context {net : Net} {X : Type}.
Variables (process : filing_data -> result (list X)) (key : X -> string).
Variable (verbose : bool).

Definition fetch_shard_with (file_info : file_info) (all_filings : list X)
  : io trace (list X) :=
  io_try
    (name <~ io_lift (file_name file_info) ;;
     archive_response <~ requests_get (archive_url name) ;;
     all_filings' <~
       (if status_code archive_response =? 200 then
          archive_data <~ io_lift (response_json archive_response) ;;
          filings <~ io_lift (process (top_level archive_data)) ;;
          io_ret (all_filings ++ filings)
        else io_ret all_filings) ;;
     sleep 200 ;;;
     io_ret all_filings')
    (fun e =>
       name <~ io_lift (file_name file_info) ;;
       print ;;;
       io_ret all_filings).

Definition crawl_with (cik : string) : io trace (list X) :=
  io_try
    (response <~ requests_get (submissions_url cik) ;;
     if status_code response =? 200 then
       data <~ io_lift (response_json response) ;;
       let filings_obj := default empty_filings_obj (filings data) in
       let recent_filings := recent filings_obj in
       all_filings <~
         (if dict_truthy recent_filings then io_lift (process recent_filings)
          else io_ret []) ;;
       all_filings <~
         io_foldl fetch_shard_with (files filings_obj) all_filings ;;
       io_ret (sort_desc key Py.str_leb all_filings)
     else
       (if verbose then print else io_ret tt) ;;;
       io_ret [])
    (fun e => print ;;; io_ret []).

(** What an answer to a shard request is worth. *)
Definition shard_result (answer : option response) : result (list X) :=
  r <- from_option RequestException answer ;;
  if status_code r =? 200 then
    d <- response_json r ;; process (top_level d)
  else Ok [].

Definition shard_items (answer : option response) : list X :=
  match shard_result answer with Ok xs => xs | Raise _ => [] end.

(** What follows the request in the trace: the delay, or the line the
    handler prints. *)
Definition shard_tail (answer : option response) : event :=
  if is_ok (shard_result answer) then ESleep 200 else EPrint.

Definition named (n : string) : file_info := {| fi_name := Some n |}.

(** The answers the host gives to the shard requests of a crawl that
    starts from history [tr], and the events of that crawl. *)
Fixpoint shard_answers (names : list string) (tr : trace)
  : list (option response) :=
  match names with
  | [] => []
  | n :: names' =>
      let a := respond tr (archive_url n) in
      a :: shard_answers names' (tr ++ [EGet (archive_url n) a; shard_tail a])
  end.

Definition shard_events (names : list string) (answers : list (option response))
  : trace :=
  concat (zip_with (fun n a => [EGet (archive_url n) a; shard_tail a]) names answers).

(** What the recent list is worth. *)
Definition recent_result (fo : filings_obj) : result (list X) :=
  if dict_truthy (recent fo) then process (recent fo) else Ok [].

Definition index_ok (tr : trace) (cik : string) (r : response) (fo : filings_obj) : Prop :=
  respond tr (submissions_url cik) = Some r /\
  status_code r = 200 /\
  exists d, json_body r = Some d /\ default empty_filings_obj (filings d) = fo.

End Generic.

(** ** A host to run the crawl on *)

Definition ok_page (d : json_doc) : response :=
  {| status_code := 200; text := ""; json_body := Some d |}.

Definition shard_page (rows : list row) : response :=
  ok_page {| filings := None; top_level := filing_data_of_rows rows |}.

Definition demo_recent : filing_data :=
  filing_data_of_rows [("13F-HR", "r1", "2024-02-14"); ("4", "r2", "2024-01-05")].

(** A host with the submissions page [fo] of CIK 1067983 and four shards:
    shard 2 answers 500, shard 3 does not answer at all. *)
Definition demo_pages (fo : filings_obj) (url : string) : option response :=
  if String.eqb url (submissions_url "1067983") then
    Some (ok_page {| filings := Some fo; top_level := empty_filing_data |})
  else if String.eqb url (archive_url "s1.json") then
    Some (shard_page [("13F-HR", "a1", "2012-05-15"); ("13F-HR", "a2", "2011-05-15")])
  else if String.eqb url (archive_url "s2.json") then
    Some {| status_code := 500; text := ""; json_body := None |}
  else if String.eqb url (archive_url "s4.json") then
    Some (shard_page [("13F-HR", "b1", "2024-05-15"); ("13F-HR", "b2", "2001-05-15")])
  else None.

Definition demo_net (fo : filings_obj) : Net := static_net (demo_pages fo).

Definition demo_index (files : list file_info) : filings_obj :=
  {| recent := demo_recent; files := files |}.

Definition demo_shards : list string := ["s1.json"; "s2.json"; "s3.json"; "s4.json"].

(** ** Facts about the crawl *)

Section GenericFacts.
Context {net : Net} {X : Type}.
Variables (process : filing_data -> result (list X)) (key : X -> string).
Variable (verbose : bool).

#[local] Abbreviation fetch_shard_with := (fetch_shard_with process).
#[local] Abbreviation crawl_with := (crawl_with process key verbose).
#[local] Abbreviation shard_result := (shard_result process).
#[local] Abbreviation shard_items := (shard_items process).
#[local] Abbreviation shard_tail := (shard_tail process).
#[local] Abbreviation shard_answers := (shard_answers process).
#[local] Abbreviation shard_events := (shard_events process).
#[local] Abbreviation recent_result := (recent_result process).

Lemma fetch_shard_named n acc tr :
  let a := respond tr (archive_url n) in
  fetch_shard_with (named n) acc tr =
  (Ok (acc ++ shard_items a), tr ++ [EGet (archive_url n) a; shard_tail a]).
Proof.
  unfold fetch_shard_with, shard_items, shard_tail, shard_result, io_try,
    io_bind, io_lift, requests_get, sleep, print, emit, io_ret. simpl.
  destruct (respond tr (archive_url n)) as [r|]; simpl.
  2:{ by rewrite app_nil_r, <- app_assoc. }
  destruct (status_code r =? 200); simpl.
  2:{ by rewrite app_nil_r, <- app_assoc. }
  unfold response_json. destruct (json_body r) as [d|]; simpl.
  2:{ by rewrite app_nil_r, <- app_assoc. }
  destruct (process (top_level d)); simpl; by rewrite ?app_nil_r, <- app_assoc.
Qed.

Lemma fetch_shard_nameless acc tr :
  fetch_shard_with {| fi_name := None |} acc tr = (Raise KeyError, tr).
Proof. reflexivity. Qed.

(** The loop over named shards requests each of them, in order, and
    collects what each answer is worth: a shard that fails adds nothing
    and stops nothing. *)
Lemma shards_run names acc tr :
  io_foldl fetch_shard_with (named <$> names) acc tr =
    (Ok (acc ++ concat (shard_items <$> shard_answers names tr)),
     tr ++ shard_events names (shard_answers names tr)).
Proof.
  revert acc tr. induction names as [|n names IH]; intros acc tr; csimpl.
  { by rewrite !app_nil_r. }
  unfold io_bind. rewrite fetch_shard_named, IH.
  unfold shard_events. csimpl. by rewrite <- !app_assoc.
Qed.

Lemma shards_nameless fs acc tr :
  {| fi_name := None |} ∈ fs ->
  (io_foldl fetch_shard_with fs acc tr).1 = Raise KeyError.
Proof.
  revert acc tr. induction fs as [|[[n|]] fs IH]; intros acc tr Hin.
  - by apply elem_of_nil in Hin.
  - apply elem_of_cons in Hin as [[=]|Hin]. simpl. unfold io_bind.
    rewrite (fetch_shard_named n). by apply IH.
  - done.
Qed.

Lemma length_shard_answers names tr :
  length (shard_answers names tr) = length names.
Proof. revert tr. induction names; intros tr; simpl; auto. Qed.

Lemma requested_shard_events names answers :
  length answers = length names ->
  requested (shard_events names answers) = archive_url <$> names.
Proof.
  revert answers. induction names as [|n names IH]; intros [|a answers] Hl;
    try done. unfold shard_events, requested in *. csimpl.
  unfold shard_tail. destruct (is_ok _); csimpl; f_equal; apply IH;
    simpl in Hl; lia.
Qed.

(** ** The whole crawl *)

Lemma crawl_with_index cik tr r fo :
  index_ok tr cik r fo ->
  crawl_with cik tr =
  io_try
    (all_filings <~ io_lift (recent_result fo) ;;
     all_filings <~ io_foldl fetch_shard_with (files fo) all_filings ;;
     io_ret (sort_desc key Py.str_leb all_filings))
    (fun e => print ;;; io_ret [])
    (tr ++ [EGet (submissions_url cik) (Some r)]).
Proof.
  intros (Hr & Hs & d & Hd & <-).
  unfold crawl_with, io_try at 1 2, io_bind at 1 2 5, requests_get. rewrite Hr. simpl.
  rewrite Hs. simpl. unfold io_lift at 1, response_json. rewrite Hd. simpl.
  unfold recent_result. by destruct (dict_truthy _).
Qed.

Lemma crawl_with_complete cik tr r fo names rfs :
  index_ok tr cik r fo ->
  files fo = named <$> names ->
  recent_result fo = Ok rfs ->
  let tr1 := tr ++ [EGet (submissions_url cik) (Some r)] in
  let answers := shard_answers names tr1 in
  crawl_with cik tr =
    (Ok (sort_desc key Py.str_leb (rfs ++ concat (shard_items <$> answers))),
     tr1 ++ shard_events names answers).
Proof.
  intros Hi Hf Hr. simpl. rewrite (crawl_with_index _ _ _ _ Hi), Hf, Hr.
  unfold io_try, io_bind, io_lift. by rewrite shards_run.
Qed.

Lemma crawl_with_recent_raises cik tr r fo e :
  index_ok tr cik r fo ->
  recent_result fo = Raise e ->
  crawl_with cik tr = (Ok [], tr ++ [EGet (submissions_url cik) (Some r); EPrint]).
Proof.
  intros Hi Hr. rewrite (crawl_with_index _ _ _ _ Hi), Hr.
  unfold io_try, io_bind, io_lift, print, emit, io_ret. simpl.
  by rewrite <- app_assoc.
Qed.

Lemma crawl_with_nameless cik tr r fo rfs :
  index_ok tr cik r fo ->
  recent_result fo = Ok rfs ->
  {| fi_name := None |} ∈ files fo ->
  (crawl_with cik tr).1 = Ok [].
Proof.
  intros Hi Hr Hin. rewrite (crawl_with_index _ _ _ _ Hi), Hr.
  unfold io_try, io_bind at 1, io_lift.
  pose proof (shards_nameless (files fo) rfs
    (tr ++ [EGet (submissions_url cik) (Some r)]) Hin) as E.
  unfold io_bind. destruct (io_foldl _ _ _ _) as [[x|e] tr2]; simpl in *; done.
Qed.

(** ** What every crawl guarantees *)

Lemma crawl_with_total cik : total (crawl_with cik).
Proof.
  apply total_try. intros e. apply total_bind; [done|]. intros _. apply total_ret.
Qed.

Section Post.
Context (P : X -> Prop).
Hypothesis process_post : forall fd xs, process fd = Ok xs -> Forall P xs.

Lemma shard_items_post a : Forall P (shard_items a).
Proof.
  unfold shard_items, shard_result. destruct a as [r|]; simpl; [|done].
  destruct (status_code r =? 200); [|done].
  destruct (response_json r) as [d|]; simpl; [|done].
  destruct (process (top_level d)) eqn:E; [eauto|done].
Qed.

Lemma fetch_shard_with_post fi acc :
  Forall P acc -> returns (fetch_shard_with fi acc) (Forall P).
Proof.
  intros Hacc tr xs tr'. destruct fi as [[n|]]; [|done].
  rewrite (fetch_shard_named n). intros [= <- _].
  apply Forall_app. split; [done|apply shard_items_post].
Qed.

Definition crawl_post (xs : list X) : Prop :=
  Forall P xs /\ Sorted (desc key Py.str_leb) xs.

Lemma crawl_post_nil : crawl_post [].
Proof. split; constructor. Qed.

Lemma crawl_post_sort xs : Forall P xs -> crawl_post (sort_desc key Py.str_leb xs).
Proof.
  intros H. split.
  - by rewrite (sort_desc_perm key Py.str_leb xs).
  - apply sort_desc_sorted, Py.str_leb_total.
Qed.

Lemma crawl_with_post cik : returns (crawl_with cik) crawl_post.
Proof.
  apply returns_try.
  2:{ intros e. apply returns_bind_any. intros _. apply returns_ret, crawl_post_nil. }
  apply returns_bind_any. intros r.
  destruct (status_code r =? 200).
  2:{ apply returns_bind_any. intros _. apply returns_ret, crawl_post_nil. }
  apply returns_bind_any. intros d.
  eapply returns_bind with (P := Forall P).
  { destruct (dict_truthy _); [apply returns_lift, process_post|by apply returns_ret]. }
  intros xs Hxs. eapply returns_bind with (P := Forall P).
  { apply returns_foldl; [|done]. intros fi st. apply fetch_shard_with_post. }
  intros ys Hys. apply returns_ret, crawl_post_sort, Hys.
Qed.

End Post.

(** ** The delay between shard requests *)

Lemma throttled_shard_events pending names answers :
  Forall (fun a => is_ok (shard_result a) = true) answers ->
  throttled_from pending (shard_events names answers) =
  negb (pending && bool_decide (shard_events names answers <> [])).
Proof.
  intros Hok. revert pending names.
  induction Hok as [|a answers Ha _ IH]; intros pending [|n names]; csimpl;
    try by rewrite andb_false_r.
  unfold shard_events in *. csimpl. unfold shard_tail. rewrite Ha. simpl.
  rewrite IH. simpl. by destruct pending.
Qed.

End GenericFacts.

(** ** The methods are crawls *)

Lemma get_historical_13f_filings_is_crawl {net : Net} now cik s e :
  get_historical_13f_filings now cik s e =
  crawl_with (fun fd => _process_filing_data fd s (default now e))
    filing_date true cik.
Proof. reflexivity. Qed.

Lemma get_comprehensive_13f_history_is_crawl {net : Net} now cik years_back :
  get_comprehensive_13f_history now cik years_back =
  crawl_with (fun fd => _extract_13f_filings now fd years_back)
    q_filing_date false cik.
Proof. reflexivity. Qed.

Lemma get_historical_13f_filings_total {net : Net} now cik s e :
  total (get_historical_13f_filings now cik s e).
Proof. rewrite get_historical_13f_filings_is_crawl. apply crawl_with_total. Qed.

Lemma get_historical_13f_filings_post {net : Net} now cik s e :
  returns (get_historical_13f_filings now cik s e)
    (crawl_post filing_date (filing_wf s (default now e))).
Proof.
  rewrite get_historical_13f_filings_is_crawl.
  apply crawl_with_post. intros fd xs. apply process_filing_data_wf.
Qed.

Lemma get_comprehensive_13f_history_total {net : Net} now cik years_back :
  total (get_comprehensive_13f_history now cik years_back).
Proof. rewrite get_comprehensive_13f_history_is_crawl. apply crawl_with_total. Qed.

Lemma get_comprehensive_13f_history_post {net : Net} now cik years_back :
  returns (get_comprehensive_13f_history now cik years_back)
    (crawl_post q_filing_date (quarterly_wf (now - years_back))).
Proof.
  rewrite get_comprehensive_13f_history_is_crawl.
  apply crawl_with_post. intros fd xs. apply extract_13f_filings_wf.
Qed.

(** C6. [get_historical_13f_filings] never raises, whatever the host does,
    and what it returns is sorted by filing date, newest first, and holds
    only 13F-HR filings of the requested years whose year is that of
    their date. *)
Theorem get_historical_13f_filings_sorted {net : Net} now cik s e tr :
  exists fs,
    (get_historical_13f_filings now cik s e tr).1 = Ok fs /\
    Forall (filing_wf s (default now e)) fs /\
    Sorted (desc filing_date Py.str_leb) fs.
Proof.
  apply total_returns;
    [apply get_historical_13f_filings_total|apply get_historical_13f_filings_post].
Qed.

(** The same for [get_comprehensive_13f_history]: it never raises and
    returns, newest first, 13F-HR filings not older than the cutoff with
    the year and quarter of their date. *)
Theorem get_comprehensive_13f_history_sorted {net : Net} now cik years_back tr :
  exists fs,
    (get_comprehensive_13f_history now cik years_back tr).1 = Ok fs /\
    Forall (quarterly_wf (now - years_back)) fs /\
    Sorted (desc q_filing_date Py.str_leb) fs.
Proof.
  apply total_returns;
    [apply get_comprehensive_13f_history_total
    |apply get_comprehensive_13f_history_post].
Qed.

(** C3. Resilience.  When the submissions page is served, the recent list
    is processed and every shard entry has a name, every shard is
    requested, in order, and the result is the sorted union of the recent
    entries and of the entries of each shard that answered well; a shard
    that fails contributes nothing and stops nothing. *)
Theorem get_historical_13f_filings_complete {net : Net}
    now cik s e tr r fo names rfs :
  let process := fun fd => _process_filing_data fd s (default now e) in
  index_ok tr cik r fo ->
  files fo = named <$> names ->
  recent_result process fo = Ok rfs ->
  let tr1 := tr ++ [EGet (submissions_url cik) (Some r)] in
  let answers := shard_answers process names tr1 in
  get_historical_13f_filings now cik s e tr =
    (Ok (sort_desc filing_date Py.str_leb
           (rfs ++ concat (shard_items process <$> answers))),
     tr1 ++ shard_events process names answers).
Proof.
  intros process. rewrite get_historical_13f_filings_is_crawl.
  apply crawl_with_complete.
Qed.

Lemma get_historical_13f_filings_complete_witness :
  (get_historical_13f_filings (net := demo_net (demo_index (named <$> demo_shards)))
     2025 "1067983" 2005 None []).1 =
  Ok [{| accession_number := "b1"; filing_date := "2024-05-15";
         form := "13F-HR"; filing_year := 2024 |};
      {| accession_number := "r1"; filing_date := "2024-02-14";
         form := "13F-HR"; filing_year := 2024 |};
      {| accession_number := "a1"; filing_date := "2012-05-15";
         form := "13F-HR"; filing_year := 2012 |};
      {| accession_number := "a2"; filing_date := "2011-05-15";
         form := "13F-HR"; filing_year := 2011 |}].
Proof.
  rewrite (get_historical_13f_filings_complete
    (net := demo_net (demo_index (named <$> demo_shards)))
    2025 "1067983" 2005 None []
    (ok_page {| filings := Some (demo_index (named <$> demo_shards));
                top_level := empty_filing_data |})
    (demo_index (named <$> demo_shards)) demo_shards
    [{| accession_number := "r1"; filing_date := "2024-02-14";
        form := "13F-HR"; filing_year := 2024 |}]).
  - reflexivity.
  - split; [reflexivity|]. split; [reflexivity|]. by eexists.
  - reflexivity.
  - reflexivity.
Defined.

(** On a host that answers by URL alone the answers are the pages. *)
Lemma shard_answers_static {X} (process : filing_data -> result (list X))
    pages names tr :
  shard_answers (net := static_net pages) process names tr =
  pages ∘ archive_url <$> names.
Proof.
  revert tr. induction names as [|n names IH]; intros tr; csimpl; [done|].
  by rewrite IH.
Qed.

(** Resilience, on a host that answers by URL: the result is the
    sorted union of the recent entries and of the entries of every shard
    page that is served with status 200 and parses; the other shards do
    not matter. *)
Theorem get_historical_13f_filings_static pages now cik s e tr r fo names rfs :
  let process := fun fd => _process_filing_data fd s (default now e) in
  index_ok (net := static_net pages) tr cik r fo ->
  files fo = named <$> names ->
  recent_result process fo = Ok rfs ->
  (get_historical_13f_filings (net := static_net pages) now cik s e tr).1 =
    Ok (sort_desc filing_date Py.str_leb
          (rfs ++ concat (shard_items process ∘ pages ∘ archive_url <$> names))).
Proof.
  intros process Hi Hf Hr.
  rewrite get_historical_13f_filings_is_crawl,
    (crawl_with_complete _ _ _ _ _ _ _ _ _ Hi Hf Hr).
  simpl. by rewrite shard_answers_static, <- list_fmap_compose.
Qed.

(** ** Delays *)

(** Between shard requests the crawl sleeps: when no shard request
    ends in an exception, the events after the request for the
    submissions page never show two requests without a delay between
    them. *)
Theorem shard_requests_throttled {net : Net} now cik s e tr r fo names rfs :
  let process := fun fd => _process_filing_data fd s (default now e) in
  index_ok tr cik r fo ->
  files fo = named <$> names ->
  recent_result process fo = Ok rfs ->
  Forall (fun a => is_ok (shard_result process a) = true)
    (shard_answers process names (tr ++ [EGet (submissions_url cik) (Some r)])) ->
  throttled (drop (S (length tr))
    (get_historical_13f_filings now cik s e tr).2) = true.
Proof.
  intros process Hi Hf Hr Hok.
  rewrite get_historical_13f_filings_is_crawl,
    (crawl_with_complete _ _ _ _ _ _ _ _ _ Hi Hf Hr).
  simpl. rewrite drop_app_length' by (rewrite length_app; simpl; lia).
  unfold throttled. by rewrite throttled_shard_events.
Qed.

(** The first shard request follows the request for the submissions
    page with no delay: as soon as there is a shard, the crawl as a whole
    is not throttled. *)
Theorem first_shard_not_throttled {net : Net} now cik s e tr r fo n names rfs :
  let process := fun fd => _process_filing_data fd s (default now e) in
  index_ok tr cik r fo ->
  files fo = named <$> (n :: names) ->
  recent_result process fo = Ok rfs ->
  throttled (drop (length tr)
    (get_historical_13f_filings now cik s e tr).2) = false.
Proof.
  intros process Hi Hf Hr.
  rewrite get_historical_13f_filings_is_crawl,
    (crawl_with_complete _ _ _ _ _ _ _ _ _ Hi Hf Hr).
  simpl. by rewrite <- app_assoc, drop_app_length.
Qed.

(** A shard request that ends in an exception is followed by no delay:
    on the demo host the request for shard 4 follows that for shard 3
    with only a printed line between them. *)
Example failed_shard_not_throttled :
  let tr := (get_historical_13f_filings
    (net := demo_net (demo_index (named <$> demo_shards)))
    2025 "1067983" 2005 None []).2 in
  requested (drop 5 tr) = [archive_url "s3.json"; archive_url "s4.json"] /\
  throttled (drop 5 tr) = false.
Proof. by vm_compute. Qed.

(** ** Aborted crawls *)

(** C40. A shard entry without a name raises [KeyError] a second time
    inside the handler of the shard's [try], which the outer handler
    turns into an empty result: the recent entries and the entries of the
    other shards are lost. *)
Theorem get_historical_13f_filings_nameless {net : Net} now cik s e tr r fo rfs :
  index_ok tr cik r fo ->
  recent_result (fun fd => _process_filing_data fd s (default now e)) fo = Ok rfs ->
  {| fi_name := None |} ∈ files fo ->
  (get_historical_13f_filings now cik s e tr).1 = Ok [].
Proof.
  rewrite get_historical_13f_filings_is_crawl. apply crawl_with_nameless.
Qed.

(** When the recent list cannot be processed (arrays of different
    lengths, a date without a year), the crawl returns nothing and
    requests no shard. *)
Theorem get_historical_13f_filings_recent_raises {net : Net} now cik s e tr r fo err :
  index_ok tr cik r fo ->
  recent_result (fun fd => _process_filing_data fd s (default now e)) fo = Raise err ->
  get_historical_13f_filings now cik s e tr =
    (Ok [], tr ++ [EGet (submissions_url cik) (Some r); EPrint]).
Proof.
  rewrite get_historical_13f_filings_is_crawl. apply crawl_with_recent_raises.
Qed.

(** ** [get_13f_filings] *)

(** [get_13f_filings] never raises, makes exactly one request, and
    returns at most [limit] entries, all of them 13F-HR filings. *)
Theorem get_13f_filings_spec {net : Net} cik limit tr :
  exists fs,
    (get_13f_filings cik limit tr).1 = Ok fs /\
    Z.of_nat (length fs) <= Z.max 0 limit /\
    Forall (fun f => r_form f = "13F-HR") fs /\
    requested (get_13f_filings cik limit tr).2 =
      requested tr ++ [submissions_url cik].
Proof.
  unfold get_13f_filings, io_try, io_bind, requests_get, io_lift, print, emit,
    io_ret.
  destruct (respond tr (submissions_url cik)) as [r|]; simpl;
    [destruct (status_code r =? 200); simpl;
      [destruct (response_json r) as [d|]; simpl;
        [destruct (select_recent_13f _ limit) as [fs|] eqn:E; simpl|]|]|];
    try (exists []; rewrite !requested_app; simpl; rewrite app_nil_r;
         split_and!; [done|lia|done|done]).
  exists fs. apply select_recent_13f_limit in E as [? ?].
  by rewrite requested_app.
Qed.

(** ** Witnesses *)

Lemma get_historical_13f_filings_static_witness :
  (get_historical_13f_filings
     (net := static_net (demo_pages (demo_index (named <$> demo_shards))))
     2025 "1067983" 2005 None []).1 =
  Ok (sort_desc filing_date Py.str_leb
        (select_13f 2005 2025 [("13F-HR", "r1", "2024-02-14")] ++
         concat (shard_items (fun fd => _process_filing_data fd 2005 2025)
                 ∘ demo_pages (demo_index (named <$> demo_shards))
                 ∘ archive_url <$> demo_shards))).
Proof.
  apply (get_historical_13f_filings_static
    (demo_pages (demo_index (named <$> demo_shards))) 2025 "1067983" 2005 None []
    (ok_page {| filings := Some (demo_index (named <$> demo_shards));
                top_level := empty_filing_data |})
    (demo_index (named <$> demo_shards)) demo_shards).
  - split; [reflexivity|]. split; [reflexivity|]. by eexists.
  - reflexivity.
  - reflexivity.
Defined.

Lemma shard_requests_throttled_witness :
  throttled (drop 1
    (get_historical_13f_filings
       (net := demo_net (demo_index (named <$> ["s1.json"; "s2.json"; "s4.json"])))
       2025 "1067983" 2005 None []).2) = true.
Proof.
  apply (shard_requests_throttled
    (net := demo_net (demo_index (named <$> ["s1.json"; "s2.json"; "s4.json"])))
    2025 "1067983" 2005 None []
    (ok_page {| filings := Some (demo_index (named <$> ["s1.json"; "s2.json"; "s4.json"]));
                top_level := empty_filing_data |})
    (demo_index (named <$> ["s1.json"; "s2.json"; "s4.json"]))
    ["s1.json"; "s2.json"; "s4.json"]
    (select_13f 2005 2025 [("13F-HR", "r1", "2024-02-14")])).
  - split; [reflexivity|]. split; [reflexivity|]. by eexists.
  - reflexivity.
  - reflexivity.
  - repeat constructor.
Defined.

Lemma first_shard_not_throttled_witness :
  throttled (drop 0
    (get_historical_13f_filings
       (net := demo_net (demo_index (named <$> demo_shards)))
       2025 "1067983" 2005 None []).2) = false.
Proof.
  apply (first_shard_not_throttled
    (net := demo_net (demo_index (named <$> demo_shards)))
    2025 "1067983" 2005 None []
    (ok_page {| filings := Some (demo_index (named <$> demo_shards));
                top_level := empty_filing_data |})
    (demo_index (named <$> demo_shards)) "s1.json" ["s2.json"; "s3.json"; "s4.json"]
    (select_13f 2005 2025 [("13F-HR", "r1", "2024-02-14")])).
  - split; [reflexivity|]. split; [reflexivity|]. by eexists.
  - reflexivity.
  - reflexivity.
Defined.

Lemma get_historical_13f_filings_nameless_witness :
  (get_historical_13f_filings
     (net := demo_net (demo_index [named "s1.json"; {| fi_name := None |}]))
     2025 "1067983" 2005 None []).1 = Ok [].
Proof.
  apply (get_historical_13f_filings_nameless
    (net := demo_net (demo_index [named "s1.json"; {| fi_name := None |}]))
    2025 "1067983" 2005 None []
    (ok_page {| filings := Some (demo_index [named "s1.json"; {| fi_name := None |}]);
                top_level := empty_filing_data |})
    (demo_index [named "s1.json"; {| fi_name := None |}])
    (select_13f 2005 2025 [("13F-HR", "r1", "2024-02-14")])).
  - split; [reflexivity|]. split; [reflexivity|]. by eexists.
  - reflexivity.
  - apply (bool_decide_unpack _). by vm_compute.
Defined.

Lemma get_historical_13f_filings_recent_raises_witness :
  get_historical_13f_filings
    (net := static_net (fun _ => Some (ok_page
       {| filings := Some {| recent := {| fd_form := Some ["13F-HR"];
                                         fd_accession := Some ["a"];
                                         fd_dates := Some [];
                                         fd_other := false |};
                            files := [named "s1.json"] |};
          top_level := empty_filing_data |})))
    2025 "1067983" 2005 None [] =
  (Ok [], [EGet (submissions_url "1067983") (Some (ok_page
       {| filings := Some {| recent := {| fd_form := Some ["13F-HR"];
                                         fd_accession := Some ["a"];
                                         fd_dates := Some [];
                                         fd_other := false |};
                            files := [named "s1.json"] |};
          top_level := empty_filing_data |})); EPrint]).
Proof.
  eapply (get_historical_13f_filings_recent_raises
    (net := static_net (fun _ => Some (ok_page
       {| filings := Some {| recent := {| fd_form := Some ["13F-HR"];
                                         fd_accession := Some ["a"];
                                         fd_dates := Some [];
                                         fd_other := false |};
                            files := [named "s1.json"] |};
          top_level := empty_filing_data |})))
    2025 "1067983" 2005 None [] _ _ IndexError).
  - split; [reflexivity|]. split; [reflexivity|]. by eexists.
  - reflexivity.
Defined.
