(* ===== verification/Disk.v ===== *)
(** * Disk: the files of a run

    The methods that save their tables ([fetch_and_save_institutional_data]
    and [track_major_institutions] of institutional_tracker.py,
    [create_comprehensive_institutional_dataset] of
    simplified_institutional.py, and the like in the other fetchers) call
    [os.makedirs], [os.path.join], [os.path.exists], [pd.read_csv] and
    [DataFrame.to_csv].  This file models those calls, for any type of
    rows.

    The world is the trace of Net.v and a disk, a finite map from paths to
    frames.  A frame is the list of its rows, so that [pd.concat] is the
    concatenation of lists.  [to_csv] replaces the frame of a path, or
    raises [OSError] where the environment (the class [Disk]) does not
    allow the write; a file that exists is read back as the frame that was
    written.  Both are idealisations: a write happens as a whole or not at
    all (pandas can leave a file truncated), and reading back coerces no
    type and raises no parse error.

    Two preorders relate the world before and after a run: [untouched P]
    (the paths outside [P] hold what they held) and [grown p] (the file
    [p] has kept its rows). *)

From Stdlib Require Import String Ascii ZArith Lia.
From stdpp Require Import base tactics option list strings gmap.
From S2P Require Import Prelude PyRuntime Net.

#[local] Open Scope string_scope.
#[local] Open Scope list_scope.

Record world (row : Type) : Type := {
  w_trace : trace;
  disk : gmap string (list row);
}.

Arguments w_trace {row} _.
Arguments disk {row} _.
Arguments Build_world {row} _ _.

(** What the environment allows: creating a directory, writing a path. *)
Class Disk := {
  can_make : string -> bool;
  writable : string -> bool;
}.

(** A disk that takes every write, and one on which no directory can be
    made. *)
Definition open_disk : Disk := {| can_make := fun _ => true; writable := fun _ => true |}.
Definition sealed_disk : Disk := {| can_make := fun _ => false; writable := fun _ => true |}.

Definition empty_world {row} : world row := {| w_trace := []; disk := ∅ |}.

(** [os.path.join(a, b)] *)
Definition path_join (a b : string) : string :=
  if String.prefix "/" b then b
  else if bool_decide (Re.last_char_or (Some "/"%char) a = Some "/"%char)
       then a +:+ b
       else a +:+ "/" +:+ b.

Section Disk.
Context {row : Type} {D : Disk}.

(** An operation on the trace, run in the world. *)
Definition on_trace {A} (m : io trace A) : io (world row) A :=
  fun w => let '(r, tr) := m (w_trace w) in (r, {| w_trace := tr; disk := disk w |}).

(** [os.path.exists(path)] *)
Definition exists_file (path : string) : io (world row) bool :=
  fun w => (Ok (bool_decide (is_Some (disk w !! path))), w).

(** [pd.read_csv(path)] *)
Definition read_csv (path : string) : io (world row) (list row) :=
  fun w => (from_option OSError (disk w !! path), w).

(** [os.makedirs(path, exist_ok=True)] *)
Definition makedirs (path : string) : io (world row) unit :=
  if can_make path then io_ret tt else io_raise OSError.

(** [df.to_csv(path, index=False)] *)
Definition to_csv (path : string) (df : list row) : io (world row) unit :=
  fun w =>
    if writable path
    then (Ok tt, {| w_trace := w_trace w; disk := <[path := df]> (disk w) |})
    else (Raise OSError, w).

(** Append to the existing file or create a new one. *)
Definition append_csv (path : string) (df : list row) : io (world row) unit :=
  ex <~ exists_file path ;;
  if ex then
    existing_df <~ read_csv path ;;
    to_csv path (existing_df ++ df)
  else to_csv path df.

(** ** Relations between the world before and after *)

(** The paths outside [P] hold what they held. *)
Definition untouched (P : string -> Prop) (w w' : world row) : Prop :=
  forall p, ~ P p -> disk w' !! p = disk w !! p.

(** The rows of the file [p], none when there is no file. *)
Definition content (p : string) (w : world row) : list row := default [] (disk w !! p).

(** The file [p] has kept its rows, and may have got more. *)
Definition grown (p : string) (w w' : world row) : Prop :=
  content p w `prefix_of` content p w'.

End Disk.

(** ** Paths *)

(** [ends s suffix]: [s.endswith(suffix)] *)
Definition ends (s suffix : string) : Prop := exists pre, s = pre +:+ suffix.

Lemma ends_app a b suffix : ends b suffix -> ends (a +:+ b) suffix.
Proof. intros [pre ->]. exists (a +:+ pre). by rewrite Py.append_assoc. Qed.

Lemma path_join_ends a b suffix : ends b suffix -> ends (path_join a b) suffix.
Proof.
  intros Hb. unfold path_join. destruct (String.prefix _ b); [done|].
  case_bool_decide; by repeat apply ends_app.
Qed.

Lemma append_suffix_inj x y s t :
  String.length s = String.length t -> x +:+ s = y +:+ t -> s = t.
Proof.
  intros Hl. revert y. induction x as [|c x IH]; intros [|d y] E.
  - done.
  - apply (f_equal String.length) in E. rewrite !Py.length_app in E. simpl in E. lia.
  - apply (f_equal String.length) in E. rewrite !Py.length_app in E. simpl in E. lia.
  - rewrite !Py.append_cons in E. injection E as _ E. eauto.
Qed.

Lemma ends_ne s t suffix suffix' :
  ends s suffix -> ends t suffix' ->
  String.length suffix = String.length suffix' -> suffix <> suffix' -> s <> t.
Proof. intros [x ->] [y ->] Hl Hne E. by apply Hne, (append_suffix_inj x y). Qed.

Lemma append_inj_l a b b' : a +:+ b = a +:+ b' -> b = b'.
Proof.
  induction a as [|c a IH]; [done|]. rewrite !Py.append_cons. intros [= E]. auto.
Qed.

Lemma append_inj_r a a' s : a +:+ s = a' +:+ s -> a = a'.
Proof.
  revert a'. induction a as [|c a IH]; intros [|c' a'] E.
  - done.
  - apply (f_equal String.length) in E. rewrite !Py.length_app in E. simpl in E. lia.
  - apply (f_equal String.length) in E. rewrite !Py.length_app in E. simpl in E. lia.
  - rewrite !Py.append_cons in E. injection E as -> E. f_equal. auto.
Qed.

(** Two relative names that join a directory to the same path are the
    same name. *)
Lemma path_join_inj a b b' :
  String.prefix "/" b = false -> String.prefix "/" b' = false ->
  path_join a b = path_join a b' -> b = b'.
Proof.
  unfold path_join. intros -> ->. case_bool_decide; intros E.
  - by apply append_inj_l in E.
  - by do 2 apply append_inj_l in E.
Qed.

(** ** Facts *)

Section DiskFacts.
Context {row : Type} {D : Disk}.

#[global] Instance untouched_preorder P : PreOrder (untouched (row:=row) P).
Proof.
  split; [by intros w p|]. intros w1 w2 w3 H1 H2 p Hp. by rewrite H2, H1.
Qed.

#[global] Instance grown_preorder p : PreOrder (grown (row:=row) p).
Proof.
  split; [intros w; unfold grown; reflexivity|].
  intros w1 w2 w3. unfold grown. intros H1 H2.
  by trans (content p w2).
Qed.

Lemma untouched_grown (P : string -> Prop) p (w w' : world row) : ~ P p -> untouched P w w' -> grown p w w'.
Proof. intros Hp H. unfold grown, content. by rewrite (H p Hp). Qed.

Lemma on_trace_disk {A} (m : io trace A) (w : world row) : disk (on_trace m w).2 = disk w.
Proof. unfold on_trace. by destruct (m (w_trace w)). Qed.

Lemma on_trace_untouched {A} (m : io trace A) P :
  keeps (untouched P) (on_trace (row:=row) m).
Proof. intros w p _. by rewrite on_trace_disk. Qed.

Lemma on_trace_grown {A} (m : io trace A) p :
  keeps (grown p) (on_trace (row:=row) m).
Proof. intros w. unfold grown, content. by rewrite on_trace_disk. Qed.

Lemma on_trace_total {A} (m : io trace A) : total m -> total (on_trace (row:=row) m).
Proof. intros H w. unfold on_trace. specialize (H (w_trace w)). by destruct (m _). Qed.

Lemma on_trace_returns {A} (m : io trace A) Q :
  returns m Q -> returns (on_trace (row:=row) m) Q.
Proof.
  intros H w a w'. unfold on_trace. destruct (m (w_trace w)) as [r tr] eqn:E.
  intros [= -> _]. eapply H, E.
Qed.

Lemma to_csv_untouched (P : string -> Prop) path (df : list row) :
  P path -> keeps (untouched P) (to_csv path df).
Proof.
  intros HP w p Hp. unfold to_csv. destruct (writable path); [|done].
  simpl. apply lookup_insert_ne. by intros ->.
Qed.

Lemma to_csv_total path (df : list row) : writable path = true -> total (to_csv path df).
Proof. intros Hw w. unfold to_csv. by rewrite Hw. Qed.

Lemma to_csv_raises path (df : list row) (w : world row) : writable path = false -> to_csv path df w = (Raise OSError, w).
Proof. intros Hw. unfold to_csv. by rewrite Hw. Qed.

Lemma to_csv_grown p path (df : list row) : path <> p -> keeps (grown p) (to_csv path df).
Proof.
  intros Hne w. unfold to_csv, grown, content. destruct (writable path); [|done].
  simpl. by rewrite lookup_insert_ne.
Qed.

(** What [append_csv] does where the write is allowed. *)
Lemma append_csv_spec path (df : list row) w :
  writable path = true ->
  append_csv path df w =
    (Ok tt, {| w_trace := w_trace w;
               disk := <[path := content path w ++ df]> (disk w) |}).
Proof.
  intros Hw. unfold append_csv, io_bind, exists_file, read_csv, to_csv, content.
  destruct (disk w !! path) as [old|] eqn:E; simpl; rewrite ?E; simpl; by rewrite Hw.
Qed.

Lemma append_csv_raises path (df : list row) w :
  writable path = false -> append_csv path df w = (Raise OSError, w).
Proof.
  intros Hw. unfold append_csv, io_bind, exists_file, read_csv, to_csv.
  destruct (disk w !! path) as [old|] eqn:E; simpl; rewrite ?E; simpl; by rewrite Hw.
Qed.

Lemma append_csv_grown path (df : list row) : keeps (grown path) (append_csv path df).
Proof.
  intros w. destruct (writable path) eqn:Hw.
  - rewrite append_csv_spec by done. unfold grown at 1. simpl.
    unfold content at 2. simpl. rewrite lookup_insert_eq. by apply prefix_app_r.
  - by rewrite append_csv_raises.
Qed.

Lemma append_csv_untouched (P : string -> Prop) path (df : list row) :
  P path -> keeps (untouched P) (append_csv path df).
Proof.
  intros HP w. destruct (writable path) eqn:Hw.
  - rewrite append_csv_spec by done. intros p Hp. simpl.
    apply lookup_insert_ne. by intros ->.
  - by rewrite append_csv_raises.
Qed.


Lemma keeps_untouched_grown {A} (P : string -> Prop) p (m : io (world row) A) :
  ~ P p -> keeps (untouched P) m -> keeps (grown p) m.
Proof. intros Hp H w. by eapply untouched_grown. Qed.

Lemma total_print : total (on_trace (row:=row) print).
Proof. by apply on_trace_total. Qed.

(** An append keeps the rows of every file. *)
Lemma append_csv_grows p path (df : list row) : keeps (grown p) (append_csv path df).
Proof.
  destruct (decide (path = p)) as [->|Hne]; [apply append_csv_grown|].
  apply (keeps_untouched_grown (eq path)); [done|]. by apply append_csv_untouched.
Qed.

Lemma makedirs_grown p path : keeps (grown (row:=row) p) (makedirs path).
Proof. intros w. unfold makedirs. by destruct (can_make path). Qed.

Lemma makedirs_untouched (P : string -> Prop) path :
  keeps (untouched (row:=row) P) (makedirs path).
Proof. intros w. unfold makedirs. by destruct (can_make path). Qed.

Lemma makedirs_raises_only path :
  raises_only (fun e => e = OSError /\ can_make path = false) (makedirs (row:=row) path).
Proof. intros w e. unfold makedirs. destruct (can_make path); [done|]. by intros [= <-]. Qed.

(** A write raises nothing but the [OSError] of a path that cannot be
    written. *)
Definition write_error (paths : list string) (e : exn) : Prop :=
  e = OSError /\ exists p, p ∈ paths /\ writable p = false.

Lemma to_csv_raises_only path (df : list row) paths :
  path ∈ paths -> raises_only (write_error paths) (to_csv path df).
Proof.
  intros Hp w e. unfold to_csv. destruct (writable path) eqn:Hw; [done|].
  intros [= <-]. split; [done|]. by exists path.
Qed.

Lemma append_csv_raises_only path (df : list row) paths :
  path ∈ paths -> raises_only (write_error paths) (append_csv path df).
Proof.
  intros Hp w e. destruct (writable path) eqn:Hw.
  - by rewrite append_csv_spec.
  - rewrite append_csv_raises by done. intros [= <-]. split; [done|]. by exists path.
Qed.

Lemma on_trace_raises_only {A} (m : io trace A) E :
  total m -> raises_only E (on_trace (row:=row) m).
Proof. intros H. by apply raises_only_total, on_trace_total. Qed.

End DiskFacts.

Lemma world_eta {row} (w : world row) : {| w_trace := w_trace w; disk := disk w |} = w.
Proof. by destruct w. Qed.

(** A loop whose rounds only add events to the trace adds the events of
    its rounds in order. *)
Lemma io_for_events {row A} (f : A -> list event) (body : A -> io (world row) unit) l w :
  (forall x w, body x w = (Ok tt, {| w_trace := w_trace w ++ f x; disk := disk w |})) ->
  io_for l body w = (Ok tt, {| w_trace := w_trace w ++ flat_map f l; disk := disk w |}).
Proof.
  intros Hb. revert w. induction l as [|x l IH]; intros w; cbn [io_for flat_map].
  - by rewrite app_nil_r, world_eta.
  - unfold io_bind. rewrite Hb, IH. cbn [w_trace disk]. by rewrite <- app_assoc.
Qed.
