(* ===== verification/Xml.v ===== *)
(** * Xml: the document tree and the queries of the table parser

    [_parse_xml_info_table] of src/datafetcher/institutional_tracker.py
    reads a filing through BeautifulSoup: it repairs bare ampersands,
    builds the tree, and queries it with [find_all], [find] and
    [get_text(strip=True)].  This file models the repair, the tree and the
    three queries.  Building the tree from the text is the library's work
    and is reached through the class [XmlParser].

    A tag is known by its name as the tree has it, prefix included
    ([ns1:infoTable]).  A query by names compares the name for equality; a
    query by a compiled pattern [(a|b|c)] with [re.I] searches the name for
    one of the alternatives, case ignored. *)

From Stdlib Require Import String Ascii ZArith Lia.
From stdpp Require Import base tactics option list strings.
From S2P Require Import Prelude PyRuntime.

#[local] Open Scope string_scope.
#[local] Open Scope list_scope.

(** ** The repair of bare ampersands *)

(** The alternatives of the lookahead [(?!(?:amp|lt|gt|quot|apos);)]. *)
Definition entities : list string := ["amp;"; "lt;"; "gt;"; "quot;"; "apos;"].

Definition entity_follows (s : string) : bool :=
  existsb (fun e => String.prefix e s) entities.

(** [re.sub(r'&(?!(?:amp|lt|gt|quot|apos);)', '&amp;', xml_content)] *)
Fixpoint escape_amp (s : string) : string :=
  match s with
  | "" => ""
  | String c s' =>
      if (c =? "&")%char && negb (entity_follows s')
      then "&amp;" +:+ escape_amp s'
      else String c (escape_amp s')
  end.

(** Every ampersand starts one of the five entities. *)
Fixpoint well_escaped (s : string) : bool :=
  match s with
  | "" => true
  | String c s' =>
      (negb (c =? "&")%char || entity_follows s') && well_escaped s'
  end.

(** ** The tree *)

#[local] Set Warnings "-register-all".

Inductive node : Type :=
  | Text (s : string)
  | Tag (name : string) (children : list node).

(** BeautifulSoup(xml_content, 'xml'): the root of the tree, or the
    exception of the library. *)
Class XmlParser := { soup_of : string -> result node }.

(** A parser given by the trees of the documents it knows; any other
    text is refused.  It stands for the library in the examples. *)
Definition table_parser (docs : list (string * node)) : XmlParser :=
  {| soup_of := fun s => from_option ValueError (dict_get s docs) |}.

(** [tag.descendants]: the nodes below a tag, in document order. *)
Fixpoint descendants (n : node) : list node :=
  match n with
  | Text _ => []
  | Tag _ children =>
      (fix over (l : list node) : list node :=
         match l with
         | [] => []
         | c :: l' => c :: descendants c ++ over l'
         end) children
  end.

(** The strings below a node, in document order. *)
Fixpoint strings (n : node) : list string :=
  match n with
  | Text s => [s]
  | Tag _ children =>
      (fix over (l : list node) : list string :=
         match l with
         | [] => []
         | c :: l' => strings c ++ over l'
         end) children
  end.

(** [tag.get_text(strip=True)]: the strings below the tag, each stripped,
    the empty ones dropped, joined without a separator. *)
Definition get_text (n : node) : string :=
  foldr String.append ""
    (filter (fun s => s <> "") (Py.strip <$> strings n)).

(** What [find_all] and [find] are given: a list of names, or a compiled
    pattern [(a|b|...)] with [re.I]. *)
Inductive criterion : Type :=
  | Names (names : list string)
  | Pattern (alternatives : list string).

Definition name_matches (c : criterion) (name : string) : bool :=
  match c with
  | Names names => bool_decide (name ∈ names)
  | Pattern alternatives =>
      existsb (fun a => Re.search_lit_ci a name) alternatives
  end.

Definition node_matches (c : criterion) (n : node) : bool :=
  match n with
  | Tag name _ => name_matches c name
  | Text _ => false
  end.

(** [tag.find_all(c)] *)
Definition find_all (c : criterion) (n : node) : list node :=
  filter (fun d => node_matches c d) (descendants n).

(** [tag.find(c)]: the first match, or [None]. *)
Definition find (c : criterion) (n : node) : option node :=
  head (find_all c n).

(** ** Facts *)

Lemma prefix_empty s : String.prefix "" s = true.
Proof. by destruct s. Qed.

Lemma prefix_escape_amp e s :
  Py.sall (fun c => negb (c =? "&")%char) e = true ->
  String.prefix e s = true -> String.prefix e (escape_amp s) = true.
Proof.
  revert s. induction e as [|a e IH]; intros s.
  { intros _ _. apply prefix_empty. }
  destruct s as [|c s]; simpl; [done|].
  intros [Ha He]%andb_prop. destruct (ascii_dec a c) as [<-|]; [|done].
  intros Hp. apply negb_true_iff in Ha. rewrite Ha. simpl.
  destruct (ascii_dec a a); [auto|done].
Qed.

Lemma entity_follows_escape s :
  entity_follows s = true -> entity_follows (escape_amp s) = true.
Proof.
  unfold entity_follows. rewrite !existsb_exists.
  intros (e & He & Hp). exists e. split; [done|].
  apply prefix_escape_amp; [|done]. clear Hp. revert e He.
  apply List.Forall_forall. by repeat constructor.
Qed.

Lemma escape_amp_well_escaped s : well_escaped (escape_amp s) = true.
Proof.
  induction s as [|c s IH]; simpl; [done|].
  destruct (Ascii.eqb_spec c "&") as [->|Hc]; simpl.
  - destruct (entity_follows s) eqn:E; simpl.
    + by rewrite entity_follows_escape.
    + cbv [String.append]. unfold entity_follows. simpl.
      by rewrite prefix_empty, IH.
  - apply Ascii.eqb_neq in Hc. by rewrite Hc.
Qed.

Lemma escape_amp_fixed s : well_escaped s = true -> escape_amp s = s.
Proof.
  induction s as [|c s IH]; simpl; [done|].
  intros [H Hs]%andb_prop. rewrite IH by done.
  destruct (c =? "&")%char; simpl in *; [by rewrite H|done].
Qed.

Lemma find_all_elem c n x :
  x ∈ find_all c n <-> node_matches c x = true /\ x ∈ descendants n.
Proof.
  unfold find_all. rewrite list_elem_of_filter, Is_true_true. tauto.
Qed.

Lemma find_Some c n x :
  find c n = Some x -> node_matches c x = true /\ x ∈ descendants n.
Proof.
  unfold find. intros H. apply find_all_elem.
  destruct (find_all c n); simplify_eq/=. left.
Qed.

Lemma find_None c n :
  find c n = None <-> forall x, x ∈ descendants n -> node_matches c x = false.
Proof.
  unfold find. rewrite head_None. split.
  - intros H x Hx. destruct (node_matches c x) eqn:E; [|done].
    assert (x ∈ find_all c n) by (by apply find_all_elem).
    rewrite H in *. by apply not_elem_of_nil in H0.
  - intros H. destruct (find_all c n) as [|x l] eqn:E; [done|].
    assert (Hx : x ∈ find_all c n) by (rewrite E; left).
    apply find_all_elem in Hx as [Hm Hx]. by rewrite H in Hm.
Qed.

(** The repair is idempotent: a repaired text is left as it is. *)
Lemma escape_amp_idempotent s : escape_amp (escape_amp s) = escape_amp s.
Proof. apply escape_amp_fixed, escape_amp_well_escaped. Qed.
