(* ===== verification/Holdings.v ===== *)
(** * Holdings: the two parsers of a filing and the conversion of numbers

    Models [_parse_xml_info_table] and [_extract_holdings_from_text] of
    src/datafetcher/institutional_tracker.py.

    A holding is the dict the parsers append, as a record; [raw_line] is
    the key only the text parser sets.  Each parser returns its list and
    whether its handler printed a message, which the caller adds to the
    trace.

    The table parser reads the tree of [Xml]; the calls inside its inner
    [try] cannot raise on a tree, so the inner handler has no case in the
    model.  The text parser appends to its list as it goes, so what was
    appended before an exception is returned: its loop runs in [io] over
    the list.  [target_tickers] is a list; [None] is the empty list, which
    the code treats alike.  A ticker is interpolated into the patterns of
    the text parser unescaped; the model reads it as a literal, which is
    what the pattern means for a ticker made of letters and digits. *)

From Stdlib Require Import QArith Lqa String Ascii ZArith Lia.
From stdpp Require Import base tactics option list strings.
From S2P Require Import Prelude PyRuntime Resolver Xml.

#[local] Open Scope string_scope.
#[local] Open Scope Z_scope.
#[local] Open Scope list_scope.

(** The dict of a holding. *)
Record raw_holding : Type := {
  security_name : string;
  cusip : string;
  ticker : string;
  shares : Q;
  market_value : Q;
  raw_line : option string;
}.

(** ** Numbers *)

(** [re.sub(r'[^\d.-]', '', s)] *)
Definition keep_numeric (s : string) : string :=
  Py.sfilter (fun c => Py.is_digit c || (c =? ".")%char || (c =? "-")%char) s.

Definition no_minus (s : string) : bool :=
  Py.sall (fun c => negb (c =? "-")%char) s.

(** The conversion of the share count and the value: the value is in
    thousands; when either text is no number both become 0. *)
Definition to_numbers (shares value : string) : Q * Q :=
  match
    shares_num <- Py.py_float (keep_numeric shares) ;;
    value_num <- Py.py_float (keep_numeric value) ;;
    Ok (shares_num, (value_num * 1000)%Q)
  with
  | Ok p => p
  | Raise _ => (0%Q, 0%Q)
  end.

(** ** The table parser *)

Definition name_pattern : criterion := Pattern ["nameOfIssuer"; "issuer"; "security"].
Definition cusip_pattern : criterion := Pattern ["cusip"].
Definition shares_pattern : criterion := Pattern ["sshPrnamt"; "shares"; "amount"].
Definition value_pattern : criterion := Pattern ["value"; "marketValue"].

Section Parsers.
Context `{R : Roster} `{X : XmlParser}.

(** [not target_tickers or ticker in target_tickers or
     any(t.lower() in security_name.lower() for t in target_tickers)] *)
Definition wanted (target_tickers : list string) (ticker security_name : string) : bool :=
  match target_tickers with
  | [] => true
  | _ =>
      bool_decide (ticker ∈ target_tickers) ||
      existsb (fun t => Py.contains (Py.lower t) (Py.lower security_name))
              target_tickers
  end.

(** The body of the loop over the tags: the holding a tag gives, if it has
    a name and a CUSIP and is wanted. *)
Definition holding_of_tag (target_tickers : list string) (holding_tag : node)
  : option raw_holding :=
  let name_elem := find name_pattern holding_tag in
  let cusip_elem := find cusip_pattern holding_tag in
  let shares_elem := find shares_pattern holding_tag in
  let value_elem := find value_pattern holding_tag in
  match name_elem, cusip_elem with
  | Some name_elem, Some cusip_elem =>
      let security_name := get_text name_elem in
      let cusip := get_text cusip_elem in
      let shares := default "0" (get_text <$> shares_elem) in
      let value := default "0" (get_text <$> value_elem) in
      let '(shares_num, value_num) := to_numbers shares value in
      let ticker := _cusip_to_ticker cusip in
      if wanted target_tickers ticker security_name then
        Some {| security_name := security_name; cusip := cusip;
                ticker := ticker; shares := shares_num;
                market_value := value_num; raw_line := None |}
      else None
  | _, _ => None
  end.

(** The tags that hold an entry: by name, or when there is none, by the
    alternative pattern. *)
Definition holdings_tags (soup : node) : list node :=
  match find_all (Names ["infoTable"; "holdings"; "holding"; "ns1:infoTable"]) soup with
  | [] => find_all (Pattern ["holding"; "position"; "security"]) soup
  | tags => tags
  end.

(** [_parse_xml_info_table(xml_content, target_tickers)] *)
Definition _parse_xml_info_table (xml_content : string) (target_tickers : list string)
  : list raw_holding * bool :=
  match soup_of (escape_amp xml_content) with
  | Ok soup => (omap (holding_of_tag target_tickers) (holdings_tags soup), false)
  | Raise _ => ([], true)
  end.

(** ** The text parser *)

(** A maximal run of digits at the start, and what follows. *)
Fixpoint take_digits (s : string) : string * string :=
  match s with
  | String c s' =>
      if Py.is_digit c then
        let (d, r) := take_digits s' in (String c d, r)
      else ("", s)
  | "" => ("", "")
  end.

(** [(?:,\d{3})*] at the start. *)
Fixpoint take_groups (s : string) : string * string :=
  match s with
  | String k (String a (String b (String c rest))) =>
      if (k =? ",")%char && Py.is_digit a && Py.is_digit b && Py.is_digit c then
        let (g, r) := take_groups rest in
        (String k (String a (String b (String c g))), r)
      else ("", s)
  | _ => ("", s)
  end.

(** [(?:\.\d+)?] at the start. *)
Definition take_fraction (s : string) : string * string :=
  match s with
  | String k s' =>
      if (k =? ".")%char then
        match take_digits s' with
        | ("", _) => ("", s)
        | (d, r) => (String k d, r)
        end
      else ("", s)
  | "" => ("", "")
  end.

(** The pattern [\d+(?:,\d{3})*(?:\.\d+)?] at the start of [s].  Every
    part after the first run may match nothing, so the greedy choice is
    the match. *)
Definition number_at : Re.matcher := fun s =>
  match take_digits s with
  | ("", _) => None
  | (d, r1) =>
      let (g, r2) := take_groups r1 in
      let (f, r3) := take_fraction r2 in
      Some (d +:+ g +:+ f, r3)
  end.

(** [re.findall(r'\d+(?:,\d{3})*(?:\.\d+)?', line)] *)
Definition numbers_of (line : string) : list string := Re.findall number_at line.

(** The three patterns tried on a line for a ticker. *)
Definition ticker_patterns (ticker : string) : list (string -> bool) :=
  [Re.search_word_ci ticker;
   Re.search_lit_ci (Py.lower ticker);
   Re.search_lit_ci (Py.upper ticker)].

Definition to_float (token : string) : result Q :=
  Py.py_float (Py.remove_char "," token).

(** The dict appended for a line that names [ticker]. *)
Definition text_holding (ticker line : string) (numbers : list string)
  : result raw_holding :=
  shares <- match head numbers with
            | Some n => to_float n
            | None => Ok 0%Q
            end ;;
  market_value <- (if (1 <? length numbers)%nat then
                     v <- from_option IndexError (last numbers) ;;
                     v <- to_float v ;; Ok (v * 1000)%Q
                   else Ok 0%Q) ;;
  Ok {| security_name := line; cusip := cusip_of_ticker ticker;
        ticker := ticker; shares := shares; market_value := market_value;
        raw_line := Some line |}.

Definition append (h : raw_holding) : io (list raw_holding) unit :=
  fun holdings => (Ok tt, holdings ++ [h]).

(** The body under [if re.search(...)], up to the [break]: a holding is
    appended if the line has a number. *)
Definition append_holding (ticker line : string) : io (list raw_holding) unit :=
  match numbers_of line with
  | [] => io_ret tt
  | numbers => h <~ io_lift (text_holding ticker line numbers) ;; append h
  end.

(** [for pattern in ticker_patterns]: the first pattern found in the line
    runs the body and ends the loop. *)
Fixpoint try_patterns (patterns : list (string -> bool)) (ticker line : string)
  : io (list raw_holding) unit :=
  match patterns with
  | [] => io_ret tt
  | pattern :: patterns' =>
      if pattern line then append_holding ticker line
      else try_patterns patterns' ticker line
  end.

(** [target_tickers or self.target_tickers] *)
Definition tickers_or_default (tickers : list string) : list string :=
  match tickers with
  | [] => target_tickers
  | _ => tickers
  end.

Definition text_loop (tickers : list string) (lines : list string)
  : io (list raw_holding) unit :=
  io_for lines (fun line =>
    let line := Py.strip line in
    if (line =? "")%string then io_ret tt
    else io_for tickers (fun ticker =>
           try_patterns (ticker_patterns ticker) ticker line)).

Definition newline : ascii := ascii_of_nat 10.

(** [_extract_holdings_from_text(filing_text, target_tickers)] *)
Definition _extract_holdings_from_text (filing_text : string) (tickers : list string)
  : list raw_holding * bool :=
  let '(r, holdings) :=
    text_loop (tickers_or_default tickers) (Py.split_on newline filing_text) [] in
  (holdings, negb (is_ok r)).

(** [extract_holdings_from_filing(filing_text, target_tickers)]: the
    (ticker, stripped line) pairs of the lines that contain a ticker. *)
Definition extract_holdings_from_filing (filing_text : string) (tickers : list string)
  : list (string * string) :=
  line ← Py.split_on newline filing_text;
  ticker ← tickers;
  if Py.contains (Py.upper ticker) (Py.upper line) then [(ticker, Py.strip line)] else [].

(** ** What the text parser computes

    The reference the loop is proved against: for each line that is not
    blank and each ticker that occurs in it, in any case and anywhere, one
    holding if the line has a number. *)

Definition float_of (token : string) : Q :=
  match to_float token with
  | Ok q => q
  | Raise _ => 0%Q
  end.

Definition line_holding (tk line : string) (numbers : list string) : raw_holding :=
  {| security_name := line; cusip := cusip_of_ticker tk; ticker := tk;
     shares := default 0%Q (float_of <$> head numbers);
     market_value := if (1 <? length numbers)%nat
                     then (default 0%Q (float_of <$> last numbers) * 1000)%Q
                     else 0%Q;
     raw_line := Some line |}.

Definition line_holdings (tickers : list string) (line : string) : list raw_holding :=
  tk ← tickers;
  if Re.search_lit_ci tk line then
    match numbers_of line with
    | [] => []
    | numbers => [line_holding tk line numbers]
    end
  else [].

Definition text_holdings (tickers : list string) (filing_text : string)
  : list raw_holding :=
  line ← Py.strip <$> Py.split_on newline filing_text;
  if (line =? "")%string then [] else line_holdings tickers line.

End Parsers.

(** ** A table, for the examples *)

Definition entry (name cusip value amount : string) : node :=
  Tag "infoTable"
    [Tag "nameOfIssuer" [Text name]; Tag "cusip" [Text cusip];
     Tag "value" [Text value];
     Tag "shrsOrPrnAmt" [Tag "sshPrnamt" [Text amount];
                         Tag "sshPrnamtType" [Text "SH"]]].

Definition demo_table : node :=
  Tag "[document]"
    [Tag "informationTable"
       [entry " NVIDIA CORP " "67066G104" "1,000" "200";
        entry "COCA COLA CO" "191216100" "22,000" "400,000"]].

Definition demo_parser : XmlParser :=
  table_parser [("<informationTable/>", demo_table);
                ("<edgarSubmission/>", Tag "[document]" [Tag "edgarSubmission" []])].

(** ** Facts about the conversion *)

Lemma to_numbers_cases shares value :
  match Py.py_float (keep_numeric shares), Py.py_float (keep_numeric value) with
  | Ok a, Ok b => to_numbers shares value = (a, (b * 1000)%Q)
  | _, _ => to_numbers shares value = (0%Q, 0%Q)
  end.
Proof. unfold to_numbers. by repeat case_match; simplify_eq/=. Qed.

(** A text without a minus sign gives no negative number: the share
    count and the market value of a holding are not negative unless the
    filing wrote a minus sign. *)
Theorem to_numbers_nonneg shares value :
  no_minus shares = true -> no_minus value = true ->
  (0 <= (to_numbers shares value).1)%Q /\ (0 <= (to_numbers shares value).2)%Q.
Proof.
  intros Hs Hv. pose proof (to_numbers_cases shares value) as H.
  destruct (Py.py_float (keep_numeric shares)) as [a|] eqn:Ea;
    [destruct (Py.py_float (keep_numeric value)) as [b|] eqn:Eb|];
    rewrite H; simpl; try done.
  apply Py.py_float_nonneg in Ea, Eb; try by apply Py.sall_sfilter_keep.
  split; [done|]. apply Qmult_le_0_compat; [done|]. by apply (Py.inject_Z_nonneg 1000).
Qed.

(** The conversion on the texts of the specification: separators and
    currency signs are dropped, a value is scaled from thousands, and an
    empty text makes both numbers 0. *)
Example to_numbers_spec_examples :
  to_numbers "1,234.5" "500" = (1234.5%Q, 500000%Q) /\
  to_numbers "" "$1,000" = (0%Q, 0%Q) /\
  to_numbers "$1,000" "" = (0%Q, 0%Q) /\
  to_numbers "0" "$1,000" = (0%Q, 1000000%Q).
Proof. by vm_compute. Qed.

(** A footnote marker is not dropped but read: [(1)] is the number 1,
    where the specification asks for 0. *)
Example to_numbers_footnote : to_numbers "(1)" "(1)" = (1%Q, 1000%Q).
Proof. by vm_compute. Qed.

(** The brackets of a marker are dropped with the other signs. *)
Lemma keep_numeric_marker ds : Py.numeral ds -> keep_numeric ("(" +:+ ds +:+ ")") = ds.
Proof.
  intros [_ Hds]. unfold keep_numeric.
  change ("(" +:+ ds +:+ ")") with (String "(" (ds +:+ ")")). simpl.
  rewrite Py.sfilter_app, Py.sfilter_fixed; [apply Py.append_empty_r|].
  eapply Py.sall_impl, Hds. by intros c ->.
Qed.

(** C34. A footnote marker is not dropped but read, whatever its number is:
    the brackets are taken out and the digits between them are the share
    count and, times 1000, the value, where the specification asks for
    0. *)
Theorem to_numbers_marker ds vs :
  Py.numeral ds -> Py.numeral vs ->
  exists a b, Py.py_float ds = Ok a /\ Py.py_float vs = Ok b /\
    to_numbers ("(" +:+ ds +:+ ")") ("(" +:+ vs +:+ ")") = (a, (b * 1000)%Q).
Proof.
  intros Hds Hvs.
  destruct (Py.py_float_decimal ds "" Hds) as (a & Ha & _); [by left|].
  destruct (Py.py_float_decimal vs "" Hvs) as (b & Hb & _); [by left|].
  rewrite Py.append_empty_r in Ha, Hb. exists a, b. split_and!; [done..|].
  pose proof (to_numbers_cases ("(" +:+ ds +:+ ")") ("(" +:+ vs +:+ ")")) as H.
  by rewrite !keep_numeric_marker, Ha, Hb in H.
Qed.

(** A minus sign is kept, so a share count can be negative. *)
Example to_numbers_negative : to_numbers "-5" "1" = ((-5)%Q, 1000%Q).
Proof. by vm_compute. Qed.

Section ParserFacts.
Context `{R : Roster} `{X : XmlParser}.

(** ** Facts about the table parser *)

Lemma wanted_nil ticker name : wanted [] ticker name = true.
Proof. done. Qed.

Lemma wanted_spec tt ticker name :
  tt <> [] ->
  wanted tt ticker name = true <->
  ticker ∈ tt \/
  exists t, t ∈ tt /\ Py.contains (Py.lower t) (Py.lower name) = true.
Proof.
  intros Hne. unfold wanted. destruct tt as [|t0 tt]; [done|].
  rewrite orb_true_iff, bool_decide_eq_true, existsb_exists.
  by setoid_rewrite <- list_elem_of_In.
Qed.

(** What a tag gives without a filter, it gives with a filter or not at
    all. *)
Lemma holding_of_tag_filter tt tag h :
  holding_of_tag tt tag = Some h ->
  holding_of_tag [] tag = Some h /\ wanted tt (ticker h) (security_name h) = true.
Proof.
  unfold holding_of_tag.
  destruct (find name_pattern tag), (find cusip_pattern tag); try done.
  destruct (to_numbers _ _) as [a b]. rewrite wanted_nil.
  destruct (wanted tt _ _) eqn:E; [|done]. by intros [= <-].
Qed.

Lemma holding_of_tag_resolved tt tag h :
  holding_of_tag tt tag = Some h ->
  ticker h = _cusip_to_ticker (cusip h) /\ raw_line h = None.
Proof.
  unfold holding_of_tag.
  destruct (find name_pattern tag), (find cusip_pattern tag); try done.
  destruct (to_numbers _ _) as [a b].
  destruct (wanted tt _ _); [|done]. by intros [= <-].
Qed.

Lemma parse_xml_elem xml tt h :
  h ∈ (_parse_xml_info_table xml tt).1 ->
  exists soup tag, soup_of (escape_amp xml) = Ok soup /\
    tag ∈ holdings_tags soup /\ holding_of_tag tt tag = Some h.
Proof.
  unfold _parse_xml_info_table.
  destruct (soup_of _) as [soup|]; simpl; [|by intros ?%not_elem_of_nil].
  intros (tag & Htag & Hh)%list_elem_of_omap. eauto.
Qed.

Lemma parse_xml_wanted xml tt h :
  tt <> [] -> h ∈ (_parse_xml_info_table xml tt).1 ->
  ticker h ∈ tt \/
  exists t, t ∈ tt /\ Py.contains (Py.lower t) (Py.lower (security_name h)) = true.
Proof.
  intros Hne (soup & tag & _ & _ & Hh)%parse_xml_elem.
  by apply wanted_spec, (holding_of_tag_filter tt tag).
Qed.

(** Every holding of the table parser carries the ticker its CUSIP
    resolves to (the empty string when the CUSIP is not in the roster),
    and no raw line. *)
Theorem parse_xml_resolved xml tt h :
  h ∈ (_parse_xml_info_table xml tt).1 ->
  ticker h = _cusip_to_ticker (cusip h) /\ raw_line h = None.
Proof.
  intros (soup & tag & _ & _ & Hh)%parse_xml_elem.
  by apply (holding_of_tag_resolved tt tag).
Qed.

(** The ticker filter only removes: what the table parser returns
    with a filter is a sublist, in document order, of what it returns
    without one. *)
Theorem parse_xml_filter_sublist xml tt :
  (_parse_xml_info_table xml tt).1 `sublist_of` (_parse_xml_info_table xml []).1.
Proof.
  unfold _parse_xml_info_table. destruct (soup_of _) as [soup|]; simpl; [|done].
  apply omap_sublist. intros tag h Hh. by apply (holding_of_tag_filter tt).
Qed.

(** When the library refuses the document the parser prints and returns
    nothing. *)
Lemma parse_xml_failure xml tt e :
  soup_of (escape_amp xml) = Raise e -> _parse_xml_info_table xml tt = ([], true).
Proof. unfold _parse_xml_info_table. by intros ->. Qed.

(** The repair of bare ampersands is idempotent, so a document that
    was repaired before parses to the same holdings. *)
Theorem parse_xml_repaired xml tt :
  _parse_xml_info_table (escape_amp xml) tt = _parse_xml_info_table xml tt.
Proof. unfold _parse_xml_info_table. by rewrite escape_amp_idempotent. Qed.

(** ** Facts about the text parser *)

Lemma take_digits_spec s d r :
  take_digits s = (d, r) -> Py.sall Py.is_digit d = true /\ s = d +:+ r.
Proof.
  revert d r. induction s as [|c s IH]; simpl; intros d r.
  - by intros [= <- <-].
  - destruct (Py.is_digit c) eqn:Ec; [|by intros [= <- <-]].
    destruct (take_digits s) as [d' r']. intros [= <- <-].
    destruct (IH d' r' eq_refl) as [Hd ->]. simpl. by rewrite Ec, Hd.
Qed.

Lemma take_groups_spec n : forall s g r,
  (String.length s < n)%nat -> take_groups s = (g, r) ->
  Py.sall Py.is_digit (Py.remove_char "," g) = true /\ s = g +:+ r.
Proof.
  induction n as [|n IH]; intros s g r Hn; [lia|].
  destruct s as [|k [|a [|b [|c rest]]]]; simpl; try by intros [= <- <-].
  destruct (_ && _) eqn:E; [|by intros [= <- <-]].
  destruct (take_groups rest) as [g' r'] eqn:Eg. intros [= <- <-].
  apply IH in Eg as [Hg ->]; [|simpl in Hn; lia].
  repeat apply andb_prop in E as [E ?].
  apply Ascii.eqb_eq in E as ->. unfold Py.remove_char in *. simpl.
  repeat (rewrite (proj2 (negb_true_iff _)) by
            (by apply negb_true_iff, Py.digit_not_comma); simpl).
  by rewrite H, H0, H1, Hg.
Qed.

Lemma take_fraction_spec s f r :
  take_fraction s = (f, r) -> Py.fraction f /\ s = f +:+ r.
Proof.
  unfold take_fraction, Py.fraction, Py.numeral. destruct s as [|k s].
  { intros [= <- <-]. auto. }
  destruct (Ascii.eqb_spec k ".") as [->|_]; [|intros [= <- <-]; auto].
  destruct (take_digits s) as [d r'] eqn:Ed.
  apply take_digits_spec in Ed as [Hd ->].
  destruct d; intros [= <- <-]; [auto|]. split; [|done]. right. by eexists.
Qed.

Lemma number_at_spec s tok rest :
  number_at s = Some (tok, rest) ->
  s = tok +:+ rest /\
  exists ds f, Py.remove_char "," tok = ds +:+ f /\ Py.numeral ds /\ Py.fraction f.
Proof.
  unfold number_at. destruct (take_digits s) as [d r1] eqn:Ed.
  apply take_digits_spec in Ed as [Hd ->].
  destruct (take_groups r1) as [g r2] eqn:Eg.
  apply (take_groups_spec (S (String.length r1))) in Eg as [Hg ->]; [|lia].
  destruct (take_fraction r2) as [f r3] eqn:Ef.
  apply take_fraction_spec in Ef as [Hf ->].
  destruct d as [|c d]; intros [= <- <-].
  split; [by rewrite !Py.append_assoc|].
  exists (String c d +:+ Py.remove_char "," g), f.
  assert (Hff : Py.remove_char "," f = f).
  { destruct Hf as [->|(fd & -> & _ & Hfd)]; [done|]. unfold Py.remove_char.
    simpl. by rewrite Py.sfilter_fixed
      by (eapply Py.sall_impl, Hfd; apply Py.digit_not_comma). }
  unfold Py.remove_char in *. rewrite !Py.sfilter_app, Hff, Py.append_assoc.
  rewrite (Py.sfilter_fixed _ (String c d))
    by (eapply Py.sall_impl, Hd; apply Py.digit_not_comma).
  split; [done|]. split; [|done]. split; [by rewrite Py.append_cons|].
  by rewrite Py.sall_app, Hd, Hg.
Qed.

Lemma number_at_consuming : Re.consuming number_at.
Proof.
  intros s tok rest [-> (ds & f & Hr & [Hne _] & _)]%number_at_spec.
  rewrite Py.length_app. destruct tok; [|simpl; lia].
  by destruct ds.
Qed.

#[local] Abbreviation floatable :=
  (fun tok => exists q, to_float tok = Ok q /\ (0 <= q)%Q).

(** Every token of a line converts, to a number that is not negative. *)
Lemma number_at_float s tok rest :
  number_at s = Some (tok, rest) -> exists q, to_float tok = Ok q /\ (0 <= q)%Q.
Proof.
  intros [_ (ds & f & Hr & Hds & Hf)]%number_at_spec. unfold to_float.
  rewrite Hr. by apply Py.py_float_decimal.
Qed.

Lemma numbers_of_float line :
  Forall floatable (numbers_of line).
Proof. apply Re.findall_fuel_Forall, number_at_float. Qed.

Lemma floatable_float_of tok : floatable tok -> to_float tok = Ok (float_of tok).
Proof. intros (q & Hq & _). unfold float_of. by rewrite Hq. Qed.

Lemma text_holding_ok tk line numbers :
  Forall floatable numbers ->
  text_holding tk line numbers = Ok (line_holding tk line numbers).
Proof.
  intros Hn. unfold text_holding, line_holding.
  assert (Hh : forall n, head numbers = Some n -> to_float n = Ok (float_of n)).
  { intros n Hh%head_Some_elem_of. rewrite Forall_forall in Hn.
    by apply floatable_float_of, Hn. }
  assert (Hl : forall n, last numbers = Some n -> to_float n = Ok (float_of n)).
  { intros n Hl%last_Some_elem_of. rewrite Forall_forall in Hn.
    by apply floatable_float_of, Hn. }
  destruct (head numbers) as [n|]; simpl; [rewrite (Hh n eq_refl)|]; simpl;
    destruct (1 <? length numbers)%nat eqn:El; try done;
    (destruct (last numbers) as [m|] eqn:Em; simpl;
      [by rewrite (Hl m eq_refl)|]);
    apply last_None in Em; by subst.
Qed.

Lemma append_holding_spec tk line hs :
  append_holding tk line hs =
  (Ok tt, hs ++ match numbers_of line with
                | [] => []
                | numbers => [line_holding tk line numbers]
                end).
Proof.
  unfold append_holding. pose proof (numbers_of_float line) as Hn.
  destruct (numbers_of line) as [|n ns]; [by rewrite app_nil_r|].
  unfold io_bind, io_lift. by rewrite text_holding_ok.
Qed.

Lemma try_patterns_found ps tk line :
  try_patterns ps tk line =
  if existsb (fun p => p line) ps then append_holding tk line else io_ret tt.
Proof. induction ps as [|p ps IH]; simpl; [done|]. by destruct (p line). Qed.

(** The three patterns together are a search for the ticker anywhere in
    the line, in any case: the pattern with word boundaries adds nothing
    to the two without. *)
Lemma ticker_patterns_substring tk line :
  existsb (fun p => p line) (ticker_patterns tk) = Re.search_lit_ci tk line.
Proof.
  simpl. rewrite Re.search_lit_ci_lower, Re.search_lit_ci_upper, orb_false_r.
  destruct (Re.search_word_ci tk line) eqn:E; simpl.
  - by rewrite (Re.search_word_ci_lit _ _ E).
  - by destruct (Re.search_lit_ci tk line).
Qed.

Lemma text_loop_spec tickers lines hs :
  text_loop tickers lines hs =
  (Ok tt, hs ++ (line ← Py.strip <$> lines;
                 if (line =? "")%string then [] else line_holdings tickers line)).
Proof.
  unfold text_loop.
  rewrite (io_for_appends (fun line =>
    if (Py.strip line =? "")%string then [] else line_holdings tickers (Py.strip line))).
  - f_equal. f_equal. induction lines; simpl; [done|]. by f_equal.
  - intros line st. destruct (_ =? _)%string; [by rewrite app_nil_r|].
    apply io_for_appends. intros tk st'.
    rewrite try_patterns_found, ticker_patterns_substring.
    destruct (Re.search_lit_ci tk (Py.strip line)); [|by rewrite app_nil_r].
    apply append_holding_spec.
Qed.

(** C5. The text parser computes [text_holdings] and never reaches its
    handler: one holding for each line that is not blank and each ticker
    that occurs in it, if the line has a number; the share count is the
    first number of the line, the market value a thousand times the
    last, or 0 when the line has one number only. *)
Theorem extract_text_refines filing_text tickers :
  _extract_holdings_from_text filing_text tickers =
  (text_holdings (tickers_or_default tickers) filing_text, false).
Proof. unfold _extract_holdings_from_text. by rewrite text_loop_spec. Qed.

Lemma line_holding_nonneg tk line numbers :
  Forall floatable numbers ->
  (0 <= shares (line_holding tk line numbers))%Q /\
  (0 <= market_value (line_holding tk line numbers))%Q.
Proof.
  intros Hn. rewrite Forall_forall in Hn.
  assert (Hf : forall n, n ∈ numbers -> (0 <= float_of n)%Q).
  { intros n (q & Hq & Hpos)%Hn. unfold float_of. by rewrite Hq. }
  simpl. split.
  - destruct (head numbers) as [n|] eqn:E; simpl; [|done].
    by apply Hf, head_Some_elem_of.
  - destruct (1 <? _)%nat; [|done].
    apply Qmult_le_0_compat; [|done].
    destruct (last numbers) as [n|] eqn:E; simpl; [|done].
    by apply Hf, last_Some_elem_of.
Qed.

(** What every holding of the text parser satisfies. *)
Lemma extract_text_sound filing_text tickers h :
  h ∈ (_extract_holdings_from_text filing_text tickers).1 ->
  ticker h ∈ tickers_or_default tickers /\
  Re.search_lit_ci (ticker h) (security_name h) = true /\
  security_name h <> "" /\
  raw_line h = Some (security_name h) /\
  cusip h = cusip_of_ticker (ticker h) /\
  (0 <= shares h)%Q /\ (0 <= market_value h)%Q.
Proof.
  unfold _extract_holdings_from_text. rewrite text_loop_spec. simpl.
  unfold line_holdings.
  intros (line & Hh & _)%list_elem_of_bind.
  destruct (String.eqb_spec line "") as [|Hne]; [by apply not_elem_of_nil in Hh|].
  apply list_elem_of_bind in Hh as (tk & Hh & Htk).
  destruct (Re.search_lit_ci tk line) eqn:Es; [|by apply not_elem_of_nil in Hh].
  pose proof (numbers_of_float line) as Hn.
  destruct (numbers_of line) as [|tok ns] eqn:En; [by apply not_elem_of_nil in Hh|].
  apply list_elem_of_singleton in Hh as ->.
  destruct (line_holding_nonneg tk line (tok :: ns) Hn). by split_and!.
Qed.

End ParserFacts.


(** The text parser scales the last number of a line by a thousand,
    where the specification leaves the value of the fallback unscaled. *)
Example text_value_scaled :
  _extract_holdings_from_text "NVDA 100 500" ["NVDA"] =
  ([{| security_name := "NVDA 100 500"; cusip := "67066G104"; ticker := "NVDA";
       shares := 100; market_value := 500000;
       raw_line := Some "NVDA 100 500" |}], false).
Proof. by vm_compute. Qed.

(** A line with one number has share count and no value. *)
Example text_single_number :
  _extract_holdings_from_text "NVDA 500" ["NVDA"] =
  ([{| security_name := "NVDA 500"; cusip := "67066G104"; ticker := "NVDA";
       shares := 500; market_value := 0;
       raw_line := Some "NVDA 500" |}], false).
Proof. by vm_compute. Qed.

(** A ticker inside a longer word is found: the line [ENVDAX 7]
    gives a holding for NVDA although the pattern with word boundaries
    does not match it. *)
Example text_inside_word :
  (_extract_holdings_from_text "ENVDAX 7" ["NVDA"]).1 <> [] /\
  Re.search_word_ci "NVDA" "ENVDAX 7" = false.
Proof. by vm_compute. Qed.

(** ** The theorems on the example table *)

Lemma to_numbers_marker_witness :
  exists a b, Py.py_float "1" = Ok a /\ Py.py_float "12" = Ok b /\
    to_numbers ("(" +:+ "1" +:+ ")") ("(" +:+ "12" +:+ ")") = (a, (b * 1000)%Q).
Proof. by apply (to_numbers_marker "1" "12"). Defined.

Lemma to_numbers_nonneg_witness :
  (0 <= (to_numbers "1,234.5" "$500").1)%Q /\ (0 <= (to_numbers "1,234.5" "$500").2)%Q.
Proof. apply (to_numbers_nonneg "1,234.5" "$500"); reflexivity. Defined.

Lemma parse_xml_resolved_witness :
  ticker {| security_name := "NVIDIA CORP"; cusip := "67066G104"; ticker := "NVDA";
            shares := 200; market_value := 1000000; raw_line := None |} =
  _cusip_to_ticker (cusip {| security_name := "NVIDIA CORP"; cusip := "67066G104";
                             ticker := "NVDA"; shares := 200;
                             market_value := 1000000; raw_line := None |}) /\
  raw_line {| security_name := "NVIDIA CORP"; cusip := "67066G104"; ticker := "NVDA";
              shares := 200; market_value := 1000000; raw_line := None |} = None.
Proof.
  apply (parse_xml_resolved (X := demo_parser) "<informationTable/>" ["NVDA"]).
  apply list_elem_of_In. vm_compute. by left.
Defined.
