(* ===== verification/Cascade.v ===== *)
(** * Cascade: the three ways to read a filing, in order

    Models [InstitutionalTracker.parse_13f_holdings] of
    src/datafetcher/institutional_tracker.py: the information table, the
    primary document and the full text are requested in that order, each
    is parsed when its status is 200, and the first parse that gives a
    holding is the result.

    The method has one [try] around the three requests.  Here each request
    carries the handler, with the value the variable [holdings] has when
    the request is made; the parsers do not raise, so the requests are the
    only calls the handler can be reached from.  [run_strategies] is the
    same control flow over a list of (URL, parser) pairs, and
    [parse_13f_holdings] is its instance at the three pairs. *)

From Stdlib Require Import QArith String Ascii ZArith Lia.
From stdpp Require Import base tactics option list strings.
From S2P Require Import Prelude PyRuntime Resolver Filings Net Crawler Xml Holdings.

#[local] Open Scope string_scope.
#[local] Open Scope Z_scope.
#[local] Open Scope list_scope.

(** [f"{self.base_url}/Archives/edgar/data/{formatted_cik}/{accession_clean}/{document}"] *)
Definition document_url (cik accession_number document : string) : string :=
  base_url +:+ "/Archives/edgar/data/" +:+ Py.zfill 10 cik +:+ "/" +:+
  Py.remove_char "-" accession_number +:+ "/" +:+ document.

Definition info_table_url (cik accession_number : string) : string :=
  document_url cik accession_number "infotable.xml".

Definition primary_doc_url (cik accession_number : string) : string :=
  document_url cik accession_number "primary_doc.xml".

Definition filing_url (cik accession_number : string) : string :=
  document_url cik accession_number (accession_number +:+ ".txt").

(** A parser of a document: the holdings, and whether it printed. *)
Definition parser : Type := string -> list raw_holding * bool.

Definition strategy : Type := string * parser.

(** The call of a parser: its message, if any, goes to the trace. *)
Definition run_parser (p : list raw_holding * bool) : io trace (list raw_holding) :=
  if p.2 then print ;;; io_ret p.1 else io_ret p.1.

(** What the filter lets through. *)
Definition wanted_by (tt : list string) (h : raw_holding) : Prop :=
  ticker h ∈ tt \/
  exists t, t ∈ tt /\ Py.contains (Py.lower t) (Py.lower (security_name h)) = true.

(** The events of a parser call. *)
Definition parser_events (p : list raw_holding * bool) : trace :=
  if p.2 then [EPrint] else [].

Section Cascade.
Context {net : Net} `{R : Roster} `{X : XmlParser}.

(** One method: the request, the parser when the status is 200, the
    return when it gave a holding, and [next] otherwise.  [holdings] is
    the variable as the method finds it; if the request raises, the
    handler prints and the function returns the variable. *)
Definition method (url : string) (parse : parser) (holdings : list raw_holding)
    (next : list raw_holding -> io trace (list raw_holding))
  : io trace (list raw_holding) :=
  fun tr =>
    match requests_get url tr with
    | (Ok response, tr') =>
        (if status_code response =? 200 then
           holdings <~ run_parser (parse (text response)) ;;
           match holdings with
           | [] => next holdings
           | _ => io_ret holdings
           end
         else next holdings) tr'
    | (Raise _, tr') => (print ;;; io_ret holdings) tr'
    end.

(** The methods of a list, in order; [return holdings] after the last. *)
Fixpoint run_strategies (strategies : list strategy) (holdings : list raw_holding)
  : io trace (list raw_holding) :=
  match strategies with
  | [] => io_ret holdings
  | (url, parse) :: rest => method url parse holdings (run_strategies rest)
  end.

(** [parse_13f_holdings(cik, accession_number, target_tickers)] *)
Definition parse_13f_holdings (cik accession_number : string)
    (target_tickers : list string) : io trace (list raw_holding) :=
  let holdings := [] in
  method (info_table_url cik accession_number)
    (fun xml => _parse_xml_info_table xml target_tickers) holdings (fun holdings =>
  method (primary_doc_url cik accession_number)
    (fun xml => _parse_xml_info_table xml target_tickers) holdings (fun holdings =>
  method (filing_url cik accession_number)
    (fun txt => _extract_holdings_from_text txt target_tickers) holdings io_ret)).

(** The three methods as a list. *)
Definition strategies (cik accession_number : string) (target_tickers : list string)
  : list strategy :=
  [(info_table_url cik accession_number,
    fun xml => _parse_xml_info_table xml target_tickers);
   (primary_doc_url cik accession_number,
    fun xml => _parse_xml_info_table xml target_tickers);
   (filing_url cik accession_number,
    fun txt => _extract_holdings_from_text txt target_tickers)].

(** ** What the cascade computes on a host that answers by URL *)

(** The holdings a document gives: none unless the status is 200. *)
Definition yield (parse : parser) (r : response) : list raw_holding :=
  if status_code r =? 200 then (parse (text r)).1 else [].

(** The first strategy that gives a holding decides; a request that
    raises ends the search. *)
Fixpoint first_yield (pages : string -> option response)
    (strategies : list strategy) : list raw_holding :=
  match strategies with
  | [] => []
  | (url, parse) :: rest =>
      match pages url with
      | Some r =>
          match yield parse r with
          | [] => first_yield pages rest
          | holdings => holdings
          end
      | None => []
      end
  end.

End Cascade.

(** ** A filing on a small host, for the examples *)

Definition page (status : Z) (body : string) : response :=
  {| status_code := status; text := body; json_body := None |}.

Definition demo_cik : string := "1067983".
Definition demo_accession : string := "0000950123-21-000001".

(** A filing with an information table. *)
Definition table_host : Net :=
  static_net (fun url =>
    if (url =? info_table_url demo_cik demo_accession)%string
    then Some (page 200 "<informationTable/>")
    else Some (page 404 "")).

(** A filing from before the tables: only the text is there. *)
Definition text_host : Net :=
  static_net (fun url =>
    if (url =? filing_url demo_cik demo_accession)%string
    then Some (page 200 "NVIDIA CORP NVDA 100 500")
    else Some (page 404 "")).

(** A host whose first answers are lost, with the same text behind. *)
Definition flaky_host : Net :=
  static_net (fun url =>
    if (url =? filing_url demo_cik demo_accession)%string
    then Some (page 200 "NVIDIA CORP NVDA 100 500")
    else None).

(** ** Facts *)

Section CascadeFacts.
Context {net : Net} `{R : Roster} `{X : XmlParser}.

Lemma parse_13f_holdings_is_cascade cik accession_number tt :
  parse_13f_holdings cik accession_number tt =
  run_strategies (strategies cik accession_number tt) [].
Proof. reflexivity. Qed.

Lemma run_parser_spec p tr : run_parser p tr = (Ok p.1, tr ++ parser_events p).
Proof.
  unfold run_parser, parser_events. destruct p as [h []]; simpl.
  - done.
  - unfold io_ret. by rewrite app_nil_r.
Qed.

(** A method, by the answer to its request. *)
Lemma method_spec url parse h next tr :
  method url parse h next tr =
  match respond tr url with
  | None => (Ok h, tr ++ [EGet url None; EPrint])
  | Some r =>
      if status_code r =? 200 then
        let tr' := tr ++ EGet url (Some r) :: parser_events (parse (text r)) in
        match (parse (text r)).1 with
        | [] => next [] tr'
        | holdings => (Ok holdings, tr')
        end
      else next h (tr ++ [EGet url (Some r)])
  end.
Proof.
  unfold method, requests_get. destruct (respond tr url) as [r|]; simpl.
  - destruct (status_code r =? 200); [|done]. unfold io_bind.
    rewrite run_parser_spec, <- app_assoc. simpl. by destruct (parse (text r)).1.
  - unfold io_bind, print, emit, io_ret. by rewrite <- app_assoc.
Qed.

(** The cascade returns, whatever the host does. *)
Lemma run_strategies_total ss : forall h tr, is_ok (run_strategies ss h tr).1 = true.
Proof.
  induction ss as [|[url parse] ss IH]; intros h tr; [done|].
  cbn [run_strategies]. rewrite method_spec. repeat case_match; simpl; auto.
Qed.

(** It only appends to the trace, and what it requests is a prefix of
    the URLs of its strategies, in their order. *)
Lemma run_strategies_requests ss : forall h tr,
  exists evs, (run_strategies ss h tr).2 = tr ++ evs /\
    requested evs `prefix_of` ss.*1.
Proof.
  induction ss as [|[url parse] ss IH]; intros h tr.
  { exists []. simpl. by rewrite app_nil_r. }
  cbn [run_strategies fmap list_fmap fst].
  rewrite (method_spec url parse h (run_strategies ss) tr).
  assert (Hp : forall a p, requested (EGet url a :: parser_events p) = [url])
    by (by intros a [? []]).
  destruct (respond tr url) as [r|]; [destruct (status_code r =? 200)|]; simpl.
  - destruct (parse (text r)).1 eqn:E.
    + edestruct IH as (evs & -> & Hpre). eexists. rewrite <- app_assoc.
      split; [done|]. rewrite requested_app, Hp. by apply prefix_cons.
    + eexists. split; [done|]. rewrite Hp. apply prefix_cons, prefix_nil.
  - edestruct IH as (evs & -> & Hpre). eexists. rewrite <- app_assoc.
    split; [done|]. by apply prefix_cons.
  - eexists. split; [done|]. apply prefix_cons, prefix_nil.
Qed.

End CascadeFacts.

(** On a host that answers by URL, the result is the first yield. *)
Lemma run_strategies_static pages ss : forall tr,
  (run_strategies (net:=static_net pages) ss [] tr).1 = Ok (first_yield pages ss).
Proof.
  induction ss as [|[url parse] ss IH]; intros tr; [done|].
  cbn [run_strategies first_yield]. rewrite method_spec. simpl. unfold yield.
  destruct (pages url) as [r|]; [|done].
  destruct (status_code r =? 200); [|apply IH].
  simpl. destruct (parse (text r)).1; [apply IH|done].
Qed.


Section CascadeTheorems.
Context {net : Net} `{R : Roster} `{X : XmlParser}.

Lemma parse_xml_events xml tt :
  (_parse_xml_info_table xml tt).1 <> [] ->
  parser_events (_parse_xml_info_table xml tt) = [].
Proof. unfold _parse_xml_info_table. by destruct (soup_of _). Qed.

(** C1. Short circuit.  When the information table is served with status
    200 and gives a holding, the cascade returns the holdings of the
    table, and the request for the table is the only event: the primary
    document and the text are not requested. *)
Theorem parse_13f_holdings_short_circuit cik accession_number tt tr r :
  respond tr (info_table_url cik accession_number) = Some r ->
  status_code r = 200 ->
  (_parse_xml_info_table (text r) tt).1 <> [] ->
  parse_13f_holdings cik accession_number tt tr =
  (Ok (_parse_xml_info_table (text r) tt).1,
   tr ++ [EGet (info_table_url cik accession_number) (Some r)]).
Proof.
  intros E Hs Hp. unfold parse_13f_holdings. rewrite method_spec, E, Hs. simpl.
  rewrite parse_xml_events by done.
  by destruct (_parse_xml_info_table (text r) tt).1.
Qed.

(** C7. The cascade never raises, whatever the host answers and whatever
    the documents hold. *)
Theorem parse_13f_holdings_total cik accession_number tt tr :
  is_ok (parse_13f_holdings cik accession_number tt tr).1 = true.
Proof. rewrite parse_13f_holdings_is_cascade. apply run_strategies_total. Qed.

(** C8. The cascade only appends to the trace, and the URLs it requests
    are a prefix of: information table, primary document, full text.  So
    it makes three requests at most, in that order, and none twice. *)
Theorem parse_13f_holdings_requests cik accession_number tt tr :
  exists evs, (parse_13f_holdings cik accession_number tt tr).2 = tr ++ evs /\
    requested evs `prefix_of`
      [info_table_url cik accession_number;
       primary_doc_url cik accession_number;
       filing_url cik accession_number].
Proof.
  rewrite parse_13f_holdings_is_cascade.
  apply (run_strategies_requests (strategies cik accession_number tt)).
Qed.

(** C9. A request that raises ends the cascade: when the request for the
    information table raises (a time-out, a refused connection), the
    result is empty and neither the primary document nor the text is
    tried, where the specification lets each strategy fall through to
    the next. *)
Theorem parse_13f_holdings_aborts cik accession_number tt tr :
  respond tr (info_table_url cik accession_number) = None ->
  parse_13f_holdings cik accession_number tt tr =
  (Ok [], tr ++ [EGet (info_table_url cik accession_number) None; EPrint]).
Proof. intros E. unfold parse_13f_holdings. by rewrite method_spec, E. Qed.

(** What the cascade returns was given by one of its parsers. *)
Lemma run_strategies_origin ss : forall tr h,
  (run_strategies ss [] tr).1 = Ok h ->
  h = [] \/ exists url parse txt, (url, parse) ∈ ss /\ h = (parse txt).1.
Proof.
  induction ss as [|[url parse] ss IH]; intros tr h.
  { intros [= <-]. by left. }
  cbn [run_strategies]. rewrite (method_spec url parse [] (run_strategies ss) tr).
  assert (Hin : forall tr', (run_strategies ss [] tr').1 = Ok h ->
    h = [] \/ exists url' parse' txt, (url', parse') ∈ (url, parse) :: ss /\
                                      h = (parse' txt).1).
  { intros tr' [ -> | (u & p & txt & Hup & ->)]%IH; [by left|].
    right. exists u, p, txt. split; [by right|done]. }
  destruct (respond tr url) as [r|]; [|intros [= <-]; by left].
  destruct (status_code r =? 200); [|apply Hin]. simpl.
  destruct (parse (text r)).1 eqn:E; [apply Hin|]. intros [= <-]. right.
  exists url, parse, (text r). split; [left|done].
Qed.

(** With a filter, every holding the cascade returns passed it: its CUSIP
    resolves to a ticker of the filter, or its name contains one. *)
Lemma parse_13f_holdings_post cik accession_number tt :
  tt <> [] ->
  returns (parse_13f_holdings cik accession_number tt) (Forall (wanted_by tt)).
Proof.
  intros Hne tr hs tr' Hr. apply Forall_forall. intros h Hh.
  rewrite parse_13f_holdings_is_cascade in Hr.
  apply (f_equal fst), run_strategies_origin in Hr
    as [ -> | (url & parse & txt & Hs & ->)];
    [by apply not_elem_of_nil in Hh|].
  unfold strategies in Hs. rewrite !elem_of_cons, elem_of_nil in Hs.
  destruct Hs as [[= _ ->]|[[= _ ->]|[[= _ ->]|[]]]];
    [by eapply parse_xml_wanted..|].
  apply extract_text_sound in Hh as (Hh & _). left.
  by destruct tt.
Qed.

(** With a filter, every holding the cascade returns passed it,
    whichever of the three parsers produced it. *)
Theorem parse_13f_holdings_wanted cik accession_number tt tr hs h :
  tt <> [] ->
  (parse_13f_holdings cik accession_number tt tr).1 = Ok hs -> h ∈ hs ->
  wanted_by tt h.
Proof.
  intros Hne Hr Hh. destruct (parse_13f_holdings _ _ _ tr) as [r tr'] eqn:E.
  simpl in Hr. subst r. apply parse_13f_holdings_post in E; [|done].
  rewrite Forall_forall in E. auto.
Qed.

End CascadeTheorems.

(** C2. On a host that answers by URL the cascade computes [first_yield]:
    the holdings of the first document, in the order table, primary
    document, text, that is served with status 200 and gives a holding;
    nothing when there is none or when a request before it raised. *)
Theorem parse_13f_holdings_static `{R : Roster} `{X : XmlParser}
    pages cik accession_number tt tr :
  (parse_13f_holdings (net:=static_net pages) cik accession_number tt tr).1 =
  Ok (first_yield pages (strategies cik accession_number tt)).
Proof. rewrite parse_13f_holdings_is_cascade. apply run_strategies_static. Qed.

(** ** The theorems on the example hosts *)

Lemma parse_13f_holdings_short_circuit_witness :
  parse_13f_holdings (net := table_host) (X := demo_parser)
    demo_cik demo_accession ["NVDA"] [] =
  (Ok (_parse_xml_info_table (X := demo_parser) "<informationTable/>" ["NVDA"]).1,
   [EGet (info_table_url demo_cik demo_accession)
      (Some (page 200 "<informationTable/>"))]).
Proof.
  apply (parse_13f_holdings_short_circuit (net := table_host) (X := demo_parser)
           demo_cik demo_accession ["NVDA"] [] (page 200 "<informationTable/>"));
    [reflexivity|reflexivity|by vm_compute].
Defined.

Lemma parse_13f_holdings_aborts_witness :
  parse_13f_holdings (net := flaky_host) (X := demo_parser)
    demo_cik demo_accession ["NVDA"] [] =
  (Ok [], [EGet (info_table_url demo_cik demo_accession) None; EPrint]).
Proof.
  apply (parse_13f_holdings_aborts (net := flaky_host) (X := demo_parser)
           demo_cik demo_accession ["NVDA"] []).
  reflexivity.
Defined.

Lemma parse_13f_holdings_wanted_witness :
  wanted_by ["NVDA"]
    {| security_name := "NVIDIA CORP NVDA 100 500"; cusip := "67066G104";
       ticker := "NVDA"; shares := 100; market_value := 500000;
       raw_line := Some "NVIDIA CORP NVDA 100 500" |}.
Proof.
  eapply (parse_13f_holdings_wanted (net := text_host) (X := demo_parser)
           demo_cik demo_accession ["NVDA"] []).
  - done.
  - by vm_compute.
  - left.
Defined.

(** On the host that has only the text, the three requests follow each
    other with no delay between them. *)
Example parse_13f_holdings_not_throttled :
  throttled (parse_13f_holdings (net := text_host) (X := demo_parser)
               demo_cik demo_accession ["NVDA"] []).2 = false.
Proof. by vm_compute. Qed.
