(* ===== verification/History.v ===== *)
(** * History: the holdings of a ticker over the years, and their summary

    Models [get_historical_holdings_for_ticker] and
    [_create_historical_summary] of
    src/datafetcher/institutional_tracker.py.

    The first walks the first three institutions of the roster, crawls the
    filing index of each, picks the filings to read (the twenty newest
    from 2020 on and every fourth older one, fifty at most), runs the
    cascade on each for the one ticker and stamps every holding with the
    institution and the filing.  Its handlers can only be reached before
    the list is appended to, so they return the list as the loop body
    found it.

    The second is the pandas code read on a list of rows: a frame is the
    list of its rows in order, [groupby(k).first()] is the first row of
    each key with the keys sorted, [nlargest(3)] the three largest values.
    Sums are exact (rationals); the rounding of floats is not modelled.
    [pd.to_datetime(...).dt.year] is read as the year of an ISO date, the
    format of every date the crawler returns. *)

From Stdlib Require Import QArith Lqa String Ascii ZArith Lia Sorted Permutation.
From stdpp Require Import base tactics option list strings.
From S2P Require Import Prelude PyRuntime Resolver Filings Net Crawler Xml Holdings Cascade.

#[local] Open Scope string_scope.
#[local] Open Scope Z_scope.
#[local] Open Scope list_scope.

(** A holding after [holding.update({...})]: the dict of the parser and
    the five keys of its provenance. *)
Record holding : Type := {
  raw : raw_holding;
  institution_name : string;
  institution_cik : string;
  h_filing_date : string;
  h_filing_year : Z;
  h_accession_number : string;
}.

Definition stamp (name cik : string) (filing : filing) (h : raw_holding) : holding :=
  {| raw := h; institution_name := name; institution_cik := cik;
     h_filing_date := filing_date filing; h_filing_year := filing_year filing;
     h_accession_number := accession_number filing |}.

(** ** The filings that are read *)

(** [[f for f in historical_filings if f['filing_year'] >= 2020][:20]] *)
Definition recent_filings (historical_filings : list filing) : list filing :=
  take 20 (filter (fun f => 2020 <= filing_year f) historical_filings).

(** [[f for f in historical_filings if f['filing_year'] < 2020][::4]] *)
Definition older_filings (historical_filings : list filing) : list filing :=
  every_nth 4 (filter (fun f => filing_year f < 2020) historical_filings).

(** [filings_to_process[:50]] *)
Definition filings_to_process (historical_filings : list filing) : list filing :=
  take 50 (recent_filings historical_filings ++ older_filings historical_filings).

(** What a holding of the history carries. *)
Definition provenance_ok (now_year start_year : Z) (tk : string) (h : holding) : Prop :=
  (institution_cik h, institution_name h) ∈ take 3 get_major_institutions /\
  year_of (h_filing_date h) = Ok (h_filing_year h) /\
  start_year <= h_filing_year h <= now_year /\
  (ticker (raw h) = tk \/
   Py.contains (Py.lower tk) (Py.lower (security_name (raw h))) = true).

Section History.
Context {net : Net} `{R : Roster} `{X : XmlParser}.

(** The body of the loop over the filings, with its [try]. *)
Definition process_filing (ticker cik name : string) (filing : filing)
    (all_historical_holdings : list holding) : io trace (list holding) :=
  io_try
    (print ;;;
     holdings <~ parse_13f_holdings cik (accession_number filing) [ticker] ;;
     let all_historical_holdings :=
       all_historical_holdings ++ (stamp name cik filing <$> holdings) in
     sleep 300 ;;;
     io_ret all_historical_holdings)
    (fun e => print ;;; io_ret all_historical_holdings).

(** The body of the loop over the institutions, with its [try]. *)
Definition process_institution (now_year : Z) (ticker : string) (start_year : Z)
    (institution : string * string) (all_historical_holdings : list holding)
  : io trace (list holding) :=
  let '(cik, name) := institution in
  print ;;;
  io_try
    (historical_filings <~ get_historical_13f_filings now_year cik start_year None ;;
     print ;;;
     all_historical_holdings <~
       io_foldl (process_filing ticker cik name)
         (filings_to_process historical_filings) all_historical_holdings ;;
     sleep 1000 ;;;
     io_ret all_historical_holdings)
    (fun e => print ;;; io_ret all_historical_holdings).

(** [get_historical_holdings_for_ticker(ticker, start_year)] *)
Definition get_historical_holdings_for_ticker (now_year : Z) (ticker : string)
    (start_year : Z) : io trace (list holding) :=
  print ;;;
  io_foldl (process_institution now_year ticker start_year)
    (take 3 get_major_institutions) [].

End History.

(** ** The yearly summary *)

Record yearly_summary : Type := {
  year : Z;
  summary_ticker : string;
  total_institutional_shares : Q;
  total_market_value : Q;
  num_major_institutions : nat;
  avg_holding_size : Q;
  largest_holder : string;
  largest_holding_shares : Q;
  concentration_top3 : Q;
}.

(** The first row of each key, in the order the keys first occur. *)
Fixpoint firsts {A} (key : A -> string) (seen : list string) (rows : list A) : list A :=
  match rows with
  | [] => []
  | r :: rows' =>
      if bool_decide (key r ∈ seen) then firsts key seen rows'
      else r :: firsts key (key r :: seen) rows'
  end.

(** [df.groupby(key).first().reset_index()]: the first row of each key,
    the keys in ascending order. *)
Definition groupby_first {A} (key : A -> string) (rows : list A) : list A :=
  sort_desc key (fun a b => Py.str_leb b a) (firsts key [] rows).

(** [series.max()] and [series.idxmax()] of a frame that is not empty:
    the first row among those of greatest value. *)
Fixpoint argmax {A} (value : A -> Q) (best : A) (rows : list A) : A :=
  match rows with
  | [] => best
  | r :: rows' =>
      argmax value (if Qle_bool (value r) (value best) then best else r) rows'
  end.

(** [df.nlargest(3, col)[col].sum()] *)
Definition top3_sum (values : list Q) : Q :=
  Qsum (take 3 (sort_desc id Qle_bool values)).

Definition shares_of (h : holding) : Q := shares (raw h).
Definition value_of (h : holding) : Q := market_value (raw h).

(** The dict appended for a year, from [latest_per_institution]. *)
Definition summary_of (y : Z) (ticker : string) (latest : list holding)
  : option yearly_summary :=
  match latest with
  | [] => None
  | first :: rest =>
      let total_shares := Qsum (shares_of <$> latest) in
      let total_value := Qsum (value_of <$> latest) in
      let num_institutions := length latest in
      let largest := argmax shares_of first rest in
      Some {| year := y; summary_ticker := ticker;
              total_institutional_shares := total_shares;
              total_market_value := total_value;
              num_major_institutions := num_institutions;
              avg_holding_size :=
                if (0 <? num_institutions)%nat
                then (total_shares / inject_Z (Z.of_nat num_institutions))%Q
                else 0%Q;
              largest_holder := institution_name largest;
              largest_holding_shares := shares_of largest;
              concentration_top3 :=
                if Qpos total_shares
                then (top3_sum (shares_of <$> latest) / total_shares * 100)%Q
                else 0%Q |}
  end.

(** The rows with their year: [holdings_df['year'] = ...dt.year]. *)
Definition with_years (holdings_df : list holding) : result (list (Z * holding)) :=
  result_map (fun h => y <- year_of (h_filing_date h) ;; Ok (y, h)) holdings_df.

(** [holdings_df[holdings_df['year'] == year]] *)
Definition year_data (rows : list (Z * holding)) (y : Z) : list holding :=
  snd <$> filter (fun r => r.1 = y) rows.

(** [sorted(holdings_df['year'].unique(), reverse=True)] *)
Definition years_of (rows : list (Z * holding)) : list Z :=
  sort_desc id Z.leb (unique (fst <$> rows)).

(** [_create_historical_summary(holdings_df, ticker)]: the summaries, and
    whether the handler printed. *)
Definition _create_historical_summary (holdings_df : list holding) (ticker : string)
  : list yearly_summary * bool :=
  match holdings_df with
  | [] => ([], false)
  | _ =>
      match with_years holdings_df with
      | Ok rows =>
          (omap (fun y =>
                   summary_of y ticker
                     (groupby_first institution_name (year_data rows y)))
                (years_of rows), false)
      | Raise _ => ([], true)
      end
  end.

(** The rows of a year, and the first row of each of its institutions. *)
Definition rows_of_year (df : list holding) (y : Z) : list holding :=
  filter (fun h => year_of (h_filing_date h) = Ok y) df.

Definition latest_rows (df : list holding) (y : Z) : list holding :=
  groupby_first institution_name (rows_of_year df y).

(** ** Facts about the history *)

Section HistoryFacts.
Context {net : Net} `{R : Roster} `{X : XmlParser}.

Lemma filings_to_process_elem hf f : f ∈ filings_to_process hf -> f ∈ hf.
Proof.
  unfold filings_to_process, recent_filings, older_filings.
  intros [H|H]%take_elem%elem_of_app.
  - by apply take_elem, list_elem_of_filter in H as [_ H].
  - by apply every_nth_from_elem, list_elem_of_filter in H as [_ H].
Qed.

Lemma process_filing_total tk cik name f acc : total (process_filing tk cik name f acc).
Proof.
  apply total_try. intros e. apply total_bind; [done|]. intros _. apply total_ret.
Qed.

Lemma process_institution_total now tk start i acc :
  total (process_institution now tk start i acc).
Proof.
  destruct i as [cik name]. apply total_bind; [done|]. intros _.
  apply total_try. intros e. apply total_bind; [done|]. intros _. apply total_ret.
Qed.

Lemma stamp_ok now start tk cik name f h :
  (cik, name) ∈ take 3 get_major_institutions ->
  filing_wf start now f -> wanted_by [tk] h ->
  provenance_ok now start tk (stamp name cik f h).
Proof.
  intros Hi (_ & Hy & Hr1 & Hr2) Hw. unfold provenance_ok. simpl.
  split_and!; try done.
  destruct Hw as [Hw%list_elem_of_singleton|(t & ->%list_elem_of_singleton & Ht)];
    auto.
Qed.

Lemma process_filing_post now start tk cik name f acc :
  (cik, name) ∈ take 3 get_major_institutions -> filing_wf start now f ->
  Forall (provenance_ok now start tk) acc ->
  returns (process_filing tk cik name f acc) (Forall (provenance_ok now start tk)).
Proof.
  intros Hi Hf Hacc. apply returns_try.
  2:{ intros e. apply returns_bind_any. intros _. by apply returns_ret. }
  apply returns_bind_any. intros _.
  eapply returns_bind; [by apply parse_13f_holdings_post|].
  intros hs Hhs. apply returns_bind_any. intros _. apply returns_ret.
  apply Forall_app. split; [done|]. apply Forall_fmap.
  eapply Forall_impl; [exact Hhs|]. intros h. by apply stamp_ok.
Qed.

Lemma process_institution_post now start tk i acc :
  i ∈ take 3 get_major_institutions ->
  Forall (provenance_ok now start tk) acc ->
  returns (process_institution now tk start i acc)
    (Forall (provenance_ok now start tk)).
Proof.
  destruct i as [cik name]. intros Hi Hacc. apply returns_bind_any. intros _.
  apply returns_try.
  2:{ intros e. apply returns_bind_any. intros _. by apply returns_ret. }
  eapply returns_bind; [apply get_historical_13f_filings_post|].
  intros hf [Hhf _]. apply returns_bind_any. intros _.
  eapply returns_bind.
  { apply returns_foldl_elem; [|exact Hacc]. intros f st Hf Hst.
    apply process_filing_post; [done| |done].
    rewrite Forall_forall in Hhf. by apply Hhf, filings_to_process_elem. }
  intros st Hst. apply returns_bind_any. intros _. by apply returns_ret.
Qed.

(** C10. [get_historical_holdings_for_ticker] never raises, and every
    holding it returns carries its provenance: one of the first three
    institutions of the roster, a filing year that is the year of the
    filing date and lies between [start_year] and the current year, and
    a security that passed the filter of the ticker. *)
Theorem get_historical_holdings_for_ticker_provenance now tk start tr :
  exists hs,
    (get_historical_holdings_for_ticker now tk start tr).1 = Ok hs /\
    Forall (provenance_ok now start tk) hs.
Proof.
  apply total_returns.
  - apply total_bind; [done|]. intros _. apply total_foldl.
    intros i acc. apply process_institution_total.
  - apply returns_bind_any. intros _. apply returns_foldl_elem; [|done].
    intros i acc Hi Hacc. by apply process_institution_post.
Qed.

End HistoryFacts.

(** ** Facts about the summary *)

Lemma top3_sum_bounds values :
  Forall (fun x => (0 <= x)%Q) values ->
  (0 <= top3_sum values <= Qsum values)%Q.
Proof.
  intros Hv. unfold top3_sum.
  assert (Hs : Forall (fun x => (0 <= x)%Q) (sort_desc id Qle_bool values))
    by (by rewrite (sort_desc_perm id Qle_bool values)).
  split.
  - by apply Qsum_nonneg, Forall_take.
  - rewrite <- (Qsum_perm _ _ (sort_desc_perm id Qle_bool values)).
    by apply Qsum_take_le.
Qed.

Lemma percent_bounds a b : (0 < b)%Q -> (0 <= a <= b)%Q -> (0 <= a / b * 100 <= 100)%Q.
Proof.
  intros Hb [Ha Hab].
  assert (0 <= a / b)%Q by (apply Qle_shift_div_l; lra).
  assert (a / b <= 1)%Q by (apply Qle_shift_div_r; lra).
  lra.
Qed.

Lemma summary_of_concentration y tk latest s :
  summary_of y tk latest = Some s ->
  Forall (fun h => (0 <= shares_of h)%Q) latest ->
  (0 <= concentration_top3 s <= 100)%Q.
Proof.
  destruct latest as [|h latest]; [done|]. intros [= <-] Hl. cbn [concentration_top3].
  destruct (Qpos _) eqn:E; [|lra]. apply Qpos_spec in E.
  apply percent_bounds; [done|]. apply top3_sum_bounds.
  by apply (Forall_fmap shares_of (fun x => (0 <= x)%Q) (h :: latest)).
Qed.

Lemma summary_of_zero y tk latest s :
  summary_of y tk latest = Some s ->
  (Qsum (shares_of <$> latest) <= 0)%Q -> concentration_top3 s = 0%Q.
Proof.
  destruct latest as [|h latest]; [done|]. intros [= <-] Hl. cbn [concentration_top3].
  destruct (Qpos _) eqn:E; [|done]. apply Qpos_spec in E. simpl in *. lra.
Qed.

Lemma firsts_spec {A} (key : A -> string) rows : forall seen,
  NoDup (key <$> firsts key seen rows) /\
  (forall r, r ∈ firsts key seen rows -> r ∈ rows /\ key r ∉ seen) /\
  (forall r, r ∈ rows -> key r ∉ seen -> key r ∈ key <$> firsts key seen rows).
Proof.
  induction rows as [|r rows IH]; intros seen; simpl.
  { split_and!; [constructor|by intros ? ?%not_elem_of_nil..]. }
  destruct (IH seen) as (Hn & Hin & Hall).
  destruct (IH (key r :: seen)) as (Hn' & Hin' & Hall').
  case_bool_decide as Hr.
  - split_and!; [done| |].
    + intros x [Hx Hk]%Hin. split; [by right|done].
    + intros x [->|Hx]%elem_of_cons Hk; [done|auto].
  - split_and!.
    + csimpl. constructor; [|done].
      intros (x & Hk & [_ Hx]%Hin')%list_elem_of_fmap. apply Hx. rewrite Hk. left.
    + intros x [->|[Hx Hk]%Hin']%elem_of_cons; [split; [left|done]|].
      split; [by right|]. intros ?. apply Hk. by right.
    + intros x [->|Hx]%elem_of_cons Hk; csimpl; [left|].
      destruct (decide (key x = key r)) as [->|Hne]; [left|].
      right. apply Hall'; [done|]. by intros [?|?]%elem_of_cons.
Qed.

Lemma groupby_first_spec {A} (key : A -> string) rows :
  NoDup (key <$> groupby_first key rows) /\
  (forall r, r ∈ groupby_first key rows -> r ∈ rows) /\
  (forall r, r ∈ rows -> key r ∈ key <$> groupby_first key rows).
Proof.
  unfold groupby_first. destruct (firsts_spec key rows []) as (Hn & Hin & Hall).
  pose proof (sort_desc_perm key (fun a b => Py.str_leb b a) (firsts key [] rows)) as Hp.
  split_and!.
  - by rewrite Hp.
  - intros r Hr. rewrite Hp in Hr. by apply Hin.
  - intros r Hr. rewrite Hp. apply Hall; [done|apply not_elem_of_nil].
Qed.

Lemma firsts_first {A} (key : A -> string) rows : forall seen r,
  r ∈ firsts key seen rows ->
  exists l1 l2, rows = l1 ++ r :: l2 /\ key r ∉ key <$> l1.
Proof.
  induction rows as [|x rows IH]; intros seen r; simpl.
  { by intros ?%not_elem_of_nil. }
  case_bool_decide as Hx.
  - intros Hr. destruct (firsts_spec key rows seen) as (_ & Hin & _).
    destruct (Hin r Hr) as [_ Hk].
    apply IH in Hr as (l1 & l2 & -> & Hl1). exists (x :: l1), l2.
    split; [done|]. csimpl. rewrite not_elem_of_cons. split; [congruence|done].
  - intros [->|Hr]%elem_of_cons.
    + exists [], rows. split; [done|]. apply not_elem_of_nil.
    + destruct (firsts_spec key rows (key x :: seen)) as (_ & Hin & _).
      destruct (Hin r Hr) as [_ Hk].
      apply IH in Hr as (l1 & l2 & -> & Hl1). exists (x :: l1), l2.
      split; [done|]. csimpl. rewrite not_elem_of_cons. split; [|done].
      intros ?. apply Hk. rewrite H. left.
Qed.

Lemma with_years_spec df rows :
  with_years df = Ok rows ->
  snd <$> rows = df /\
  Forall (fun r => year_of (h_filing_date r.2) = Ok r.1) rows.
Proof.
  intros H%result_map_Ok. induction H as [|h [y h'] df rows Hy _ [IH1 IH2]]; [done|].
  inv_bind. subst. csimpl. split; [by f_equal|]. by constructor.
Qed.

(** A summary is the summary of the first rows of a year's institutions. *)
Lemma summary_rows df tk s :
  s ∈ (_create_historical_summary df tk).1 ->
  exists rows y, with_years df = Ok rows /\ y ∈ fst <$> rows /\
    summary_of y tk (groupby_first institution_name (year_data rows y)) = Some s.
Proof.
  unfold _create_historical_summary. destruct df as [|h df]; [by intros ?%not_elem_of_nil|].
  destruct (with_years _) as [rows|]; simpl; [|by intros ?%not_elem_of_nil].
  intros (y & Hy & Hs)%list_elem_of_omap. exists rows, y. split_and!; [done| |done].
  unfold years_of in Hy. by rewrite sort_desc_elem, unique_elem in Hy.
Qed.

Lemma year_data_elem rows y h :
  h ∈ year_data rows y <-> (y, h) ∈ rows.
Proof.
  unfold year_data. rewrite list_elem_of_fmap. split.
  - intros ([y' h'] & -> & [Hy Hin]%list_elem_of_filter). simpl in *. by subst.
  - intros Hin. exists (y, h). split; [done|]. by apply list_elem_of_filter.
Qed.

Lemma latest_elem df rows y h :
  with_years df = Ok rows ->
  h ∈ groupby_first institution_name (year_data rows y) ->
  h ∈ df /\ year_of (h_filing_date h) = Ok y.
Proof.
  intros [<- Hy]%with_years_spec Hh. rewrite Forall_forall in Hy.
  destruct (groupby_first_spec institution_name (year_data rows y)) as (_ & Hin & _).
  apply Hin, year_data_elem in Hh. split.
  - apply list_elem_of_fmap. by exists (y, h).
  - by apply (Hy (y, h)).
Qed.

(** C21. When no share count is negative, the concentration of the top
    three institutions is a percentage: between 0 and 100. *)
Theorem summary_concentration df tk s :
  Forall (fun h => (0 <= shares_of h)%Q) df ->
  s ∈ (_create_historical_summary df tk).1 ->
  (0 <= concentration_top3 s <= 100)%Q.
Proof.
  intros Hdf (rows & y & Hrows & _ & Hs)%summary_rows.
  eapply summary_of_concentration; [done|]. apply Forall_forall. intros h Hh.
  rewrite Forall_forall in Hdf. by apply Hdf, (latest_elem df rows y).
Qed.

Lemma years_of_decreasing rows :
  StronglySorted (fun a b => b < a) (years_of rows).
Proof.
  unfold years_of. apply strongly_sorted_strict.
  - apply sort_desc_nodup, unique_nodup.
  - apply sort_desc_strongly_sorted; intros a b; rewrite ?Z.leb_le; lia.
Qed.

Lemma summary_of_year y tk latest s : summary_of y tk latest = Some s -> year s = y.
Proof. destruct latest; [done|]. by intros [= <-]. Qed.

(** The summary has one row per year, the years strictly
    decreasing. *)
Theorem summary_years_decreasing df tk :
  StronglySorted (fun a b => year b < year a) (_create_historical_summary df tk).1.
Proof.
  unfold _create_historical_summary. destruct df as [|h df]; [constructor|].
  destruct (with_years _) as [rows|]; simpl; [|constructor].
  eapply strongly_sorted_omap, years_of_decreasing.
  by intros x y x' y' <-%summary_of_year <-%summary_of_year.
Qed.

Lemma year_data_rows_of_year df rows y :
  with_years df = Ok rows -> year_data rows y = rows_of_year df y.
Proof.
  intros [<- Hy]%with_years_spec. unfold year_data, rows_of_year.
  induction Hy as [|[y' h] rows Hh _ IH]; [done|]. simpl in Hh. csimpl.
  rewrite !filter_cons. simpl. rewrite Hh, <- IH.
  destruct (decide (y' = y)) as [->|Hne].
  - by rewrite decide_True.
  - rewrite decide_False; [done|congruence].
Qed.

(** Within a year an institution counts once, with the first of its
    rows in the order of the frame: the row of a year is the summary of
    [latest_rows], which has no institution twice, and each of its rows
    has no row of the same institution before it among the rows of the
    year. *)
Theorem summary_latest_per_institution df tk s :
  s ∈ (_create_historical_summary df tk).1 ->
  summary_of (year s) tk (latest_rows df (year s)) = Some s /\
  NoDup (institution_name <$> latest_rows df (year s)) /\
  forall h, h ∈ latest_rows df (year s) ->
    exists l1 l2, rows_of_year df (year s) = l1 ++ h :: l2 /\
                  institution_name h ∉ institution_name <$> l1.
Proof.
  intros (rows & y & Hrows & _ & Hs)%summary_rows.
  rewrite (summary_of_year _ _ _ _ Hs). unfold latest_rows.
  rewrite <- (year_data_rows_of_year df rows y Hrows). split_and!; [done| |].
  - apply groupby_first_spec.
  - intros h Hh. unfold groupby_first in Hh. rewrite sort_desc_elem in Hh.
    by apply firsts_first in Hh.
Qed.

Lemma summary_of_total y tk latest s :
  summary_of y tk latest = Some s ->
  total_institutional_shares s = Qsum (shares_of <$> latest).
Proof. destruct latest; [done|]. by intros [= <-]. Qed.

(** A year whose total share count is not positive has concentration
    0: the division is guarded. *)
Theorem summary_zero_total df tk s :
  s ∈ (_create_historical_summary df tk).1 ->
  (total_institutional_shares s <= 0)%Q -> concentration_top3 s = 0%Q.
Proof.
  intros (rows & y & _ & _ & Hs)%summary_rows Ht.
  eapply summary_of_zero; [done|]. by rewrite <- (summary_of_total _ _ _ _ Hs).
Qed.

(** C22. On a frame sorted by filing date, newest first, as
    [track_major_institutions] passes it, the row that stands for an
    institution in a year is its most recent filing of that year: no row of
    the institution in that year has a later date. *)
Theorem latest_rows_most_recent hs y h h' :
  let df := sort_desc h_filing_date Py.str_leb hs in
  h ∈ latest_rows df y -> h' ∈ rows_of_year df y ->
  institution_name h' = institution_name h ->
  Py.str_leb (h_filing_date h') (h_filing_date h) = true.
Proof.
  intros df Hh Hh' Hn. unfold latest_rows, groupby_first in Hh.
  rewrite sort_desc_elem in Hh.
  apply firsts_first in Hh as (l1 & l2 & Hrows & Hl1).
  assert (Hs : StronglySorted (desc h_filing_date Py.str_leb) (rows_of_year df y)).
  { apply strongly_sorted_filter, sort_desc_strongly_sorted, Py.str_leb_trans.
    apply Py.str_leb_total. }
  rewrite Hrows in Hh', Hs.
  apply elem_of_app in Hh' as [Hin|[->|Hin]%elem_of_cons].
  - destruct Hl1. rewrite <- Hn. by apply list_elem_of_fmap_2.
  - apply Py.str_leb_refl.
  - apply (strongly_sorted_later _ _ _ _ _ Hs Hin).
Qed.

(** ** The theorems on a frame of six rows *)

Definition demo_row (name date : string) (n v : Q) : holding :=
  {| raw := {| security_name := "NVIDIA CORP"; cusip := "67066G104";
               ticker := "NVDA"; shares := n; market_value := v; raw_line := None |};
     institution_name := name; institution_cik := "0001067983";
     h_filing_date := date; h_filing_year := 2021; h_accession_number := "a" |}.

Definition demo_frame : list holding :=
  [demo_row "Vanguard" "2021-11-15" 10 100; demo_row "BlackRock" "2021-11-14" 30 300;
   demo_row "Vanguard" "2021-08-15" 5 50; demo_row "State Street" "2021-05-01" 30 1;
   demo_row "Fidelity" "2021-02-01" 1 1; demo_row "BlackRock" "2020-11-14" 0 70].

Definition demo_summary_2021 : yearly_summary :=
  {| year := 2021; summary_ticker := "NVDA"; total_institutional_shares := 71;
     total_market_value := 402; num_major_institutions := 4;
     avg_holding_size := 71 # 4; largest_holder := "BlackRock";
     largest_holding_shares := 30; concentration_top3 := 7000 # 71 |}.

Definition demo_summary_2020 : yearly_summary :=
  {| year := 2020; summary_ticker := "NVDA"; total_institutional_shares := 0;
     total_market_value := 70; num_major_institutions := 1;
     avg_holding_size := 0; largest_holder := "BlackRock";
     largest_holding_shares := 0; concentration_top3 := 0 |}.

Lemma demo_summary : (_create_historical_summary demo_frame "NVDA").1 =
  [demo_summary_2021; demo_summary_2020].
Proof. by vm_compute. Qed.

Lemma summary_concentration_witness :
  (0 <= concentration_top3 demo_summary_2021 <= 100)%Q.
Proof.
  apply (summary_concentration demo_frame "NVDA").
  - repeat constructor; by vm_compute.
  - rewrite demo_summary. left.
Defined.

Lemma summary_zero_total_witness : concentration_top3 demo_summary_2020 = 0%Q.
Proof.
  apply (summary_zero_total demo_frame "NVDA").
  - rewrite demo_summary. right. left.
  - by vm_compute.
Defined.

Lemma summary_latest_per_institution_witness :
  NoDup (institution_name <$> latest_rows demo_frame 2021).
Proof.
  apply (summary_latest_per_institution demo_frame "NVDA" demo_summary_2021).
  rewrite demo_summary. left.
Defined.

(** ** Three filings of one institution

    The filings of 2019, of May 2020 and of November 2020, with 100, 200
    and 300 shares, in the order the crawl happened to return them. *)

Definition three_filings : list holding :=
  [demo_row "Vanguard" "2020-05-15" 200 1; demo_row "Vanguard" "2019-11-15" 100 1;
   demo_row "Vanguard" "2020-11-15" 300 1].

Lemma latest_rows_most_recent_witness :
  Py.str_leb "2020-05-15" "2020-11-15" = true.
Proof.
  apply (latest_rows_most_recent three_filings 2020
           (demo_row "Vanguard" "2020-11-15" 300 1)
           (demo_row "Vanguard" "2020-05-15" 200 1)).
  - apply list_elem_of_here.
  - apply list_elem_of_further, list_elem_of_here.
  - done.
Defined.

(** On the three filings, once sorted, the summary of 2020 counts the
    300 shares of the later filing of that year and nothing of the
    earlier, and the summary of 2019 the 100 shares of its one filing. *)
Example summary_end_to_end :
  (fun s => (year s, total_institutional_shares s, num_major_institutions s)) <$>
    (_create_historical_summary
       (sort_desc h_filing_date Py.str_leb three_filings) "NVDA").1
  = [(2020, 300%Q, 1%nat); (2019, 100%Q, 1%nat)].
Proof. by vm_compute. Qed.

(** Without the sort the first row of the frame wins, whatever its date. *)
Example summary_unsorted :
  (fun s => (year s, total_institutional_shares s)) <$>
    (_create_historical_summary three_filings "NVDA").1
  = [(2020, 200%Q); (2019, 100%Q)].
Proof. by vm_compute. Qed.
