(* ===== verification/Timeline.v ===== *)
(** * Timeline: the filing timeline of the simplified tracker

    Models [create_institutional_timeline], [_create_yearly_summary] and
    the loop of [_create_institution_analysis] of
    src/datafetcher/simplified_institutional.py.

    The timeline walks the five institutions of the roster and turns every
    filing of [get_comprehensive_13f_history] into an entry.  The yearly
    summary and the analysis are pandas and plain Python code on these
    entries, read on lists; the calls inside their [try] cannot raise on
    typed rows, so their handlers have no case here.  Where pandas leaves
    the order of equal counts open ([value_counts]), the first institution
    of a year that reaches the greatest count is taken, and the theorem on
    it only says that the count is greatest.  The CSV files are written in
    Store.v. *)

From Stdlib Require Import QArith Lqa String Ascii ZArith Lia Sorted Permutation.
From stdpp Require Import base tactics option list strings.
From S2P Require Import Prelude PyRuntime Resolver Filings Net Crawler.

#[local] Open Scope string_scope.
#[local] Open Scope Z_scope.
#[local] Open Scope list_scope.

(** An entry of [timeline_data]. *)
Record timeline_entry : Type := {
  t_filing_date : string;
  t_filing_year : Z;
  t_filing_quarter : string;
  t_institution_name : string;
  t_institution_cik : string;
  t_accession_number : string;
  t_ticker : string;
  form_type : string;
}.

Definition timeline_entry_of (ticker cik name : string) (filing : quarterly_filing)
  : timeline_entry :=
  {| t_filing_date := q_filing_date filing;
     t_filing_year := q_filing_year filing;
     t_filing_quarter := q_filing_quarter filing;
     t_institution_name := name;
     t_institution_cik := cik;
     t_accession_number := q_accession_number filing;
     t_ticker := ticker;
     form_type := q_form filing |}.

Section Timeline.
Context {net : Net}.

(** The body of the loop over the institutions, with its [try]. *)
Definition timeline_step (now_year : Z) (ticker : string)
    (institution : string * string) (timeline_data : list timeline_entry)
  : io trace (list timeline_entry) :=
  let '(cik, name) := institution in
  print ;;;
  io_try
    (filings_history <~ get_comprehensive_13f_history now_year cik 20 ;;
     print ;;;
     let timeline_data :=
       timeline_data ++ (timeline_entry_of ticker cik name <$> filings_history) in
     sleep 1000 ;;;
     io_ret timeline_data)
    (fun e => print ;;; io_ret timeline_data).

(** [create_institutional_timeline(ticker)] *)
Definition create_institutional_timeline (now_year : Z) (ticker : string)
  : io trace (list timeline_entry) :=
  print ;;;
  io_foldl (timeline_step now_year ticker) major_institutions [].

End Timeline.

(** ** The yearly summary *)

Record yearly_activity : Type := {
  a_year : Z;
  a_ticker : string;
  total_filings : nat;
  active_institutions : nat;
  avg_filings_per_institution : Q;
  most_active_institution : string;
  quarters_with_activity : nat;
}.

(** [len(rows) / len(groups) if len(groups) > 0 else 0] *)
Definition ratio_or_zero (n d : nat) : Q :=
  if (0 <? d)%nat then (inject_Z (Z.of_nat n) / inject_Z (Z.of_nat d))%Q else 0%Q.

(** The number of rows of a key. *)
Definition count_of (names : list string) (name : string) : nat :=
  length (filter (fun n => n = name) names).

(** [series.value_counts()]: the keys with their counts, the greatest count
    first; among equal counts the key met first in the series. *)
Definition value_counts (names : list string) : list (string * nat) :=
  sort_desc snd Nat.leb ((fun n => (n, count_of names n)) <$> unique names).

(** The dict appended for a year. *)
Definition activity_of (y : Z) (ticker : string) (year_data : list timeline_entry)
  : yearly_activity :=
  let institution_counts := value_counts (t_institution_name <$> year_data) in
  {| a_year := y; a_ticker := ticker;
     total_filings := length year_data;
     active_institutions := length institution_counts;
     avg_filings_per_institution :=
       ratio_or_zero (length year_data) (length institution_counts);
     most_active_institution := default "" (fst <$> head institution_counts);
     quarters_with_activity := length (unique (t_filing_quarter <$> year_data)) |}.

(** [_create_yearly_summary(timeline_df, ticker)] *)
Definition _create_yearly_summary (timeline_df : list timeline_entry) (ticker : string)
  : list yearly_activity :=
  (fun y => activity_of y ticker (filter (fun r => t_filing_year r = y) timeline_df))
    <$> sort_desc id Z.leb (unique (t_filing_year <$> timeline_df)).

(** ** The analysis of an institution *)

Inductive consistency : Type := High | Medium | Low.

Record analysis_row : Type := {
  i_institution_name : string;
  i_institution_cik : string;
  total_filings_20yr : nat;
  years_active : nat;
  avg_filings_per_year : Q;
  first_filing_date : string;
  last_filing_date : string;
  filing_consistency : consistency;
}.

(** ['High' if avg >= 4 else 'Medium' if avg >= 2 else 'Low'] *)
Definition consistency_of (avg : Q) : consistency :=
  if Qle_bool 4 avg then High else if Qle_bool 2 avg then Medium else Low.

(** [min(...)] and [max(...)] of strings, from a first element on. *)
Definition str_min (a b : string) : string := if Py.str_leb a b then a else b.
Definition str_max (a b : string) : string := if Py.str_leb a b then b else a.

(** The dict appended for an institution with a filing. *)
Definition analysis_of (cik name : string) (filings_history : list quarterly_filing)
  : option analysis_row :=
  match filings_history with
  | [] => None
  | first :: rest =>
      let years_active := length (unique (q_filing_year <$> filings_history)) in
      let avg_filings_per_year := ratio_or_zero (length filings_history) years_active in
      Some {| i_institution_name := name; i_institution_cik := cik;
              total_filings_20yr := length filings_history;
              years_active := years_active;
              avg_filings_per_year := avg_filings_per_year;
              first_filing_date :=
                foldl str_min (q_filing_date first) (q_filing_date <$> rest);
              last_filing_date :=
                foldl str_max (q_filing_date first) (q_filing_date <$> rest);
              filing_consistency := consistency_of avg_filings_per_year |}
  end.

Section Analysis.
Context {net : Net}.

(** The body of the loop of [_create_institution_analysis]. *)
Definition analysis_step (now_year : Z) (institution : string * string)
    (institution_analysis : list analysis_row)
  : io trace (list analysis_row) :=
  let '(cik, name) := institution in
  filings_history <~ get_comprehensive_13f_history now_year cik 20 ;;
  let institution_analysis :=
    institution_analysis ++ option_list (analysis_of cik name filings_history) in
  sleep 500 ;;;
  io_ret institution_analysis.

(** The loop of [_create_institution_analysis]: the rows of the frame that
    is saved. *)
Definition institution_analysis_rows (now_year : Z)
  : io trace (list analysis_row) :=
  io_try
    (io_foldl (analysis_step now_year) major_institutions [])
    (fun e => print ;;; io_ret []).

End Analysis.

(** ** What the theorems are stated with *)

(** What an entry of the timeline carries. *)
Definition entry_wf (now_year : Z) (ticker : string) (e : timeline_entry) : Prop :=
  (t_institution_cik e, t_institution_name e) ∈ major_institutions /\
  t_ticker e = ticker /\ form_type e = "13F-HR" /\
  year_of (t_filing_date e) = Ok (t_filing_year e) /\
  now_year - 20 <= t_filing_year e /\
  quarter_of (t_filing_date e) = Ok (t_filing_quarter e).

(** The rows of a year. *)
Definition entries_of_year (df : list timeline_entry) (y : Z) : list timeline_entry :=
  filter (fun r => t_filing_year r = y) df.

Definition analysis_ok (a : analysis_row) : Prop :=
  (i_institution_cik a, i_institution_name a) ∈ major_institutions /\
  (1 <= years_active a <= total_filings_20yr a)%nat.

(** ** Facts about the timeline *)

Section TimelineFacts.
Context {net : Net}.

Lemma timeline_step_total now tk i acc : total (timeline_step now tk i acc).
Proof.
  destruct i as [cik name]. apply total_bind; [done|]. intros _.
  apply total_try. intros e. apply total_bind; [done|]. intros _. apply total_ret.
Qed.

Lemma timeline_step_post now tk i acc :
  i ∈ major_institutions -> Forall (entry_wf now tk) acc ->
  returns (timeline_step now tk i acc) (Forall (entry_wf now tk)).
Proof.
  destruct i as [cik name]. intros Hi Hacc. apply returns_bind_any. intros _.
  apply returns_try.
  2:{ intros e. apply returns_bind_any. intros _. by apply returns_ret. }
  eapply returns_bind; [apply get_comprehensive_13f_history_post|].
  intros fs [Hfs _]. apply returns_bind_any. intros _.
  apply returns_bind_any. intros _. apply returns_ret.
  apply Forall_app. split; [done|]. apply Forall_fmap.
  eapply Forall_impl; [exact Hfs|]. intros f (Hform & Hy & Hc & Hq).
  by split_and!.
Qed.

(** C24. [create_institutional_timeline] never raises, and every entry
    names an institution of the roster and the ticker asked for, and
    carries a 13F-HR filing of the last twenty years with the year and
    the quarter of its date. *)
Theorem create_institutional_timeline_wf now tk tr :
  exists es,
    (create_institutional_timeline now tk tr).1 = Ok es /\
    Forall (entry_wf now tk) es.
Proof.
  apply total_returns.
  - apply total_bind; [done|]. intros _. apply total_foldl.
    intros i acc. apply timeline_step_total.
  - apply returns_bind_any. intros _. apply returns_foldl_elem; [|done].
    intros i acc Hi Hacc. by apply timeline_step_post.
Qed.

End TimelineFacts.

(** ** Facts about the yearly summary *)

Lemma summary_years_nodup (df : list timeline_entry) :
  NoDup (sort_desc id Z.leb (unique (t_filing_year <$> df))).
Proof. apply sort_desc_nodup, unique_nodup. Qed.

(** The yearly summary counts every entry of the timeline once: the
    filings of its rows add up to the length of the frame. *)
Theorem yearly_summary_partition df tk :
  sum_list (total_filings <$> _create_yearly_summary df tk) = length df.
Proof.
  unfold _create_yearly_summary. rewrite <- list_fmap_compose.
  apply (partition_length t_filing_year); [apply summary_years_nodup|].
  intros e He. apply sort_desc_elem, unique_elem, list_elem_of_fmap. eauto.
Qed.

Lemma value_counts_elem names n c :
  (n, c) ∈ value_counts names <-> n ∈ names /\ c = count_of names n.
Proof.
  unfold value_counts. rewrite sort_desc_elem, list_elem_of_fmap. split.
  - intros (m & [= -> ->] & Hm). split; [|done]. by apply unique_elem.
  - intros [Hn ->]. exists n. by rewrite unique_elem.
Qed.

Lemma value_counts_sorted names :
  StronglySorted (desc snd Nat.leb) (value_counts names).
Proof.
  apply sort_desc_strongly_sorted; [intros a b|intros a b c];
    rewrite !Nat.leb_le; lia.
Qed.

Lemma count_of_absent names n : n ∉ names -> count_of names n = 0%nat.
Proof.
  intros Hn. unfold count_of. induction names as [|m names IH]; [done|].
  apply not_elem_of_cons in Hn as [Hne Hn]. rewrite filter_cons.
  rewrite decide_False by done. auto.
Qed.

(** The first key of [value_counts] has the greatest count. *)
Lemma most_active_greatest names n :
  (count_of names n <=
   count_of names (default "" (fst <$> head (value_counts names))))%nat.
Proof.
  destruct (decide (n ∈ names)) as [Hn|Hn]; [|rewrite (count_of_absent _ _ Hn); lia].
  assert (Hin : (n, count_of names n) ∈ value_counts names)
    by (by apply value_counts_elem).
  pose proof (value_counts_sorted names) as Hs.
  destruct (value_counts names) as [|[m c] rest] eqn:E; [by apply not_elem_of_nil in Hin|].
  assert (Hm : (m, c) ∈ value_counts names) by (rewrite E; left).
  apply value_counts_elem in Hm as [_ ->]. simpl.
  apply elem_of_cons in Hin as [[= -> _]|Hin]; [done|].
  apply StronglySorted_inv in Hs as [_ Hs]. rewrite Forall_forall in Hs.
  apply Hs in Hin. unfold desc in Hin. simpl in Hin. by apply Nat.leb_le.
Qed.

(** A row of the yearly summary counts the entries of its year, of
    which there is one at least, and its most active institution has as
    many filings in that year as any other. *)
Theorem yearly_summary_most_active df tk r n :
  r ∈ _create_yearly_summary df tk ->
  let names := t_institution_name <$> entries_of_year df (a_year r) in
  total_filings r = length (entries_of_year df (a_year r)) /\
  entries_of_year df (a_year r) <> [] /\
  (count_of names n <= count_of names (most_active_institution r))%nat.
Proof.
  unfold _create_yearly_summary.
  intros (y & -> & Hy)%list_elem_of_fmap. simpl. split_and!; [done| |].
  - apply sort_desc_elem, unique_elem, list_elem_of_fmap in Hy as (e & -> & He).
    intros Hnil. assert (e ∈ entries_of_year df (t_filing_year e))
      by (by apply list_elem_of_filter).
    rewrite Hnil in *. by apply not_elem_of_nil in H.
  - apply most_active_greatest.
Qed.

(** ** Facts about the analysis *)

Lemma foldl_str_min d ds :
  let m := foldl str_min d ds in
  Py.str_leb m d = true /\ Forall (fun x => Py.str_leb m x = true) ds.
Proof.
  revert d. induction ds as [|x ds IH]; intros d; simpl.
  { split; [apply Py.str_leb_refl|constructor]. }
  destruct (IH (str_min d x)) as [H1 H2].
  assert (Hd : Py.str_leb (str_min d x) d = true /\ Py.str_leb (str_min d x) x = true).
  { unfold str_min. destruct (Py.str_leb d x) eqn:E.
    - split; [apply Py.str_leb_refl|done].
    - split; [|apply Py.str_leb_refl].
      by destruct (Py.str_leb_total d x) as [?|?]; [congruence|]. }
  destruct Hd as [Hd Hx]. split; [eauto using Py.str_leb_trans|].
  constructor; [eauto using Py.str_leb_trans|done].
Qed.

Lemma foldl_str_max d ds :
  let m := foldl str_max d ds in
  Py.str_leb d m = true /\ Forall (fun x => Py.str_leb x m = true) ds.
Proof.
  revert d. induction ds as [|x ds IH]; intros d; simpl.
  { split; [apply Py.str_leb_refl|constructor]. }
  destruct (IH (str_max d x)) as [H1 H2].
  assert (Hd : Py.str_leb d (str_max d x) = true /\ Py.str_leb x (str_max d x) = true).
  { unfold str_max. destruct (Py.str_leb d x) eqn:E.
    - split; [done|apply Py.str_leb_refl].
    - split; [apply Py.str_leb_refl|].
      by destruct (Py.str_leb_total d x) as [?|?]; [congruence|]. }
  destruct Hd as [Hd Hx]. split; [eauto using Py.str_leb_trans|].
  constructor; [eauto using Py.str_leb_trans|done].
Qed.

(** The first and the last filing date of an analysis bound the date
    of every filing of the institution. *)
Theorem analysis_of_dates cik name fs a f :
  analysis_of cik name fs = Some a -> f ∈ fs ->
  Py.str_leb (first_filing_date a) (q_filing_date f) = true /\
  Py.str_leb (q_filing_date f) (last_filing_date a) = true.
Proof.
  destruct fs as [|f0 fs]; [done|]. intros [= <-] Hf. simpl.
  destruct (foldl_str_min (q_filing_date f0) (q_filing_date <$> fs)) as [Hm0 Hm].
  destruct (foldl_str_max (q_filing_date f0) (q_filing_date <$> fs)) as [HM0 HM].
  apply elem_of_cons in Hf as [->|Hf]; [done|].
  rewrite Forall_fmap, Forall_forall in Hm, HM. split; [by apply Hm|by apply HM].
Qed.

Lemma analysis_of_ok cik name fs a :
  (cik, name) ∈ major_institutions ->
  analysis_of cik name fs = Some a -> analysis_ok a.
Proof.
  intros Hi. destruct fs as [|f fs]; [done|]. intros [= <-].
  split; [done|]. cbn [years_active total_filings_20yr].
  pose proof (unique_length (q_filing_year <$> f :: fs)) as Hu.
  rewrite length_fmap in Hu. split; [simpl; lia|done].
Qed.

Section AnalysisFacts.
Context {net : Net}.

Lemma analysis_step_post now i acc :
  i ∈ major_institutions -> Forall analysis_ok acc ->
  returns (analysis_step now i acc) (Forall analysis_ok).
Proof.
  destruct i as [cik name]. intros Hi Hacc.
  apply returns_bind_any. intros fs. apply returns_bind_any. intros _.
  apply returns_ret, Forall_app. split; [done|].
  destruct (analysis_of cik name fs) as [a|] eqn:E; simpl; [|done].
  constructor; [|done]. by eapply analysis_of_ok.
Qed.

(** The institution analysis never raises; each of its rows is for
    an institution of the roster and counts at least one active year and
    no more active years than filings. *)
Theorem create_institution_analysis_ok now tr :
  exists rows,
    (institution_analysis_rows now tr).1 = Ok rows /\ Forall analysis_ok rows.
Proof.
  apply total_returns.
  - apply total_try. intros e. apply total_bind; [done|]. intros _. apply total_ret.
  - apply returns_try.
    + apply returns_foldl_elem; [|done]. intros i acc. apply analysis_step_post.
    + intros e. apply returns_bind_any. intros _. by apply returns_ret.
Qed.

End AnalysisFacts.

(** ** The theorems on a timeline of four entries *)

Definition demo_entry (name date quarter : string) (y : Z) : timeline_entry :=
  {| t_filing_date := date; t_filing_year := y; t_filing_quarter := quarter;
     t_institution_name := name; t_institution_cik := "0001067983";
     t_accession_number := "a"; t_ticker := "NVDA"; form_type := "13F-HR" |}.

Definition demo_timeline : list timeline_entry :=
  [demo_entry "Vanguard Group Inc" "2021-11-15" "Q4" 2021;
   demo_entry "BlackRock Inc" "2021-08-14" "Q3" 2021;
   demo_entry "BlackRock Inc" "2021-05-14" "Q2" 2021;
   demo_entry "BlackRock Inc" "2020-05-14" "Q2" 2020].

Definition demo_activity_2021 : yearly_activity :=
  {| a_year := 2021; a_ticker := "NVDA"; total_filings := 3;
     active_institutions := 2; avg_filings_per_institution := 3 # 2;
     most_active_institution := "BlackRock Inc"; quarters_with_activity := 3 |}.

Lemma yearly_summary_most_active_witness :
  total_filings demo_activity_2021 =
    length (entries_of_year demo_timeline (a_year demo_activity_2021)) /\
  entries_of_year demo_timeline (a_year demo_activity_2021) <> [] /\
  (count_of (t_institution_name <$>
             entries_of_year demo_timeline (a_year demo_activity_2021))
            "Vanguard Group Inc" <=
   count_of (t_institution_name <$>
             entries_of_year demo_timeline (a_year demo_activity_2021))
            (most_active_institution demo_activity_2021))%nat.
Proof.
  apply (yearly_summary_most_active demo_timeline "NVDA" demo_activity_2021
           "Vanguard Group Inc").
  apply list_elem_of_In. vm_compute. by left.
Defined.

Definition demo_filing (date : string) (y : Z) : quarterly_filing :=
  {| q_accession_number := "a"; q_filing_date := date; q_form := "13F-HR";
     q_filing_year := y; q_filing_quarter := "Q1" |}.

Lemma analysis_of_dates_witness :
  Py.str_leb "2019-02-14" (q_filing_date (demo_filing "2021-02-12" 2021)) = true /\
  Py.str_leb (q_filing_date (demo_filing "2021-02-12" 2021)) "2022-02-11" = true.
Proof.
  apply (analysis_of_dates "0001067983" "Berkshire Hathaway Inc"
           [demo_filing "2022-02-11" 2022; demo_filing "2021-02-12" 2021;
            demo_filing "2019-02-14" 2019]
           {| i_institution_name := "Berkshire Hathaway Inc";
              i_institution_cik := "0001067983"; total_filings_20yr := 3;
              years_active := 3; avg_filings_per_year := 3 # 3;
              first_filing_date := "2019-02-14"; last_filing_date := "2022-02-11";
              filing_consistency := Low |}).
  - by vm_compute.
  - right. left.
Defined.
