(* ===== verification/Scheduler.v ===== *)
(** * Scheduler: which scripts run, and what is counted

    Models src/datafetcher/scheduler.py: [run_fetch_script],
    [run_daily_scripts], [run_weekly_scripts] and [main].

    The operating system is the class [Os]: which paths exist, which
    directories can be entered, and how a script ends when it is run
    (an exit code, the time-out of ten minutes, or an error of
    [subprocess.run]).  The state of the scheduler is its working
    directory and the list of what it did, oldest first: the directories
    entered, the scripts run and the lines logged.  The day of the week
    and the hour of [datetime.now()] are parameters of [main]. *)

From Stdlib Require Import String Ascii ZArith Lia.
From stdpp Require Import base tactics option list strings.
From S2P Require Import Prelude PyRuntime.

#[local] Open Scope string_scope.
#[local] Open Scope Z_scope.
#[local] Open Scope list_scope.

(** How [subprocess.run] ends. *)
Inductive outcome : Type :=
  | Exit (returncode : Z)
  | TimedOut
  | Failed.

Class Os := {
  path_exists : string -> bool;
  can_enter : string -> bool;
  run_script : string -> string -> outcome;
}.

Inductive level : Type := INFO | ERROR.

Inductive action : Type :=
  | Chdir (dir : string)
  | Run (script cwd : string)
  | Log (lvl : level).

Record sched : Type := {
  cwd : string;
  actions : list action;
}.

#[global] Instance level_eq_dec : EqDecision level.
Proof. solve_decision. Defined.
#[global] Instance action_eq_dec : EqDecision action.
Proof. solve_decision. Defined.

Definition act (a : action) : io sched unit :=
  fun s => (Ok tt, {| cwd := cwd s; actions := actions s ++ [a] |}).

(** [logging.info(...)] and [logging.error(...)]: the text is not kept. *)
Definition logging_info : io sched unit := act (Log INFO).
Definition logging_error : io sched unit := act (Log ERROR).

(** [os.getcwd()] *)
Definition getcwd : io sched string := fun s => (Ok (cwd s), s).

(** [posixpath.dirname]: the path up to its last slash, without the
    slashes at its end unless it is made of slashes. *)
Fixpoint last_slash (s : string) : option nat :=
  match s with
  | "" => None
  | String c s' =>
      match last_slash s' with
      | Some i => Some (S i)
      | None => if (c =? "/")%char then Some O else None
      end
  end.

Fixpoint rstrip_slash (s : string) : string :=
  match s with
  | "" => ""
  | String c s' =>
      let r := rstrip_slash s' in
      if (c =? "/")%char && (r =? "")%string then "" else String c r
  end.

Definition dirname (p : string) : string :=
  match last_slash p with
  | None => ""
  | Some i =>
      let head := substring 0 (S i) p in
      if Py.sall (fun c => (c =? "/")%char) head then head else rstrip_slash head
  end.

Section Scheduler.
Context {os : Os}.

(** [os.chdir(dir)] *)
Definition chdir (dir : string) : io sched unit :=
  fun s =>
    if can_enter dir
    then (Ok tt, {| cwd := dir; actions := actions s ++ [Chdir dir] |})
    else (Raise OSError, s).

(** [subprocess.run([sys.executable, script_path], ..., timeout=600)]:
    the return code. *)
Definition subprocess_run (script_path : string) : io sched Z :=
  fun s =>
    let s' := {| cwd := cwd s; actions := actions s ++ [Run script_path (cwd s)] |} in
    match run_script script_path (cwd s) with
    | Exit code => (Ok code, s')
    | TimedOut => (Raise TimeoutExpired, s')
    | Failed => (Raise OSError, s')
    end.

(** [run_fetch_script(script_path, stock_name)].  The two handlers log an
    error and return [False]. *)
Definition run_fetch_script (script_path : string) : io sched bool :=
  io_try
    (logging_info ;;;
     let script_dir := dirname script_path in
     original_cwd <~ getcwd ;;
     chdir script_dir ;;;
     returncode <~ subprocess_run script_path ;;
     chdir original_cwd ;;;
     (if returncode =? 0 then logging_info
      else logging_error ;;; logging_error) ;;;
     io_ret (returncode =? 0))
    (fun e =>
       match e with
       | TimeoutExpired => logging_error ;;; io_ret false
       | _ => logging_error ;;; io_ret false
       end).

(** The body of the loop over the scripts. *)
Definition run_one (script : string * string) (successful_runs : Z) : io sched Z :=
  let '(script_path, stock_name) := script in
  if path_exists script_path then
    success <~ run_fetch_script script_path ;;
    io_ret (if success then successful_runs + 1 else successful_runs)
  else
    logging_error ;;; io_ret successful_runs.

(** The loop and the two log lines the daily and the weekly run share. *)
Definition run_scripts (scripts : list (string * string)) : io sched (Z * Z) :=
  logging_info ;;;
  let successful_runs := 0 in
  let total_runs := Z.of_nat (length scripts) in
  successful_runs <~ io_foldl run_one scripts successful_runs ;;
  logging_info ;;;
  io_ret (successful_runs, total_runs).

Definition base_path : string := "/app".

Definition daily_scripts : list (string * string) :=
  [(base_path +:+ "/NVDA/NVDAfetch.py", "NVDA Data");
   (base_path +:+ "/NVDA/NVDAinsider.py", "NVDA Insider");
   (base_path +:+ "/AMZN/AMZNfetch.py", "AMZN Data");
   (base_path +:+ "/AMZN/AMZNinsider.py", "AMZN Insider");
   (base_path +:+ "/GOOGL/GOOGLfetch.py", "GOOGL Data");
   (base_path +:+ "/GOOGL/GOOGLinsider.py", "GOOGL Insider");
   (base_path +:+ "/MSFT/MSFTfetch.py", "MSFT Data");
   (base_path +:+ "/MSFT/MSFTinsider.py", "MSFT Insider");
   (base_path +:+ "/QQQ/qqqFetch.py", "QQQ Data");
   (base_path +:+ "/SPY/spyFetch.py", "SPY Data");
   (base_path +:+ "/options_flow.py", "Options Flow & Dark Pool");
   (base_path +:+ "/reddit_sentiment.py", "Reddit Sentiment")].

Definition weekly_scripts : list (string * string) :=
  [(base_path +:+ "/vix_fetcher.py", "VIX & Volatility Data");
   (base_path +:+ "/simplified_institutional.py", "Institutional Holdings");
   (base_path +:+ "/economic_indicators.py", "Economic Indicators")].

(** [run_daily_scripts()] *)
Definition run_daily_scripts : io sched (Z * Z) := run_scripts daily_scripts.

(** [run_weekly_scripts()] *)
Definition run_weekly_scripts : io sched (Z * Z) := run_scripts weekly_scripts.

(** [main()], at the given day of the week (0 is Monday) and hour. *)
Definition main (day_of_week hour : Z) : io sched unit :=
  if (day_of_week =? 4) && (hour =? 20) then
    logging_info ;;;
    daily <~ run_daily_scripts ;;
    weekly <~ run_weekly_scripts ;;
    logging_info
  else
    daily <~ run_daily_scripts ;;
    logging_info.

End Scheduler.

(** ** Observations *)

(** The scripts that were run, in order. *)
Definition ran (s : sched) : list string :=
  omap (fun a => match a with Run p _ => Some p | _ => None end) (actions s).

Definition start : sched := {| cwd := "/app"; actions := [] |}.

(** The state after more actions, in a directory. *)
Definition after (s : sched) (dir : string) (more : list action) : sched :=
  {| cwd := dir; actions := actions s ++ more |}.

(** Whether a script of the list is started. *)
Definition started `{Os} (p : string) : bool := path_exists p && can_enter (dirname p).

(** A system where QQQ is missing, SPY times out and the options script
    fails. *)
Definition demo_os : Os :=
  {| path_exists := fun p => negb (p =? "/app/QQQ/qqqFetch.py")%string;
     can_enter := fun d => negb (d =? "")%string;
     run_script := fun p _ =>
       if (p =? "/app/SPY/spyFetch.py")%string then TimedOut
       else if (p =? "/app/options_flow.py")%string then Exit 1
       else Exit 0 |}.

(** ** Facts *)

Section SchedulerFacts.
Context {os : Os}.

(** [run_fetch_script], by what the system answers. *)
Lemma run_fetch_script_spec p s :
  run_fetch_script p s =
  let d := dirname p in
  if can_enter d then
    match run_script p d with
    | Exit code =>
        if can_enter (cwd s) then
          (Ok (code =? 0),
           after s (cwd s)
             ([Log INFO; Chdir d; Run p d; Chdir (cwd s)] ++
              if code =? 0 then [Log INFO] else [Log ERROR; Log ERROR]))
        else (Ok false, after s d [Log INFO; Chdir d; Run p d; Log ERROR])
    | _ => (Ok false, after s d [Log INFO; Chdir d; Run p d; Log ERROR])
    end
  else (Ok false, after s (cwd s) [Log INFO; Log ERROR]).
Proof.
  unfold run_fetch_script, io_try, io_bind, logging_info, logging_error, act,
    getcwd, chdir, subprocess_run, after, io_ret. simpl.
  destruct (can_enter (dirname p)); simpl; [|by rewrite <- !app_assoc].
  destruct (run_script p (dirname p)) as [code| |]; simpl;
    [|by rewrite <- !app_assoc..].
  destruct (can_enter (cwd s)); simpl; [|by rewrite <- !app_assoc].
  destruct (code =? 0); simpl; by rewrite <- !app_assoc.
Qed.

Lemma ran_after s d more :
  ran (after s d more) =
  ran s ++ omap (fun a => match a with Run p _ => Some p | _ => None end) more.
Proof. unfold ran, after. simpl. apply omap_app. Qed.

(** What one script does to the count and to the list of scripts run. *)
Lemma run_fetch_script_ran p s :
  exists b s', run_fetch_script p s = (Ok b, s') /\
    ran s' = ran s ++ (if can_enter (dirname p) then [p] else []).
Proof.
  rewrite run_fetch_script_spec. simpl.
  destruct (can_enter (dirname p)); [|eexists _, _; split; [done|]; by rewrite ran_after].
  destruct (run_script p (dirname p)) as [code| |];
    [destruct (can_enter (cwd s))|..];
    eexists _, _; (split; [done|]); rewrite ran_after; try done.
  by destruct (code =? 0).
Qed.

Lemma act_ran a s : (forall p c, a <> Run p c) -> ran (act a s).2 = ran s.
Proof.
  intros Ha. unfold ran, act. simpl. rewrite omap_app. simpl.
  destruct a as [d|p c|l]; [by rewrite app_nil_r|by destruct (Ha p c)|by rewrite app_nil_r].
Qed.

Lemma run_one_spec script n s :
  exists n' s', run_one script n s = (Ok n', s') /\
    n <= n' <= n + 1 /\
    ran s' = ran s ++ (if started script.1 then [script.1] else []).
Proof.
  destruct script as [p name]. unfold run_one, started. simpl.
  destruct (path_exists p); simpl.
  - unfold io_bind. destruct (run_fetch_script_ran p s) as (b & s' & -> & Hr).
    eexists _, _. split; [done|]. split; [destruct b; lia|done].
  - eexists _, _. split; [done|]. split; [lia|].
    rewrite app_nil_r. by apply act_ran.
Qed.

Lemma run_loop_spec scripts : forall n s,
  exists n' s', io_foldl run_one scripts n s = (Ok n', s') /\
    n <= n' <= n + Z.of_nat (length scripts) /\
    ran s' = ran s ++ filter (fun p => started p) scripts.*1.
Proof.
  induction scripts as [|script scripts IH]; intros n s.
  { eexists _, _. split; [done|]. split; [simpl; lia|by rewrite app_nil_r]. }
  cbn [io_foldl]. unfold io_bind.
  destruct (run_one_spec script n s) as (n1 & s1 & -> & Hn1 & Hr1).
  destruct (IH n1 s1) as (n2 & s2 & -> & Hn2 & Hr2).
  eexists _, _. split; [done|]. split; [rewrite length_cons; lia|].
  rewrite Hr2, Hr1, <- app_assoc. f_equal. csimpl. rewrite filter_cons.
  by destruct (started script.1).
Qed.

Lemma log_ran lvl s : exists s', act (Log lvl) s = (Ok tt, s') /\ ran s' = ran s.
Proof. eexists. split; [done|]. by apply (act_ran (Log lvl)). Qed.

(** A run of a list of scripts returns, counts the scripts of the list
    and no more successes than that, and starts the scripts that exist
    and whose directory can be entered, in the order of the list. *)
Lemma run_scripts_spec scripts s :
  exists n s', run_scripts scripts s = (Ok (n, Z.of_nat (length scripts)), s') /\
    0 <= n <= Z.of_nat (length scripts) /\
    ran s' = ran s ++ filter (fun p => started p) scripts.*1.
Proof.
  unfold run_scripts, io_bind, logging_info.
  destruct (log_ran INFO s) as (s0 & -> & H0).
  destruct (run_loop_spec scripts 0 s0) as (n & s1 & -> & Hn & Hr).
  destruct (log_ran INFO s1) as (s2 & -> & H2).
  eexists _, _. split; [done|]. split; [lia|]. by rewrite H2, Hr, H0.
Qed.

(** C37. [main] never raises.  It starts the daily scripts that exist, in
    the order of the list and each once, and after them the weekly
    scripts exactly when the day is Friday and the hour is 20. *)
Theorem main_runs day hour s :
  exists s', main day hour s = (Ok tt, s') /\
    ran s' = ran s ++ filter (fun p => started p) daily_scripts.*1 ++
             (if (day =? 4) && (hour =? 20)
              then filter (fun p => started p) weekly_scripts.*1 else []).
Proof.
  unfold main, run_daily_scripts, run_weekly_scripts.
  destruct ((day =? 4) && (hour =? 20)); unfold io_bind, logging_info.
  - destruct (log_ran INFO s) as (s0 & -> & H0).
    destruct (run_scripts_spec daily_scripts s0) as (n1 & s1 & -> & _ & H1).
    destruct (run_scripts_spec weekly_scripts s1) as (n2 & s2 & -> & _ & H2).
    destruct (log_ran INFO s2) as (s3 & -> & H3).
    eexists. split; [done|]. by rewrite H3, H2, H1, H0, <- app_assoc.
  - destruct (run_scripts_spec daily_scripts s) as (n1 & s1 & -> & _ & H1).
    destruct (log_ran INFO s1) as (s2 & -> & H2).
    eexists. split; [done|]. by rewrite H2, H1, app_nil_r.
Qed.

(** When the script ends with an exit code, [run_fetch_script]
    returns whether the code is 0 and the working directory is the one
    it started in. *)
Theorem run_fetch_script_restores p s code :
  can_enter (dirname p) = true -> can_enter (cwd s) = true ->
  run_script p (dirname p) = Exit code ->
  (run_fetch_script p s).1 = Ok (code =? 0) /\
  cwd (run_fetch_script p s).2 = cwd s.
Proof. intros Hd Hc Hr. by rewrite run_fetch_script_spec; simpl; rewrite Hd, Hr, Hc. Qed.

(** C39. When the script times out, [run_fetch_script] logs an error and
    returns [False], and the working directory stays the directory of
    the script: the [os.chdir] back is skipped. *)
Theorem run_fetch_script_timeout p s :
  can_enter (dirname p) = true ->
  run_script p (dirname p) = TimedOut ->
  run_fetch_script p s =
    (Ok false, after s (dirname p)
       [Log INFO; Chdir (dirname p); Run p (dirname p); Log ERROR]).
Proof. intros Hd Hr. by rewrite run_fetch_script_spec; simpl; rewrite Hd, Hr. Qed.

(** [run_daily_scripts] never raises and returns a count of
    successes between 0 and 12 with the total 12, whatever the scripts
    do. *)
Theorem run_daily_scripts_counts s :
  exists n s', run_daily_scripts s = (Ok (n, 12), s') /\ 0 <= n <= 12.
Proof.
  destruct (run_scripts_spec daily_scripts s) as (n & s' & E & Hn & _).
  by exists n, s'.
Qed.

End SchedulerFacts.

Lemma run_fetch_script_restores_witness :
  (run_fetch_script (os := demo_os) "/app/options_flow.py" start).1 = Ok (1 =? 0) /\
  cwd (run_fetch_script (os := demo_os) "/app/options_flow.py" start).2 = cwd start.
Proof.
  apply (run_fetch_script_restores (os := demo_os) "/app/options_flow.py" start 1);
    reflexivity.
Defined.

Lemma run_fetch_script_timeout_witness :
  run_fetch_script (os := demo_os) "/app/SPY/spyFetch.py" start =
    (Ok false, after start (dirname "/app/SPY/spyFetch.py")
       [Log INFO; Chdir (dirname "/app/SPY/spyFetch.py");
        Run "/app/SPY/spyFetch.py" (dirname "/app/SPY/spyFetch.py"); Log ERROR]).
Proof.
  apply (run_fetch_script_timeout (os := demo_os) "/app/SPY/spyFetch.py" start);
    reflexivity.
Defined.

(** After the time-out of SPY, the scripts that follow run from the
    directory of SPY and the scheduler ends there. *)
Example daily_run_ends_elsewhere :
  (run_daily_scripts (os := demo_os) start).1 = Ok (9, 12) /\
  cwd (run_daily_scripts (os := demo_os) start).2 = "/app/SPY".
Proof. by vm_compute. Qed.
