(* ===== verification/Ownership.v ===== *)
(** * Ownership: the current holders of a ticker, from Yahoo Finance

    Models [get_institutional_ownership_yahoo] and
    [track_smart_money_flows] of
    src/datafetcher/institutional_tracker.py and
    [get_current_institutional_data] of
    src/datafetcher/simplified_institutional.py.

    The library is the class [Yahoo]: for a ticker, the frame of its
    institutional holders, [None], or an exception.  A frame is the list
    of its rows and the columns it has; reading a column that is missing
    raises [KeyError].  Sums are exact.  A division of pandas by zero
    raises nothing and gives [inf] or [nan]: such a value is [None] in
    [top_5_concentration]. *)

From Stdlib Require Import QArith Lqa String Ascii ZArith Lia.
From stdpp Require Import base tactics option list strings.
From S2P Require Import Prelude PyRuntime Filings Net History.

#[local] Open Scope string_scope.
#[local] Open Scope Z_scope.
#[local] Open Scope list_scope.

Record holder_row : Type := {
  Holder : string;
  Shares : Q;
  pct_out : Q;
}.

(** [stock.institutional_holders], with the columns it has. *)
Record holders_frame : Type := {
  has_holder : bool;
  has_shares : bool;
  has_pct_out : bool;
  rows : list holder_row;
}.

Class Yahoo := {
  institutional_holders : string -> result (option holders_frame);
  major_holders : string -> result unit;
}.

(** [df[name]] for a column that may be missing. *)
Definition column {A} (present : bool) (f : holder_row -> A) (df : holders_frame)
  : result (list A) :=
  if present then Ok (f <$> rows df) else Raise KeyError.

(** [series.iloc[0]] *)
Definition iloc0 {A} (l : list A) : result A := py_index l 0.

Section Ownership.
Context {yahoo : Yahoo}.

(** [get_institutional_ownership_yahoo(ticker)] *)
Definition get_institutional_ownership_yahoo (ticker : string)
  : io trace (option holders_frame) :=
  io_try
    (institutional_holders <~ io_lift (institutional_holders ticker) ;;
     _ <~ io_lift (major_holders ticker) ;;
     io_ret institutional_holders)
    (fun e => print ;;; io_ret None).

Record smart_money : Type := {
  sm_ticker : string;
  total_institutions : nat;
  total_shares_held : Q;
  top_10_concentration : Q;
  sm_largest_holder : option string;
  largest_holder_shares : Q;
  largest_holder_pct : Q;
}.

(** The dict [smart_money_data] of a frame. *)
Definition smart_money_of (ticker : string) (current_ownership : holders_frame)
  : result smart_money :=
  let total_institutions := length (rows current_ownership) in
  let total_shares_held :=
    if has_shares current_ownership
    then Qsum (Shares <$> rows current_ownership) else 0%Q in
  let top_holders :=
    if (10 <=? total_institutions)%nat
    then take 10 (rows current_ownership) else rows current_ownership in
  let empty := bool_decide (rows current_ownership = []) in
  top_10_concentration <-
    (if Qpos total_shares_held then
       _ <- column (has_shares current_ownership) Shares current_ownership ;;
       Ok (Qsum (Shares <$> top_holders) / total_shares_held * 100)%Q
     else Ok 0%Q) ;;
  largest_holder <-
    (if empty then Ok None
     else names <- column (has_holder current_ownership) Holder current_ownership ;;
          n <- iloc0 names ;; Ok (Some n)) ;;
  largest_holder_shares <-
    (if empty then Ok 0%Q
     else shares <- column (has_shares current_ownership) Shares current_ownership ;;
          iloc0 shares) ;;
  largest_holder_pct <-
    (if has_pct_out current_ownership && negb empty
     then iloc0 (pct_out <$> rows current_ownership) else Ok 0%Q) ;;
  Ok {| sm_ticker := ticker; total_institutions := total_institutions;
        total_shares_held := total_shares_held;
        top_10_concentration := top_10_concentration;
        sm_largest_holder := largest_holder;
        largest_holder_shares := largest_holder_shares;
        largest_holder_pct := largest_holder_pct |}.

(** [track_smart_money_flows(ticker)]: the pair, or [(None, None)]. *)
Definition track_smart_money_flows (ticker : string)
  : io trace (option (smart_money * holders_frame)) :=
  io_try
    (current_ownership <~ get_institutional_ownership_yahoo ticker ;;
     match current_ownership with
     | Some current_ownership =>
         smart_money_data <~ io_lift (smart_money_of ticker current_ownership) ;;
         io_ret (Some (smart_money_data, current_ownership))
     | None => io_ret None
     end)
    (fun e => print ;;; io_ret None).

(** ** [get_current_institutional_data] *)

Record current_row : Type := {
  c_ticker : string;
  c_total_institutions : nat;
  c_total_shares : Q;
  c_largest_holder : string;
  c_largest_shares : Q;
  top_5_concentration : option Q;
}.

(** A quotient of pandas: no exception, and no number when the divisor is
    zero. *)
Definition np_div (a b : Q) : option Q :=
  if Qeq_bool b 0 then None else Some (a / b)%Q.

(** The dict appended for a frame that is not empty. *)
Definition current_row_of (ticker : string) (df : holders_frame) : result current_row :=
  shares <- column (has_shares df) Shares df ;;
  names <- column (has_holder df) Holder df ;;
  largest_holder <- iloc0 names ;;
  largest_shares <- iloc0 shares ;;
  Ok {| c_ticker := ticker; c_total_institutions := length (rows df);
        c_total_shares := Qsum shares;
        c_largest_holder := largest_holder;
        c_largest_shares := largest_shares;
        top_5_concentration :=
          (fun q => q * 100)%Q <$> np_div (Qsum (take 5 shares)) (Qsum shares) |}.

(** The body of the loop over the tickers, with its [try]. *)
Definition current_step (ticker : string) (current_data : list current_row)
  : io trace (list current_row) :=
  io_try
    (print ;;;
     institutional_holders <~ io_lift (institutional_holders ticker) ;;
     current_data <~
       match institutional_holders with
       | Some df =>
           if bool_decide (rows df = []) then io_ret current_data
           else row <~ io_lift (current_row_of ticker df) ;;
                io_ret (current_data ++ [row])
       | None => io_ret current_data
       end ;;
     sleep 500 ;;;
     io_ret current_data)
    (fun e => print ;;; io_ret current_data).

(** [get_current_institutional_data(tickers)] *)
Definition get_current_institutional_data (tickers : list string)
  : io trace (list current_row) :=
  io_foldl current_step tickers [].

End Ownership.

(** ** A frame of three holders, for the examples *)

Definition demo_holders : holders_frame :=
  {| has_holder := true; has_shares := true; has_pct_out := true;
     rows := [{| Holder := "Vanguard Group Inc"; Shares := 200; pct_out := 8 |};
              {| Holder := "BlackRock Inc"; Shares := 150; pct_out := 6 |};
              {| Holder := "State Street Corp"; Shares := 50; pct_out := 2 |}] |}.

Definition demo_smart_money : smart_money :=
  {| sm_ticker := "NVDA"; total_institutions := 3; total_shares_held := 400;
     top_10_concentration := 40000 # 400;
     sm_largest_holder := Some "Vanguard Group Inc";
     largest_holder_shares := 200; largest_holder_pct := 8 |}.

(** ** Facts *)

Section OwnershipFacts.
Context {yahoo : Yahoo}.

Lemma get_institutional_ownership_yahoo_total tk :
  total (get_institutional_ownership_yahoo tk).
Proof.
  apply total_try. intros e. apply total_bind; [done|]. intros _. apply total_ret.
Qed.

(** [track_smart_money_flows] never raises: an exception of the
    library or a missing column gives [(None, None)]. *)
Theorem track_smart_money_flows_total tk tr :
  is_ok (track_smart_money_flows tk tr).1 = true.
Proof.
  apply total_try. intros e. apply total_bind; [done|]. intros _. apply total_ret.
Qed.

(** When no holder has a negative share count, the concentration of
    the ten largest holders is between 0 and 100. *)
Theorem smart_money_concentration tk df d :
  smart_money_of tk df = Ok d ->
  Forall (fun r => (0 <= Shares r)%Q) (rows df) ->
  (0 <= top_10_concentration d <= 100)%Q.
Proof.
  unfold smart_money_of. intros H Hr.
  set (top := if (10 <=? _)%nat then _ else _) in H.
  assert (Htop : Forall (fun r => (0 <= Shares r)%Q) top /\
                 (Qsum (Shares <$> top) <= Qsum (Shares <$> rows df))%Q).
  { subst top. destruct (10 <=? _)%nat; [|split; [done|lra]].
    split; [by apply Forall_take|]. rewrite fmap_take.
    by apply Qsum_take_le, Forall_fmap. }
  clearbody top. destruct Htop as [Ht1 Ht2]. inv_steps H. subst d.
  cbn [top_10_concentration].
  destruct (Qpos _) eqn:Ep; [|injection E as <-; lra].
  destruct (has_shares df) eqn:Es; [|done].
  cbv [column] in E. cbn [result_bind] in E. injection E as <-.
  apply Qpos_spec in Ep. apply percent_bounds; [done|].
  split; [|done]. by apply Qsum_nonneg, Forall_fmap.
Qed.

(** With fewer than ten holders the ten largest are all of them: the
    concentration is 100 when the total is positive. *)
Theorem smart_money_few_holders tk df d :
  smart_money_of tk df = Ok d -> (length (rows df) < 10)%nat ->
  (0 < total_shares_held d)%Q -> (top_10_concentration d == 100)%Q.
Proof.
  unfold smart_money_of. intros H Hn.
  set (top := if (10 <=? _)%nat then _ else _) in H.
  assert (Htop : top = rows df).
  { subst top. by destruct (Nat.leb_spec 10 (length (rows df))); [lia|]. }
  clearbody top. subst top. inv_steps H. subst d.
  cbn [top_10_concentration total_shares_held]. intros Ht.
  apply Qpos_spec in Ht. rewrite Ht in E.
  destruct (has_shares df) eqn:Es; [|done].
  cbv [column] in E. cbn [result_bind] in E. injection E as <-.
  apply Qpos_spec in Ht. field. lra.
Qed.

Lemma current_row_of_ticker tk df r : current_row_of tk df = Ok r -> c_ticker r = tk.
Proof. unfold current_row_of. intros H. inv_steps H. by subst r. Qed.

Lemma current_step_total tk acc : total (current_step tk acc).
Proof.
  apply total_try. intros e. apply total_bind; [done|]. intros _. apply total_ret.
Qed.

Lemma current_step_post pre tk acc :
  c_ticker <$> acc `sublist_of` pre ->
  returns (current_step tk acc) (fun acc' => c_ticker <$> acc' `sublist_of` pre ++ [tk]).
Proof.
  intros Hacc.
  assert (Hskip : c_ticker <$> acc `sublist_of` pre ++ [tk])
    by (by apply sublist_inserts_r).
  apply returns_try.
  2:{ intros e. apply returns_bind_any. intros _. by apply returns_ret. }
  apply returns_bind_any. intros _. apply returns_bind_any. intros h.
  eapply returns_bind with (P := fun acc' => c_ticker <$> acc' `sublist_of` pre ++ [tk]).
  2:{ intros acc' Hacc'. apply returns_bind_any. intros _. by apply returns_ret. }
  destruct h as [df|]; [|by apply returns_ret].
  case_bool_decide; [by apply returns_ret|].
  eapply returns_bind; [apply returns_lift; intros r Hr; exact (current_row_of_ticker _ _ _ Hr)|].
  intros r Hr. apply returns_ret. rewrite fmap_app. simpl. rewrite Hr.
  by apply sublist_app.
Qed.

(** [get_current_institutional_data] never raises and returns at
    most one row per ticker, in the order of the tickers: a ticker whose
    data is missing, empty or lacks a column is skipped. *)
Theorem get_current_institutional_data_rows tickers tr :
  exists data,
    (get_current_institutional_data tickers tr).1 = Ok data /\
    c_ticker <$> data `sublist_of` tickers.
Proof.
  apply total_returns.
  - apply total_foldl. intros tk acc. apply current_step_total.
  - apply (returns_foldl_prefix current_step
             (fun pre acc => c_ticker <$> acc `sublist_of` pre) tickers [] []);
      [|done].
    intros pre tk acc. apply current_step_post.
Qed.

End OwnershipFacts.

Lemma smart_money_concentration_witness :
  (0 <= top_10_concentration demo_smart_money <= 100)%Q.
Proof.
  apply (smart_money_concentration
           "NVDA" demo_holders demo_smart_money).
  - by vm_compute.
  - repeat constructor; by vm_compute.
Defined.

Lemma smart_money_few_holders_witness :
  (top_10_concentration demo_smart_money == 100)%Q.
Proof.
  apply (smart_money_few_holders
           "NVDA" demo_holders demo_smart_money).
  - by vm_compute.
  - simpl. lia.
  - by vm_compute.
Defined.

(** A frame whose shares add up to zero has no concentration of the five
    largest holders: the division is not guarded as it is in
    [track_smart_money_flows]. *)
Example top_5_of_zero_total :
  result_bind
    (current_row_of "NVDA"
       {| has_holder := true; has_shares := true; has_pct_out := false;
          rows := [{| Holder := "Vanguard Group Inc"; Shares := 0; pct_out := 0 |}] |})
    (fun r => Ok (top_5_concentration r))
  = Ok None.
Proof. by vm_compute. Qed.
