(* ===== verification/Store.v ===== *)
(** * Store: the CSV files the trackers write

    [fetch_and_save_institutional_data] and [track_major_institutions]
    of institutional_tracker.py and
    [create_comprehensive_institutional_dataset] and the whole of
    [_create_institution_analysis] of simplified_institutional.py: the
    methods that run the crawls, the parsers and the summaries of the other
    files and write what they return, and the [main] of each script.

    The world is the one of Disk.v: the trace of Net.v and the files, a
    finite map from paths to frames.  A frame is a list of rows; a row
    ([row]) is one of the dicts the methods build, so that [pd.concat] is
    the concatenation of lists.  The sort of a frame by filing date keeps
    rows of one date in their order. *)

From Stdlib Require Import String Ascii ZArith QArith Lia.
From stdpp Require Import base tactics option list strings gmap.
From S2P Require Import Prelude PyRuntime Resolver Filings Net Crawler Xml.
From S2P Require Import Holdings Cascade History Timeline Ownership Disk.

#[local] Open Scope string_scope.
#[local] Open Scope Z_scope.
#[local] Open Scope list_scope.

(** ** Frames and the disk *)

(** [institution_record] of [track_major_institutions] *)
Record institution_record : Type := {
  timestamp : string;
  ir_institution_name : string;
  ir_cik : string;
  ir_filing_date : string;
  ir_accession_number : string;
}.

(** A row of a frame: one of the dicts that are saved. *)
Inductive row : Type :=
| RHolding (h : holding)
| RSummary (s : yearly_summary)
| RTracking (r : institution_record)
| RSmartMoney (d : smart_money)
| RHolder (r : holder_row)
| RCurrent (r : current_row)
| RTimeline (e : timeline_entry)
| RActivity (a : yearly_activity)
| RAnalysis (a : analysis_row).

Section Store.
Context {D : Disk} {net : Net} `{R : Roster} `{X : XmlParser} {yahoo : Yahoo}.

(** ** [track_major_institutions] *)

Definition holdings_file (output_dir ticker : string) : string :=
  path_join output_dir (ticker +:+ "_historical_institutional_holdings.csv").

Definition summary_20yr_file (output_dir ticker : string) : string :=
  path_join output_dir (ticker +:+ "_institutional_summary_20yr.csv").

Definition tracking_file (output_dir : string) : string :=
  path_join output_dir "major_institutions_tracking.csv".

(** The summary of the holdings that were saved, saved in its turn. *)
Definition save_historical_summary (output_dir ticker : string)
    (holdings_df : list holding) : io (world row) unit :=
  let '(summary_data, printed) := _create_historical_summary holdings_df ticker in
  (if printed then on_trace print else io_ret tt) ;;;
  match summary_data with
  | [] => io_ret tt
  | _ =>
      to_csv (summary_20yr_file output_dir ticker) (RSummary <$> summary_data) ;;;
      on_trace print
  end.

(** The body of the loop over the target tickers, with its [try]. *)
Definition history_step (now_year : Z) (output_dir ticker : string) : io (world row) unit :=
  io_try
    (historical_holdings <~
       on_trace (get_historical_holdings_for_ticker now_year ticker 2005) ;;
     match historical_holdings with
     | [] => io_ret tt
     | _ =>
         let holdings_df := sort_desc h_filing_date Py.str_leb historical_holdings in
         to_csv (holdings_file output_dir ticker) (RHolding <$> holdings_df) ;;;
         on_trace print ;;;
         save_historical_summary output_dir ticker holdings_df
     end)
    (fun e => on_trace print).

Definition institution_record_of (today name cik : string) (filing : recent_filing)
  : institution_record :=
  {| timestamp := today; ir_institution_name := name; ir_cik := cik;
     ir_filing_date := r_filing_date filing;
     ir_accession_number := r_accession_number filing |}.

(** The body of the loop over the first five institutions, with its [try]. *)
Definition tracking_step (today : string) (institution : string * string)
    (institution_data : list institution_record)
  : io (world row) (list institution_record) :=
  let '(cik, name) := institution in
  io_try
    (filings <~ on_trace (get_13f_filings cik 10) ;;
     let institution_data :=
       institution_data ++ (institution_record_of today name cik <$> filings) in
     on_trace (sleep 1000) ;;;
     io_ret institution_data)
    (fun e => on_trace print ;;; io_ret institution_data).

(** [track_major_institutions(output_dir, target_tickers)]; [today] is
    [datetime.now().strftime('%Y-%m-%d')]. *)
Definition track_major_institutions (now_year : Z) (today output_dir : string)
    (target_tickers : list string) : io (world row) unit :=
  on_trace print ;;;
  io_for target_tickers (history_step now_year output_dir) ;;;
  institution_data <~
    io_foldl (tracking_step today) (take 5 get_major_institutions) [] ;;
  match institution_data with
  | [] => io_ret tt
  | _ =>
      append_csv (tracking_file output_dir) (RTracking <$> institution_data) ;;;
      on_trace print
  end.

(** ** [fetch_and_save_institutional_data] *)

Definition holders_file (output_dir ticker : string) : string :=
  path_join output_dir (ticker +:+ "_institutional_holders.csv").

Definition summary_file (output_dir : string) : string :=
  path_join output_dir "institutional_summary.csv".

(** The body of the loop over the tickers.  The summary is appended to the
    list before the holders are saved, so the handler that follows a
    failed write continues with the longer list. *)
Definition save_step (output_dir ticker : string) (smart_money_summary : list smart_money)
  : io (world row) (list smart_money) :=
  on_trace print ;;;
  io_try
    (flows <~ on_trace (track_smart_money_flows ticker) ;;
     match flows with
     | Some (summary_data, detailed_holdings) =>
         let smart_money_summary := smart_money_summary ++ [summary_data] in
         io_try
           ((if bool_decide (rows detailed_holdings = []) then io_ret tt
             else
               to_csv (holders_file output_dir ticker) (RHolder <$> rows detailed_holdings) ;;;
               on_trace print) ;;;
            on_trace (sleep 1000) ;;;
            io_ret smart_money_summary)
           (fun e => on_trace print ;;; io_ret smart_money_summary)
     | None =>
         on_trace (sleep 1000) ;;;
         io_ret smart_money_summary
     end)
    (fun e => on_trace print ;;; io_ret smart_money_summary).

(** [fetch_and_save_institutional_data(tickers, output_dir)] *)
Definition fetch_and_save_institutional_data (now_year : Z) (today : string)
    (tickers : list string) (output_dir : string) : io (world row) unit :=
  on_trace print ;;;
  makedirs output_dir ;;;
  smart_money_summary <~ io_foldl (save_step output_dir) tickers [] ;;
  match smart_money_summary with
  | [] => io_ret tt
  | _ =>
      append_csv (summary_file output_dir) (RSmartMoney <$> smart_money_summary) ;;;
      on_trace print
  end ;;;
  track_major_institutions now_year today output_dir ["NVDA"; "AMZN"; "GOOGL"; "MSFT"] ;;;
  on_trace print.

(** ** [create_comprehensive_institutional_dataset] *)

Definition current_file (output_dir : string) : string :=
  path_join output_dir "current_institutional_summary.csv".

Definition timeline_file (output_dir ticker : string) : string :=
  path_join output_dir (ticker +:+ "_institutional_timeline_20yr.csv").

Definition yearly_file (output_dir ticker : string) : string :=
  path_join output_dir (ticker +:+ "_yearly_institutional_summary.csv").

Definition analysis_file (output_dir : string) : string :=
  path_join output_dir "institution_analysis_20yr.csv".

(** The body of the loop over the tickers, with its [try]. *)
Definition timeline_save_step (now_year : Z) (output_dir ticker : string)
  : io (world row) unit :=
  io_try
    (timeline_data <~ on_trace (create_institutional_timeline now_year ticker) ;;
     match timeline_data with
     | [] => io_ret tt
     | _ =>
         let timeline_df := sort_desc t_filing_date Py.str_leb timeline_data in
         to_csv (timeline_file output_dir ticker) (RTimeline <$> timeline_df) ;;;
         on_trace print ;;;
         match _create_yearly_summary timeline_df ticker with
         | [] => io_ret tt
         | yearly_summary =>
             to_csv (yearly_file output_dir ticker) (RActivity <$> yearly_summary) ;;;
             on_trace print
         end
     end)
    (fun e => on_trace print).

(** [_create_institution_analysis(output_dir)]: the loop of Timeline.v and
    the write, in one [try]. *)
Definition _create_institution_analysis (now_year : Z) (output_dir : string)
  : io (world row) unit :=
  io_try
    (institution_analysis <~
       on_trace (io_foldl (analysis_step now_year) major_institutions []) ;;
     match institution_analysis with
     | [] => io_ret tt
     | _ =>
         to_csv (analysis_file output_dir) (RAnalysis <$> institution_analysis) ;;;
         on_trace print
     end)
    (fun e => on_trace print).

(** [create_comprehensive_institutional_dataset(tickers, output_dir)] *)
Definition create_comprehensive_institutional_dataset (now_year : Z)
    (tickers : list string) (output_dir : string) : io (world row) unit :=
  on_trace print ;;;
  makedirs output_dir ;;;
  current_data <~ on_trace (get_current_institutional_data tickers) ;;
  match current_data with
  | [] => io_ret tt
  | _ =>
      to_csv (current_file output_dir) (RCurrent <$> current_data) ;;;
      on_trace print
  end ;;;
  io_for tickers (timeline_save_step now_year output_dir) ;;;
  _create_institution_analysis now_year output_dir ;;;
  on_trace print.

(** [main()] of simplified_institutional.py *)
Definition simplified_main (now_year : Z) : io (world row) unit :=
  let test_tickers := ["NVDA"] in
  let output_dir := "/app/data/INSTITUTIONAL" in
  create_comprehensive_institutional_dataset now_year test_tickers output_dir.

End Store.

(** [main()] of institutional_tracker.py, whose tracker has the tables
    of [InstitutionalTracker.__init__]. *)
Definition tracker_main {D : Disk} {net : Net} `{X : XmlParser} {yahoo : Yahoo}
    (now_year : Z) (today : string) : io (world row) unit :=
  let test_tickers := ["NVDA"; "AMZN"; "GOOGL"; "MSFT"] in
  let output_dir := "/app/data/INSTITUTIONAL" in
  fetch_and_save_institutional_data (R := tradetitan_roster) now_year today
    test_tickers output_dir.

(** ** A small world, for the examples *)

(** A host with one filing of Berkshire Hathaway, which has an information
    table; nothing else answers. *)
Definition history_host : Net :=
  static_net (fun url =>
    if (url =? submissions_url "0001067983")%string then
      Some (ok_page {| filings := Some {| recent := filing_data_of_rows
                                            [("13F-HR", demo_accession, "2021-05-15")];
                                          files := [] |};
                       top_level := empty_filing_data |})
    else if (url =? info_table_url "0001067983" demo_accession)%string then
      Some (page 200 "<informationTable/>")
    else None).

Definition demo_yahoo : Yahoo :=
  {| institutional_holders := fun _ => Ok (Some demo_holders);
     major_holders := fun _ => Ok tt |}.

Definition demo_holding : holding :=
  {| raw := {| security_name := "NVIDIA CORP"; cusip := "67066G104"; ticker := "NVDA";
               shares := 200; market_value := 1000000; raw_line := None |};
     institution_name := "Berkshire Hathaway Inc"; institution_cik := "0001067983";
     h_filing_date := "2021-05-15"; h_filing_year := 2021;
     h_accession_number := demo_accession |}.

Section StoreFacts.
Context {D : Disk} {net : Net} `{R : Roster} `{X : XmlParser} {yahoo : Yahoo}.

(** The files of a target ticker. *)
Definition history_files (output_dir ticker p : string) : Prop :=
  p = holdings_file output_dir ticker \/ p = summary_20yr_file output_dir ticker.

Lemma tracking_file_fresh d tk : ~ history_files d tk (tracking_file d).
Proof.
  assert (He : ends (tracking_file d) "g.csv")
    by (apply path_join_ends; by exists "major_institutions_trackin").
  intros [E|E]; revert E.
  - apply (ends_ne _ _ "g.csv" "s.csv"); [done| |done|done].
    apply path_join_ends, ends_app. by exists "_historical_institutional_holding".
  - apply (ends_ne _ _ "g.csv" "r.csv"); [done| |done|done].
    apply path_join_ends, ends_app. by exists "_institutional_summary_20y".
Qed.

Lemma save_historical_summary_untouched d tk df :
  keeps (untouched (eq (summary_20yr_file d tk))) (save_historical_summary d tk df).
Proof.
  unfold save_historical_summary. destruct (_create_historical_summary _ _).
  keeps_go; first [apply on_trace_untouched | by apply to_csv_untouched].
Qed.

Lemma history_step_untouched now d tk :
  keeps (untouched (history_files d tk)) (history_step now d tk).
Proof.
  unfold history_step. keeps_go;
    first [apply on_trace_untouched | apply to_csv_untouched; by left | idtac].
  intros w p Hp. apply save_historical_summary_untouched. intros <-. apply Hp. by right.
Qed.

Lemma history_step_total now d tk : total (history_step now d tk).
Proof. unfold history_step. apply total_try. intros e. apply total_print. Qed.

Lemma tracking_step_total today i acc : total (tracking_step today i acc).
Proof.
  destruct i as [cik name]. unfold tracking_step. apply total_try. intros e.
  apply total_bind; [apply total_print|]. intros _. apply total_ret.
Qed.

Lemma tracking_step_grown today i acc p : keeps (grown p) (tracking_step today i acc).
Proof. unfold tracking_step. keeps_go; apply on_trace_grown. Qed.

(** C36. [track_major_institutions] never takes a row from the tracking
    file: whatever the host answers and whether the run ends or raises,
    the rows the file held are the first rows it holds afterwards. *)
Theorem track_major_institutions_grows now today d targets :
  keeps (grown (tracking_file d)) (track_major_institutions now today d targets).
Proof.
  unfold track_major_institutions. keeps_go;
    first [apply on_trace_grown | apply tracking_step_grown | apply append_csv_grown | idtac ].
  eapply keeps_untouched_grown; [apply tracking_file_fresh|apply history_step_untouched].
Qed.

(** The only exception that leaves [track_major_institutions] is the
    [OSError] of a tracking file that cannot be written: every failure of
    a target ticker or of an institution is caught in its loop. *)
Theorem track_major_institutions_result now today d targets w :
  (track_major_institutions now today d targets w).1 = Ok tt \/
  (track_major_institutions now today d targets w).1 = Raise OSError /\
  writable (tracking_file d) = false.
Proof.
  unfold track_major_institutions.
  run_total ipattern:([]) ltac:(apply total_print).
  run_total ipattern:([]) ltac:(apply total_for, history_step_total).
  run_total data ltac:(apply total_foldl, tracking_step_total).
  destruct data as [|r rs]; [by left|]. unfold io_bind.
  destruct (writable (tracking_file d)) eqn:Hw.
  - left. by rewrite append_csv_spec.
  - right. by rewrite append_csv_raises.
Qed.

Lemma holdings_file_ne d tk : holdings_file d tk <> summary_20yr_file d tk.
Proof.
  apply (ends_ne _ _ "s.csv" "r.csv"); [| |done|done]; apply path_join_ends, ends_app.
  - by exists "_historical_institutional_holding".
  - by exists "_institutional_summary_20y".
Qed.

(** When the history of a ticker is not empty and its file can be
    written, [history_step] leaves in the file the holdings sorted by
    filing date, newest first, whatever becomes of the summary. *)
Theorem history_step_saves now d tk w hs tr :
  get_historical_holdings_for_ticker now tk 2005 (w_trace w) = (Ok hs, tr) ->
  hs <> [] -> writable (holdings_file d tk) = true ->
  disk (history_step now d tk w).2 !! holdings_file d tk
    = Some (RHolding <$> sort_desc h_filing_date Py.str_leb hs).
Proof.
  intros Hh Hne Hw. unfold history_step, io_try.
  unfold io_bind at 1, on_trace at 1. rewrite Hh. destruct hs as [|h hs']; [done|].
  unfold io_bind at 1, to_csv at 1. rewrite Hw.
  set (w1 := {| w_trace := _; disk := <[_ := _]> _ |}).
  set (rest := _ ;;; save_historical_summary _ _ _).
  assert (Hr : disk (rest w1).2 !! holdings_file d tk = disk w1 !! holdings_file d tk).
  { apply (keeps_bind (untouched (eq (summary_20yr_file d tk)))).
    - apply on_trace_untouched.
    - intros _. apply save_historical_summary_untouched.
    - intros E. by apply (holdings_file_ne d tk). }
  destruct (rest w1) as [[[]|e] w2]; cbn [snd] in *; rewrite ?on_trace_disk, Hr;
    apply lookup_insert_eq.
Qed.

(** When the output directory cannot be made,
    [fetch_and_save_institutional_data] raises [OSError] after its first
    line: nothing is requested and nothing is written. *)
Theorem fetch_and_save_makedirs now today tickers d w :
  can_make d = false ->
  fetch_and_save_institutional_data now today tickers d w
    = (Raise OSError, {| w_trace := w_trace w ++ [EPrint]; disk := disk w |}).
Proof.
  intros Hc. unfold fetch_and_save_institutional_data, io_bind, makedirs.
  by rewrite Hc.
Qed.

Lemma timeline_save_step_total now d tk : total (timeline_save_step now d tk).
Proof. unfold timeline_save_step. apply total_try. intros e. apply total_print. Qed.

Lemma create_institution_analysis_total now d : total (_create_institution_analysis now d).
Proof. unfold _create_institution_analysis. apply total_try. intros e. apply total_print. Qed.

(** The only exception that leaves
    [create_comprehensive_institutional_dataset] is an [OSError], of the
    output directory that cannot be made or of the file of current data
    that cannot be written: the timelines and the analysis are saved
    under handlers of their own. *)
Theorem create_comprehensive_institutional_dataset_result now tickers d w :
  (create_comprehensive_institutional_dataset now tickers d w).1 = Ok tt \/
  (create_comprehensive_institutional_dataset now tickers d w).1 = Raise OSError /\
  (can_make d = false \/ writable (current_file d) = false).
Proof.
  unfold create_comprehensive_institutional_dataset.
  run_total ipattern:([]) ltac:(apply total_print).
  unfold makedirs. destruct (can_make d); [|right; by auto].
  run_total ipattern:([]) ltac:(apply total_ret).
  run_total data ltac:(apply on_trace_total, total_foldl, current_step_total).
  set (tail := io_bind (io_for _ _) _).
  assert (Ht : total tail).
  { apply total_bind; [apply total_for, timeline_save_step_total|]. intros _.
    apply total_bind; [apply create_institution_analysis_total|]. intros _.
    apply total_print. }
  destruct data as [|r rs].
  - left. apply total_unit, total_bind; [apply total_ret|done].
  - destruct (writable (current_file d)) eqn:Hw.
    + left. apply total_unit, total_bind; [|done].
      apply total_bind; [by apply to_csv_total|intros _; apply total_print].
    + right. unfold io_bind. rewrite to_csv_raises by done. auto.
Qed.

End StoreFacts.

Lemma history_step_saves_witness :
  disk (history_step (D:=open_disk) (net:=history_host) (X:=demo_parser)
          2024 "/app/data" "NVDA" empty_world).2
    !! holdings_file "/app/data" "NVDA"
  = Some [RHolding demo_holding].
Proof.
  apply (history_step_saves (D:=open_disk) (net:=history_host) (X:=demo_parser)
           2024 "/app/data" "NVDA" empty_world [demo_holding]
           (get_historical_holdings_for_ticker (net:=history_host) (X:=demo_parser)
              2024 "NVDA" 2005 []).2).
  - by vm_compute.
  - done.
  - done.
Defined.

Lemma fetch_and_save_makedirs_witness :
  fetch_and_save_institutional_data (D:=sealed_disk) (net:=history_host)
    (X:=demo_parser) (yahoo:=demo_yahoo) 2024 "2024-06-03" ["NVDA"] "/app/data" empty_world
  = (Raise OSError, {| w_trace := [EPrint]; disk := ∅ |}).
Proof.
  by apply (fetch_and_save_makedirs (D:=sealed_disk) (net:=history_host)
              (X:=demo_parser) (yahoo:=demo_yahoo)
              2024 "2024-06-03" ["NVDA"] "/app/data" empty_world).
Defined.
