(* ===== verification/Options.v ===== *)
(** * Options: option chains, unusual activity and dark-pool estimates

    Models src/datafetcher/options_flow.py: [get_options_chain_yahoo],
    [analyze_unusual_options_activity], [get_options_flow_finnhub],
    [calculate_options_indicators], [track_dark_pool_activity],
    [fetch_and_save_options_data] and [main].

    yfinance is the class [Market]: the expirations of a ticker, the chain
    of an expiration, the price history of a period.  It answers by its
    arguments, the same within a run.  A contract has a strike; its
    volume, open interest and implied volatility may be NaN.  The square
    root of the standard deviation is a function of the class, with no
    law: the theorems do not depend on it.

    Where pandas leaves an order open (the default sort of [argsort]), the
    rows of equal distance keep the order of the chain.  The [argsort] of
    a column of NaN is read as pandas 2 has it: every position is -1, and
    [iloc] takes the last row for each.

    The two lists that [fetch_and_save_options_data] appends to are part
    of the state ([run]): an exception later in the body of the loop does
    not undo an append, as in the code. *)

From Stdlib Require Import String Ascii ZArith QArith Lqa Lia.
From stdpp Require Import base tactics option list strings gmap.
From S2P Require Import Prelude PyRuntime Frames Net Disk.

#[local] Open Scope string_scope.
#[local] Open Scope list_scope.

(** ** The data of the library *)

(** A row of [option_chain(...).calls] or [.puts]. *)
Record contract : Type := {
  strike : Q;
  volume : Np.cell;
  openInterest : Np.cell;
  impliedVolatility : Np.cell;
}.

(** A row of [stock.history(...)]. *)
Record bar : Type := {
  Close : Np.cell;
  Volume : Np.cell;
}.

Class Market := {
  options : string -> result (list string);
  option_chain : string -> string -> result (list contract * list contract);
  history : string -> string -> string -> result (list bar);
  sqrt : Q -> Q;
}.

(** ** [get_options_chain_yahoo] *)

(** A row of [all_options]: a contract with the metadata added. *)
Record option_row : Type := {
  contract_of : contract;
  option_type : string;
  expiration : string;
  o_ticker : string;
}.

Definition with_metadata (option_type nearest_exp ticker : string) (c : contract)
  : option_row :=
  {| contract_of := c; option_type := option_type; expiration := nearest_exp;
     o_ticker := ticker |}.

Section Chain.
Context {market : Market}.

Definition get_options_chain_yahoo (ticker : string)
  : io trace (option (list option_row)) :=
  io_try
    (expirations <~ io_lift (options ticker) ;;
     match expirations with
     | [] => print ;;; io_ret None
     | nearest_exp :: _ =>
         options_chain <~ io_lift (option_chain ticker nearest_exp) ;;
         let '(calls, puts) := options_chain in
         let calls := with_metadata "call" nearest_exp ticker <$> calls in
         let puts := with_metadata "put" nearest_exp ticker <$> puts in
         io_ret (Some (calls ++ puts))
     end)
    (fun e => print ;;; io_ret None).

End Chain.

(** ** [analyze_unusual_options_activity] *)

Inductive sentiment : Type := Bullish | Bearish | Neutral.

Record analysis : Type := {
  a_ticker : string;
  total_call_volume : Q;
  total_put_volume : Q;
  put_call_ratio : Np.float;
  total_volume : Q;
  unusual_activity_count : nat;
  volume_weighted_avg_strike : Q;
  a_sentiment : sentiment;
}.

Definition vol (r : option_row) : Np.cell := volume (contract_of r).
Definition oi (r : option_row) : Np.cell := openInterest (contract_of r).

(** [options_data['volume'] / (options_data['openInterest'] + 1)] *)
Definition vol_oi_ratio (r : option_row) : Np.float :=
  Np.div (Np.of_cell (vol r)) (Np.add (Np.of_cell (oi r)) (Np.Fin 1)).

(** [options_data[options_data['option_type'] == t]] *)
Definition of_type (t : string) (rows : list option_row) : list option_row :=
  List.filter (fun r => String.eqb (option_type r) t) rows.

(** ['Bullish' if r < 0.7 else 'Bearish' if r > 1.3 else 'Neutral'] *)
Definition sentiment_of (put_call_ratio : Np.float) : sentiment :=
  if Np.lt put_call_ratio (Np.Fin (7 # 10)) then Bullish
  else if Np.gt put_call_ratio (Np.Fin (13 # 10)) then Bearish
  else Neutral.

(** The rows whose volume reaches the threshold, with the new column. *)
Definition unusual_rows (threshold : Np.cell) (rows : list option_row)
  : list (option_row * Np.float) :=
  (fun r => (r, vol_oi_ratio r)) <$>
    List.filter (fun r => Np.cell_ge (vol r) threshold) rows.

(** [(options_data['strike'] * options_data['volume']).sum()] *)
Definition strike_volume (rows : list option_row) : Q :=
  Np.sum ((fun r => Np.cell_mul (Some (strike (contract_of r))) (vol r)) <$> rows).

(** [analyze_unusual_options_activity(options_data)]: [None] for no data,
    or the analysis with the unusual rows.  The columns the body reads
    are there and its arithmetic does not raise, so the handler, which
    returns [(None, None)], has no case. *)
Definition analyze_unusual_options_activity (options_data : option (list option_row))
  : option (analysis * list (option_row * Np.float)) :=
  match options_data with
  | None | Some [] => None
  | Some ((first :: _) as options_data) =>
      let high_volume_threshold := Np.quantile (9 # 10) (vol <$> options_data) in
      let unusual_volume := unusual_rows high_volume_threshold options_data in
      let calls := of_type "call" options_data in
      let puts := of_type "put" options_data in
      let total_call_volume := Np.sum (vol <$> calls) in
      let total_put_volume := Np.sum (vol <$> puts) in
      let put_call_ratio :=
        Np.div (Np.Fin total_put_volume) (Np.Fin (total_call_volume + 1)) in
      let total_volume := Np.sum (vol <$> options_data) in
      let avg_strike :=
        if Qpos total_volume then (strike_volume options_data / total_volume)%Q
        else 0%Q in
      Some ({| a_ticker := o_ticker first;
               total_call_volume := total_call_volume;
               total_put_volume := total_put_volume;
               put_call_ratio := put_call_ratio;
               total_volume := total_volume;
               unusual_activity_count := length unusual_volume;
               volume_weighted_avg_strike := avg_strike;
               a_sentiment := sentiment_of put_call_ratio |},
            unusual_volume)
  end.

(** ** [get_options_flow_finnhub] *)

Definition finnhub_url : string := "https://finnhub.io/api/v1/stock/option-chain".

Section Finnhub.
Context {net : Net}.

(** [finnhub_api_key] is the key of the environment, [None] or empty when
    there is none.  The parameters of the request are not kept. *)
Definition get_options_flow_finnhub (finnhub_api_key : option string) (ticker : string)
  : io trace (option json_doc) :=
  match finnhub_api_key with
  | None | Some "" => io_ret None
  | Some _ =>
      io_try
        (response <~ requests_get finnhub_url ;;
         if (status_code response =? 200)%Z then
           data <~ io_lift (response_json response) ;;
           io_ret (Some data)
         else print ;;; io_ret None)
        (fun e => print ;;; io_ret None)
  end.

End Finnhub.

(** ** [calculate_options_indicators] *)

Record indicators : Type := {
  i_ticker : string;
  current_price : Np.float;
  max_pain_strike : Q;
  distance_to_max_pain : Np.float;
  net_gamma_exposure : Q;
  atm_call_iv : option Np.float;
  atm_put_iv : option Np.float;
  iv_skew : option Np.float;
  total_call_oi : Q;
  total_put_oi : Q;
  put_call_oi_ratio : Np.float;
}.

Definition Qabs_diff (a b : Q) : Q := if Qle_bool b a then (a - b)%Q else (b - a)%Q.

(** [rows.iloc[(rows['strike'] - price).abs().argsort()[:5]]]: the five
    rows nearest to the price. *)
Definition nearest5 (price : Np.cell) (rows : list option_row) : list option_row :=
  match price with
  | Some p =>
      take 5 (sort_desc (fun r => Qabs_diff (strike (contract_of r)) p)
                (fun a b => Qle_bool b a) rows)
  | None =>
      match last rows with
      | Some r => replicate (min 5 (length rows)) r
      | None => []
      end
  end.

(** [options_data.groupby('strike')['openInterest'].sum().reset_index()]:
    the strikes in ascending order, each with the open interest of its
    rows. *)
Definition total_oi_by_strike (rows : list option_row) : list (Q * Q) :=
  (fun k => (k, Np.sum (oi <$> List.filter (fun r => Qeq_bool (strike (contract_of r)) k) rows)))
    <$> Np.asc (Np.uniq ((fun r => strike (contract_of r)) <$> rows)).

(** [frame.loc[frame['openInterest'].idxmax(), 'strike']]: the strike of
    the first row of greatest open interest. *)
Fixpoint first_max (best : Q * Q) (rows : list (Q * Q)) : Q * Q :=
  match rows with
  | [] => best
  | r :: rows' => first_max (if Qle_bool r.2 best.2 then best else r) rows'
  end.

Definition idxmax_strike (rows : list (Q * Q)) : result Q :=
  match rows with
  | [] => Raise ValueError
  | r :: rows' => Ok (first_max r rows').1
  end.

(** [(rows['openInterest'] * rows['strike'] * factor).sum()] *)
Definition gamma_exposure (factor : Q) (rows : list option_row) : Q :=
  Np.sum ((fun r => Np.cell_mul (Np.cell_mul (oi r) (Some (strike (contract_of r))))
                      (Some factor)) <$> rows).

(** [col.mean() if not rows.empty else None] *)
Definition mean_iv (rows : list option_row) : option Np.float :=
  match rows with
  | [] => None
  | _ => Some (Np.mean ((fun r => impliedVolatility (contract_of r)) <$> rows))
  end.

(** The dict [indicators] of a price and a chain. *)
Definition indicators_of (ticker : string) (price : Np.cell)
    (options_data : list option_row) : result indicators :=
  let current_price := Np.of_cell price in
  let calls := of_type "call" options_data in
  let puts := of_type "put" options_data in
  let atm_calls := nearest5 price calls in
  let atm_puts := nearest5 price puts in
  max_pain_strike <- idxmax_strike (total_oi_by_strike options_data) ;;
  let call_gamma_exposure := gamma_exposure (1 # 100) calls in
  let put_gamma_exposure := gamma_exposure (- (1 # 100)) puts in
  let net_gamma_exposure := (call_gamma_exposure + put_gamma_exposure)%Q in
  let put_mean := Np.mean ((fun r => impliedVolatility (contract_of r)) <$> atm_puts) in
  let call_mean := Np.mean ((fun r => impliedVolatility (contract_of r)) <$> atm_calls) in
  Ok {| i_ticker := ticker;
        current_price := current_price;
        max_pain_strike := max_pain_strike;
        distance_to_max_pain :=
          Np.mul (Np.div (Np.sub current_price (Np.Fin max_pain_strike)) current_price)
                 (Np.Fin 100);
        net_gamma_exposure := net_gamma_exposure;
        atm_call_iv := mean_iv atm_calls;
        atm_put_iv := mean_iv atm_puts;
        iv_skew :=
          if Np.truthy put_mean && Np.truthy call_mean
          then Some (Np.sub put_mean call_mean) else None;
        total_call_oi := Np.sum (oi <$> calls);
        total_put_oi := Np.sum (oi <$> puts);
        put_call_oi_ratio :=
          Np.div (Np.Fin (Np.sum (oi <$> puts))) (Np.Fin (Np.sum (oi <$> calls) + 1)) |}.

Section Indicators.
Context {market : Market}.

Definition calculate_options_indicators (ticker : string)
  : io trace (option indicators) :=
  io_try
    (hist <~ io_lift (history ticker "5d" "1d") ;;
     match hist with
     | [] => io_ret None
     | _ =>
         current_price <~ io_lift (Np.iloc_last (Close <$> hist)) ;;
         options_data <~ get_options_chain_yahoo ticker ;;
         match options_data with
         | None => io_ret None
         | Some options_data =>
             indicators <~ io_lift (indicators_of ticker current_price options_data) ;;
             io_ret (Some indicators)
         end
     end)
    (fun e => print ;;; io_ret None).

End Indicators.

(** ** [track_dark_pool_activity] *)

Inductive anomaly : Type := HighVolume | LowVolume | NormalVolume.

Record dark_pool : Type := {
  d_ticker : string;
  avg_volume_5y : Np.float;
  recent_volume_30d : Np.float;
  volume_ratio : Np.float;
  volume_percentile_5y : Np.float;
  volume_std_5y : Np.float;
  estimated_dark_pool_pct : Np.float;
  volume_anomaly : anomaly;
}.

(** ['High' if r > 1.5 else 'Low' if r < 0.7 else 'Normal'] *)
Definition anomaly_of (volume_ratio : Np.float) : anomaly :=
  if Np.gt volume_ratio (Np.Fin (3 # 2)) then HighVolume
  else if Np.lt volume_ratio (Np.Fin (7 # 10)) then LowVolume
  else NormalVolume.

(** [min(40, max(15, (volume_ratio - 1) * 10 + 25))] *)
Definition estimate_dark_pool_pct (volume_ratio : Np.float) : Np.float :=
  Np.py_min (Np.Fin 40)
    (Np.py_max (Np.Fin 15)
       (Np.add (Np.mul (Np.sub volume_ratio (Np.Fin 1)) (Np.Fin 10)) (Np.Fin 25))).

Section DarkPool.
Context {market : Market}.

(** [s.std()]: the square root of the variance with [n - 1] degrees of
    freedom, NaN for fewer than two numbers. *)
Definition std (s : list Np.cell) : Np.float :=
  let v := Np.valid s in
  match v with
  | [] | [_] => Np.NaN
  | _ =>
      let n := Np.of_nat (length v) in
      let m := (Qsum v / n)%Q in
      Np.Fin (sqrt (Qsum ((fun x => (x - m) * (x - m))%Q <$> v) / (n - 1))%Q)
  end.

(** The dict [dark_pool_data] of a history that is not empty. *)
Definition dark_pool_of (ticker : string) (hist : list bar) : result dark_pool :=
  let volumes := Volume <$> hist in
  let avg_volume_5y := Np.mean volumes in
  let recent_volume := Np.mean (Np.tail 30 volumes) in
  let volume_ratio := Np.div recent_volume avg_volume_5y in
  let volume_std := std volumes in
  last_volume <- Np.iloc_last volumes ;;
  let volume_percentile := Np.mul (Np.rank_pct volumes last_volume) (Np.Fin 100) in
  Ok {| d_ticker := ticker;
        avg_volume_5y := avg_volume_5y;
        recent_volume_30d := recent_volume;
        volume_ratio := volume_ratio;
        volume_percentile_5y := volume_percentile;
        volume_std_5y := volume_std;
        estimated_dark_pool_pct := estimate_dark_pool_pct volume_ratio;
        volume_anomaly := anomaly_of volume_ratio |}.

Definition track_dark_pool_activity (ticker : string) : io trace (option dark_pool) :=
  io_try
    (hist <~ io_lift (history ticker "5y" "1d") ;;
     match hist with
     | [] => io_ret None
     | _ =>
         intraday <~ io_lift (history ticker "5d" "1h") ;;
         match intraday with
         | [] => io_ret None
         | _ =>
             dark_pool_data <~ io_lift (dark_pool_of ticker hist) ;;
             io_ret (Some dark_pool_data)
         end
     end)
    (fun e => print ;;; io_ret None).

End DarkPool.

(** ** [fetch_and_save_options_data] *)

(** A row of a file of the options data. *)
Inductive orow : Type :=
| RChain (r : option_row)
| RUnusual (r : option_row * Np.float)
| RIndicators (i : indicators)
| RFlow (a : analysis)
| RDarkPool (d : dark_pool).

(** [options_summary] and [dark_pool_summary] *)
Definition summaries : Type := list analysis * list dark_pool.

Definition chain_file (output_dir ticker : string) : string :=
  path_join output_dir (ticker +:+ "_options_chain.csv").

Definition unusual_file (output_dir ticker : string) : string :=
  path_join output_dir (ticker +:+ "_unusual_options.csv").

Definition indicators_file (output_dir ticker : string) : string :=
  path_join output_dir (ticker +:+ "_options_indicators.csv").

Definition flow_summary_file (output_dir : string) : string :=
  path_join output_dir "options_flow_summary.csv".

Definition dark_pool_file (output_dir : string) : string :=
  path_join output_dir "dark_pool_activity.csv".

(** [a, b = value]: [None] cannot be unpacked. *)
Definition unpack {A} (value : option A) : result A := from_option TypeError value.

Section Save.
Context {market : Market} {D : Disk}.

(** The body of the loop over the tickers, with its [try]. *)
Definition options_step (output_dir ticker : string)
  : io (world orow * summaries) unit :=
  io_zoom (on_trace print) ;;;
  io_try
    (options_data <~ io_zoom (on_trace (get_options_chain_yahoo ticker)) ;;
     match options_data with
     | Some data =>
         io_zoom (to_csv (chain_file output_dir ticker) (RChain <$> data)) ;;;
         result <~ io_lift (unpack (analyze_unusual_options_activity (Some data))) ;;
         let '(analysis, unusual_activity) := result in
         io_modify (fun l : summaries => (l.1 ++ [analysis], l.2)) ;;;
         match unusual_activity with
         | [] => io_ret tt
         | _ =>
             io_zoom (to_csv (unusual_file output_dir ticker)
                        (RUnusual <$> unusual_activity))
         end
     | None => io_ret tt
     end ;;;
     indicators <~ io_zoom (on_trace (calculate_options_indicators ticker)) ;;
     match indicators with
     | Some indicators =>
         io_zoom (append_csv (indicators_file output_dir ticker) [RIndicators indicators])
     | None => io_ret tt
     end ;;;
     dark_pool_data <~ io_zoom (on_trace (track_dark_pool_activity ticker)) ;;
     match dark_pool_data with
     | Some dark_pool_data =>
         io_modify (fun l : summaries => (l.1, l.2 ++ [dark_pool_data]))
     | None => io_ret tt
     end ;;;
     io_zoom (on_trace (sleep 1000)))
    (fun e => io_zoom (on_trace print)).

(** [fetch_and_save_options_data(tickers, output_dir)] *)
Definition fetch_and_save_options_data (tickers : list string) (output_dir : string)
  : io (world orow) unit :=
  on_trace print ;;;
  makedirs output_dir ;;;
  saved <~ io_locals (([], []) : summaries)
             (io_for tickers (options_step output_dir)) ;;
  let '(options_summary, dark_pool_summary) := saved.2 in
  match options_summary with
  | [] => io_ret tt
  | _ =>
      append_csv (flow_summary_file output_dir) (RFlow <$> options_summary) ;;;
      on_trace print
  end ;;;
  match dark_pool_summary with
  | [] => io_ret tt
  | _ =>
      append_csv (dark_pool_file output_dir) (RDarkPool <$> dark_pool_summary) ;;;
      on_trace print
  end ;;;
  on_trace print.

(** [main()] *)
Definition options_main : io (world orow) unit :=
  let test_tickers := ["NVDA"; "AMZN"; "GOOGL"; "MSFT"] in
  let output_dir := "/app/data/OPTIONS" in
  fetch_and_save_options_data test_tickers output_dir.

End Save.

(** ** A market to run the definitions on

    NVDA has a chain of two calls and a put, AMZN an expiration whose
    chain has no row, every other ticker no expiration.  Every ticker has
    a history of two days. *)

Definition demo_calls : list contract :=
  [{| strike := 100; volume := Some 50%Q; openInterest := Some 10%Q;
      impliedVolatility := Some (3 # 10) |};
   {| strike := 110; volume := None; openInterest := Some 20%Q;
      impliedVolatility := None |}].

Definition demo_puts : list contract :=
  [{| strike := 90; volume := Some 30%Q; openInterest := Some 5%Q;
      impliedVolatility := Some (4 # 10) |}].

Definition demo_rows : list option_row :=
  (with_metadata "call" "2024-06-21" "NVDA" <$> demo_calls) ++
  (with_metadata "put" "2024-06-21" "NVDA" <$> demo_puts).

Definition demo_market : Market :=
  {| options := fun tk =>
       if (tk =? "NVDA") || (tk =? "AMZN") then Ok ["2024-06-21"] else Ok [];
     option_chain := fun tk _ =>
       if tk =? "NVDA" then Ok (demo_calls, demo_puts) else Ok ([], []);
     history := fun _ _ _ =>
       Ok [{| Close := Some 100%Q; Volume := Some 1000%Q |};
           {| Close := Some 101%Q; Volume := Some 2000%Q |}];
     sqrt := fun q => q |}.

Definition demo_analysis : analysis :=
  {| a_ticker := "NVDA"; total_call_volume := 50; total_put_volume := 30;
     put_call_ratio := Np.Fin (30 # 51); total_volume := 80;
     unusual_activity_count := 1; volume_weighted_avg_strike := 7700 # 80;
     a_sentiment := Bullish |}.

Definition demo_unusual : list (option_row * Np.float) :=
  [(with_metadata "call" "2024-06-21" "NVDA"
      {| strike := 100; volume := Some 50%Q; openInterest := Some 10%Q;
         impliedVolatility := Some (3 # 10) |}, Np.Fin (50 # 11))].

(** ** Facts about the analysis *)

(** The sentiment on every value of the ratio. *)
Lemma sentiment_of_fin r :
  sentiment_of (Np.Fin r) =
    if Qle_bool (7 # 10) r then (if Qle_bool r (13 # 10) then Neutral else Bearish)
    else Bullish.
Proof.
  unfold sentiment_of, Np.gt, Np.lt.
  by destruct (Qle_bool (7 # 10) r), (Qle_bool r (13 # 10)).
Qed.

Lemma sentiment_of_other :
  sentiment_of Np.NaN = Neutral /\ sentiment_of Np.PInf = Bearish /\
  sentiment_of Np.NInf = Bullish.
Proof. done. Qed.

(** The sums of a chain whose volumes are not negative. *)
Definition volumes_ok (rows : list option_row) : Prop :=
  Forall (fun q => (0 <= q)%Q) (Np.valid (vol <$> rows)).

Lemma valid_filter (p : option_row -> bool) rows :
  Forall (fun q => (0 <= q)%Q) (Np.valid (vol <$> rows)) ->
  Forall (fun q => (0 <= q)%Q) (Np.valid (vol <$> List.filter p rows)).
Proof.
  induction rows as [|r rows IH]; simpl; [done|].
  intros H. assert (H' : Forall (fun q => (0 <= q)%Q) (Np.valid (vol <$> rows))).
  { unfold Np.valid in *. simpl in H. destruct (vol r); [by inversion H|done]. }
  destruct (p r); [|auto]. unfold Np.valid in *. simpl in *.
  destruct (vol r); simpl in *; [|auto]. inversion H; subst. constructor; auto.
Qed.

(** The fields of the analysis of a chain. *)
Lemma analyze_fields data a u :
  analyze_unusual_options_activity (Some data) = Some (a, u) ->
  data <> [] /\
  total_call_volume a = Np.sum (vol <$> of_type "call" data) /\
  total_put_volume a = Np.sum (vol <$> of_type "put" data) /\
  put_call_ratio a =
    Np.div (Np.Fin (total_put_volume a)) (Np.Fin (total_call_volume a + 1)) /\
  total_volume a = Np.sum (vol <$> data) /\
  u = unusual_rows (Np.quantile (9 # 10) (vol <$> data)) data /\
  unusual_activity_count a = length u /\
  volume_weighted_avg_strike a =
    (if Qpos (total_volume a) then strike_volume data / total_volume a else 0)%Q /\
  a_sentiment a = sentiment_of (put_call_ratio a).
Proof.
  unfold analyze_unusual_options_activity. destruct data as [|first rest]; [done|].
  set (rows := first :: rest). assert (rows <> []) by done. clearbody rows.
  intros [= <- <-]. by split_and!.
Qed.

(** On a chain whose volumes are not negative, the put/call ratio is a
    number: total put volume over total call volume plus one, not
    negative. *)
Theorem analyze_put_call_ratio data a u :
  analyze_unusual_options_activity (Some data) = Some (a, u) ->
  volumes_ok data ->
  exists q, put_call_ratio a = Np.Fin q /\
            (q == total_put_volume a / (total_call_volume a + 1))%Q /\ (0 <= q)%Q.
Proof.
  intros (_ & Hc & Hp & -> & _)%analyze_fields Hv.
  assert (0 <= total_call_volume a)%Q
    by (rewrite Hc; apply Np.sum_nonneg, valid_filter, Hv).
  assert (0 <= total_put_volume a)%Q
    by (rewrite Hp; apply Np.sum_nonneg, valid_filter, Hv).
  eexists. split_and!; [apply Np.div_fin; lra|done|].
  apply Qle_shift_div_l; lra.
Qed.

(** C25. The rows returned as unusual are the rows whose volume reaches the
    nine-tenths quantile of the volumes, in the order of the chain, and
    there is one at least as soon as one volume of the chain is a
    number. *)
Theorem analyze_unusual data a u :
  analyze_unusual_options_activity (Some data) = Some (a, u) ->
  u.*1 = List.filter (fun r => Np.cell_ge (vol r) (Np.quantile (9 # 10) (vol <$> data))) data /\
  unusual_activity_count a = length u /\
  (Np.valid (vol <$> data) <> [] -> u <> []).
Proof.
  intros (_ & _ & _ & _ & _ & -> & Hn & _)%analyze_fields.
  unfold unusual_rows. split_and!; [|done|].
  - rewrite <- list_fmap_compose. apply list_fmap_id.
  - intros Hv. destruct (Np.quantile_some (9 # 10) (vol <$> data)) as [t Ht]; [lra|done|].
    rewrite Ht. destruct (Np.quantile_bounds _ _ _ Ht) as (x & y & _ & Hy & _ & Hty).
    unfold Np.valid in Hy. apply list_elem_of_omap in Hy as (c & Hc & Hcy).
    apply list_elem_of_fmap in Hc as (r & -> & Hr). simpl in Hcy.
    assert (Hin : r ∈ List.filter (fun r => Np.cell_ge (vol r) (Some t)) data).
    { apply elem_of_mask. split; [done|]. rewrite Hcy. simpl. by apply Qle_bool_iff. }
    intros E. apply fmap_nil_inv in E. rewrite E in Hin. by apply not_elem_of_nil in Hin.
Qed.

Lemma sum_cons c s :
  Np.sum (c :: s) = match c with Some x => (x + Np.sum s)%Q | None => Np.sum s end.
Proof. by destruct c. Qed.

(** The sum of strike times volume lies between the total volume times
    the bounds of the strikes. *)
Lemma strike_volume_bounds lo hi rows :
  volumes_ok rows ->
  Forall (fun r => (lo <= strike (contract_of r) <= hi)%Q) rows ->
  (lo * Np.sum (vol <$> rows) <= strike_volume rows <= hi * Np.sum (vol <$> rows))%Q.
Proof.
  unfold volumes_ok, strike_volume.
  induction rows as [|r rows IH]; intros Hv Hs.
  { unfold Np.sum. simpl. lra. }
  apply Forall_cons in Hs as [Hr Hs]. rewrite !fmap_cons, !sum_cons.
  unfold Np.valid in Hv. simpl in Hv. destruct (vol r) as [v|] eqn:E; simpl in *.
  - apply Forall_cons in Hv as [Hv0 Hv]. specialize (IH Hv Hs). nra.
  - by apply IH.
Qed.

(** On a chain whose volumes are not negative and add up to more than
    zero, the volume-weighted average strike lies between any two bounds
    of the strikes. *)
Theorem analyze_avg_strike data a u lo hi :
  analyze_unusual_options_activity (Some data) = Some (a, u) ->
  volumes_ok data -> (0 < total_volume a)%Q ->
  Forall (fun r => (lo <= strike (contract_of r) <= hi)%Q) data ->
  (lo <= volume_weighted_avg_strike a <= hi)%Q.
Proof.
  intros (_ & _ & _ & _ & Ht & _ & _ & -> & _)%analyze_fields Hv Hpos Hs.
  rewrite (proj2 (Qpos_spec _) Hpos).
  destruct (strike_volume_bounds lo hi data Hv Hs) as [H1 H2]. rewrite <- Ht in H1, H2.
  split; [apply Qle_shift_div_l|apply Qle_shift_div_r]; lra.
Qed.

(** Without volume the average strike is 0. *)
Lemma analyze_avg_strike_zero data a u :
  analyze_unusual_options_activity (Some data) = Some (a, u) ->
  (total_volume a <= 0)%Q -> volume_weighted_avg_strike a = 0%Q.
Proof.
  intros (_ & _ & _ & _ & _ & _ & _ & -> & _)%analyze_fields H.
  destruct (Qpos _) eqn:E; [|done]. apply Qpos_spec in E. lra.
Qed.

Lemma of_type_cons t r rows :
  of_type t (r :: rows) =
    if (option_type r =? t)%string then r :: of_type t rows else of_type t rows.
Proof. done. Qed.

(** The calls and the puts of a chain are all of it. *)
Lemma sum_by_type rows :
  Forall (fun r => option_type r = "call" \/ option_type r = "put") rows ->
  (Np.sum (vol <$> rows) ==
   Np.sum (vol <$> of_type "call" rows) + Np.sum (vol <$> of_type "put" rows))%Q.
Proof.
  induction 1 as [|r rows Hr _ IH]; [done|].
  rewrite !of_type_cons, fmap_cons, sum_cons.
  destruct Hr as [E|E]; rewrite E.
  - change ("call" =? "call") with true. change ("call" =? "put") with false.
    cbv iota. rewrite fmap_cons, sum_cons. destruct (vol r); lra.
  - change ("put" =? "call") with false. change ("put" =? "put") with true.
    cbv iota. rewrite fmap_cons, sum_cons. destruct (vol r); lra.
Qed.

(** ** Facts about the dark-pool estimate *)

(** The estimated share of dark pools is a number between 15 and 40,
    whatever the ratio of the volumes, NaN and the infinities
    included. *)
Theorem estimate_dark_pool_pct_bounds ratio :
  exists q, estimate_dark_pool_pct ratio = Np.Fin q /\ (15 <= q <= 40)%Q.
Proof. unfold estimate_dark_pool_pct. apply Np.clamp_bounds. lra. Qed.

Lemma anomaly_of_fin r :
  anomaly_of (Np.Fin r) =
    if Qle_bool r (3 # 2) then (if Qle_bool (7 # 10) r then NormalVolume else LowVolume)
    else HighVolume.
Proof.
  unfold anomaly_of, Np.gt, Np.lt.
  by destruct (Qle_bool r (3 # 2)), (Qle_bool (7 # 10) r).
Qed.

(** ** Facts about the indicators *)

Lemma uniq_elem x l : x ∈ Np.uniq l -> x ∈ l.
Proof.
  revert x. induction l as [|y l IH]; intros x; simpl; [done|].
  intros [->|[Hx _]%elem_of_mask]%elem_of_cons; [by left|]. right. auto.
Qed.

Lemma first_max_spec best rows :
  first_max best rows ∈ best :: rows /\
  forall r, r ∈ best :: rows -> (r.2 <= (first_max best rows).2)%Q.
Proof.
  revert best. induction rows as [|x rows IH]; intros best; simpl.
  { split; [by left|]. intros r Hr%list_elem_of_singleton. subst. lra. }
  destruct (IH (if Qle_bool x.2 best.2 then best else x)) as [Hin Hmax]. split.
  - apply elem_of_cons in Hin as [->|Hin]; [|by do 2 right].
    destruct (Qle_bool _ _); [by left|by right; left].
  - intros r Hr.
    assert (Hb : forall y, y ∈ [best; x] ->
                   (y.2 <= (if Qle_bool x.2 best.2 then best else x).2)%Q).
    { intros y Hy. rewrite !elem_of_cons, elem_of_nil in Hy.
      destruct (Qle_bool x.2 best.2) eqn:E; qbool; destruct Hy as [->|[->|[]]]; lra. }
    apply elem_of_cons in Hr as [->|[->|Hr]%elem_of_cons].
    + eapply Qle_trans; [apply Hb; by left|]. apply Hmax. by left.
    + eapply Qle_trans; [apply Hb; by right; left|]. apply Hmax. by left.
    + apply Hmax. by right.
Qed.

Lemma indicators_of_max_pain tk price data i :
  indicators_of tk price data = Ok i ->
  idxmax_strike (total_oi_by_strike data) = Ok (max_pain_strike i).
Proof.
  unfold indicators_of. destruct (idxmax_strike _) as [k|]; cbn [result_bind]; [|done].
  by intros [= <-].
Qed.

(** The strike of maximum pain is a strike of the chain, and no strike
    of the chain has more open interest in total. *)
Theorem max_pain_greatest tk price data i :
  indicators_of tk price data = Ok i ->
  exists total,
    (max_pain_strike i, total) ∈ total_oi_by_strike data /\
    max_pain_strike i ∈ (fun r => strike (contract_of r)) <$> data /\
    forall k t, (k, t) ∈ total_oi_by_strike data -> (t <= total)%Q.
Proof.
  intros H%indicators_of_max_pain. unfold idxmax_strike in H.
  destruct (total_oi_by_strike data) as [|r rows] eqn:E; [done|].
  injection H as H. destruct (first_max_spec r rows) as [Hin Hmax].
  exists (first_max r rows).2. rewrite <- H. split_and!.
  - by destruct (first_max r rows).
  - rewrite <- E in Hin. unfold total_oi_by_strike in Hin.
    apply list_elem_of_fmap in Hin as (k & -> & Hk). simpl.
    by apply Np.asc_elem, uniq_elem in Hk.
  - intros k t Hkt. by apply (Hmax (k, t)).
Qed.

(** An empty chain has no strike of maximum pain: [idxmax] raises. *)
Lemma indicators_of_empty tk price : indicators_of tk price [] = Raise ValueError.
Proof. done. Qed.

(** ** Facts about the calls of the library *)

Section OptionsFacts.
Context {market : Market} {D : Disk}.

Definition row_of (ticker : string) (r : option_row) : Prop :=
  o_ticker r = ticker /\ (option_type r = "call" \/ option_type r = "put").

Lemma get_options_chain_yahoo_total tk : total (get_options_chain_yahoo tk).
Proof.
  apply total_try. intros e. apply total_bind; [done|]. intros _. apply total_ret.
Qed.

Lemma get_options_chain_yahoo_rows tk :
  returns (get_options_chain_yahoo tk)
    (fun data => forall rows, data = Some rows -> Forall (row_of tk) rows).
Proof.
  apply returns_try.
  2:{ intros e. apply returns_bind_any. intros _. by apply returns_ret. }
  apply returns_bind_any. intros [|nearest_exp exps].
  { apply returns_bind_any. intros _. by apply returns_ret. }
  apply returns_bind_any. intros [calls puts]. apply returns_ret.
  intros rows [= <-]. apply Forall_app. split; apply Forall_fmap, Forall_true;
    intros c; split; auto.
Qed.

Lemma calculate_options_indicators_total tk : total (calculate_options_indicators tk).
Proof.
  apply total_try. intros e. apply total_bind; [done|]. intros _. apply total_ret.
Qed.

Lemma track_dark_pool_activity_total tk : total (track_dark_pool_activity tk).
Proof.
  apply total_try. intros e. apply total_bind; [done|]. intros _. apply total_ret.
Qed.

Lemma options_step_total d tk : total (options_step d tk).
Proof.
  apply total_bind; [apply total_zoom, total_print|]. intros _.
  apply total_try. intros e. apply total_zoom, total_print.
Qed.

(** The run of the body of the loop on a chain without a row. *)
Lemma options_step_empty_chain_run d tk (w : world orow) l tr :
  get_options_chain_yahoo tk (w_trace w ++ [EPrint]) = (Ok (Some []), tr) ->
  options_step d tk (w, l) =
    (Ok tt,
     ({| w_trace := tr ++ [EPrint];
         disk := if writable (chain_file d tk)
                 then <[chain_file d tk := []]> (disk w) else disk w |}, l)).
Proof.
  intros H. unfold options_step, io_try, io_bind, io_zoom, on_trace, print, emit, to_csv.
  simpl. rewrite H. simpl. by destruct (writable _).
Qed.

Lemma get_options_chain_yahoo_empty tk e es tr :
  options tk = Ok (e :: es) -> option_chain tk e = Ok ([], []) ->
  get_options_chain_yahoo tk tr = (Ok (Some []), tr).
Proof.
  intros H1 H2. unfold get_options_chain_yahoo, io_try, io_bind, io_lift.
  by rewrite H1, H2.
Qed.

(** C13. An expiration whose chain has no row stops the body of the loop:
    the empty chain is saved, the analysis is [None], the unpacking of
    [None] raises and the handler prints.  Nothing is added to the two
    summaries, no file of indicators is written and there is no delay
    before the next ticker: the trace holds the two prints only. *)
Theorem options_step_empty_chain d tk e es (w : world orow) l :
  options tk = Ok (e :: es) -> option_chain tk e = Ok ([], []) ->
  options_step d tk (w, l) =
    (Ok tt,
     ({| w_trace := w_trace w ++ [EPrint; EPrint];
         disk := if writable (chain_file d tk)
                 then <[chain_file d tk := []]> (disk w) else disk w |}, l)).
Proof.
  intros H1 H2.
  rewrite (options_step_empty_chain_run d tk w l (w_trace w ++ [EPrint]))
    by by eapply get_options_chain_yahoo_empty.
  by rewrite <- app_assoc.
Qed.

(** Without a chain the body of the loop goes on to the indicators and
    the dark-pool estimate. *)
Lemma options_step_no_chain d tk (w : world orow) l tr dp tr' :
  get_options_chain_yahoo tk (w_trace w ++ [EPrint]) = (Ok None, tr) ->
  calculate_options_indicators tk tr = (Ok None, tr) ->
  track_dark_pool_activity tk tr = (Ok (Some dp), tr') ->
  options_step d tk (w, l) =
    (Ok tt, ({| w_trace := tr' ++ [ESleep 1000]; disk := disk w |}, (l.1, l.2 ++ [dp]))).
Proof.
  intros H1 H2 H3.
  unfold options_step, io_try, io_bind, io_zoom, on_trace, print, emit, sleep, io_modify.
  simpl. rewrite H1. simpl. rewrite H2. simpl. by rewrite H3.
Qed.

(** What can leave the run: the directory, or one of the two summaries. *)
Definition save_error (d : string) (e : exn) : Prop :=
  e = OSError /\
  (can_make d = false \/
   write_error [flow_summary_file d; dark_pool_file d] e).

(** The only exception that leaves [fetch_and_save_options_data] is
    the [OSError] of the output directory or of one of the two summary
    files: whatever else fails for a ticker is caught in the loop. *)
Theorem fetch_and_save_options_data_raises tickers d :
  raises_only (save_error d) (fetch_and_save_options_data tickers d).
Proof.
  unfold fetch_and_save_options_data. apply raises_only_bind.
  { apply raises_only_total, total_print. } intros _.
  apply raises_only_bind.
  { eapply raises_only_weaken; [apply makedirs_raises_only|]. intros e [-> ?].
    split; auto. } intros _.
  apply raises_only_bind.
  { apply raises_only_total, total_locals, total_for, options_step_total. }
  intros [[] [os ds]]. cbn [snd].
  assert (Hw : forall p (rows : list orow),
            p ∈ [flow_summary_file d; dark_pool_file d] ->
            raises_only (save_error d) (append_csv p rows)).
  { intros p rows Hp. eapply raises_only_weaken; [by apply append_csv_raises_only|].
    intros e He. split; [apply He|by right]. }
  raises_go; first [apply raises_only_total, total_print | apply Hw; set_solver | idtac].
Qed.

Lemma summary_file_fresh d tk :
  chain_file d tk <> flow_summary_file d /\ unusual_file d tk <> flow_summary_file d.
Proof.
  assert (He : ends (flow_summary_file d) "summary.csv")
    by (apply path_join_ends; by exists "options_flow_").
  split.
  - apply (ends_ne _ _ "s_chain.csv" "summary.csv"); [|done..].
    apply path_join_ends, ends_app. by exists "_option".
  - apply (ends_ne _ _ "options.csv" "summary.csv"); [|done..].
    apply path_join_ends, ends_app. by exists "_unusual_".
Qed.

Lemma options_step_grown d tk :
  keeps (on_fst (grown (flow_summary_file d))) (options_step d tk).
Proof.
  destruct (summary_file_fresh d tk) as [H1 H2].
  unfold options_step. keeps_go;
    first [ apply keeps_modify; tc_solve
          | apply keeps_zoom;
            first [ apply on_trace_grown | by apply to_csv_grown | apply append_csv_grows ] ].
Qed.

(** [fetch_and_save_options_data] never takes a row from the summary
    of the options flow: the rows the file held are the first rows it
    holds afterwards, whether the run returns or raises. *)
Theorem fetch_and_save_options_data_grows tickers d :
  keeps (grown (flow_summary_file d)) (fetch_and_save_options_data tickers d).
Proof.
  unfold fetch_and_save_options_data. keeps_go;
    first [ apply on_trace_grown | apply makedirs_grown | apply append_csv_grows
          | apply keeps_locals, keeps_for; [tc_solve|]; intros; apply options_step_grown ].
Qed.

End OptionsFacts.

(** ** The definitions on the demo market *)

Lemma analyze_put_call_ratio_witness :
  exists q, put_call_ratio demo_analysis = Np.Fin q /\
            (q == total_put_volume demo_analysis / (total_call_volume demo_analysis + 1))%Q /\
            (0 <= q)%Q.
Proof.
  apply (analyze_put_call_ratio demo_rows demo_analysis demo_unusual); [reflexivity|].
  repeat constructor; by vm_compute.
Defined.

Lemma analyze_unusual_witness :
  demo_unusual.*1 =
    List.filter (fun r => Np.cell_ge (vol r) (Np.quantile (9 # 10) (vol <$> demo_rows)))
      demo_rows /\
  unusual_activity_count demo_analysis = length demo_unusual /\
  (Np.valid (vol <$> demo_rows) <> [] -> demo_unusual <> []).
Proof. apply (analyze_unusual demo_rows demo_analysis demo_unusual). reflexivity. Defined.

Lemma analyze_avg_strike_witness :
  (90 <= volume_weighted_avg_strike demo_analysis <= 110)%Q.
Proof.
  apply (analyze_avg_strike demo_rows demo_analysis demo_unusual 90 110);
    [reflexivity| |reflexivity|]; repeat constructor; by vm_compute.
Defined.

Lemma max_pain_greatest_witness :
  exists i, indicators_of "NVDA" (Some 101%Q) demo_rows = Ok i /\
    exists total,
      (max_pain_strike i, total) ∈ total_oi_by_strike demo_rows /\
      max_pain_strike i ∈ (fun r => strike (contract_of r)) <$> demo_rows /\
      forall k t, (k, t) ∈ total_oi_by_strike demo_rows -> (t <= total)%Q.
Proof.
  eexists. split; [reflexivity|].
  apply (max_pain_greatest "NVDA" (Some 101%Q) demo_rows). reflexivity.
Defined.

Lemma options_step_empty_chain_witness :
  options_step (market := demo_market) (D := open_disk) "/data" "AMZN"
    (empty_world, ([], [])) =
  (Ok tt,
   ({| w_trace := [EPrint; EPrint];
       disk := <[chain_file "/data" "AMZN" := []]> ∅ |}, ([], []))).
Proof.
  apply (options_step_empty_chain (market := demo_market) (D := open_disk)
           "/data" "AMZN" "2024-06-21" [] empty_world ([], [])); reflexivity.
Defined.

(** On the demo market the estimate of AMZN, whose chain is empty, is
    lost, though its history gives one; the estimate of MSFT, which has no
    expiration, is kept. *)
Example empty_chain_loses_dark_pool :
  let run tk :=
    (options_step (market := demo_market) (D := open_disk) "/data" tk
       (empty_world, ([], []))).2.2.2 in
  (exists d, (track_dark_pool_activity (market := demo_market) "AMZN" []).1 = Ok (Some d)) /\
  run "AMZN" = [] /\ length (run "MSFT") = 1%nat /\ length (run "NVDA") = 1%nat.
Proof. split; [by eexists|by vm_compute]. Qed.

(** The run over the three tickers of the demo market: the summary of
    the flow has the analysis of NVDA, the summary of the dark pools the
    estimates of NVDA and MSFT. *)
Example fetch_and_save_options_data_demo :
  let '(r, w) :=
    fetch_and_save_options_data (market := demo_market) (D := open_disk)
      ["NVDA"; "AMZN"; "MSFT"] "/data" empty_world in
  r = Ok tt /\
  disk w !! flow_summary_file "/data" = Some [RFlow demo_analysis] /\
  length <$> disk w !! dark_pool_file "/data" = Some 2%nat /\
  disk w !! chain_file "/data" "AMZN" = Some [] /\
  disk w !! indicators_file "/data" "AMZN" = None /\
  length <$> disk w !! indicators_file "/data" "NVDA" = Some 1%nat /\
  length (filter (fun e => e = ESleep 1000) (w_trace w)) = 2%nat.
Proof. by vm_compute. Qed.
