(* ===== verification/Vix.v ===== *)
(** * Vix: volatility series, term structure and fear indicators

    Models src/datafetcher/vix_fetcher.py: the table of volatility
    tickers, [fetch_volatility_data], [calculate_vix_term_structure],
    [get_market_fear_indicators], [fetch_and_save_volatility_data] and
    [main].

    yfinance is the class [Market] of Options.v.  The frame of a symbol
    is kept by columns: the bars of the history, and the columns the
    method adds for the kind of the symbol.  The index, the column [Date]
    copied from it and the timestamps are not kept.

    [pct_change] fills forward before it divides, as the pandas of the
    repository does by default.  [252**0.5] is the square root of the
    class at 252.

    The file of a symbol holds its frame as one value of the disk. *)

From Stdlib Require Import String Ascii ZArith QArith Qround Lqa Lia.
From stdpp Require Import base tactics option list strings gmap.
From S2P Require Import Prelude PyRuntime Frames Net Disk Options.

#[local] Open Scope string_scope.
#[local] Open Scope list_scope.

(** ** The tickers *)

(** [self.volatility_tickers], in the order of the dict. *)
Definition volatility_tickers : list (string * string) :=
  [("^VIX", "VIX"); ("^VIX9D", "VIX9D"); ("^VIX3M", "VIX3M"); ("^VIX6M", "VIX6M");
   ("^VVIX", "VVIX"); ("^SKEW", "SKEW"); ("VXX", "VXX"); ("UVXY", "UVXY");
   ("VIXY", "VIXY"); ("SVXY", "SVXY")].

(** ** [fetch_volatility_data] *)

Inductive fear : Type := Low | Normal | High | Extreme.

(** The columns added for the index itself. *)
Record vix_columns : Type := {
  VIX_percentile_30d : list Np.float;
  VIX_percentile_90d : list Np.float;
  VIX_MA_10 : list Np.float;
  VIX_MA_20 : list Np.float;
  Fear_Level : list (option fear);
}.

(** The frame [data]: a column is [None] when the frame has none of that
    name. *)
Record volatility_frame : Type := {
  bars : list bar;
  Symbol : string;
  volatility_30d : option (list Np.float);
  volatility_10d : option (list Np.float);
  vix_only : option vix_columns;
}.

(** [["^VIX", "^VIX9D", "^VIX3M", "^VIX6M"]] *)
Definition index_symbols : list string := ["^VIX"; "^VIX9D"; "^VIX3M"; "^VIX6M"].

(** [pd.cut(data['Close'], bins=[0, 12, 20, 30, float('inf')],
    labels=['Low', 'Normal', 'High', 'Extreme'])] at a cell. *)
Definition fear_bins : list (Np.float * fear) :=
  [(Np.Fin 12, Low); (Np.Fin 20, Normal); (Np.Fin 30, High); (Np.PInf, Extreme)].

Definition cut_fear (close : Np.cell) : option fear := Np.cut (Np.Fin 0) fear_bins close.

Section Fetch.
Context {market : Market}.

(** The deviation of a window, of Options.v. *)
Definition std_of (v : list Q) : Np.float := std (Some <$> v).

(** [close.pct_change().rolling(window=n).std() * (252**0.5) * 100] *)
Definition rolling_volatility (n : nat) (close : list Np.cell) : list Np.float :=
  (fun a => Np.mul (Np.mul a (Np.Fin (sqrt 252))) (Np.Fin 100))
    <$> Np.rolling n std_of (Np.pct_change close).

(** [close.rolling(window=n).rank(pct=True) * 100] *)
Definition rolling_percentile (n : nat) (close : list Np.cell) : list Np.float :=
  (fun a => Np.mul a (Np.Fin 100)) <$> Np.rolling n Np.rank_of_last (Np.of_cell <$> close).

(** [close.rolling(window=n).mean()] *)
Definition rolling_mean (n : nat) (close : list Np.cell) : list Np.float :=
  Np.rolling n Np.mean_of (Np.of_cell <$> close).

(** The body of [if symbol not in [...]]. *)
Definition add_volatility (data : volatility_frame) : volatility_frame :=
  let close := Close <$> bars data in
  {| bars := bars data; Symbol := Symbol data;
     volatility_30d := Some (rolling_volatility 30 close);
     volatility_10d := Some (rolling_volatility 10 close);
     vix_only := vix_only data |}.

(** The body of [if symbol == "^VIX"]. *)
Definition add_vix_columns (data : volatility_frame) : volatility_frame :=
  let close := Close <$> bars data in
  {| bars := bars data; Symbol := Symbol data;
     volatility_30d := volatility_30d data;
     volatility_10d := volatility_10d data;
     vix_only :=
       Some {| VIX_percentile_30d := rolling_percentile 30 close;
               VIX_percentile_90d := rolling_percentile 90 close;
               VIX_MA_10 := rolling_mean 10 close;
               VIX_MA_20 := rolling_mean 20 close;
               Fear_Level := cut_fear <$> close |} |}.

(** What the method adds to the history of a symbol. *)
Definition with_metrics (symbol : string) (history : list bar) : volatility_frame :=
  let data := {| bars := history; Symbol := symbol; volatility_30d := None;
                 volatility_10d := None; vix_only := None |} in
  let data :=
    if bool_decide (symbol ∈ index_symbols) then data else add_volatility data in
  if symbol =? "^VIX" then add_vix_columns data else data.

(** [fetch_volatility_data(symbol, period, interval)] *)
Definition fetch_volatility_data (symbol period interval : string)
  : io trace (option volatility_frame) :=
  io_try
    (data <~ io_lift (history symbol period interval) ;;
     match data with
     | [] => print ;;; io_ret None
     | _ => io_ret (Some (with_metrics symbol data))
     end)
    (fun e => print ;;; io_ret None).

End Fetch.

(** ** [calculate_vix_term_structure] *)

Inductive structure : Type := Backwardation | Contango.

(** The dict [term_structure]; the last two keys are there when both the
    index and its three-month index have a close. *)
Record term_structure : Type := {
  ts_VIX_current : option Np.float;
  ts_VIX9D : option Np.float;
  ts_VIX3M : option Np.float;
  ts_VIX6M : option Np.float;
  VIX_VIX3M_ratio : option Np.float;
  ts_label : option structure;
}.

(** The dict [term_structure] of the latest closes. *)
Definition term_structure_of (vix_data : gmap string Np.float) : term_structure :=
  let both :=
    match vix_data !! "^VIX", vix_data !! "^VIX3M" with
    | Some vix, Some vix3m => Some (vix, vix3m)
    | _, _ => None
    end in
  {| ts_VIX_current := vix_data !! "^VIX";
     ts_VIX9D := vix_data !! "^VIX9D";
     ts_VIX3M := vix_data !! "^VIX3M";
     ts_VIX6M := vix_data !! "^VIX6M";
     VIX_VIX3M_ratio := (fun p => Np.div p.1 p.2) <$> both;
     ts_label := (fun p => if Np.gt p.1 p.2 then Backwardation else Contango) <$> both |}.

(** [term_structure_symbols] *)
Definition term_structure_symbols : list string :=
  ["^VIX"; "^VIX9D"; "^VIX3M"; "^VIX6M"].

Section TermStructure.
Context {market : Market}.

(** The body of the loop over the four symbols. *)
Definition latest_close (symbol : string) (vix_data : gmap string Np.float)
  : io trace (gmap string Np.float) :=
  data <~ io_lift (history symbol "5d" "1d") ;;
  match data with
  | [] => io_ret vix_data
  | _ =>
      close <~ io_lift (Np.iloc_last (Close <$> data)) ;;
      io_ret (<[symbol := Np.of_cell close]> vix_data)
  end.

Definition calculate_vix_term_structure : io trace (option term_structure) :=
  io_try
    (vix_data <~ io_foldl latest_close term_structure_symbols ∅ ;;
     if (2 <=? size vix_data)%nat
     then io_ret (Some (term_structure_of vix_data))
     else io_ret None)
    (fun e => print ;;; io_ret None).

End TermStructure.

(** ** [get_market_fear_indicators] *)

Record fear_indicators : Type := {
  f_VIX_current : Np.float;
  VIX_30d_avg : Np.float;
  VIX_90d_percentile : Np.float;
  SPY_30d_realized_vol : Np.float;
  VIX_SPY_vol_ratio : option Np.float;
  fear_level : fear;
}.

(** ['Extreme' if v > 30 else 'High' if v > 20 else 'Normal' if v > 12
    else 'Low'] *)
Definition fear_level_of (current_vix : Np.float) : fear :=
  if Np.gt current_vix (Np.Fin 30) then Extreme
  else if Np.gt current_vix (Np.Fin 20) then High
  else if Np.gt current_vix (Np.Fin 12) then Normal
  else Low.

Section FearIndicators.
Context {market : Market}.

(** [s.std()] of a column of scalars: NaN is left out, an infinity makes
    the deviation NaN. *)
Definition std_skipna (s : list Np.float) : Np.float :=
  if existsb Np.is_inf s then Np.NaN else std (Np.to_cell <$> s).

(** [spy_data['Close'].pct_change().std() * (252**0.5) * 100] *)
Definition realized_volatility (close : list Np.cell) : Np.float :=
  Np.mul (Np.mul (std_skipna (Np.pct_change close)) (Np.Fin (sqrt 252))) (Np.Fin 100).

(** The dict [fear_indicators] of the two histories. *)
Definition fear_indicators_of (current_vix : Np.cell) (vix_close spy_close : list Np.cell)
  : fear_indicators :=
  let spy_volatility := realized_volatility spy_close in
  {| f_VIX_current := Np.of_cell current_vix;
     VIX_30d_avg := Np.mean (Np.tail 30 vix_close);
     VIX_90d_percentile := Np.mul (Np.rank_pct vix_close current_vix) (Np.Fin 100);
     SPY_30d_realized_vol := spy_volatility;
     VIX_SPY_vol_ratio :=
       if Np.gt spy_volatility (Np.Fin 0)
       then Some (Np.div (Np.of_cell current_vix) spy_volatility) else None;
     fear_level := fear_level_of (Np.of_cell current_vix) |}.

Definition get_market_fear_indicators : io trace (list fear_indicators) :=
  io_try
    (vix_data <~ io_lift (history "^VIX" "20y" "1d") ;;
     match vix_data with
     | [] => io_ret []
     | _ =>
         current_vix <~ io_lift (Np.iloc_last (Close <$> vix_data)) ;;
         spy_data <~ io_lift (history "SPY" "20y" "1d") ;;
         io_ret [fear_indicators_of current_vix (Close <$> vix_data) (Close <$> spy_data)]
     end)
    (fun e => print ;;; io_ret []).

End FearIndicators.

(** ** [fetch_and_save_volatility_data] *)

(** What a file of the volatility data holds. *)
Inductive vrow : Type :=
| RData (data : volatility_frame)
| RTermStructure (t : term_structure)
| RFear (f : fear_indicators).

Definition data_file (output_dir name : string) : string :=
  path_join output_dir (name +:+ "_data.csv").

Definition ts_file (output_dir : string) : string :=
  path_join output_dir "VIX_term_structure.csv".

Definition fear_file (output_dir : string) : string :=
  path_join output_dir "market_fear_indicators.csv".

Section Save.
Context {market : Market} {D : Disk}.

(** The body of the loop over the tickers. *)
Definition save_symbol (output_dir period : string) (item : string * string)
  : io (world vrow) unit :=
  let '(symbol, name) := item in
  on_trace print ;;;
  data <~ on_trace (fetch_volatility_data symbol period "1d") ;;
  match data with
  | Some data =>
      to_csv (data_file output_dir name) [RData data] ;;;
      on_trace print
  | None => io_ret tt
  end.

(** [fetch_and_save_volatility_data(output_dir, period)] *)
Definition fetch_and_save_volatility_data (output_dir period : string)
  : io (world vrow) unit :=
  on_trace print ;;;
  makedirs output_dir ;;;
  io_for volatility_tickers (save_symbol output_dir period) ;;;
  term_structure <~ on_trace calculate_vix_term_structure ;;
  match term_structure with
  | Some term_structure =>
      append_csv (ts_file output_dir) [RTermStructure term_structure] ;;;
      on_trace print
  | None => io_ret tt
  end ;;;
  fear_data <~ on_trace get_market_fear_indicators ;;
  match fear_data with
  | [] => io_ret tt
  | _ =>
      append_csv (fear_file output_dir) (RFear <$> fear_data) ;;;
      on_trace print
  end ;;;
  on_trace print.

(** [main()] *)
Definition vix_main : io (world vrow) unit :=
  let output_dir := "./data/VOLATILITY" in
  fetch_and_save_volatility_data output_dir "20y".

End Save.

(** ** Facts about the fear levels *)

Lemma fear_level_of_fin x :
  fear_level_of (Np.Fin x) =
    if Qle_bool x 12 then Low else if Qle_bool x 20 then Normal
    else if Qle_bool x 30 then High else Extreme.
Proof.
  unfold fear_level_of, Np.gt, Np.lt.
  destruct (Qle_bool x 30) eqn:?, (Qle_bool x 20) eqn:?, (Qle_bool x 12) eqn:?;
    simpl; try done; qbool; lra.
Qed.

Lemma cut_fear_fin x :
  cut_fear (Some x) =
    if Qle_bool x 0 then None
    else Some (if Qle_bool x 12 then Low else if Qle_bool x 20 then Normal
               else if Qle_bool x 30 then High else Extreme).
Proof.
  unfold cut_fear, Np.cut, fear_bins. simpl.
  destruct (Qle_bool x 0) eqn:?, (Qle_bool x 12) eqn:?, (Qle_bool x 20) eqn:?,
    (Qle_bool x 30) eqn:?; simpl; try done; qbool; lra.
Qed.

(** The label that [pd.cut] gives a close in the column [Fear_Level]
    and the label that the chained conditional of
    [get_market_fear_indicators] gives it are the same for every close
    above zero, the bounds 12, 20 and 30 included. *)
Theorem cut_fear_agrees x :
  (0 < x)%Q -> cut_fear (Some x) = Some (fear_level_of (Np.Fin x)).
Proof.
  intros Hx. rewrite cut_fear_fin, fear_level_of_fin.
  destruct (Qle_bool x 0) eqn:?; [qbool; lra|done].
Qed.

(** They differ on the closes that are no number above zero: the column
    has no label there, the conditional says [Low]. *)
Lemma fear_level_outside x :
  (x <= 0)%Q -> cut_fear (Some x) = None /\ fear_level_of (Np.Fin x) = Low.
Proof.
  intros Hx. rewrite cut_fear_fin, fear_level_of_fin.
  destruct (Qle_bool x 0) eqn:?, (Qle_bool x 12) eqn:?; try done; qbool; lra.
Qed.

Lemma fear_level_nan : cut_fear None = None /\ fear_level_of Np.NaN = Low.
Proof. done. Qed.

(** ** Facts about the frame of a symbol *)

(** Every column that a frame has is as long as its history. *)
Definition frame_wf (data : volatility_frame) : Prop :=
  let n := length (bars data) in
  (forall c, volatility_30d data = Some c -> length c = n) /\
  (forall c, volatility_10d data = Some c -> length c = n) /\
  (forall v, vix_only data = Some v ->
     length (VIX_percentile_30d v) = n /\ length (VIX_percentile_90d v) = n /\
     length (VIX_MA_10 v) = n /\ length (VIX_MA_20 v) = n /\
     length (Fear_Level v) = n).

Ltac frame_simpl :=
  unfold add_vix_columns, add_volatility;
  cbn [bars Symbol volatility_30d volatility_10d vix_only VIX_percentile_30d
       VIX_percentile_90d VIX_MA_10 VIX_MA_20 Fear_Level].

Section FetchFacts.
Context {market : Market}.

Lemma rolling_volatility_length n close :
  length (rolling_volatility n close) = length close.
Proof.
  unfold rolling_volatility.
  by rewrite length_fmap, Np.rolling_length, Np.pct_change_length.
Qed.

Lemma rolling_percentile_length n close :
  length (rolling_percentile n close) = length close.
Proof. unfold rolling_percentile. by rewrite length_fmap, Np.rolling_length, length_fmap. Qed.

Lemma rolling_mean_length n close : length (rolling_mean n close) = length close.
Proof. unfold rolling_mean. by rewrite Np.rolling_length, length_fmap. Qed.

(** The frame of a symbol has the history it was given and the columns
    of its kind, each as long as the history: the two columns of rolling
    volatility exactly when the symbol is none of the four indices, the
    five columns of the index exactly when the symbol is [^VIX]. *)
Theorem with_metrics_columns symbol h :
  let data := with_metrics symbol h in
  bars data = h /\ Symbol data = symbol /\ frame_wf data /\
  (is_Some (volatility_30d data) <-> symbol ∉ index_symbols) /\
  (is_Some (volatility_10d data) <-> symbol ∉ index_symbols) /\
  (is_Some (vix_only data) <-> symbol = "^VIX").
Proof.
  unfold with_metrics, frame_wf. case_bool_decide as Hi.
  - destruct (String.eqb_spec symbol "^VIX") as [->|Hs]; frame_simpl;
      (split_and!; try done; try (split; [by intros [? [=]]|done])).
    intros v [= <-]. frame_simpl.
    by rewrite !length_fmap, !rolling_percentile_length, !rolling_mean_length, !length_fmap.
  - assert (Hs : symbol <> "^VIX") by (intros ->; apply Hi; set_solver).
    apply String.eqb_neq in Hs as Hs'. rewrite Hs'. frame_simpl.
    split_and!; try done; try (split; [by intros [? [=]]|done]);
      intros c [= <-]; by rewrite rolling_volatility_length, length_fmap.
Qed.

(** The column of rolling volatility over [n] days has no number at its
    first [n] positions: the first change of a history is NaN, so the
    first window of [n] changes that are numbers ends at position [n]. *)
Theorem rolling_volatility_warmup n close i :
  (i < length close)%nat -> (i < n)%nat -> rolling_volatility n close !! i = Some Np.NaN.
Proof.
  intros Hi Hn. unfold rolling_volatility. rewrite list_lookup_fmap.
  rewrite (Np.rolling_nan _ _ _ _ 0); [done| | |lia].
  - by rewrite Np.pct_change_length.
  - apply Np.pct_change_first. by destruct close; [simpl in Hi; lia|].
Qed.

(** C28. In the frame of [^VIX] the label of a row in [Fear_Level] is the
    label that [get_market_fear_indicators] would give its close, when
    the close is above zero. *)
Theorem fear_level_column h v i b x :
  vix_only (with_metrics "^VIX" h) = Some v ->
  h !! i = Some b -> Close b = Some x -> (0 < x)%Q ->
  Fear_Level v !! i = Some (Some (fear_level_of (Np.Fin x))).
Proof.
  intros [= <-] Hb Hc Hx. frame_simpl.
  by rewrite !list_lookup_fmap, Hb; simpl; rewrite Hc, cut_fear_agrees.
Qed.

Lemma fetch_volatility_data_total symbol period interval :
  total (fetch_volatility_data symbol period interval).
Proof.
  apply total_try. intros e. apply total_bind; [done|]. intros _. apply total_ret.
Qed.

(** What [fetch_volatility_data] returns, by the answer of the library. *)
Lemma fetch_volatility_data_spec symbol period interval tr :
  fetch_volatility_data symbol period interval tr =
    match history symbol period interval with
    | Ok (b :: h) => (Ok (Some (with_metrics symbol (b :: h))), tr)
    | _ => (Ok None, tr ++ [EPrint])
    end.
Proof.
  unfold fetch_volatility_data, io_try, io_bind, io_lift.
  by destruct (history symbol period interval) as [[|b h]|e].
Qed.

End FetchFacts.

(** ** Facts about the term structure *)

(** When the index and its three-month index both closed at a number
    and the latter above zero, the ratio of the term structure is their
    quotient and the label is [Backwardation] exactly when the ratio is
    above one, [Contango] otherwise. *)
Theorem term_structure_of_label vix_data vix vix3m :
  vix_data !! "^VIX" = Some (Np.Fin vix) ->
  vix_data !! "^VIX3M" = Some (Np.Fin vix3m) -> (0 < vix3m)%Q ->
  VIX_VIX3M_ratio (term_structure_of vix_data) = Some (Np.Fin (vix / vix3m)) /\
  (ts_label (term_structure_of vix_data) = Some Backwardation <-> (1 < vix / vix3m)%Q) /\
  (ts_label (term_structure_of vix_data) = Some Contango <-> (vix / vix3m <= 1)%Q).
Proof.
  intros H1 H3 Hpos. unfold term_structure_of. rewrite H1, H3.
  cbn [VIX_VIX3M_ratio ts_label fmap option_fmap option_map fst snd].
  rewrite Np.div_fin by (intros E; lra). unfold Np.gt, Np.lt.
  assert (Hd : (1 < vix / vix3m <-> vix3m < vix)%Q).
  { split; intros H.
    - apply (Qmult_lt_compat_r _ _ vix3m) in H; [|done]. field_simplify in H; lra.
    - apply Qlt_shift_div_l; lra. }
  set (r := (vix / vix3m)%Q) in *. clearbody r.
  destruct (Qle_bool vix vix3m) eqn:E; qbool; cbn [negb]; split_and!; try done.
  - split; [done|]. intros Hr%Hd. lra.
  - split; [|done]. intros _. apply Qnot_lt_le. intros Hr%Hd. lra.
  - split; [|done]. intros _. apply Hd. lra.
  - split; [done|]. intros Hr. assert (1 < r)%Q by (apply Hd; lra). lra.
Qed.

(** A close that is no number gives the label [Contango]: every
    comparison with NaN is false. *)
Lemma term_structure_of_nan vix_data vix3m :
  vix_data !! "^VIX" = Some Np.NaN -> vix_data !! "^VIX3M" = Some vix3m ->
  ts_label (term_structure_of vix_data) = Some Contango.
Proof.
  intros H1 H3. unfold term_structure_of. rewrite H1, H3. by destruct vix3m.
Qed.

(** Without one of the two closes the dict has neither key. *)
Lemma term_structure_of_missing vix_data :
  vix_data !! "^VIX" = None \/ vix_data !! "^VIX3M" = None ->
  VIX_VIX3M_ratio (term_structure_of vix_data) = None /\
  ts_label (term_structure_of vix_data) = None.
Proof.
  unfold term_structure_of. intros [->| ->]; [done|]. by destruct (vix_data !! "^VIX").
Qed.

Section TermStructureFacts.
Context {market : Market}.

(** The latest close of a symbol: none when its history is empty. *)
Definition close_of (symbol : string) : result (option Np.float) :=
  h <- history symbol "5d" "1d" ;; Ok (Np.of_cell <$> last (Close <$> h)).

(** The requests of the term structure that are answered, and those
    answered with a history that is not empty. *)
Definition answered (symbol : string) : bool := is_ok (close_of symbol).

Definition has_close (symbol : string) : bool :=
  match close_of symbol with Ok (Some _) => true | _ => false end.

(** The dict of the closes as a function of the answers. *)
Fixpoint closes (l : list string) (d : gmap string Np.float)
  : result (gmap string Np.float) :=
  match l with
  | [] => Ok d
  | s :: l' =>
      c <- close_of s ;; closes l' (default d ((fun c => <[s := c]> d) <$> c))
  end.

Lemma latest_close_run s d tr :
  latest_close s d tr =
    (c <- close_of s ;; Ok (default d ((fun c => <[s := c]> d) <$> c)), tr).
Proof.
  unfold latest_close, close_of, io_bind, io_lift.
  destruct (history s "5d" "1d") as [[|b h]|e]; try done.
  cbn [result_bind]. unfold Np.iloc_last.
  destruct (last (Close <$> b :: h)) eqn:E; [done|]. by apply last_None in E.
Qed.

Lemma io_foldl_latest_close l d tr : io_foldl latest_close l d tr = (closes l d, tr).
Proof.
  revert d. induction l as [|s l IH]; intros d; [done|].
  cbn [io_foldl closes]. unfold io_bind. rewrite latest_close_run.
  destruct (close_of s) as [c|e]; cbn [result_bind]; [apply IH|done].
Qed.

Lemma closes_ok l d : is_ok (closes l d) = forallb answered l.
Proof.
  revert d. induction l as [|s l IH]; intros d; [done|]. cbn [closes forallb].
  unfold answered at 1. destruct (close_of s) as [c|e]; cbn [result_bind is_ok]; [apply IH|done].
Qed.

Lemma closes_size l d d' :
  closes l d = Ok d' -> NoDup l -> (forall s, s ∈ l -> d !! s = None) ->
  size d' = (size d + length (List.filter has_close l))%nat.
Proof.
  revert d. induction l as [|s l IH]; intros d H Hnd Hd.
  { injection H as <-. simpl. lia. }
  apply NoDup_cons in Hnd as [Hs Hnd]. cbn [closes List.filter] in *. unfold has_close at 1.
  destruct (close_of s) as [[c|]|e]; cbn [result_bind] in H; [..|done].
  - change (default d (_ <$> Some c)) with (<[s := c]> d) in H. rewrite (IH _ H Hnd).
    + rewrite map_size_insert_None by (apply Hd; by left). simpl. lia.
    + intros t Ht. rewrite lookup_insert_ne by (by intros ->). apply Hd. by right.
  - apply (IH _ H Hnd). intros t Ht. apply Hd. by right.
Qed.

Lemma calculate_vix_term_structure_total : total calculate_vix_term_structure.
Proof.
  apply total_try. intros e. apply total_bind; [done|]. intros _. apply total_ret.
Qed.

(** What [calculate_vix_term_structure] returns, by the answers. *)
Lemma calculate_vix_term_structure_run tr :
  calculate_vix_term_structure tr =
    match closes term_structure_symbols ∅ with
    | Ok vix_data =>
        (Ok (if (2 <=? size vix_data)%nat then Some (term_structure_of vix_data) else None),
         tr)
    | Raise _ => (Ok None, tr ++ [EPrint])
    end.
Proof.
  unfold calculate_vix_term_structure, io_try, io_bind.
  rewrite io_foldl_latest_close. destruct (closes _ _) as [d|e]; [|done].
  by destruct (2 <=? size d)%nat.
Qed.

(** C26. [calculate_vix_term_structure] returns a term structure exactly
    when each of the four requests is answered and at least two of the
    four histories are not empty.  One request that raises loses the
    closes of the other symbols. *)
Theorem calculate_vix_term_structure_some tr :
  (exists t, (calculate_vix_term_structure tr).1 = Ok (Some t)) <->
  forallb answered term_structure_symbols = true /\
  (2 <= length (List.filter has_close term_structure_symbols))%nat.
Proof.
  rewrite calculate_vix_term_structure_run, <- (closes_ok _ ∅).
  destruct (closes _ _) as [d|e] eqn:E; [|split; [by intros [t [=]]|by intros [[=] _]]].
  apply closes_size in E; [|compute_done|done].
  rewrite map_size_empty in E. change (0 + ?n)%nat with n in E. rewrite <- E.
  destruct (Nat.leb_spec 2 (size d)); cbn [fst is_ok].
  - split; [done|by eexists].
  - split; [by intros [t [=]]|intros [_ ?]; lia].
Qed.

End TermStructureFacts.

(** ** Facts about the fear indicators *)

Section FearFacts.
Context {market : Market}.

Lemma get_market_fear_indicators_total : total get_market_fear_indicators.
Proof.
  apply total_try. intros e. apply total_bind; [done|]. intros _. apply total_ret.
Qed.

(** What [get_market_fear_indicators] returns, by the answers. *)
Lemma get_market_fear_indicators_run tr :
  get_market_fear_indicators tr =
    match history "^VIX" "20y" "1d" with
    | Ok [] => (Ok [], tr)
    | Ok vix_data =>
        match history "SPY" "20y" "1d" with
        | Ok spy_data =>
            (Ok [fear_indicators_of (default None (last (Close <$> vix_data)))
                   (Close <$> vix_data) (Close <$> spy_data)], tr)
        | Raise _ => (Ok [], tr ++ [EPrint])
        end
    | Raise _ => (Ok [], tr ++ [EPrint])
    end.
Proof.
  unfold get_market_fear_indicators, io_try, io_bind, io_lift.
  destruct (history "^VIX" "20y" "1d") as [[|b h]|e]; try done.
  unfold Np.iloc_last. destruct (last (Close <$> b :: h)) as [c|] eqn:E;
    [|by apply last_None in E].
  cbn [from_option]. destruct (history "SPY" "20y" "1d"); [|done].
  unfold Np.cell in *. by rewrite E.
Qed.

(** The percentile of the latest close among the closes of the history is
    above 0 and at most 100. *)
Lemma fear_indicators_of_percentile x vix_close spy_close :
  last vix_close = Some (Some x) ->
  exists q, VIX_90d_percentile (fear_indicators_of (Some x) vix_close spy_close) = Np.Fin q /\
            (0 < q <= 100)%Q.
Proof.
  intros Hl. destruct (Np.rank_pct_bounds vix_close x) as (q & Hq & H0 & H1).
  { apply last_Some in Hl as [l' ->]. set_solver. }
  exists (q * 100)%Q. cbn [VIX_90d_percentile fear_indicators_of]. rewrite Hq.
  split; [done|lra].
Qed.

(** The dict of a history whose latest close is [c]. *)
Definition fear_indicators_wf (f : fear_indicators) : Prop :=
  fear_level f = fear_level_of (f_VIX_current f) /\
  (forall x, f_VIX_current f = Np.Fin x ->
     exists q, VIX_90d_percentile f = Np.Fin q /\ (0 < q <= 100)%Q) /\
  (is_Some (VIX_SPY_vol_ratio f) <-> Np.gt (SPY_30d_realized_vol f) (Np.Fin 0) = true).

Lemma fear_indicators_of_wf c vix_close spy_close :
  last vix_close = Some c -> fear_indicators_wf (fear_indicators_of c vix_close spy_close).
Proof.
  intros Hl. split_and!.
  - done.
  - intros x Hx. destruct c as [y|]; [|done]. injection Hx as ->.
    by apply fear_indicators_of_percentile.
  - cbn [VIX_SPY_vol_ratio SPY_30d_realized_vol fear_indicators_of].
    destruct (Np.gt _ _); split; try done; by intros [? [=]].
Qed.

(** [get_market_fear_indicators] never raises and returns at most one
    dict.  Its fear level is the level of its current close; when that
    close is a number its percentile is above 0 and at most 100; and it
    has a ratio to the volatility of SPY exactly when that volatility is
    above zero. *)
Theorem get_market_fear_indicators_wf :
  total get_market_fear_indicators /\
  returns get_market_fear_indicators (fun fear_data =>
    (length fear_data <= 1)%nat /\ Forall fear_indicators_wf fear_data).
Proof.
  split; [apply get_market_fear_indicators_total|].
  intros tr fear_data tr'. rewrite get_market_fear_indicators_run.
  destruct (history "^VIX" "20y" "1d") as [[|b h]|e];
    [|destruct (history "SPY" "20y" "1d") as [spy|e]|];
    intros [= <- _]; (split; [simpl; lia|]); try done.
  constructor; [|done]. by apply fear_indicators_of_wf, last_default.
Qed.

(** A request for SPY that raises loses the indicators of the index. *)
Lemma get_market_fear_indicators_spy_raises tr b h e :
  history "^VIX" "20y" "1d" = Ok (b :: h) -> history "SPY" "20y" "1d" = Raise e ->
  get_market_fear_indicators tr = (Ok [], tr ++ [EPrint]).
Proof. intros H1 H2. by rewrite get_market_fear_indicators_run, H1, H2. Qed.

End FearFacts.

(** ** Facts about the files *)

(** The names of the table are different, and none is a path of its
    own. *)
Lemma volatility_names_distinct :
  Forall (fun x => Forall (fun y => x.2 = y.2 -> x = y) volatility_tickers)
    volatility_tickers.
Proof. compute_done. Qed.

Lemma volatility_names_relative :
  Forall (fun x => String.prefix "/" (x.2 +:+ "_data.csv") = false) volatility_tickers.
Proof. compute_done. Qed.

Lemma data_file_inj d x y :
  x ∈ volatility_tickers -> y ∈ volatility_tickers ->
  data_file d x.2 = data_file d y.2 -> x = y.
Proof.
  intros Hx Hy E.
  pose proof (proj1 (Forall_forall _ _) volatility_names_relative) as Hr.
  apply path_join_inj, append_inj_r in E; [|by apply Hr..].
  pose proof (proj1 (Forall_forall _ _) volatility_names_distinct _ Hx) as Hd.
  by apply (proj1 (Forall_forall _ _) Hd).
Qed.

Lemma data_file_fresh d name :
  data_file d name <> ts_file d /\ data_file d name <> fear_file d.
Proof.
  assert (He : ends (data_file d name) "_data.csv")
    by (apply path_join_ends, ends_app; by exists "").
  split.
  - apply (ends_ne _ _ "_data.csv" "cture.csv"); [done| |done..].
    apply path_join_ends. by exists "VIX_term_stru".
  - apply (ends_ne _ _ "_data.csv" "ators.csv"); [done| |done..].
    apply path_join_ends. by exists "market_fear_indic".
Qed.

Lemma ts_file_fresh d : fear_file d <> ts_file d.
Proof.
  apply (ends_ne _ _ "s.csv" "e.csv"); [| |done..]; apply path_join_ends.
  - by exists "market_fear_indicator".
  - by exists "VIX_term_structur".
Qed.

Section SaveFacts.
Context {market : Market} {D : Disk}.

(** The files of a run. *)
Definition volatility_files (d : string) : list string :=
  (data_file d <$> volatility_tickers.*2) ++ [ts_file d; fear_file d].

(** What can leave the run: the directory, or one of its files. *)
Definition volatility_error (d : string) (e : exn) : Prop :=
  e = OSError /\ (can_make d = false \/ write_error (volatility_files d) e).

Lemma save_symbol_untouched (P : string -> Prop) d period item :
  P (data_file d item.2) -> keeps (untouched P) (save_symbol d period item).
Proof.
  intros HP. destruct item as [symbol name]. unfold save_symbol.
  keeps_go; first [apply on_trace_untouched | by apply to_csv_untouched].
Qed.

(** The only exception that leaves [fetch_and_save_volatility_data] is
    the [OSError] of the output directory or of one of the twelve files
    of the run: no request that fails ends it. *)
Theorem fetch_and_save_volatility_data_raises d period :
  raises_only (volatility_error d) (fetch_and_save_volatility_data d period).
Proof.
  assert (Hin : forall e, write_error (volatility_files d) e -> volatility_error d e)
    by (intros e He; split; [apply He|by right]).
  unfold fetch_and_save_volatility_data. apply raises_only_bind.
  { apply raises_only_total, total_print. } intros _.
  apply raises_only_bind.
  { eapply raises_only_weaken; [apply makedirs_raises_only|]. intros e [-> ?].
    split; auto. } intros _.
  apply raises_only_bind.
  { apply raises_only_for_in. intros [symbol name] Hx. unfold save_symbol.
    raises_go; try (apply raises_only_total; first
      [apply total_print | apply on_trace_total, fetch_volatility_data_total]).
    eapply raises_only_weaken; [apply (to_csv_raises_only _ _ (volatility_files d))|done].
    apply elem_of_app. left. apply list_elem_of_fmap. exists name. split; [done|].
    apply list_elem_of_fmap. by exists (symbol, name). } intros _.
  raises_go; try (apply raises_only_total; first
    [ apply total_print | apply on_trace_total, calculate_vix_term_structure_total
    | apply on_trace_total, get_market_fear_indicators_total ]);
    (eapply raises_only_weaken;
       [apply (append_csv_raises_only _ _ (volatility_files d))|done]);
    unfold volatility_files; set_solver.
Qed.

(** [fetch_and_save_volatility_data] never takes a row from the file of
    the term structure: the rows the file held are the first rows it
    holds afterwards, whether the run returns or raises. *)
Theorem fetch_and_save_volatility_data_grows d period :
  keeps (grown (ts_file d)) (fetch_and_save_volatility_data d period).
Proof.
  unfold fetch_and_save_volatility_data. keeps_go;
    first [ apply on_trace_grown | apply makedirs_grown | apply append_csv_grows
          | idtac ].
  match goal with x : string * string |- _ => destruct x as [symbol name] end.
  unfold save_symbol.
  keeps_go; first [apply on_trace_grown | apply to_csv_grown, data_file_fresh].
Qed.

(** The round of a symbol whose history is not empty leaves its frame in
    its file when it returns. *)
Lemma save_symbol_saves d period symbol name b h w w' :
  history symbol period "1d" = Ok (b :: h) ->
  save_symbol d period (symbol, name) w = (Ok tt, w') ->
  disk w' !! data_file d name = Some [RData (with_metrics symbol (b :: h))].
Proof.
  intros Hh. unfold save_symbol, io_bind, on_trace, print, emit, to_csv. simpl.
  rewrite fetch_volatility_data_spec, Hh. simpl.
  destruct (writable _); [|done]. intros [= <-]. apply lookup_insert_eq.
Qed.

(** What comes after the loop leaves the files of the symbols alone. *)
Lemma after_loop_untouched d p :
  p <> ts_file d -> p <> fear_file d ->
  keeps (untouched (fun q => q <> p))
    (term_structure <~ on_trace calculate_vix_term_structure ;;
     match term_structure with
     | Some term_structure =>
         append_csv (ts_file d) [RTermStructure term_structure] ;;; on_trace print
     | None => io_ret tt
     end ;;;
     fear_data <~ on_trace get_market_fear_indicators ;;
     match fear_data with
     | [] => io_ret tt
     | _ => append_csv (fear_file d) (RFear <$> fear_data) ;;; on_trace print
     end ;;;
     on_trace print).
Proof.
  intros H1 H2.
  keeps_go; first [apply on_trace_untouched | apply append_csv_untouched; congruence].
Qed.

(** C27. When [fetch_and_save_volatility_data] returns, the file of every
    symbol of the table whose history is not empty holds the frame of
    that symbol: no later round and neither summary writes over it. *)
Theorem fetch_and_save_volatility_data_saves d period symbol name b h w w' :
  (symbol, name) ∈ volatility_tickers ->
  history symbol period "1d" = Ok (b :: h) ->
  fetch_and_save_volatility_data d period w = (Ok tt, w') ->
  disk w' !! data_file d name = Some [RData (with_metrics symbol (b :: h))].
Proof.
  intros Hx Hh H. unfold fetch_and_save_volatility_data in H.
  apply io_bind_ok in H as (_ & w1 & _ & H). apply io_bind_ok in H as (_ & w2 & _ & H).
  apply io_bind_ok in H as ([] & w3 & Hloop & H).
  destruct (data_file_fresh d name) as [Hts Hfear].
  pose proof (after_loop_untouched d _ Hts Hfear w3) as Hrest.
  rewrite H in Hrest. cbn [snd] in Hrest.
  rewrite (Hrest (data_file d name)) by (by intros ?).
  eapply (io_for_establishes (save_symbol d period)
            (fun w => disk w !! data_file d name = Some [RData (with_metrics symbol (b :: h))])
            volatility_tickers (symbol, name)); [done| | |exact Hloop].
  - intros s s'. by apply save_symbol_saves.
  - intros y Hy Hne s Hs.
    rewrite (save_symbol_untouched (fun q => q <> data_file d name) d period y);
      [done| |by intros ?].
    intros E. by apply Hne, (data_file_inj d).
Qed.

End SaveFacts.

(** ** The definitions on two markets

    On the first the index closed at 11, 15, 25 and 35, its three-month
    index at 22 and 28, SPY at 400, 404 and 402; the other symbols have
    no history.  The second is the first, but its request for the
    six-month index raises. *)

Definition bars_of (closes : list Q) : list bar :=
  (fun q => {| Close := Some q; Volume := Some 1000%Q |}) <$> closes.

Definition demo_history (symbol : string) : result (list bar) :=
  if symbol =? "^VIX" then Ok (bars_of [11; 15; 25; 35]%Q)
  else if symbol =? "^VIX3M" then Ok (bars_of [22; 28]%Q)
  else if symbol =? "SPY" then Ok (bars_of [400; 404; 402]%Q)
  else Ok [].

Definition calm_market : Market :=
  {| options := fun _ => Ok [];
     option_chain := fun _ _ => Ok ([], []);
     history := fun symbol _ _ => demo_history symbol;
     sqrt := fun q => q |}.

Definition failing_market : Market :=
  {| options := fun _ => Ok [];
     option_chain := fun _ _ => Ok ([], []);
     history := fun symbol _ _ =>
       if symbol =? "^VIX6M" then Raise RequestException else demo_history symbol;
     sqrt := fun q => q |}.

Lemma cut_fear_agrees_witness : cut_fear (Some 12%Q) = Some (fear_level_of (Np.Fin 12)).
Proof. apply cut_fear_agrees. reflexivity. Defined.

Lemma rolling_volatility_warmup_witness :
  rolling_volatility (market := calm_market) 2 [Some 10%Q; Some 11%Q; Some 12%Q] !! 1%nat
    = Some Np.NaN.
Proof. apply rolling_volatility_warmup; simpl; lia. Defined.

Lemma fear_level_column_witness :
  exists v,
    vix_only (with_metrics (market := calm_market) "^VIX" (bars_of [11; 15; 25; 35]%Q)) = Some v /\
    Fear_Level v !! 2%nat = Some (Some (fear_level_of (Np.Fin 25))).
Proof.
  eexists. split; [reflexivity|].
  eapply (fear_level_column (market := calm_market) (bars_of [11; 15; 25; 35]%Q) _ 2
            {| Close := Some 25%Q; Volume := Some 1000%Q |} 25); reflexivity.
Defined.

Lemma term_structure_of_label_witness :
  let vix_data : gmap string Np.float :=
    {[ "^VIX" := Np.Fin 35; "^VIX3M" := Np.Fin 28 ]} in
  VIX_VIX3M_ratio (term_structure_of vix_data) = Some (Np.Fin (35 / 28)) /\
  (ts_label (term_structure_of vix_data) = Some Backwardation <-> (1 < 35 / 28)%Q) /\
  (ts_label (term_structure_of vix_data) = Some Contango <-> (35 / 28 <= 1)%Q).
Proof. apply term_structure_of_label; by vm_compute. Defined.

Lemma calculate_vix_term_structure_some_witness :
  (exists t, (calculate_vix_term_structure (market := calm_market) []).1 = Ok (Some t)) <->
  forallb (answered (market := calm_market)) term_structure_symbols = true /\
  (2 <= length (List.filter (has_close (market := calm_market)) term_structure_symbols))%nat.
Proof. apply (calculate_vix_term_structure_some (market := calm_market) []). Defined.

Lemma fetch_and_save_volatility_data_saves_witness :
  disk (fetch_and_save_volatility_data (market := calm_market) (D := open_disk)
          "/data" "20y" empty_world).2 !! data_file "/data" "VIX"
    = Some [RData (with_metrics (market := calm_market) "^VIX" (bars_of [11; 15; 25; 35]%Q))].
Proof.
  apply (fetch_and_save_volatility_data_saves (market := calm_market) (D := open_disk)
           "/data" "20y" "^VIX" "VIX" {| Close := Some 11%Q; Volume := Some 1000%Q |}
           (bars_of [15; 25; 35]%Q) empty_world); [compute_done|reflexivity|by vm_compute].
Defined.

(** The term structure of the first market: the index above its
    three-month index. *)
Example calm_term_structure :
  calculate_vix_term_structure (market := calm_market) [] =
    (Ok (Some {| ts_VIX_current := Some (Np.Fin 35); ts_VIX9D := None;
                 ts_VIX3M := Some (Np.Fin 28); ts_VIX6M := None;
                 VIX_VIX3M_ratio := Some (Np.Fin (35 / 28));
                 ts_label := Some Backwardation |}), []).
Proof. by vm_compute. Qed.

(** On the second market the closes of the index and of its three-month
    index are lost with the request that raises. *)
Example failing_term_structure :
  calculate_vix_term_structure (market := failing_market) [] = (Ok None, [EPrint]).
Proof. by vm_compute. Qed.

(** The indicators of the first market: the latest close is an extreme
    level. *)
Example calm_fear_indicators :
  exists f,
    (get_market_fear_indicators (market := calm_market) []).1 = Ok [f] /\
    f_VIX_current f = Np.Fin 35 /\ fear_level f = Extreme /\
    VIX_SPY_vol_ratio f <> None.
Proof. eexists. split; [reflexivity|]. split_and!; by vm_compute. Qed.

(** The run on the first market writes the files of the two symbols that
    have a history and the two summaries, four files in all. *)
Example calm_run :
  let '(r, w) :=
    fetch_and_save_volatility_data (market := calm_market) (D := open_disk)
      "/data" "20y" empty_world in
  r = Ok tt /\
  disk w !! data_file "/data" "VIX" <> None /\
  disk w !! data_file "/data" "VIX3M" <> None /\
  disk w !! data_file "/data" "VIX9D" = None /\
  length <$> disk w !! ts_file "/data" = Some 1%nat /\
  length <$> disk w !! fear_file "/data" = Some 1%nat /\
  size (disk w) = 4%nat.
Proof. by vm_compute. Qed.
