(* ===== verification/Economy.v ===== *)
(** * Economy: the series of the FRED API and the economic dashboard

    Models src/datafetcher/economic_indicators.py: the table of
    indicators, [get_fred_data], [calculate_yield_curve],
    [get_inflation_metrics], [get_employment_indicators],
    [get_market_sentiment_indicators], [create_economic_dashboard],
    [fetch_and_save_economic_data] and [main].

    The host is the class [Net]; the parameters of a request are part of
    its URL, as they are on the wire.  What pandas and the JSON decoder do
    with a text is the class [Fred]: the observations of a response, and
    the date that a text stands for.  An observation is the dict of its
    keys, with texts as values.  [pd.to_numeric] reads a text as [float]
    does.  A date is an integer, or none (NaT), which sorts last; the sort
    by date keeps rows of one date in their order.

    The dicts that the methods build are lists of items in insertion
    order ([dict_set] of the prelude) whose values are [metric]s.  The
    key of the environment and the clock are parameters. *)

From Stdlib Require Import String Ascii ZArith QArith Lqa Lia Sorted.
From stdpp Require Import base tactics option list strings gmap.
From S2P Require Import Prelude PyRuntime Frames Net Disk.

#[local] Open Scope string_scope.
#[local] Open Scope list_scope.

(** ** The table *)

(** [self.base_url] *)
Definition fred_base_url : string := "https://api.stlouisfed.org/fred".

(** [self.indicators], in the order of the dict. *)
Definition economic_indicators : list (string * string) :=
  [("FEDFUNDS", "Federal Funds Rate");
   ("DGS10", "10-Year Treasury Rate");
   ("DGS2", "2-Year Treasury Rate");
   ("DGS30", "30-Year Treasury Rate");
   ("DGS3MO", "3-Month Treasury Rate");
   ("CPIAUCSL", "Consumer Price Index");
   ("CPILFESL", "Core CPI (Less Food & Energy)");
   ("PCEPI", "PCE Price Index");
   ("PCEPILFE", "Core PCE Price Index");
   ("UNRATE", "Unemployment Rate");
   ("PAYEMS", "Total Nonfarm Payrolls");
   ("CIVPART", "Labor Force Participation Rate");
   ("EMRATIO", "Employment-Population Ratio");
   ("GDP", "Gross Domestic Product");
   ("GDPC1", "Real GDP");
   ("GDPPOT", "Real Potential GDP");
   ("UMCSENT", "University of Michigan Consumer Sentiment");
   ("HOUST", "Housing Starts");
   ("INDPRO", "Industrial Production Index");
   ("RETAILSA", "Retail Sales");
   ("M1SL", "M1 Money Stock");
   ("M2SL", "M2 Money Stock");
   ("BOGMBASE", "Monetary Base");
   ("VIXCLS", "VIX Close");
   ("DEXUSEU", "US/Euro Exchange Rate");
   ("DEXJPUS", "Japan/US Exchange Rate");
   ("GOLDAMGBD228NLBM", "Gold Price");
   ("DCOILWTICO", "WTI Oil Price")].

(** ** [get_fred_data] *)

(** An element of [data['observations']]: its keys and their texts. *)
Definition observation : Type := list (string * string).

Class Fred := {
  (** [response.json().get('observations', [])] *)
  json_observations : response -> result (list observation);
  (** [pd.to_datetime] of one text *)
  to_datetime : string -> result Z;
}.

(** A row of the frame that [get_fred_data] returns. *)
Record fred_row : Type := {
  date : option Z;
  value : Q;
  series_id : string;
  series_name : string;
}.

(** The URL of [requests.get(url, params=params)]. *)
Definition fred_url (api_key series_id : string) (limit : Z) : string :=
  fred_base_url +:+ "/series/observations?series_id=" +:+ series_id +:+
  "&api_key=" +:+ api_key +:+ "&file_type=json&limit=" +:+ Py.str_of_Z limit +:+
  "&sort_order=desc".

(** [pd.DataFrame(observations).empty]: no row, or no column. *)
Definition frame_empty (observations : list observation) : bool :=
  forallb (fun o => bool_decide (o = [])) observations.

(** [df[k]]: the column, NaN where a row lacks the key; [KeyError] when
    no row has it. *)
Definition obs_column (k : string) (observations : list observation)
  : result (list (option string)) :=
  if existsb (fun o => bool_decide (is_Some (dict_get k o))) observations
  then Ok (dict_get k <$> observations)
  else Raise KeyError.

(** [pd.to_numeric(..., errors='coerce')] at a cell. *)
Definition to_numeric (c : option string) : Np.cell :=
  c ≫= fun s => match Py.py_float s with Ok q => Some q | Raise _ => None end.

(** The order of [sort_values('date')]: NaT last. *)
Definition date_leb (a b : option Z) : bool :=
  match a, b with
  | Some x, Some y => (x <=? y)%Z
  | _, None => true
  | None, Some _ => false
  end.

(** [df.sort_values('date')] *)
Definition sort_by_date (rows : list fred_row) : list fred_row :=
  sort_desc date (fun a b => date_leb b a) rows.

Section Clean.
Context {fred : Fred}.

(** [pd.to_datetime(df['date'])] at a cell: NaN gives NaT. *)
Definition to_datetime_cell (c : option string) : result (option Z) :=
  match c with
  | None => Ok None
  | Some s => d <- to_datetime s ;; Ok (Some d)
  end.

(** The body of [if not df.empty]: the rows that have a number as value,
    by date, with the metadata. *)
Definition clean (series_id : string) (observations : list observation)
  : result (list fred_row) :=
  dates <- obs_column "date" observations ;;
  dates <- result_map to_datetime_cell dates ;;
  values <- obs_column "value" observations ;;
  let series_name := default series_id (dict_get series_id economic_indicators) in
  let rows :=
    omap (fun dv : option Z * option string =>
            (fun v => {| date := dv.1; value := v; series_id := series_id;
                         series_name := series_name |}) <$> to_numeric dv.2)
         (zip dates values) in
  Ok (sort_by_date rows).

End Clean.

(** ** The dicts of metrics *)

Inductive metric : Type :=
| MNone
| MText (s : string)
| MNum (x : Np.float)
| MBool (b : bool).

Definition metrics : Type := list (string * metric).

(** [d.update(other)] and [{..., **other}] *)
Definition dict_update (d other : metrics) : metrics :=
  foldl (fun d kv => dict_set kv.1 kv.2 d) d other.

(** [bool(d)] for a dict or [None]. *)
Definition nonempty (d : option metrics) : bool :=
  match d with Some (_ :: _) => true | _ => false end.

Definition opt_num (o : option Q) : metric :=
  match o with Some q => MNum (Np.Fin q) | None => MNone end.

(** [m > q] for a value of a dict. *)
Definition metric_gt (m : metric) (q : Q) : result bool :=
  match m with
  | MNum x => Ok (Np.gt x (Np.Fin q))
  | _ => Raise TypeError
  end.

(** [m - q] for a value of a dict. *)
Definition metric_sub (m : metric) (q : Q) : result Np.float :=
  match m with
  | MNum x => Ok (Np.sub x (Np.Fin q))
  | _ => Raise TypeError
  end.

(** [((a - b) / b) * 100] *)
Definition pct_over (a b : Q) : Np.float :=
  Np.mul (Np.div (Np.Fin (a - b)) (Np.Fin b)) (Np.Fin 100).

(** The dict [yield_curve_metrics] of the latest rates. *)
Definition spread (k_spread k_inverted : string) (long short : option Q)
    (d : metrics) : metrics :=
  match long, short with
  | Some l, Some s =>
      dict_set k_inverted (MBool (negb (Qle_bool s l)))
        (dict_set k_spread (MNum (Np.Fin (l - s))) d)
  | _, _ => d
  end.

Definition yield_curve_of (now : string) (rates : gmap string Q) : metrics :=
  let d := [("timestamp", MText now);
            ("treasury_3mo", opt_num (rates !! "DGS3MO"));
            ("treasury_2yr", opt_num (rates !! "DGS2"));
            ("treasury_10yr", opt_num (rates !! "DGS10"));
            ("treasury_30yr", opt_num (rates !! "DGS30"))] in
  let d := spread "yield_curve_2_10" "inverted_2_10"
             (rates !! "DGS10") (rates !! "DGS2") d in
  spread "yield_curve_3mo_10yr" "inverted_3mo_10yr"
    (rates !! "DGS10") (rates !! "DGS3MO") d.

(** The keys that a series adds to [inflation_data]. *)
Definition inflation_of (series : string) (values : list Q) (d : metrics)
  : result metrics :=
  latest_value <- Np.iloc_last values ;;
  year_ago_value <-
    (if (12 <=? length values)%nat then Np.iloc_neg 12 values else py_index values 0) ;;
  let yoy_change := pct_over latest_value year_ago_value in
  Ok (dict_set (series +:+ "_yoy") (MNum yoy_change)
        (dict_set (series +:+ "_current") (MNum (Np.Fin latest_value)) d)).

(** The dict [inflation_metrics] of [inflation_data]. *)
Definition inflation_metrics_of (now : string) (inflation_data : metrics)
  : result metrics :=
  let d := dict_update [("timestamp", MText now)] inflation_data in
  match dict_get "PCEPI_yoy" inflation_data with
  | Some yoy =>
      above <- metric_gt yoy 2 ;;
      distance <- metric_sub yoy 2 ;;
      Ok (dict_set "distance_from_target" (MNum distance)
            (dict_set "above_fed_target" (MBool above) d))
  | None => Ok d
  end.

(** The keys that a series adds to [employment_data]. *)
Definition employment_of (series : string) (values : list Q) (d : metrics)
  : result metrics :=
  latest_value <- Np.iloc_last values ;;
  let d := dict_set (series +:+ "_current") (MNum (Np.Fin latest_value)) d in
  if (3 <=? length values)%nat then
    let three_month_avg := Np.mean (Some <$> Np.tail 3 values) in
    let six_month_avg := Np.mean (Some <$> Np.tail 6 values) in
    Ok (dict_set (series +:+ "_trend")
          (MText (if Np.gt three_month_avg six_month_avg
                  then "Improving" else "Deteriorating")) d)
  else Ok d.

(** The keys that a series adds to [sentiment_data]. *)
Definition market_sentiment_of (series : string) (values : list Q) (d : metrics)
  : result metrics :=
  latest_value <- Np.iloc_last values ;;
  let d := dict_set (series +:+ "_current") (MNum (Np.Fin latest_value)) d in
  if (30 <=? length values)%nat then
    month_ago_value <- Np.iloc_neg 30 values ;;
    Ok (dict_set (series +:+ "_30d_change")
          (MNum (pct_over latest_value month_ago_value)) d)
  else Ok d.

(** The dict [dashboard_data] of the four dicts. *)
Definition merge (part : option metrics) (d : metrics) : metrics :=
  match part with
  | Some ((_ :: _) as part) => dict_update d part
  | _ => d
  end.

(** [if yield_curve and 'inverted_2_10' in yield_curve: ...] *)
Definition recession_signal (yield_curve : option metrics) (d : metrics) : metrics :=
  match (if nonempty yield_curve then yield_curve else None) ≫= dict_get "inverted_2_10" with
  | Some inverted => dict_set "recession_signal_yield_curve" inverted d
  | None => d
  end.

(** [if employment and 'UNRATE_current' in employment: ...] *)
Definition unemployment_signal (employment : option metrics) (d : metrics)
  : result metrics :=
  match (if nonempty employment then employment else None) ≫= dict_get "UNRATE_current" with
  | Some unrate =>
      elevated <- metric_gt unrate 5 ;;
      Ok (dict_set "unemployment_elevated" (MBool elevated) d)
  | None => Ok d
  end.

Definition dashboard_of (now : string)
    (yield_curve inflation employment sentiment : option metrics) : result metrics :=
  let d := [("timestamp", MText now)] in
  let d := merge sentiment (merge employment (merge inflation (merge yield_curve d))) in
  unemployment_signal employment (recession_signal yield_curve d).

(** ** The methods *)

Section Methods.
Context {net : Net} {fred : Fred}.
Variable fred_api_key : option string.
Variable now : string.

(** [get_fred_data(series_id, limit)] *)
Definition get_fred_data (series_id : string) (limit : Z)
  : io trace (option (list fred_row)) :=
  match fred_api_key with
  | None | Some "" => print ;;; io_ret None
  | Some api_key =>
      io_try
        (response <~ requests_get (fred_url api_key series_id limit) ;;
         if (status_code response =? 200)%Z then
           observations <~ io_lift (json_observations response) ;;
           if frame_empty observations then io_ret None
           else
             df <~ io_lift (clean series_id observations) ;;
             io_ret (Some df)
         else print ;;; io_ret None)
        (fun e => print ;;; io_ret None)
  end.

(** The body of a loop over series: the values of a series that has
    data, by date, go through [f]. *)
Definition with_series {T} (limit : Z) (f : string -> list Q -> T -> result T)
    (series : string) (st : T) : io trace T :=
  data <~ get_fred_data series limit ;;
  match data with
  | Some ((_ :: _) as data) => io_lift (f series (value <$> data) st)
  | _ => io_ret st
  end.

(** [rates[series] = data['value'].iloc[-1]] *)
Definition latest_rate (series : string) (values : list Q) (rates : gmap string Q)
  : result (gmap string Q) :=
  latest <- Np.iloc_last values ;; Ok (<[series := latest]> rates).

Definition rate_series : list string := ["DGS3MO"; "DGS2"; "DGS10"; "DGS30"].

Definition calculate_yield_curve : io trace (option metrics) :=
  io_try
    (rates <~ io_foldl (with_series 30 latest_rate) rate_series ∅ ;;
     if (2 <=? size rates)%nat then io_ret (Some (yield_curve_of now rates))
     else io_ret None)
    (fun e => print ;;; io_ret None).

Definition inflation_series : list string := ["CPIAUCSL"; "CPILFESL"; "PCEPI"; "PCEPILFE"].

Definition get_inflation_metrics : io trace (option metrics) :=
  io_try
    (inflation_data <~ io_foldl (with_series 24 inflation_of) inflation_series [] ;;
     match inflation_data with
     | [] => io_ret None
     | _ =>
         inflation_metrics <~ io_lift (inflation_metrics_of now inflation_data) ;;
         io_ret (Some inflation_metrics)
     end)
    (fun e => print ;;; io_ret None).

Definition employment_series : list string := ["UNRATE"; "PAYEMS"; "CIVPART"; "EMRATIO"].

Definition get_employment_indicators : io trace (option metrics) :=
  io_try
    (employment_data <~ io_foldl (with_series 12 employment_of) employment_series [] ;;
     match employment_data with
     | [] => io_ret None
     | _ => io_ret (Some (dict_update [("timestamp", MText now)] employment_data))
     end)
    (fun e => print ;;; io_ret None).

Definition sentiment_series : list string :=
  ["UMCSENT"; "VIXCLS"; "GOLDAMGBD228NLBM"; "DCOILWTICO"].

Definition get_market_sentiment_indicators : io trace (option metrics) :=
  io_try
    (sentiment_data <~ io_foldl (with_series 30 market_sentiment_of) sentiment_series [] ;;
     match sentiment_data with
     | [] => io_ret None
     | _ => io_ret (Some (dict_update [("timestamp", MText now)] sentiment_data))
     end)
    (fun e => print ;;; io_ret None).

Definition create_economic_dashboard : io trace (option metrics) :=
  io_try
    (yield_curve <~ calculate_yield_curve ;;
     inflation <~ get_inflation_metrics ;;
     employment <~ get_employment_indicators ;;
     sentiment <~ get_market_sentiment_indicators ;;
     dashboard_data <~ io_lift (dashboard_of now yield_curve inflation employment sentiment) ;;
     io_ret (Some dashboard_data))
    (fun e => print ;;; io_ret None).

End Methods.

(** ** [fetch_and_save_economic_data] *)

(** A row of a file of the economic data. *)
Inductive erow : Type :=
| RObservation (r : fred_row)
| RDashboard (d : metrics).

(** [f"{series_id}_{name.replace(' ', '_').replace('/', '_')}.csv"] *)
Definition series_file_name (series_id name : string) : string :=
  series_id +:+ "_" +:+ Py.replace_char "/" "_" (Py.replace_char " " "_" name) +:+ ".csv".

Definition series_file (output_dir series_id name : string) : string :=
  path_join output_dir (series_file_name series_id name).

Definition dashboard_file (output_dir : string) : string :=
  path_join output_dir "economic_dashboard.csv".

Section Save.
Context {net : Net} {fred : Fred} {D : Disk}.
Variable fred_api_key : option string.
Variable now : string.

(** The body of the loop over the indicators, with its [try]. *)
Definition indicator_step (output_dir : string) (item : string * string)
  : io (world erow) unit :=
  let '(series_id, name) := item in
  on_trace print ;;;
  io_try
    (data <~ on_trace (get_fred_data fred_api_key series_id 10000) ;;
     match data with
     | Some data =>
         to_csv (series_file output_dir series_id name) (RObservation <$> data) ;;;
         on_trace print
     | None => io_ret tt
     end ;;;
     on_trace (sleep 500))
    (fun e => on_trace print).

(** [fetch_and_save_economic_data(output_dir)] *)
Definition fetch_and_save_economic_data (output_dir : string)
  : io (world erow) unit :=
  on_trace print ;;;
  makedirs output_dir ;;;
  io_for economic_indicators (indicator_step output_dir) ;;;
  dashboard <~ on_trace (create_economic_dashboard fred_api_key now) ;;
  match dashboard with
  | Some ((_ :: _) as dashboard) =>
      append_csv (dashboard_file output_dir) [RDashboard dashboard] ;;;
      on_trace print
  | _ => io_ret tt
  end ;;;
  on_trace print.

(** [main()] *)
Definition economy_main : io (world erow) unit :=
  let output_dir := "./data/ECONOMIC" in
  fetch_and_save_economic_data output_dir.

End Save.

(** ** Facts about the dicts *)

Lemma dict_update_get_ne (d other : metrics) k :
  k ∉ other.*1 -> dict_get k (dict_update d other) = dict_get k d.
Proof.
  unfold dict_update. revert d. induction other as [|[k0 v0] other IH]; intros d Hk; [done|].
  csimpl in *. apply not_elem_of_cons in Hk as [Hne Hk].
  rewrite IH by done. by apply dict_get_set_ne.
Qed.

Lemma dict_update_get (d other : metrics) k v :
  NoDup other.*1 -> dict_get k other = Some v -> dict_get k (dict_update d other) = Some v.
Proof.
  unfold dict_update. revert d. induction other as [|[k0 v0] other IH]; intros d Hnd Hk; [done|].
  csimpl in *. apply NoDup_cons in Hnd as [Hk0 Hnd]. case_decide as E.
  - injection Hk as <-. subst k0.
    change (foldl _ ?d other) with (dict_update d other).
    rewrite dict_update_get_ne by done. apply dict_get_set.
  - by apply IH.
Qed.

(** ** Facts about the yield curve *)

Lemma spread_get_other k ks ki long short d :
  k <> ks -> k <> ki -> dict_get k (spread ks ki long short d) = dict_get k d.
Proof.
  intros H1 H2. unfold spread. destruct long, short; try done.
  rewrite !dict_get_set_ne; done.
Qed.

Lemma spread_get ks ki l s d :
  ks <> ki ->
  dict_get ks (spread ks ki (Some l) (Some s) d) = Some (MNum (Np.Fin (l - s))) /\
  dict_get ki (spread ks ki (Some l) (Some s) d) = Some (MBool (negb (Qle_bool s l))).
Proof.
  intros Hne. unfold spread. split; [|apply dict_get_set].
  rewrite dict_get_set_ne by done. apply dict_get_set.
Qed.

(** When the ten-year and the two-year rates are there, the dict of the
    yield curve holds their difference as [yield_curve_2_10], and
    [inverted_2_10] is true exactly when that difference is below
    zero. *)
Theorem yield_curve_inverted now rates r10 r2 :
  rates !! "DGS10" = Some r10 -> rates !! "DGS2" = Some r2 ->
  dict_get "yield_curve_2_10" (yield_curve_of now rates) = Some (MNum (Np.Fin (r10 - r2))) /\
  exists b, dict_get "inverted_2_10" (yield_curve_of now rates) = Some (MBool b) /\
            (b = true <-> (r10 - r2 < 0)%Q).
Proof.
  intros H10 H2. unfold yield_curve_of. rewrite H10, H2.
  split; [|eexists; split]; rewrite ?spread_get_other by done.
  - by apply spread_get.
  - by apply spread_get.
  - destruct (Qle_bool r2 r10) eqn:E; qbool; simpl; split; try done; lra.
Qed.

(** ** Facts about the series *)

Lemma key_ne series a b : a <> b -> series +:+ a <> series +:+ b.
Proof. intros Hne E. by apply append_inj_l in E. Qed.

(** With twelve values or more, [inflation_of] compares the latest
    value with the value at the twelfth position from the end, which
    stands eleven values before the latest, and stores the change in
    per cent under the key of the series. *)
Theorem inflation_of_base series values d latest base :
  (12 <= length values)%nat -> last values = Some latest ->
  values !! (length values - 12)%nat = Some base ->
  exists d', inflation_of series values d = Ok d' /\
    dict_get (series +:+ "_current") d' = Some (MNum (Np.Fin latest)) /\
    dict_get (series +:+ "_yoy") d' = Some (MNum (pct_over latest base)).
Proof.
  intros Hn Hl Hb. unfold inflation_of.
  rewrite (Np.iloc_last_Some _ _ Hl). cbn [result_bind].
  destruct (Nat.leb_spec 12 (length values)); [|lia].
  rewrite (Np.iloc_neg_Some _ _ _ Hn Hb). cbn [result_bind].
  eexists. split; [done|]. split; [|apply dict_get_set].
  rewrite dict_get_set_ne by (by apply key_ne). apply dict_get_set.
Qed.

(** With fewer than twelve values the base is the first value. *)
Lemma inflation_of_short series values d latest base :
  (length values < 12)%nat -> last values = Some latest -> head values = Some base ->
  exists d', inflation_of series values d = Ok d' /\
    dict_get (series +:+ "_yoy") d' = Some (MNum (pct_over latest base)).
Proof.
  intros Hn Hl Hb. unfold inflation_of.
  rewrite (Np.iloc_last_Some _ _ Hl). cbn [result_bind].
  destruct (Nat.leb_spec 12 (length values)); [lia|].
  destruct values as [|v values]; [done|]. injection Hb as ->.
  eexists. split; [done|]. apply dict_get_set.
Qed.

(** With six values or more, the trend of a series is [Improving]
    exactly when its last three values add up to more than the three
    before them, whatever the series measures. *)
Theorem employment_of_trend series pre a b c x y z d :
  exists d', employment_of series (pre ++ [a; b; c; x; y; z]) d = Ok d' /\
    (dict_get (series +:+ "_trend") d' = Some (MText "Improving") <->
       (a + b + c < x + y + z)%Q) /\
    (dict_get (series +:+ "_trend") d' = Some (MText "Deteriorating") <->
       (x + y + z <= a + b + c)%Q).
Proof.
  unfold employment_of. set (values := pre ++ _).
  destruct (Np.iloc_last_ok values) as (l & -> & _); [by destruct pre|].
  cbn [result_bind].
  assert (Hn : (3 <=? length values)%nat = true).
  { apply Nat.leb_le. unfold values. rewrite length_app. simpl. lia. }
  rewrite Hn. eexists. split; [done|]. rewrite dict_get_set.
  unfold values. rewrite (Np.tail_app 6 pre [a; b; c; x; y; z]) by done.
  replace (pre ++ [a; b; c; x; y; z]) with ((pre ++ [a; b; c]) ++ [x; y; z])
    by (by rewrite <- app_assoc).
  rewrite (Np.tail_app 3) by done. rewrite !Np.mean_some.
  unfold Np.gt, Np.lt. cbn [Qsum foldr length]. unfold Np.of_nat.
  change (inject_Z (Z.of_nat 3)) with 3%Q. change (inject_Z (Z.of_nat 6)) with 6%Q.
  assert (H3 : forall t, (t / 3 == t * (1 # 3))%Q) by (intros; field).
  assert (H6 : forall t, (t / 6 == t * (1 # 6))%Q) by (intros; field).
  match goal with |- context [Qle_bool ?p ?q] => destruct (Qle_bool p q) eqn:E end;
    qbool; cbn [negb];
    match goal with H : (_ <= _)%Q |- _ => rewrite H3, H6 in H
                  | H : (_ < _)%Q |- _ => rewrite H3, H6 in H end;
    split; split; first [done | by intros [=] | intros; lra].
Qed.

(** ** Facts about [get_fred_data] *)

(** [a] may stand before [b] in a frame sorted by date. *)
Definition by_date (a b : fred_row) : Prop := date_leb (date a) (date b) = true.

Lemma date_leb_total a b : date_leb b a = true \/ date_leb a b = true.
Proof. destruct a, b; simpl; auto. destruct (Z.leb_spec z0 z); [auto|right; lia]. Qed.

Lemma date_leb_trans a b c :
  date_leb b a = true -> date_leb c b = true -> date_leb c a = true.
Proof. destruct a, b, c; simpl; try done. lia. Qed.

Lemma sort_by_date_sorted rows : StronglySorted by_date (sort_by_date rows).
Proof.
  apply (sort_desc_strongly_sorted date (fun a b => date_leb b a)).
  - intros a b. apply date_leb_total.
  - intros a b c. apply date_leb_trans.
Qed.

Lemma obs_column_ok k observations c :
  obs_column k observations = Ok c -> c = dict_get k <$> observations.
Proof. unfold obs_column. destruct (existsb _ _); [by intros [= <-]|done]. Qed.

Section CleanFacts.
Context {fred : Fred}.

(** The rows of a frame of the series [sid]. *)
Definition fred_row_of (sid : string) (observations : list observation) (r : fred_row) : Prop :=
  series_id r = sid /\
  series_name r = default sid (dict_get sid economic_indicators) /\
  exists o, o ∈ observations /\ to_numeric (dict_get "value" o) = Some (value r).

(** What [clean] returns: sorted, no longer than the observations, and
    each row from an observation with a number. *)
Lemma clean_spec sid observations rows :
  clean sid observations = Ok rows ->
  StronglySorted by_date rows /\
  (length rows <= length observations)%nat /\
  Forall (fred_row_of sid observations) rows.
Proof.
  unfold clean. intros H. inv_steps H. subst rows.
  apply obs_column_ok in E1. subst.
  split; [apply sort_by_date_sorted|]. split.
  - unfold sort_by_date. rewrite sort_desc_length.
    etrans; [apply omap_length_le|]. rewrite length_zip, length_fmap.
    apply Nat.le_min_r.
  - apply Forall_forall. intros r Hr%sort_desc_elem.
    apply list_elem_of_omap in Hr as ([d v] & Hdv%elem_of_zip_r & Hr).
    apply list_elem_of_fmap in Hdv as (o & -> & Ho). cbn [fst snd] in Hr.
    destruct (to_numeric (dict_get "value" o)) as [q|] eqn:Eq; [|done].
    injection Hr as <-. split_and!; [done..|]. by exists o.
Qed.

(** C29. The frame that [clean] makes of the observations of a series is
    sorted by date, the rows without a date last; it has no more rows
    than there are observations, and every row carries the number of an
    observation of the series, with the id and the name of the
    series. *)
Theorem clean_rows sid observations rows :
  clean sid observations = Ok rows ->
  StronglySorted by_date rows /\
  (length rows <= length observations)%nat /\
  Forall (fred_row_of sid observations) rows.
Proof. apply clean_spec. Qed.

End CleanFacts.

Section MethodFacts.
Context {net : Net} {fred : Fred}.
Variable now : string.

(** Without a key [get_fred_data] prints and returns [None]: nothing is
    requested. *)
Lemma get_fred_data_no_key key sid limit tr :
  key = None \/ key = Some "" ->
  get_fred_data key sid limit tr = (Ok None, tr ++ [EPrint]).
Proof. by intros [-> | ->]. Qed.

Lemma get_fred_data_total key sid limit : total (get_fred_data key sid limit).
Proof.
  unfold get_fred_data. destruct key as [[|c k]|]; try done;
    (apply total_try; intros e; apply total_bind; [done|]; intros _; apply total_ret).
Qed.

(** What [get_fred_data] returns is a frame of the series. *)
Lemma get_fred_data_rows key sid limit :
  returns (get_fred_data key sid limit) (fun data =>
    forall rows, data = Some rows ->
      StronglySorted by_date rows /\ Forall (fun r => series_id r = sid) rows).
Proof.
  assert (Hn : forall tr : trace, returns (S:=trace) (print ;;; io_ret None)
    (fun data : option (list fred_row) => forall rows, data = Some rows ->
       StronglySorted by_date rows /\ Forall (fun r => series_id r = sid) rows)).
  { intros _. apply returns_bind_any. intros _. by apply returns_ret. }
  unfold get_fred_data. destruct key as [[|c k]|]; [by apply Hn, []| |by apply Hn, []].
  apply returns_try; [|intros e; by apply Hn, []].
  apply returns_bind_any. intros response.
  destruct (status_code response =? 200)%Z; [|by apply Hn, []].
  apply returns_bind_any. intros observations.
  destruct (frame_empty observations); [by apply returns_ret|].
  eapply returns_bind; [apply returns_lift; intros df Hdf; exact Hdf|].
  intros df Hdf%clean_spec. apply returns_ret. intros rows [= <-].
  destruct Hdf as (Hs & _ & Hr). split; [done|].
  eapply Forall_impl; [exact Hr|]. by intros r [? _].
Qed.

(** ** Facts about the dashboard *)

Lemma with_series_total {T} key limit (f : string -> list Q -> T -> result T) series st :
  raises_only (fun _ => True) (with_series key limit f series st).
Proof. by intros tr e _. Qed.

Lemma calculate_yield_curve_total key : total (calculate_yield_curve key now).
Proof.
  apply total_try. intros e. apply total_bind; [done|]. intros _. apply total_ret.
Qed.

Lemma get_inflation_metrics_total key : total (get_inflation_metrics key now).
Proof.
  apply total_try. intros e. apply total_bind; [done|]. intros _. apply total_ret.
Qed.

Lemma get_employment_indicators_total key : total (get_employment_indicators key now).
Proof.
  apply total_try. intros e. apply total_bind; [done|]. intros _. apply total_ret.
Qed.

Lemma get_market_sentiment_indicators_total key :
  total (get_market_sentiment_indicators key now).
Proof.
  apply total_try. intros e. apply total_bind; [done|]. intros _. apply total_ret.
Qed.

Lemma create_economic_dashboard_total key : total (create_economic_dashboard key now).
Proof.
  apply total_try. intros e. apply total_bind; [done|]. intros _. apply total_ret.
Qed.

(** The invariant of [employment_data]: the rate of unemployment, when
    it is there, is a number. *)
Definition unrate_num (d : metrics) : Prop :=
  forall v, ("UNRATE_current", v) ∈ d -> exists x, v = MNum x.

Lemma unrate_num_set k v d :
  (k = "UNRATE_current" -> exists x, v = MNum x) -> unrate_num d ->
  unrate_num (dict_set k v d).
Proof.
  intros Hv Hd u [[= <- <-]|Hu]%dict_set_elem; [by apply Hv|by apply Hd].
Qed.

Lemma unrate_num_update d other :
  unrate_num d -> unrate_num other -> unrate_num (dict_update d other).
Proof.
  unfold dict_update. revert d. induction other as [|[k v] other IH]; intros d Hd Ho; [done|].
  simpl. apply IH.
  - apply unrate_num_set; [|done]. intros ->. apply Ho. by left.
  - intros u Hu. apply Ho. by right.
Qed.

Lemma employment_of_unrate series values d d' :
  employment_of series values d = Ok d' -> unrate_num d -> unrate_num d'.
Proof.
  unfold employment_of. intros H Hd. inv_steps H.
  assert (Hc : unrate_num (dict_set (series +:+ "_current") (MNum (Np.Fin a)) d))
    by (apply unrate_num_set; [by eexists|done]).
  match type of H with (if ?c then _ else _) = _ => destruct c end;
    injection H as <-; [|done].
  apply unrate_num_set; [|done]. intros Ek. exfalso. revert Ek.
  apply (ends_ne _ _ "_trend" "urrent"); [by exists series|by exists "UNRATE_c"|done..].
Qed.

Lemma get_employment_indicators_unrate key :
  returns (get_employment_indicators key now) (fun e => forall m, e = Some m -> unrate_num m).
Proof.
  apply returns_try; [|intros e; apply returns_bind_any; intros _; by apply returns_ret].
  eapply returns_bind.
  - apply (returns_foldl _ unrate_num); [|by intros v ?%elem_of_nil].
    intros series d Hd. unfold with_series. apply returns_bind_any. intros [[|r data]|];
      [by apply returns_ret| |by apply returns_ret].
    apply returns_lift. intros d' Hd'. by eapply employment_of_unrate.
  - intros d Hd.
    assert (Hu : unrate_num (dict_update [("timestamp", MText now)] d)).
    { apply unrate_num_update; [|done]. by intros v [[=]|?%elem_of_nil]%elem_of_cons. }
    destruct d as [|kv d]; apply returns_ret; intros m Hm; [done|].
    injection Hm as <-. exact Hu.
Qed.

Lemma dict_update_nonempty (d other : metrics) : d <> [] -> dict_update d other <> [].
Proof.
  unfold dict_update. revert d. induction other as [|kv other IH]; intros d Hd; [done|].
  simpl. apply IH, dict_set_nonempty.
Qed.

Lemma merge_nonempty part d : d <> [] -> merge part d <> [].
Proof. intros Hd. destruct part as [[|kv part]|]; try done. by apply dict_update_nonempty. Qed.

(** The dashboard of four dicts, of which the one of employment keeps the
    invariant, is a dict that is not empty. *)
Lemma dashboard_of_ok yield_curve inflation employment sentiment :
  (forall m, employment = Some m -> unrate_num m) ->
  exists d, dashboard_of now yield_curve inflation employment sentiment = Ok d /\ d <> [].
Proof.
  intros He. unfold dashboard_of.
  set (d1 := recession_signal _ _).
  assert (H1 : d1 <> []).
  { unfold d1, recession_signal. destruct (_ ≫= _); [apply dict_set_nonempty|].
    by repeat apply merge_nonempty. }
  clearbody d1. unfold unemployment_signal.
  destruct (nonempty employment) eqn:En; [|by exists d1].
  destruct employment as [m|]; [|done]. cbn [mbind option_bind].
  destruct (dict_get "UNRATE_current" m) as [u|] eqn:Eu; [|by exists d1].
  apply dict_get_Some in Eu. destruct (He m eq_refl u Eu) as [x ->].
  eexists. split; [done|]. apply dict_set_nonempty.
Qed.

(** What [create_economic_dashboard] returns is a dict with an item. *)
Lemma create_economic_dashboard_returns key :
  returns (create_economic_dashboard key now) (fun d => exists m, d = Some m /\ m <> []).
Proof.
  intros tr d tr'. unfold create_economic_dashboard, io_try.
  run_total yc ltac:(apply calculate_yield_curve_total).
  run_total inf ltac:(apply get_inflation_metrics_total).
  run_total_as emp Ee ltac:(apply get_employment_indicators_total).
  pose proof (get_employment_indicators_unrate key _ _ _ Ee) as Hu.
  run_total sen ltac:(apply get_market_sentiment_indicators_total).
  destruct (dashboard_of_ok yc inf emp sen Hu) as (m & Hm & Hne).
  unfold io_bind, io_lift. rewrite Hm. intros [= <- _]. by exists m.
Qed.

(** C14. [create_economic_dashboard] never raises and never returns
    [None]: whatever the host answers, and without a key too, it returns
    a dict that is not empty, so that its handler is never entered and
    [fetch_and_save_economic_data] always has a dashboard to save. *)
Theorem create_economic_dashboard_some key :
  total (create_economic_dashboard key now) /\
  returns (create_economic_dashboard key now) (fun d => exists m, d = Some m /\ m <> []).
Proof.
  split; [apply create_economic_dashboard_total|apply create_economic_dashboard_returns].
Qed.

End MethodFacts.

(** ** Facts about the files *)

(** The names of the files of the series are relative, and none is the
    name of the dashboard. *)
Lemma series_names_ok :
  Forall (fun x : string * string =>
            String.prefix "/" (series_file_name x.1 x.2) = false /\
            series_file_name x.1 x.2 <> "economic_dashboard.csv")
    economic_indicators.
Proof. compute_done. Qed.

Lemma series_file_fresh d x :
  x ∈ economic_indicators -> series_file d x.1 x.2 <> dashboard_file d.
Proof.
  intros Hx. destruct (proj1 (Forall_forall _ _) series_names_ok x Hx) as [Hp Hne].
  intros E. by apply path_join_inj in E.
Qed.

Section SaveFacts.
Context {net : Net} {fred : Fred} {D : Disk}.
Variable key : option string.
Variable now : string.

(** What can leave the run: the directory, or the file of the
    dashboard. *)
Definition economy_error (d : string) (e : exn) : Prop :=
  e = OSError /\ (can_make d = false \/ writable (dashboard_file d) = false).

Lemma indicator_step_total d item : total (indicator_step key d item).
Proof.
  destruct item as [sid name]. unfold indicator_step.
  apply total_bind; [apply total_print|]. intros _.
  apply total_try. intros e. apply total_print.
Qed.

(** The only exception that leaves [fetch_and_save_economic_data] is
    the [OSError] of the output directory or of the file of the
    dashboard: a file of a series that cannot be written is caught in
    the loop, as is every failure of a request. *)
Theorem fetch_and_save_economic_data_raises d :
  raises_only (economy_error d) (fetch_and_save_economic_data key now d).
Proof.
  unfold fetch_and_save_economic_data. apply raises_only_bind.
  { apply raises_only_total, total_print. } intros _.
  apply raises_only_bind.
  { eapply raises_only_weaken; [apply makedirs_raises_only|]. intros e [-> ?].
    split; auto. } intros _.
  apply raises_only_bind.
  { apply raises_only_total, total_for, indicator_step_total. } intros _.
  raises_go; try (apply raises_only_total; first
    [ apply total_print | apply on_trace_total, create_economic_dashboard_total ]).
  eapply raises_only_weaken;
    [apply (append_csv_raises_only _ _ [dashboard_file d]); set_solver|].
  intros e [-> (q & ->%list_elem_of_singleton & Hq)]. split; auto.
Qed.

Lemma indicator_step_untouched d x :
  x ∈ economic_indicators ->
  keeps (untouched (fun q => q <> dashboard_file d)) (indicator_step key d x).
Proof.
  intros Hx. pose proof (series_file_fresh d x Hx) as Hne.
  destruct x as [sid name]. unfold indicator_step.
  keeps_go; first [apply on_trace_untouched | by apply to_csv_untouched].
Qed.

(** C15. A run of [fetch_and_save_economic_data] that returns has added
    exactly one row to the file of the dashboard, a dict that is not
    empty, behind the rows that the file held: whatever the host
    answered, and without a key too. *)
Theorem fetch_and_save_economic_data_appends d w w' :
  fetch_and_save_economic_data key now d w = (Ok tt, w') ->
  exists m, m <> [] /\
    content (dashboard_file d) w' = content (dashboard_file d) w ++ [RDashboard m].
Proof.
  intros H. unfold fetch_and_save_economic_data in H.
  apply io_bind_ok in H as ([] & w1 & H1 & H). apply io_bind_ok in H as ([] & w2 & H2 & H).
  apply io_bind_ok in H as ([] & w3 & Hloop & H).
  apply io_bind_ok in H as (dash & w4 & Hd & H).
  assert (Hc : content (dashboard_file d) w4 = content (dashboard_file d) w).
  { unfold content. f_equal.
    pose proof (on_trace_disk (create_economic_dashboard key now) w3) as E4.
    rewrite Hd in E4. cbn [snd] in E4. rewrite E4.
    pose proof (keeps_for_in (untouched (fun q => q <> dashboard_file d))
                  (indicator_step key d) economic_indicators
                  (indicator_step_untouched d) w2) as E3.
    rewrite Hloop in E3. cbn [snd] in E3. rewrite (E3 (dashboard_file d)) by (by intros ?).
    assert (E2 : disk w2 = disk w1)
      by (unfold makedirs in H2; destruct (can_make d); [by injection H2 as ->|done]).
    pose proof (on_trace_disk print w) as E1. rewrite H1 in E1. cbn [snd] in E1.
    by rewrite E2, E1. }
  destruct (create_economic_dashboard_returns now key
              (w_trace w3) dash (w_trace w4)) as (m & -> & Hm).
  { unfold on_trace in Hd. destruct (create_economic_dashboard _ _ _) as [r tr].
    by injection Hd as -> <-. }
  destruct m as [|kv m]; [done|]. exists (kv :: m). split; [done|].
  apply io_bind_ok in H as ([] & w5 & Ha & H).
  apply io_bind_ok in Ha as ([] & w6 & Ha & Hp).
  destruct (writable (dashboard_file d)) eqn:Hw;
    [|by rewrite append_csv_raises in Ha].
  rewrite append_csv_spec in Ha by done. injection Ha as <-.
  pose proof (on_trace_disk print w5) as E6. rewrite H in E6. cbn [snd] in E6.
  pose proof (on_trace_disk print
    {| w_trace := w_trace w4;
       disk := <[dashboard_file d := content (dashboard_file d) w4 ++ [RDashboard (kv :: m)]]>
                 (disk w4) |}) as E5.
  rewrite Hp in E5. cbn [snd disk] in E5.
  unfold content at 1. rewrite E6, E5, lookup_insert_eq. cbn [default]. by rewrite Hc.
Qed.

End SaveFacts.

(** ** The run without a key *)

Section NoKey.
Context {net : Net} {fred : Fred} {D : Disk}.
Variable key : option string.
Variable now : string.
Hypothesis no_key : key = None \/ key = Some "".

Lemma with_series_no_key {T} limit (f : string -> list Q -> T -> result T) series st tr :
  with_series key limit f series st tr = (Ok st, tr ++ [EPrint]).
Proof. unfold with_series, io_bind. by rewrite get_fred_data_no_key. Qed.

Lemma io_foldl_no_key {T} limit (f : string -> list Q -> T -> result T) l st tr :
  io_foldl (with_series key limit f) l st tr = (Ok st, tr ++ replicate (length l) EPrint).
Proof.
  revert tr. induction l as [|s l IH]; intros tr; cbn [io_foldl length replicate].
  - by rewrite app_nil_r.
  - unfold io_bind. rewrite with_series_no_key, IH. by rewrite <- app_assoc.
Qed.

Lemma calculate_yield_curve_no_key tr :
  calculate_yield_curve key now tr = (Ok None, tr ++ replicate 4 EPrint).
Proof.
  unfold calculate_yield_curve, io_try, io_bind. rewrite io_foldl_no_key.
  by rewrite map_size_empty.
Qed.

Lemma get_inflation_metrics_no_key tr :
  get_inflation_metrics key now tr = (Ok None, tr ++ replicate 4 EPrint).
Proof. unfold get_inflation_metrics, io_try, io_bind. by rewrite io_foldl_no_key. Qed.

Lemma get_employment_indicators_no_key tr :
  get_employment_indicators key now tr = (Ok None, tr ++ replicate 4 EPrint).
Proof. unfold get_employment_indicators, io_try, io_bind. by rewrite io_foldl_no_key. Qed.

Lemma get_market_sentiment_indicators_no_key tr :
  get_market_sentiment_indicators key now tr = (Ok None, tr ++ replicate 4 EPrint).
Proof.
  unfold get_market_sentiment_indicators, io_try, io_bind. by rewrite io_foldl_no_key.
Qed.

(** Without a key the dashboard is the dict of the timestamp alone, after
    sixteen printed lines. *)
Lemma create_economic_dashboard_no_key tr :
  create_economic_dashboard key now tr =
    (Ok (Some [("timestamp", MText now)]), tr ++ replicate 16 EPrint).
Proof.
  unfold create_economic_dashboard, io_try, io_bind.
  rewrite calculate_yield_curve_no_key, get_inflation_metrics_no_key,
    get_employment_indicators_no_key, get_market_sentiment_indicators_no_key.
  cbn [io_lift dashboard_of io_ret]. by rewrite <- !app_assoc.
Qed.

Lemma indicator_step_no_key d item w :
  indicator_step key d item w =
    (Ok tt, {| w_trace := w_trace w ++ [EPrint; EPrint; ESleep 500]; disk := disk w |}).
Proof.
  destruct item as [sid name].
  unfold indicator_step, io_try, io_bind, on_trace, print, sleep, emit.
  cbn [w_trace disk]. rewrite get_fred_data_no_key by done.
  cbn [w_trace disk io_ret]. by rewrite <- !app_assoc.
Qed.

(** The events of a run without a key: no request among them. *)
Definition no_key_events : list event :=
  [EPrint] ++ flat_map (fun _ => [EPrint; EPrint; ESleep 500]) economic_indicators
  ++ replicate 16 EPrint ++ [EPrint; EPrint].

(** Without a key [fetch_and_save_economic_data] requests nothing: it
    prints and waits half a second for each of the 28 indicators, and
    then appends to the file of the dashboard a row that holds the
    timestamp alone. *)
Theorem fetch_and_save_economic_data_no_key d w :
  can_make d = true -> writable (dashboard_file d) = true ->
  fetch_and_save_economic_data key now d w =
    (Ok tt,
     {| w_trace := w_trace w ++ no_key_events;
        disk := <[dashboard_file d :=
                    content (dashboard_file d) w ++ [RDashboard [("timestamp", MText now)]]]>
                  (disk w) |}).
Proof.
  intros Hc Hw. unfold fetch_and_save_economic_data, makedirs. rewrite Hc.
  unfold io_bind at 1, on_trace at 1, print at 1, emit. unfold io_bind at 1. cbn [io_ret].
  unfold io_bind at 1.
  rewrite (io_for_events (fun _ => [EPrint; EPrint; ESleep 500]))
    by (intros; apply indicator_step_no_key).
  unfold io_bind at 1, on_trace at 1. cbn [w_trace disk].
  rewrite create_economic_dashboard_no_key.
  unfold io_bind at 1. unfold io_bind at 1. rewrite append_csv_spec by done.
  unfold on_trace, print, emit, io_bind. cbn [w_trace disk content].
  unfold no_key_events. by rewrite <- !app_assoc.
Qed.

End NoKey.

(** The change of [market_sentiment_of] over thirty values compares the latest
    value with the value at the thirtieth position from the end. *)
Lemma sentiment_of_base series values d latest base :
  (30 <= length values)%nat -> last values = Some latest ->
  values !! (length values - 30)%nat = Some base ->
  exists d', market_sentiment_of series values d = Ok d' /\
    dict_get (series +:+ "_30d_change") d' = Some (MNum (pct_over latest base)).
Proof.
  intros Hn Hl Hb. unfold market_sentiment_of.
  rewrite (Np.iloc_last_Some _ _ Hl). cbn [result_bind].
  destruct (Nat.leb_spec 30 (length values)); [|lia].
  rewrite (Np.iloc_neg_Some _ _ _ Hn Hb). cbn [result_bind].
  eexists. split; [done|]. apply dict_get_set.
Qed.

(** ** The definitions on a host

    The host answers the requests for the ten-year and the two-year
    rates and for the rate of unemployment; the text of a response is the
    id of its series, and the decoder gives the observations of that id,
    newest first as the API sends them.  A date is read as the number of
    its digits. *)

Definition obs (date value : string) : observation := [("date", date); ("value", value)].

Definition demo_series : list (string * list observation) :=
  [("DGS10", [obs "2024-03-01" "4.20"; obs "2024-02-01" "."; obs "2024-01-01" "4.00"]);
   ("DGS2", [obs "2024-03-01" "4.60"; obs "2024-01-01" "4.30"]);
   ("UNRATE", [obs "2024-03-01" "4.3"; obs "2024-02-01" "4.1"; obs "2024-01-01" "3.9";
               obs "2023-12-01" "3.7"; obs "2023-11-01" "3.6"; obs "2023-10-01" "3.5"])].

Definition demo_page (url : string) : option response :=
  head (omap (fun s : string * list observation =>
                if Py.contains ("series_id=" +:+ s.1 +:+ "&") url
                then Some {| status_code := 200; text := s.1; json_body := None |}
                else None) demo_series).

Definition fred_net : Net := static_net demo_page.

Definition demo_fred : Fred :=
  {| json_observations := fun r => from_option JSONDecodeError (dict_get (text r) demo_series);
     to_datetime := fun s => Py.py_int (Py.remove_char "-" s) |}.

Lemma yield_curve_inverted_witness :
  let rates : gmap string Q := {[ "DGS10" := 4.2%Q; "DGS2" := 4.6%Q ]} in
  dict_get "yield_curve_2_10" (yield_curve_of "now" rates)
    = Some (MNum (Np.Fin (4.2 - 4.6))) /\
  exists b, dict_get "inverted_2_10" (yield_curve_of "now" rates) = Some (MBool b) /\
            (b = true <-> (4.2 - 4.6 < 0)%Q).
Proof. apply yield_curve_inverted; by vm_compute. Defined.

Lemma inflation_of_base_witness :
  exists d',
    inflation_of "PCEPI" [100; 101; 102; 103; 104; 105; 106; 107; 108; 109; 110; 111; 112]%Q []
      = Ok d' /\
    dict_get "PCEPI_current" d' = Some (MNum (Np.Fin 112)) /\
    dict_get "PCEPI_yoy" d' = Some (MNum (pct_over 112 101)).
Proof.
  apply (inflation_of_base "PCEPI"
           [100; 101; 102; 103; 104; 105; 106; 107; 108; 109; 110; 111; 112]%Q [] 112 101);
    [simpl; lia|reflexivity..].
Defined.

Lemma clean_rows_witness :
  let observations := [obs "2024-03-01" "4.20"; obs "2024-02-01" "."; obs "2024-01-01" "4.00"] in
  let rows :=
    [{| date := Some 20240101%Z; value := 4.00%Q; series_id := "DGS10";
        series_name := "10-Year Treasury Rate" |};
     {| date := Some 20240301%Z; value := 4.20%Q; series_id := "DGS10";
        series_name := "10-Year Treasury Rate" |}] in
  StronglySorted by_date rows /\
  (length rows <= length observations)%nat /\
  Forall (fred_row_of "DGS10" observations) rows.
Proof. apply (clean_rows (fred := demo_fred) "DGS10"). by vm_compute. Defined.

Lemma fetch_and_save_economic_data_no_key_witness :
  fetch_and_save_economic_data (net := fred_net) (fred := demo_fred) (D := open_disk)
    None "now" "/data" empty_world =
  (Ok tt,
   {| w_trace := [] ++ no_key_events;
      disk := <[dashboard_file "/data" :=
                  content (dashboard_file "/data") empty_world
                  ++ [RDashboard [("timestamp", MText "now")]]]> ∅ |}).
Proof.
  apply (fetch_and_save_economic_data_no_key (net := fred_net) (fred := demo_fred)
           (D := open_disk) None "now" (or_introl eq_refl) "/data" empty_world);
    reflexivity.
Defined.

Lemma fetch_and_save_economic_data_appends_witness :
  exists m, m <> [] /\
    content (dashboard_file "/data")
      (fetch_and_save_economic_data (net := fred_net) (fred := demo_fred) (D := open_disk)
         (Some "k") "now" "/data" empty_world).2
    = content (dashboard_file "/data") empty_world ++ [RDashboard m].
Proof.
  apply (fetch_and_save_economic_data_appends (net := fred_net) (fred := demo_fred)
           (D := open_disk) (Some "k") "now" "/data" empty_world). by vm_compute.
Defined.

(** On the host the ten-year rate is below the two-year rate: the curve
    is inverted, and the dashboard carries the signal. *)
Example demo_yield_curve :
  exists m, (calculate_yield_curve (net := fred_net) (fred := demo_fred) (Some "k") "now" []).1
            = Ok (Some m) /\
    dict_get "inverted_2_10" m = Some (MBool true) /\
    dict_get "treasury_10yr" m = Some (MNum (Np.Fin 4.20)) /\
    dict_get "treasury_30yr" m = Some MNone /\
    dict_get "inverted_3mo_10yr" m = None.
Proof. eexists. split; [by vm_compute|]. by vm_compute. Qed.

(** The rate of unemployment of the host rose from 3.5 to 4.3 in six
    months, and its trend is [Improving]. *)
Example demo_unemployment_trend :
  exists m, (get_employment_indicators (net := fred_net) (fred := demo_fred) (Some "k") "now" []).1
            = Ok (Some m) /\
    dict_get "UNRATE_current" m = Some (MNum (Np.Fin 4.3)) /\
    dict_get "UNRATE_trend" m = Some (MText "Improving").
Proof. eexists. split; [by vm_compute|]. by vm_compute. Qed.

(** The dashboard of the host, and the requests that made it: sixteen,
    with no delay between them. *)
Example demo_dashboard :
  exists m tr,
    create_economic_dashboard (net := fred_net) (fred := demo_fred) (Some "k") "now" []
      = (Ok (Some m), tr) /\
    dict_get "recession_signal_yield_curve" m = Some (MBool true) /\
    dict_get "unemployment_elevated" m = Some (MBool false) /\
    length (requested tr) = 16%nat /\ throttled tr = false.
Proof. eexists _, _. split; [by vm_compute|]. by vm_compute. Qed.
