(* ===== verification/Prices.v ===== *)
(** * Prices: the price and news fetchers of GOOGL and SPY

    Models src/datafetcher/GOOGL/GOOGLfetch.py (the class [GOOGLFetcher])
    and src/SPY/spyFetch.py (the same steps as a script): the technical
    indicators of a price history, the download with its retries, the
    news loop with its two scorers, and the run that walks the four
    timeframes.

    The frame of a history is kept by columns: the bars, and the columns
    the method adds ([ewm], [diff], [where], [rolling] and [cumsum] of
    Frames.v).  The libraries are two classes.  [Feed] is yfinance: what
    [history] answers may depend on the events so far, which is how an
    attempt can succeed after one that failed.  [News] is the NewsAPI
    client and the two scorers.  A field of an article is a text, a null
    or missing; an f-string writes a null as the word [None].

    The list [news_data] is a local of the loop over the queries: what
    was appended before an exception stays appended.  The API key is a
    parameter.  The script of SPY inlines the indicators in its
    [fetch_and_save_data]; its text is that of the method of
    [GOOGLFetcher], and one definition models both. *)

From Stdlib Require Import String Ascii ZArith QArith Lqa Lia.
From stdpp Require Import base tactics option list strings gmap.
From S2P Require Import Prelude PyRuntime Frames Net Disk Options.

#[local] Open Scope string_scope.
#[local] Open Scope list_scope.

(** ** [calculate_technical_indicators] *)

(** The frame of a history with the columns the method adds. *)
Record price_frame : Type := {
  p_bars : list bar;
  EMA_50 : list Np.cell;
  EMA_200 : list Np.cell;
  RSI : list Np.float;
  MACD : list Np.cell;
  Signal : list Np.cell;
  OBV : list Q;
}.

(** [data["Close"].ewm(span=span, adjust=False).mean()] *)
Definition ema (span : Q) (close : list Np.cell) : list Np.cell := Np.ewm span close.

(** [delta.where(delta > 0, 0)] *)
Definition gain_of (delta : list Np.cell) : list Q :=
  Np.where_ (fun x => negb (Qle_bool x 0)) 0 delta.

(** [-delta.where(delta < 0, 0)] *)
Definition loss_of (delta : list Np.cell) : list Q :=
  Qopp <$> Np.where_ (fun x => negb (Qle_bool 0 x)) 0 delta.

(** [(...).rolling(window=14).mean()] *)
Definition window_mean (s : list Q) : list Np.float :=
  Np.rolling 14 Np.mean_of (Np.Fin <$> s).

(** [100 - (100 / (1 + rs))] *)
Definition rsi_of (rs : Np.float) : Np.float :=
  Np.sub (Np.Fin 100) (Np.div (Np.Fin 100) (Np.add (Np.Fin 1) rs)).

(** The column [RSI] of the closes. *)
Definition rsi (close : list Np.cell) : list Np.float :=
  let delta := Np.diff close in
  let gain := window_mean (gain_of delta) in
  let loss := window_mean (loss_of delta) in
  let rs := zip_with Np.div gain loss in
  rsi_of <$> rs.

(** [a - b] on cells keeps NaN. *)
Definition cell_sub (a b : Np.cell) : Np.cell :=
  match a, b with Some x, Some y => Some (x - y)%Q | _, _ => None end.

(** The column [MACD]: [short_ema - long_ema]. *)
Definition macd (close : list Np.cell) : list Np.cell :=
  zip_with cell_sub (ema 12 close) (ema 26 close).

(** The column [Signal]. *)
Definition signal (close : list Np.cell) : list Np.cell := Np.ewm 9 (macd close).

(** [lambda x: 1 if x > 0 else -1] *)
Definition direction (x : Np.cell) : Q :=
  match x with
  | Some x => if Qle_bool x 0 then (-1)%Q else 1%Q
  | None => (-1)%Q
  end.

(** The column [OBV]: the volumes, signed by the direction of the close,
    NaN filled with 0, summed up. *)
Definition obv (close volume : list Np.cell) : list Q :=
  Np.cumsum
    (default 0%Q <$>
       zip_with (fun v d => Np.cell_mul v (Some (direction d))) volume (Np.diff close)).

(** [calculate_technical_indicators(data)] *)
Definition calculate_technical_indicators (data : list bar) : price_frame :=
  let close := Close <$> data in
  {| p_bars := data;
     EMA_50 := ema 50 close;
     EMA_200 := ema 200 close;
     RSI := rsi close;
     MACD := macd close;
     Signal := signal close;
     OBV := obv close (Volume <$> data) |}.

(** ** The libraries *)

(** yfinance: [ticker.history(period=..., interval=..., auto_adjust=False)]
    of a symbol, after the events so far. *)
Class Feed := {
  ticker_history : trace -> string -> string -> string -> result (list bar);
}.

(** What [article.get(key, "")] finds under a key. *)
Inductive jtext : Type :=
| JMissing
| JNull
| JStr (s : string).

(** An element of [articles["articles"]]. *)
Record article : Type := {
  a_title : jtext;
  a_description : jtext;
  a_content : jtext;
}.

Class News := {
  (** [NewsApiClient(api_key=...)] *)
  NewsApiClient : string -> result unit;
  (** [newsapi.get_everything(q=query, ...)] after the events so far:
      the list under ["articles"], [None] when the key is not there. *)
  get_everything : trace -> string -> result (option (list article));
  (** [vader.polarity_scores(text)["compound"]] *)
  polarity_scores : string -> result Q;
  (** [finbert(text)[0]["label"]] *)
  finbert : string -> result string;
}.

(** A row of [news_data]. *)
Record news_row : Type := {
  n_query : string;
  n_title : option string;
  n_description : option string;
  n_content : option string;
  vaderScore : Q;
  finbertResult : string;
}.

(** A row of a file of the fetchers. *)
Inductive prow : Type :=
| RPrices (f : price_frame)
| RNews (r : news_row).

(** A call of a library whose answer depends on the events so far. *)
Definition ask {A} (f : trace -> result A) : io trace A := fun tr => (f tr, tr).

(** ** [fetch_and_save_data] *)

Section Fetch.
Context {feed : Feed} {D : Disk}.
Variable symbol : string.

(** The body of the loop over the attempts, with its [try]: whether the
    data was saved. *)
Definition attempt (interval period filename : string) : io (world prow) bool :=
  io_try
    (data <~ on_trace (ask (fun tr => ticker_history tr symbol period interval)) ;;
     match data with
     | [] => io_raise ValueError
     | _ =>
         let data := calculate_technical_indicators data in
         to_csv filename [RPrices data] ;;;
         on_trace print ;;;
         io_ret true
     end)
    (fun e => on_trace print ;;; on_trace (sleep 5000) ;;; io_ret false).

(** [for attempt in range(retries): ...], with [n] attempts left, and the
    line printed when none is. *)
Fixpoint attempts (n : nat) (interval period filename : string) : io (world prow) unit :=
  match n with
  | O => on_trace print
  | S n' =>
      saved <~ attempt interval period filename ;;
      if saved then io_ret tt else attempts n' interval period filename
  end.

(** [fetch_and_save_data(interval, period, filename, retries)] *)
Definition fetch_and_save_data (interval period filename : string) (retries : Z)
  : io (world prow) unit :=
  on_trace print ;;;
  attempts (Z.to_nat retries) interval period filename.

End Fetch.

(** ** [fetch_news_sentiment] *)

(** [article.get(key, "")] *)
Definition get_or_empty (j : jtext) : option string :=
  match j with
  | JMissing => Some ""
  | JNull => None
  | JStr s => Some s
  end.

(** [f"{x}"] for a text or [None]. *)
Definition fstr (x : option string) : string := default "None" x.

(** [f"{title} {description} {content}".strip()] *)
Definition article_text (title description content : option string) : string :=
  Py.strip (fstr title +:+ " " +:+ fstr description +:+ " " +:+ fstr content).

Section NewsLoop.
Context {news : News} {D : Disk}.

(** The body of the loop over the articles of a query. *)
Definition article_step (query : string) (a : article)
  : io (world prow * list news_row) unit :=
  let title := get_or_empty (a_title a) in
  let description := get_or_empty (a_description a) in
  let content := get_or_empty (a_content a) in
  let text := article_text title description content in
  if (text =? "")%string then io_ret tt
  else
    vader_score <~ io_lift (polarity_scores text) ;;
    finbert_result <~ io_lift (finbert text) ;;
    io_modify (fun news_data =>
      news_data ++ [{| n_query := query; n_title := title;
                       n_description := description; n_content := content;
                       vaderScore := vader_score; finbertResult := finbert_result |}]).

(** The body of the loop over the queries, with its [try]. *)
Definition query_step (query : string) : io (world prow * list news_row) unit :=
  io_try
    (articles <~ io_zoom (on_trace (ask (fun tr => get_everything tr query))) ;;
     match articles with
     | None | Some [] => io_zoom (on_trace print)
     | Some articles =>
         io_for articles (article_step query) ;;;
         io_zoom (on_trace print)
     end)
    (fun e => io_zoom (on_trace print) ;;; io_zoom (on_trace (sleep 5000))).

(** The loop over the queries and the write of what it gathered. *)
Definition news_loop (queries : list string) (filename : string)
  : io (world prow) unit :=
  gathered <~ io_locals [] (io_for queries query_step) ;;
  match gathered.2 with
  | [] => on_trace print
  | news_data =>
      to_csv filename (RNews <$> news_data) ;;;
      on_trace print
  end.

(** [try: newsapi = NewsApiClient(...) except: print; return], then the
    loop. *)
Definition with_client (api_key : string) (queries : list string) (filename : string)
  : io (world prow) unit :=
  client <~ io_try (io_lift (NewsApiClient api_key) ;;; io_ret true)
                   (fun e => on_trace print ;;; io_ret false) ;;
  if client then news_loop queries filename else io_ret tt.

End NewsLoop.

(** ** The class [GOOGLFetcher] *)

(** [self.timeframes], in the order of the dict. *)
Definition timeframes : list (string * (string * string)) :=
  [("1h", ("2y", "GOOGL_1h.csv"));
   ("1d", ("5y", "GOOGL_1d.csv"));
   ("1wk", ("10y", "GOOGL_1wk.csv"));
   ("1mo", ("20y", "GOOGL_1mo.csv"))].

Section Googl.
Context {feed : Feed} {news : News} {D : Disk}.
Variable news_api_key : option string.

(** [self.symbol] *)
Definition googl_symbol : string := "GOOGL".

(** [GOOGLFetcher.__init__]: the warning when the key is missing. *)
Definition GOOGLFetcher_init : io (world prow) unit :=
  match news_api_key with
  | None | Some "" => on_trace print
  | Some _ => io_ret tt
  end.

(** [fetch_news_sentiment()] *)
Definition fetch_news_sentiment : io (world prow) unit :=
  match news_api_key with
  | None | Some "" => on_trace print
  | Some api_key =>
      on_trace print ;;;
      with_client api_key [googl_symbol; "Alphabet"; "GOOG"; "Google"]
        (googl_symbol +:+ "_news_sentiment.csv")
  end.

(** The body of the loop over the timeframes. *)
Definition timeframe_step (symbol : string) (item : string * (string * string))
  : io (world prow) unit :=
  let '(interval, (period, filename)) := item in
  fetch_and_save_data symbol interval period filename 3 ;;;
  on_trace (sleep 10000).

(** [run_complete_fetch()] *)
Definition run_complete_fetch : io (world prow) unit :=
  on_trace print ;;;
  io_for timeframes (timeframe_step googl_symbol) ;;;
  fetch_news_sentiment ;;;
  on_trace print.

(** [main()] of GOOGLfetch.py *)
Definition googl_main : io (world prow) unit :=
  GOOGLFetcher_init ;;;
  run_complete_fetch.

End Googl.

(** ** The script of SPY *)

(** [symbol] of spyFetch.py *)
Definition spy_symbol : string := "SPY".

(** [timeframes] of spyFetch.py *)
Definition spy_timeframes : list (string * (string * string)) :=
  [("1h", ("2y", "SPY_1h.csv"));
   ("1d", ("5y", "SPY_1d.csv"));
   ("1wk", ("10y", "SPY_1wk.csv"));
   ("1mo", ("20y", "SPY_1mo.csv"))].

Section Spy.
Context {feed : Feed} {news : News} {D : Disk}.

(** [fetch_and_save_data] of spyFetch.py *)
Definition spy_fetch_and_save_data (interval period filename : string) (retries : Z)
  : io (world prow) unit :=
  fetch_and_save_data spy_symbol interval period filename retries.

(** [fetch_news_sentiment(symbol)] of spyFetch.py *)
Definition spy_fetch_news_sentiment (NEWS_API_KEY symbol : string)
  : io (world prow) unit :=
  on_trace print ;;;
  with_client NEWS_API_KEY [symbol; "SPDR S&P 500 ETF TRUST"; "S&P 500"; "S&P 500 Index"]
    (symbol +:+ "_news_sentiment.csv").

(** [NEWS_API_KEY = os.getenv("NEWSAPI_KEY")] and its test, when the
    module is loaded. *)
Definition require_key (NEWS_API_KEY : option string) : result string :=
  match NEWS_API_KEY with
  | None | Some "" => Raise ValueError
  | Some key => Ok key
  end.

(** The statements of the script after its definitions: the four
    timeframes and the news. *)
Definition spy_script (NEWS_API_KEY : option string) : io (world prow) unit :=
  key <~ io_lift (require_key NEWS_API_KEY) ;;
  io_for spy_timeframes (timeframe_step spy_symbol) ;;;
  spy_fetch_news_sentiment key "SPDR S&P 500".

End Spy.

(** ** Facts about the indicators *)

#[local] Open Scope Q_scope.

Lemma gain_of_nonneg delta : Forall (fun q => 0 <= q) (gain_of delta).
Proof.
  unfold gain_of, Np.where_. apply Forall_fmap, Forall_forall. intros [x|] _; simpl; [|lra].
  destruct (Qle_bool x 0) eqn:E; simpl; qbool; lra.
Qed.

Lemma loss_of_nonneg delta : Forall (fun q => 0 <= q) (loss_of delta).
Proof.
  unfold loss_of, Np.where_. apply Forall_fmap, Forall_fmap, Forall_forall.
  intros [x|] _; simpl; [|lra].
  destruct (Qle_bool 0 x) eqn:E; simpl; qbool; lra.
Qed.

(** NaN, or a number that is not negative. *)
Definition mean_ok (a : Np.float) : Prop :=
  a = Np.NaN \/ exists m, a = Np.Fin m /\ 0 <= m.

Lemma window_mean_ok s : Forall (fun q => 0 <= q) s -> Forall mean_ok (window_mean s).
Proof.
  intros Hs. apply Np.rolling_Forall; [by left|]. intros v Hl Hv. right.
  apply Np.mean_of_nonneg; [by destruct v|].
  eapply Forall_impl; [exact Hv|]. intros q Hq. simpl in Hq.
  apply list_elem_of_fmap in Hq as (q' & [= ->] & Hq').
  by eapply Forall_forall in Hs.
Qed.

(** NaN, or a number between 0 and 100. *)
Definition rsi_ok (r : Np.float) : Prop :=
  r = Np.NaN \/ exists q, r = Np.Fin q /\ 0 <= q <= 100.

Lemma rsi_of_fin x : 0 <= x -> exists q, rsi_of (Np.Fin x) = Np.Fin q /\ 0 <= q <= 100.
Proof.
  intros Hx. unfold rsi_of. simpl.
  destruct (Qeq_bool (1 + x) 0) eqn:E; [apply Qeq_bool_eq in E; lra|].
  eexists. split; [done|].
  assert (0 <= 100 / (1 + x) <= 100); [|lra]. split.
  - apply Qle_shift_div_l; lra.
  - apply Qle_shift_div_r; lra.
Qed.

Lemma rsi_of_ok gain loss : mean_ok gain -> mean_ok loss -> rsi_ok (rsi_of (Np.div gain loss)).
Proof.
  intros [->|(g & -> & Hg)] [->|(l & -> & Hl)]; try by left.
  simpl. destruct (Qeq_bool l 0) eqn:E.
  - unfold Np.inf_of. destruct (g ?= 0); [by left|right; by exists (100 + - 0)..].
  - right. apply rsi_of_fin. apply Qeq_bool_neq in E. apply Qle_shift_div_l; lra.
Qed.

Lemma window_mean_length s : length (window_mean s) = length s.
Proof. unfold window_mean. by rewrite Np.rolling_length, length_fmap. Qed.

(** C16. Every value of the column [RSI] is NaN or a number between 0 and
    100, whatever the closes are, NaN among them included: the quotient
    of the two means is never negative, and an infinite one gives 100. *)
Theorem rsi_bounds close : Forall rsi_ok (rsi close).
Proof.
  unfold rsi. apply Forall_fmap, Forall_forall.
  intros rs (i & g & l & -> & Hg & Hl)%elem_of_lookup_zip_with. simpl.
  apply rsi_of_ok.
  - eapply Forall_lookup_1; [apply window_mean_ok, gain_of_nonneg|exact Hg].
  - eapply Forall_lookup_1; [apply window_mean_ok, loss_of_nonneg|exact Hl].
Qed.

(** The column [RSI] is NaN at its first thirteen positions: a window
    of fourteen changes is full at the fourteenth row, because [where]
    has put 0 for the change of the first row, which has none. *)
Theorem rsi_warmup close i :
  (i < 13)%nat -> (i < length close)%nat -> rsi close !! i = Some Np.NaN.
Proof.
  intros Hi Hl. unfold rsi. rewrite list_lookup_fmap, lookup_zip_with.
  unfold window_mean.
  rewrite !Np.rolling_early;
    unfold gain_of, loss_of;
    rewrite ?length_fmap, ?Np.where_length, ?Np.diff_length; try lia.
  done.
Qed.

(** With no fall among fourteen changes and one rise at least the value
    is 100; with no change at all it is NaN. *)
Lemma rsi_of_no_loss g :
  0 < g -> exists q, rsi_of (Np.div (Np.Fin g) (Np.Fin 0)) = Np.Fin q /\ q == 100.
Proof.
  intros Hg. simpl. unfold Np.inf_of.
  destruct (Qcompare_spec g 0); [lra..|]. eexists. split; [done|]. lra.
Qed.

Lemma rsi_of_flat : rsi_of (Np.div (Np.Fin 0) (Np.Fin 0)) = Np.NaN.
Proof. done. Qed.

(** ** Facts about the volume balance *)

Lemma signed_lookup close volume i v d :
  volume !! i = Some (Some v) -> Np.diff close !! i = Some d ->
  (default 0 <$> zip_with (fun v d => Np.cell_mul v (Some (direction d))) volume
     (Np.diff close)) !! i = Some (v * direction d).
Proof.
  intros Hv Hd. unfold Np.cell in *.
  by rewrite list_lookup_fmap, lookup_zip_with, Hv, Hd.
Qed.

(** The balance of the first row is the volume of that row, negative:
    the change of the first close is NaN, which is not above zero. *)
Theorem obv_first b data v :
  Volume b = Some v ->
  exists y, OBV (calculate_technical_indicators (b :: data)) !! 0%nat = Some y /\ y == - v.
Proof.
  intros Hv. simpl. unfold obv. simpl. rewrite Hv. simpl.
  eexists. split; [done|]. lra.
Qed.

(** From one row to the next the balance moves by the volume of the
    row: up when the close is above the close before, down otherwise, an
    unchanged close included. *)
Theorem obv_step data i b0 b1 p x v y :
  data !! i = Some b0 -> data !! S i = Some b1 ->
  Close b0 = Some p -> Close b1 = Some x -> Volume b1 = Some v ->
  OBV (calculate_technical_indicators data) !! i = Some y ->
  exists y', OBV (calculate_technical_indicators data) !! S i = Some y' /\
    (p < x -> y' == y + v) /\ (x <= p -> y' == y - v).
Proof.
  intros H0 H1 Hp Hx Hv Hy. simpl in *. unfold obv, Np.cumsum in *.
  assert (Hd : Np.diff (Close <$> data) !! S i = Some (Some (x - p))).
  { apply Np.diff_lookup; rewrite list_lookup_fmap; [by rewrite H0; simpl; f_equal|].
    by rewrite H1; simpl; f_equal. }
  assert (Hvol : (Volume <$> data) !! S i = Some (Some v))
    by (by rewrite list_lookup_fmap, H1; simpl; f_equal).
  rewrite (Np.cumsum_from_step _ _ _ _ _ Hy (signed_lookup _ _ _ _ _ Hvol Hd)).
  eexists. split; [done|]. unfold direction.
  destruct (Qle_bool (x - p) 0) eqn:E; qbool; split; intros; lra.
Qed.

(** ** Facts about the averages *)

Lemma cell_sub_within lo hi a b :
  Np.within lo hi a -> Np.within lo hi b ->
  Np.within (lo - hi) (hi - lo) (zip_with cell_sub a b).
Proof.
  intros Ha Hb. apply Forall_forall.
  intros c (i & x & y & -> & Hx & Hy)%elem_of_lookup_zip_with.
  pose proof (Forall_lookup_1 _ _ _ _ Ha Hx) as Hx'.
  pose proof (Forall_lookup_1 _ _ _ _ Hb Hy) as Hy'. simpl in *.
  destruct x as [x|], y as [y|]; try done. intros ? [= <-].
  specialize (Hx' _ eq_refl). specialize (Hy' _ eq_refl). lra.
Qed.

(** When every close that is a number lies between [lo] and [hi], so
    do the two averages [50_EMA] and [200_EMA], and [MACD] and [Signal]
    lie between [lo - hi] and [hi - lo]. *)
Theorem ema_within lo hi data :
  Np.within lo hi (Close <$> data) ->
  let f := calculate_technical_indicators data in
  Np.within lo hi (EMA_50 f) /\ Np.within lo hi (EMA_200 f) /\
  Np.within (lo - hi) (hi - lo) (MACD f) /\ Np.within (lo - hi) (hi - lo) (Signal f).
Proof.
  intros H. simpl. unfold signal, macd, ema.
  assert (Hm : Np.within (lo - hi) (hi - lo)
                 (zip_with cell_sub (Np.ewm 12 (Close <$> data)) (Np.ewm 26 (Close <$> data))))
    by (apply cell_sub_within; apply Np.ewm_within; (done || lra)).
  split_and!; [apply Np.ewm_within..|done|apply Np.ewm_within]; (done || lra).
Qed.

(** ** Facts about the retries *)

#[local] Close Scope Q_scope.

(** The events of an attempt that failed. *)
Definition failure : list event := [EPrint; ESleep 5000].

Section FetchFacts.
Context {feed : Feed} {D : Disk}.
Variables symbol interval period filename : string.

(** What an attempt after the events [tr] saves: the history, when it is
    answered, has a row and the file can be written. *)
Definition answer (tr : trace) : option (list bar) :=
  match ticker_history tr symbol period interval with
  | Ok (b :: data) => if writable filename then Some (b :: data) else None
  | _ => None
  end.

(** The world after an attempt that saved [data]. *)
Definition saved (data : list bar) (w : world prow) (evs : list event) : world prow :=
  {| w_trace := w_trace w ++ evs;
     disk := <[filename := [RPrices (calculate_technical_indicators data)]]> (disk w) |}.

(** The world after events that left the files alone. *)
Definition later (w : world prow) (evs : list event) : world prow :=
  {| w_trace := w_trace w ++ evs; disk := disk w |}.

Lemma attempt_run w :
  attempt symbol interval period filename w =
    match answer (w_trace w) with
    | Some data => (Ok true, saved data w [EPrint])
    | None => (Ok false, later w failure)
    end.
Proof.
  unfold attempt, answer, io_try, io_bind, on_trace, ask, to_csv, saved, later.
  destruct (ticker_history _ _ _ _) as [[|b data]|e]; simpl; try done;
    rewrite ?app_nil_r; try by rewrite <- app_assoc.
  destruct (writable filename); simpl; [done|by rewrite <- app_assoc].
Qed.

(** The loop as a function of the answers: how many attempts fail, and
    what the attempt after them saves. *)
Fixpoint retry_outcome (n : nat) (tr : trace) : nat * option (list bar) :=
  match n with
  | O => (O, None)
  | S n' =>
      match answer tr with
      | Some data => (O, Some data)
      | None => let '(k, r) := retry_outcome n' (tr ++ failure) in (S k, r)
      end
  end.

(** The world that the loop leaves. *)
Definition ended (w : world prow) (o : nat * option (list bar)) : world prow :=
  let evs := mjoin (replicate o.1 failure) ++ [EPrint] in
  match o.2 with
  | Some data => saved data w evs
  | None => later w evs
  end.

Lemma attempts_run n w :
  attempts symbol n interval period filename w = (Ok tt, ended w (retry_outcome n (w_trace w))).
Proof.
  revert w. induction n as [|n IH]; intros w; [done|].
  cbn [attempts retry_outcome]. unfold io_bind at 1. rewrite attempt_run.
  destruct (answer (w_trace w)) as [data|]; [done|].
  rewrite IH. cbn [later w_trace disk].
  destruct (retry_outcome n (w_trace w ++ failure)) as [k [data|]];
    unfold ended, saved, later; cbn [fst snd w_trace disk replicate mjoin list_join];
    by rewrite <- !app_assoc.
Qed.

(** No more attempts fail than there are, and when nothing is saved all
    of them have failed. *)
Lemma outcome_le n tr :
  ((retry_outcome n tr).1 <= n)%nat /\
  match (retry_outcome n tr).2 with
  | Some data => ((retry_outcome n tr).1 < n)%nat /\ data <> []
  | None => (retry_outcome n tr).1 = n
  end.
Proof.
  revert tr. induction n as [|n IH]; intros tr; [done|]. cbn [retry_outcome].
  destruct (answer tr) as [data|] eqn:E.
  - simpl. split; [lia|]. split; [lia|]. unfold answer in E.
    destruct (ticker_history _ _ _ _) as [[|b l]|]; try done.
    destruct (writable filename); [by injection E as <-|done].
  - specialize (IH (tr ++ failure)). destruct (retry_outcome n (tr ++ failure)) as [k [data|]];
      simpl in *; [split; [lia|]; split; [lia|tauto]|lia].
Qed.

(** The events before the attempt number [k], counted from 0, of a run
    that started after [tr]. *)
Definition before (tr : trace) (k : nat) : trace := tr ++ mjoin (replicate k failure).

Lemma before_S tr k : before (tr ++ failure) k = before tr (S k).
Proof. unfold before. cbn [replicate mjoin list_join]. by rewrite <- app_assoc. Qed.

(** The first attempt that is answered ends the loop. *)
Lemma outcome_first n tr k data :
  (k < n)%nat ->
  (forall j, (j < k)%nat -> answer (before tr j) = None) ->
  answer (before tr k) = Some data ->
  retry_outcome n tr = (k, Some data).
Proof.
  revert tr k. induction n as [|n IH]; intros tr k Hk Hf Ha; [lia|]. cbn [retry_outcome].
  destruct k as [|k].
  - unfold before in Ha. simpl in Ha. rewrite app_nil_r in Ha. by rewrite Ha.
  - pose proof (Hf O ltac:(lia)) as H0. unfold before in H0. simpl in H0.
    rewrite app_nil_r in H0. rewrite H0.
    rewrite (IH (tr ++ failure) k); [done|lia| |by rewrite before_S].
    intros j Hj. rewrite before_S. apply Hf. lia.
Qed.

(** C11. [fetch_and_save_data] always ends, and never raises: after its
    first line it makes at most [retries] attempts, each failure followed
    by a line and five seconds of sleep, and prints a last line.  Either
    an attempt saved the frame of a history that has a row, and no
    attempt was made after it, or all [retries] attempts failed and no
    file has changed. *)
Theorem fetch_and_save_data_ends retries w :
  exists k r w',
    fetch_and_save_data symbol interval period filename retries w = (Ok tt, w') /\
    (k <= Z.to_nat retries)%nat /\
    w_trace w' = w_trace w ++ [EPrint] ++ mjoin (replicate k failure) ++ [EPrint] /\
    match r with
    | Some data =>
        (k < Z.to_nat retries)%nat /\ data <> [] /\
        disk w' = <[filename := [RPrices (calculate_technical_indicators data)]]> (disk w)
    | None => k = Z.to_nat retries /\ disk w' = disk w
    end.
Proof.
  unfold fetch_and_save_data, io_bind, on_trace, print, emit. cbn -[attempts].
  rewrite attempts_run. cbn [w_trace].
  pose proof (outcome_le (Z.to_nat retries) (w_trace w ++ [EPrint])) as [Hle Hr].
  destruct (retry_outcome _ _) as [k r]. exists k, r. eexists. split; [done|].
  split; [done|]. unfold ended. cbn [fst snd] in *.
  destruct r as [data|]; cbn [saved later w_trace disk];
    (split; [by rewrite <- !app_assoc|tauto]).
Qed.

(** C12. A failure that passes is recovered from: when the first [k]
    attempts fail, with [k] below [retries], and the next one is
    answered with a history that has a row and a file that can be
    written, the run ends with the frame of that history in the file,
    after [k] sleeps of five seconds. *)
Theorem fetch_and_save_data_recovers retries w k data :
  (k < Z.to_nat retries)%nat ->
  (forall j, (j < k)%nat -> answer (before (w_trace w ++ [EPrint]) j) = None) ->
  answer (before (w_trace w ++ [EPrint]) k) = Some data ->
  fetch_and_save_data symbol interval period filename retries w =
    (Ok tt, saved data w ([EPrint] ++ mjoin (replicate k failure) ++ [EPrint])).
Proof.
  intros Hk Hf Ha.
  unfold fetch_and_save_data, io_bind, on_trace, print, emit. cbn -[attempts].
  rewrite attempts_run. cbn [w_trace].
  rewrite (outcome_first _ _ k data Hk Hf Ha). unfold ended, saved. cbn [fst snd w_trace disk].
  by rewrite <- !app_assoc.
Qed.

End FetchFacts.

(** ** Facts about the text of an article *)

Lemma lstrip_keeps a c b :
  Py.is_space c = false ->
  exists c' r, Py.lstrip (a +:+ String c b) = String c' r /\ Py.is_space c' = false.
Proof.
  intros Hc. induction a as [|x a IH]; simpl; [rewrite Hc; by eauto|].
  destruct (Py.is_space x) eqn:Hx; [done|by eauto].
Qed.

(** A text with a character that is no space does not strip to the empty
    text. *)
Lemma strip_nonempty a c b : Py.is_space c = false -> Py.strip (a +:+ String c b) <> "".
Proof.
  intros Hc. unfold Py.strip. destruct (lstrip_keeps a c b Hc) as (c' & r & -> & Hc').
  simpl. by rewrite Hc'.
Qed.

(** An article with a null among its three fields is never skipped:
    the f-string writes the null as the word [None], so its text is not
    empty whatever the other fields hold, and it is that text that the
    two scorers read. *)
Theorem article_text_null title description content :
  title = None \/ description = None \/ content = None ->
  article_text title description content <> "".
Proof.
  unfold article_text. intros [-> | [-> | ->]]; cbn [fstr default].
  - by apply (strip_nonempty "" "N").
  - rewrite <- (Py.append_assoc (fstr title) " "). by apply (strip_nonempty _ "N").
  - rewrite <- !Py.append_assoc. by apply (strip_nonempty _ "N" "one").
Qed.

(** ** Facts about the news loop *)

Section NewsFacts.
Context {news : News} {D : Disk}.

(** The rows of one query. *)
Definition of_query (query : string) (rows : list news_row) : Prop :=
  Forall (fun r => n_query r = query) rows.

(** An article appends at most its own row, and touches nothing else. *)
Lemma article_step_appends query a :
  appends (fun r => n_query r = query) (article_step query a).
Proof.
  unfold article_step. destruct (_ =? _)%string; [apply appends_ret|].
  apply appends_bind; [apply appends_lift|]. intros v.
  apply appends_bind; [apply appends_lift|]. intros lab.
  by apply appends_modify.
Qed.

Lemma articles_run query articles s :
  exists rows,
    (io_for articles (article_step query) s).2 = (s.1, s.2 ++ rows) /\ of_query query rows.
Proof. apply appends_for. intros a. apply article_step_appends. Qed.

(** What a round of the loop over the queries does to the state. *)
Lemma query_step_run query w news_data :
  exists rows evs,
    query_step query (w, news_data) = (Ok tt, (later w evs, news_data ++ rows)) /\
    of_query query rows.
Proof.
  unfold query_step, io_try, io_bind at 1, io_zoom at 1, on_trace at 1, ask. cbn [fst snd].
  destruct (get_everything (w_trace w) query) as [[[|a l]|]|e].
  1,3,4: exists []; eexists; rewrite app_nil_r; split; [|constructor];
    unfold io_bind, io_zoom, on_trace, print, sleep, emit, later; cbn;
    rewrite <- ?app_assoc; reflexivity.
  set (s := ({| w_trace := w_trace w; disk := disk w |}, news_data)).
  destruct (articles_run query (a :: l) s) as (rows & E & H).
  unfold io_bind at 1. destruct (io_for _ _ s) as [[[]|e] s1]; simpl in E; subst s1;
    exists rows; eexists; (split; [|done]);
    unfold io_bind, io_zoom, on_trace, print, sleep, emit, later; cbn;
    rewrite <- ?app_assoc; reflexivity.
Qed.

(** C32. A round of the loop over the queries never raises, touches no
    file, and keeps every row gathered so far: it appends rows of its own
    query, also when a scorer or the client raised in the middle of its
    articles. *)
Theorem query_step_appends query w news_data :
  exists rows evs,
    query_step query (w, news_data) = (Ok tt, (later w evs, news_data ++ rows)) /\
    of_query query rows.
Proof. apply query_step_run. Qed.

(** The rows of a list of queries. *)
Definition of_queries (queries : list string) (rows : list news_row) : Prop :=
  Forall (fun r => n_query r ∈ queries) rows.

Lemma queries_run queries w news_data :
  exists rows evs,
    io_for queries query_step (w, news_data) = (Ok tt, (later w evs, news_data ++ rows)) /\
    of_queries queries rows.
Proof.
  revert w news_data. induction queries as [|q l IH]; intros w news_data.
  { exists [], []. unfold later. rewrite !app_nil_r. split; [by destruct w|constructor]. }
  cbn [io_for]. unfold io_bind at 1.
  destruct (query_step_run q w news_data) as (r1 & e1 & -> & H1).
  destruct (IH (later w e1) (news_data ++ r1)) as (r2 & e2 & -> & H2).
  exists (r1 ++ r2), (e1 ++ e2). unfold later. cbn [w_trace disk].
  rewrite <- !app_assoc. split; [done|]. apply Forall_app. split.
  - eapply Forall_impl; [exact H1|]. intros r ->. by left.
  - eapply Forall_impl; [exact H2|]. intros r Hr. by right.
Qed.

(** What the loop over the queries leaves: with no row gathered, a
    line and no file; with rows, each of one of the queries, the file of
    the news holds them, and only the [OSError] of that file can leave
    the loop. *)
Theorem news_loop_saves queries filename w :
  exists rows evs,
    of_queries queries rows /\
    news_loop queries filename w =
      match rows with
      | [] => (Ok tt, later w (evs ++ [EPrint]))
      | _ =>
          if writable filename
          then (Ok tt, {| w_trace := w_trace w ++ evs ++ [EPrint];
                          disk := <[filename := RNews <$> rows]> (disk w) |})
          else (Raise OSError, later w evs)
      end.
Proof.
  destruct (queries_run queries w []) as (rows & evs & E & H).
  exists rows, evs. split; [done|].
  unfold news_loop, io_bind at 1, io_locals. rewrite E. cbn [fst snd app].
  destruct rows as [|r rows].
  - unfold on_trace, print, emit, later. cbn. by rewrite <- app_assoc.
  - unfold io_bind, to_csv, on_trace, print, emit, later. cbn [w_trace disk].
    destruct (writable filename); [|done]. cbn. by rewrite <- app_assoc.
Qed.

End NewsFacts.

(** ** Facts about the runs *)

Section RunFacts.
Context {feed : Feed} {news : News} {D : Disk}.

Lemma fetch_and_save_data_total symbol interval period filename retries :
  total (fetch_and_save_data symbol interval period filename retries).
Proof.
  intros w. unfold fetch_and_save_data, io_bind, on_trace, print, emit. cbn -[attempts].
  by rewrite attempts_run.
Qed.

Lemma timeframe_step_total symbol item : total (timeframe_step symbol item).
Proof.
  destruct item as [interval [period filename]]. unfold timeframe_step.
  apply total_bind; [apply fetch_and_save_data_total|]. intros _.
  apply on_trace_total. by intros tr.
Qed.

(** The exception of a file of news that cannot be written. *)
Definition news_error (filename : string) (e : exn) : Prop :=
  e = OSError /\ writable filename = false.

Lemma news_loop_raises queries filename :
  raises_only (news_error filename) (news_loop queries filename).
Proof.
  intros w e He. destruct (news_loop_saves queries filename w) as (rows & evs & _ & E).
  rewrite E in He. destruct rows; [done|].
  destruct (writable filename) eqn:Hw; [done|]. by injection He as <-.
Qed.

Lemma with_client_raises api_key queries filename :
  raises_only (news_error filename) (with_client api_key queries filename).
Proof.
  unfold with_client. apply raises_only_bind.
  - apply raises_only_total, total_try. intros e.
    apply total_bind; [apply total_print|]. intros _. apply total_ret.
  - intros [|]; [apply news_loop_raises|apply raises_only_ret].
Qed.

(** The only exception that leaves [run_complete_fetch] is the
    [OSError] of the file of the news, whose write stands outside every
    [try]: a download that fails, a file of prices that cannot be
    written, a client or a scorer that raises are all caught. *)
Theorem run_complete_fetch_raises news_api_key :
  raises_only (news_error "GOOGL_news_sentiment.csv") (run_complete_fetch news_api_key).
Proof.
  unfold run_complete_fetch. apply raises_only_bind.
  { apply raises_only_total, total_print. } intros _.
  apply raises_only_bind.
  { apply raises_only_total, total_for. intros item. apply timeframe_step_total. }
  intros _. apply raises_only_bind;
    [|intros _; apply raises_only_total, total_print].
  unfold fetch_news_sentiment.
  destruct news_api_key as [[|c k]|];
    try (apply raises_only_total, total_print).
  apply raises_only_bind; [apply raises_only_total, total_print|].
  intros _. apply with_client_raises.
Qed.

(** Without its key the script of SPY stops before its first step. *)
Lemma spy_script_no_key w : spy_script None w = (Raise ValueError, w).
Proof. done. Qed.

End RunFacts.

(** ** A host for the examples *)

#[local] Open Scope Q_scope.

Definition price_bar (close volume : Q) : bar :=
  {| Close := Some close; Volume := Some volume |}.

Definition demo_bars : list bar :=
  [price_bar 100 10; price_bar 102 20; price_bar 101 30; price_bar 101 40].

(** The number of failures that the events hold. *)
Definition failures (tr : trace) : nat :=
  length (filter (fun e => e = ESleep 5000) tr).

(** A feed that fails twice and answers from then on. *)
Definition flaky_feed : Feed :=
  {| ticker_history := fun tr _ _ _ =>
       if (2 <=? failures tr)%nat then Ok demo_bars else Raise RequestException |}.

(** A client that finds one article for every query, with no
    description, and scorers that answer every text. *)
Definition demo_news : News :=
  {| NewsApiClient := fun _ => Ok tt;
     get_everything := fun _ q =>
       Ok (Some [{| a_title := JStr q; a_description := JNull; a_content := JMissing |}]);
     polarity_scores := fun _ => Ok 0.5;
     finbert := fun _ => Ok "neutral" |}.

Lemma rsi_warmup_witness :
  rsi (Close <$> demo_bars) !! 2%nat = Some Np.NaN.
Proof. apply rsi_warmup; simpl; lia. Defined.

Lemma obv_first_witness :
  exists y, OBV (calculate_technical_indicators demo_bars) !! 0%nat = Some y /\ y == - 10.
Proof. exact (obv_first (price_bar 100 10) (tail demo_bars) 10 eq_refl). Defined.

Lemma obv_step_witness :
  exists y', OBV (calculate_technical_indicators demo_bars) !! 3%nat = Some y' /\
    (101 < 101 -> y' == (0 + 10 * -1 + 20 * 1 + 30 * -1) + 40) /\
    (101 <= 101 -> y' == (0 + 10 * -1 + 20 * 1 + 30 * -1) - 40).
Proof.
  by apply (obv_step demo_bars 2 (price_bar 101 30) (price_bar 101 40) 101 101 40).
Defined.

Lemma ema_within_witness :
  let f := calculate_technical_indicators demo_bars in
  Np.within 100 102 (EMA_50 f) /\ Np.within 100 102 (EMA_200 f) /\
  Np.within (100 - 102) (102 - 100) (MACD f) /\ Np.within (100 - 102) (102 - 100) (Signal f).
Proof.
  apply (ema_within 100 102 demo_bars).
  repeat (apply Forall_cons_2; [intros ? [= <-]; lra|]). apply Forall_nil_2.
Defined.

Lemma article_text_null_witness : article_text (Some "Alphabet") None (Some "") <> "".
Proof. apply article_text_null. right. by left. Defined.

Lemma fetch_and_save_data_recovers_witness :
  fetch_and_save_data (feed := flaky_feed) (D := open_disk)
    "GOOGL" "1d" "5y" "GOOGL_1d.csv" 3 empty_world =
  (Ok tt, saved "GOOGL_1d.csv" demo_bars empty_world
            ([EPrint] ++ mjoin (replicate 2 failure) ++ [EPrint])).
Proof.
  apply (fetch_and_save_data_recovers (feed := flaky_feed) (D := open_disk)
           "GOOGL" "1d" "5y" "GOOGL_1d.csv" 3 empty_world 2 demo_bars); [simpl; lia| |done].
  intros [|[|j]] Hj; [done..|lia].
Defined.

(** Fourteen closes that only rise give 100 at the fourteenth row, and
    fourteen closes that do not move give NaN. *)
Example rsi_rising :
  exists q, rsi (Some <$> (inject_Z <$> seqZ 1 14)) !! 13%nat = Some (Np.Fin q) /\ q == 100.
Proof. eexists. split; [by vm_compute|]. by vm_compute. Qed.

Example rsi_flat_closes : rsi (replicate 14 (Some 7)) !! 13%nat = Some Np.NaN.
Proof. by vm_compute. Qed.

(** The news of the script of SPY go to a file named after the first
    query, not after the symbol, and every row of the host, which has a
    null description, is in it. *)
Example spy_news_file :
  exists w,
    spy_fetch_news_sentiment (news := demo_news) (D := open_disk) "k" "SPDR S&P 500" empty_world
      = (Ok tt, w) /\
    size (disk w) = 1%nat /\
    length (content "SPDR S&P 500_news_sentiment.csv" w) = 4%nat /\
    Forall (fun r => exists n, r = RNews n /\ n_description n = None)
      (content "SPDR S&P 500_news_sentiment.csv" w).
Proof.
  eexists. split; [vm_compute; reflexivity|]. do 2 (split; [vm_compute; reflexivity|]).
  vm_compute. repeat (apply Forall_cons_2; [by eexists|]). apply Forall_nil_2.
Qed.

(** A whole run of the fetcher of GOOGL on the host: every download
    fails twice, so ten seconds are slept for each, and ten more behind
    each timeframe; five files are written. *)
Example googl_run :
  exists w,
    googl_main (feed := flaky_feed) (news := demo_news) (D := open_disk) (Some "k") empty_world
      = (Ok tt, w) /\
    size (disk w) = 5%nat /\
    Forall (fun p => length (content p w) = 1%nat)
      ["GOOGL_1h.csv"; "GOOGL_1d.csv"; "GOOGL_1wk.csv"; "GOOGL_1mo.csv"] /\
    length (content "GOOGL_news_sentiment.csv" w) = 4%nat /\
    failures (w_trace w) = 2%nat /\
    length (filter (fun e => e = ESleep 10000) (w_trace w)) = 4%nat.
Proof.
  eexists. split; [vm_compute; reflexivity|].
  split_and!; [vm_compute; reflexivity| |vm_compute; reflexivity..].
  repeat (apply Forall_cons_2; [vm_compute; reflexivity|]). apply Forall_nil_2.
Qed.
