(* ===== verification/Reddit.v ===== *)
(** * Reddit: the sentiment of Reddit for a ticker

    Models src/datafetcher/reddit_sentiment.py: the four methods of
    [RedditSentimentFetcher] and [main].

    A JSON object is the dict of its keys; a value is a text, a number
    or null.  Decoding a response is the class [Reddit], which also holds
    the two scorers and the text of a number.  The host is the class
    [Net]; the parameters of a request are part of its URL.  The clock is
    two parameters: the text of the time stamp, and the seconds since the
    epoch.  The seconds are integers without bound: [timedelta] raises
    for a [days_back] beyond its range, which the outer handler of
    [get_reddit_posts_pushshift] catches; in the model that handler is
    never entered.

    The list [all_posts] of [get_reddit_posts_pushshift] is a local of
    its loop: what was appended before an exception stays appended. *)

From Stdlib Require Import String Ascii ZArith QArith Lia.
From stdpp Require Import base tactics option list strings gmap.
From S2P Require Import Prelude PyRuntime Net Disk.

#[local] Open Scope string_scope.
#[local] Open Scope list_scope.

(** ** JSON *)

Inductive jvalue : Type :=
| VNone
| VText (s : string)
| VNum (q : Q).

Definition jobject : Type := list (string * jvalue).

(** [obj.get(key, default)] *)
Definition jget (key : string) (d : jvalue) (obj : jobject) : jvalue :=
  default d (dict_get key obj).

(** [v.upper()] *)
Definition upper_of (v : jvalue) : result string :=
  match v with
  | VText s => Ok (Py.upper s)
  | _ => Raise AttributeError
  end.

Class Reddit := {
  (** [response.json()] of the Tradestie API: a list of objects *)
  json_items : response -> result (list jobject);
  (** [response.json().get('data', [])] of Pushshift *)
  json_posts : response -> result (list jobject);
  (** [self.analyzer.polarity_scores(text)["compound"]] *)
  compound : string -> result Q;
  (** [self.finbert_model(text)[0]["label"]] *)
  finbert_model : string -> result string;
  (** [str(x)] of a number *)
  number_text : Q -> string;
}.

(** ** [get_tradestie_reddit_data] *)

Definition tradestie_url : string := "https://tradestie.com/api/v1/apps/reddit".

(** The dict that the method returns. *)
Record reddit_summary : Type := {
  r_timestamp : string;
  r_ticker : string;
  mentions : jvalue;
  r_sentiment : jvalue;
  sentiment_score : jvalue;
  r_source : string;
}.

(** The loop that looks for the ticker, with its [break]. *)
Fixpoint find_ticker (ticker : string) (data : list jobject) : result (option jobject) :=
  match data with
  | [] => Ok None
  | item :: data' =>
      t <- upper_of (jget "ticker" (VText "") item) ;;
      if (t =? Py.upper ticker)%string then Ok (Some item)
      else find_ticker ticker data'
  end.

Definition summary_of_item (now ticker : string) (ticker_data : jobject) : reddit_summary :=
  {| r_timestamp := now;
     r_ticker := ticker;
     mentions := jget "no_of_comments" (VNum 0) ticker_data;
     r_sentiment := jget "sentiment" (VNum 0) ticker_data;
     sentiment_score := jget "sentiment_score" (VNum 0) ticker_data;
     r_source := "tradestie_reddit" |}.

Section Tradestie.
Context {net : Net} {reddit : Reddit}.
Variable now : string.

(** [get_tradestie_reddit_data(ticker)] *)
Definition get_tradestie_reddit_data (ticker : string) : io trace (option reddit_summary) :=
  io_try
    (response <~ requests_get tradestie_url ;;
     if (status_code response =? 200)%Z then
       data <~ io_lift (json_items response) ;;
       ticker_data <~ io_lift (find_ticker ticker data) ;;
       match ticker_data with
       | Some ((_ :: _) as ticker_data) => io_ret (Some (summary_of_item now ticker ticker_data))
       | _ => io_ret None
       end
     else io_ret None)
    (fun e => print ;;; io_ret None).

End Tradestie.

(** ** [get_reddit_posts_pushshift] *)

(** A row of [all_posts]. *)
Record reddit_post : Type := {
  p_timestamp : Q;
  subreddit : string;
  p_title : jvalue;
  selftext : jvalue;
  score : jvalue;
  upvote_ratio : jvalue;
  num_comments : jvalue;
  author : jvalue;
  p_url : string;
  vaderScore : Q;
  finbertResult : string;
}.

Definition subreddits : list string :=
  ["wallstreetbets"; "stocks"; "investing"; "SecurityAnalysis"; "ValueInvesting"].

(** The URL of [requests.get(url, params=params)]. *)
Definition pushshift_url (subreddit ticker : string) (start_time end_time limit : Z) : string :=
  "https://api.pushshift.io/reddit/search/submission/?subreddit=" +:+ subreddit +:+
  "&q=" +:+ ticker +:+ "&after=" +:+ Py.str_of_Z start_time +:+
  "&before=" +:+ Py.str_of_Z end_time +:+ "&size=" +:+ Py.str_of_Z limit +:+
  "&sort=desc&sort_type=score".

(** [datetime.fromtimestamp(x)] *)
Definition fromtimestamp (x : jvalue) : result Q :=
  match x with
  | VNum q => Ok q
  | _ => Raise TypeError
  end.

Section Pushshift.
Context {net : Net} {reddit : Reddit}.

(** [f"{x}"] *)
Definition format_value (x : jvalue) : string :=
  match x with
  | VNone => "None"
  | VText s => s
  | VNum q => number_text q
  end.

(** The body of the loop over the posts of a subreddit. *)
Definition post_step (subreddit : string) (post : jobject)
  : io (trace * list reddit_post) unit :=
  let text_content :=
    format_value (jget "title" (VText "") post) +:+ " " +:+
    format_value (jget "selftext" (VText "") post) in
  if (10 <? String.length (Py.strip text_content))%nat then
    vaderScore <~ io_lift (compound text_content) ;;
    finbertResult <~ io_lift (finbert_model (String.substring 0 512 text_content)) ;;
    timestamp <~ io_lift (fromtimestamp (jget "created_utc" (VNum 0) post)) ;;
    io_modify (fun all_posts =>
      all_posts ++
      [{| p_timestamp := timestamp;
          subreddit := subreddit;
          p_title := jget "title" (VText "") post;
          selftext := jget "selftext" (VText "") post;
          score := jget "score" (VNum 0) post;
          upvote_ratio := jget "upvote_ratio" (VNum 0) post;
          num_comments := jget "num_comments" (VNum 0) post;
          author := jget "author" (VText "deleted") post;
          p_url := "https://reddit.com" +:+ format_value (jget "permalink" (VText "") post);
          vaderScore := vaderScore;
          finbertResult := finbertResult |}])
  else io_ret tt.

(** The body of the loop over the subreddits, with its [try]. *)
Definition subreddit_step (ticker : string) (start_time end_time limit : Z)
    (subreddit : string) : io (trace * list reddit_post) unit :=
  io_try
    (response <~ io_zoom (requests_get
                            (pushshift_url subreddit ticker start_time end_time limit)) ;;
     (if (status_code response =? 200)%Z then
        posts <~ io_lift (json_posts response) ;;
        io_for posts (post_step subreddit)
      else io_ret tt) ;;;
     io_zoom (sleep 1000))
    (fun e => io_zoom print).

(** [get_reddit_posts_pushshift(ticker, days_back, limit)], at the time
    [now] in seconds. *)
Definition get_reddit_posts_pushshift (now : Z) (ticker : string) (days_back limit : Z)
  : io trace (list reddit_post) :=
  io_try
    (let end_time := now in
     let start_time := (now - days_back * 86400)%Z in
     gathered <~ io_locals []
       (io_for subreddits (subreddit_step ticker start_time end_time limit)) ;;
     io_ret gathered.2)
    (fun e => print ;;; io_ret []).

End Pushshift.

(** ** [get_reddit_sentiment_summary] and [fetch_and_save_reddit_sentiment] *)

(** A row of a file of the fetcher. *)
Inductive rrow : Type :=
| RSummary (s : reddit_summary)
| RPost (p : reddit_post).

Definition reddit_summary_file (output_dir ticker : string) : string :=
  path_join output_dir (ticker +:+ "_reddit_sentiment.csv").

Definition reddit_posts_file (output_dir ticker : string) : string :=
  path_join output_dir (ticker +:+ "_reddit_posts.csv").

Section Summary.
Context {net : Net} {reddit : Reddit} {D : Disk}.
Variable now : string.

(** [get_reddit_sentiment_summary(ticker)]: the summaries, and the frame
    of the posts, which is [pd.DataFrame()]. *)
Definition get_reddit_sentiment_summary (ticker : string)
  : io trace (list reddit_summary * list reddit_post) :=
  io_try
    (tradestie_data <~ get_tradestie_reddit_data now ticker ;;
     match tradestie_data with
     | Some tradestie_data => print ;;; io_ret ([tradestie_data], [])
     | None => print ;;; io_ret ([], [])
     end)
    (fun e => print ;;; io_ret ([], [])).

(** [fetch_and_save_reddit_sentiment(ticker, output_dir)] *)
Definition fetch_and_save_reddit_sentiment (ticker output_dir : string)
  : io (world rrow) (list reddit_summary) :=
  on_trace print ;;;
  makedirs output_dir ;;;
  summary <~ on_trace (get_reddit_sentiment_summary ticker) ;;
  let '(sentiment_summary, detailed_posts) := summary in
  match sentiment_summary with
  | [] => io_ret tt
  | _ =>
      append_csv (reddit_summary_file output_dir ticker) (RSummary <$> sentiment_summary) ;;;
      on_trace print
  end ;;;
  match detailed_posts with
  | [] => io_ret tt
  | _ =>
      to_csv (reddit_posts_file output_dir ticker) (RPost <$> detailed_posts) ;;;
      on_trace print
  end ;;;
  io_ret sentiment_summary.

(** [main()]: the ticker of the test and its directory. *)
Definition reddit_main : io (world rrow) unit :=
  on_trace print ;;;
  let test_ticker := "NVDA" in
  let output_dir := "/app/data/" +:+ test_ticker in
  sentiment_data <~ fetch_and_save_reddit_sentiment test_ticker output_dir ;;
  match sentiment_data with
  | [] => on_trace print
  | _ => on_trace print ;;; io_for sentiment_data (fun data => on_trace print)
  end.

End Summary.

(** ** Facts about the search for the ticker *)

(** The ticker of an item is the text [t] in capitals. *)
Definition ticker_is (t : string) (item : jobject) : Prop :=
  upper_of (jget "ticker" (VText "") item) = Ok t.

(** The item that the loop finds is the first of the list whose
    ticker is the ticker asked for, capitals ignored, and every item
    before it has a text as ticker. *)
Theorem find_ticker_first ticker data item :
  find_ticker ticker data = Ok (Some item) ->
  exists pre rest,
    data = pre ++ item :: rest /\ ticker_is (Py.upper ticker) item /\
    Forall (fun i => exists t, ticker_is t i /\ t <> Py.upper ticker) pre.
Proof.
  induction data as [|i data IH]; [done|]. simpl.
  destruct (upper_of _) as [t|] eqn:Et; [|done]. simpl.
  destruct (String.eqb_spec t (Py.upper ticker)) as [->|Hne].
  - intros [= <-]. exists [], data. split; [done|]. split; [done|constructor].
  - intros (pre & rest & -> & Hi & Hpre)%IH. exists (i :: pre), rest.
    split; [done|]. split; [done|]. constructor; [by exists t|done].
Qed.

(** An item whose ticker is no text, ahead of the item asked for, ends
    the search with an exception. *)
Lemma find_ticker_malformed ticker pre item rest :
  Forall (fun i => exists t, ticker_is t i /\ t <> Py.upper ticker) pre ->
  upper_of (jget "ticker" (VText "") item) = Raise AttributeError ->
  find_ticker ticker (pre ++ item :: rest) = Raise AttributeError.
Proof.
  intros Hpre Hi. induction Hpre as [|i pre (t & Ht & Hne) _ IH]; simpl.
  - by rewrite Hi.
  - unfold ticker_is in Ht. rewrite Ht. simpl.
    by destruct (String.eqb_spec t (Py.upper ticker)).
Qed.

(** ** Facts about the request to Tradestie *)

Section TradestieFacts.
Context {net : Net} {reddit : Reddit}.
Variable now : string.

(** Closes a case of the run of the method: the events, then which of
    the two shapes they have, then the summary. *)
#[local] Ltac run_done :=
  eexists _, _, _;
  split; [cbn; rewrite <- ?app_assoc; reflexivity|];
  split; [(by left) || (by right)|]; try done; by intros ? [= <-].

(** What the method leaves on the trace: its one request, and a line
    when it raised. *)
Lemma get_tradestie_reddit_data_run ticker tr :
  exists r answer evs,
    get_tradestie_reddit_data now ticker tr = (Ok r, tr ++ EGet tradestie_url answer :: evs) /\
    (evs = [] \/ evs = [EPrint] /\ r = None) /\
    forall s, r = Some s -> r_ticker s = ticker /\ r_timestamp s = now.
Proof.
  unfold get_tradestie_reddit_data, io_try, io_bind, requests_get, io_lift, print, emit.
  destruct (respond tr tradestie_url) as [response|]; cbn [from_option]; [|run_done].
  destruct (status_code response =? 200)%Z; [|run_done].
  destruct (json_items response) as [data|]; [|run_done].
  destruct (find_ticker ticker data) as [[[|kv item]|]|]; run_done.
Qed.

(** [get_tradestie_reddit_data] never raises and makes exactly one
    request, for the list of all tickers, whatever ticker is asked for;
    the summary it returns carries the ticker as it was asked for. *)
Theorem get_tradestie_reddit_data_request ticker tr :
  exists r tr',
    get_tradestie_reddit_data now ticker tr = (Ok r, tr') /\
    requested tr' = requested tr ++ [tradestie_url] /\
    forall s, r = Some s -> r_ticker s = ticker.
Proof.
  destruct (get_tradestie_reddit_data_run ticker tr) as (r & answer & evs & E & Hevs & Hr).
  exists r. eexists. split; [exact E|]. split; [|by intros s Hs; apply Hr].
  rewrite requested_app. f_equal. destruct Hevs as [->|[-> _]]; done.
Qed.

End TradestieFacts.

(** ** Facts about the summary and its file *)

Lemma reddit_files_differ d ticker : reddit_posts_file d ticker <> reddit_summary_file d ticker.
Proof.
  apply (ends_ne _ _ "posts.csv" "iment.csv"); [| |done..]; apply path_join_ends, ends_app.
  - by exists "_reddit_".
  - by exists "_reddit_sent".
Qed.

Section SummaryFacts.
Context {net : Net} {reddit : Reddit} {D : Disk}.
Variable now : string.

(** What [get_reddit_sentiment_summary] returns: at most one summary,
    for the ticker, and no post. *)
Definition summary_ok (ticker : string) (r : list reddit_summary * list reddit_post) : Prop :=
  r.2 = [] /\ (length r.1 <= 1)%nat /\ Forall (fun s => r_ticker s = ticker) r.1.

Lemma get_reddit_sentiment_summary_run ticker tr :
  exists r tr',
    get_reddit_sentiment_summary now ticker tr = (Ok r, tr') /\ summary_ok ticker r /\
    requested tr' = requested tr ++ [tradestie_url].
Proof.
  unfold get_reddit_sentiment_summary, io_try, io_bind at 1.
  destruct (get_tradestie_reddit_data_run now ticker tr) as (r & answer & evs & -> & Hevs & Hr).
  assert (Hreq : requested (tr ++ EGet tradestie_url answer :: evs ++ [EPrint])
                 = requested tr ++ [tradestie_url]).
  { rewrite requested_app. f_equal. by destruct Hevs as [->|[-> _]]. }
  destruct r as [s|]; unfold io_bind, print, emit, io_ret; eexists _, _;
    (split; [reflexivity|]); rewrite <- app_assoc; (split; [|exact Hreq]).
  - split; [done|]. split; [simpl; lia|]. constructor; [by apply Hr|constructor].
  - split; [done|]. split; [simpl; lia|constructor].
Qed.

Lemma get_reddit_sentiment_summary_returns ticker :
  returns (get_reddit_sentiment_summary now ticker) (summary_ok ticker).
Proof.
  intros tr r tr' E. destruct (get_reddit_sentiment_summary_run ticker tr) as (r0 & tr0 & E0 & H & _).
  rewrite E0 in E. by injection E as <- _.
Qed.

(** C19. [fetch_and_save_reddit_sentiment] touches no file but the file of
    the summary, whether it returns or raises: the frame of the posts is
    always empty, so the file of the posts is never written. *)
Theorem fetch_and_save_reddit_sentiment_posts ticker d :
  keeps (untouched (eq (reddit_summary_file d ticker)))
    (fetch_and_save_reddit_sentiment now ticker d).
Proof.
  unfold fetch_and_save_reddit_sentiment.
  apply keeps_bind; [tc_solve|apply on_trace_untouched|]. intros _.
  apply keeps_bind; [tc_solve|apply makedirs_untouched|]. intros _.
  eapply keeps_bind_returns;
    [tc_solve|apply on_trace_returns, get_reddit_sentiment_summary_returns
    |apply on_trace_untouched|].
  intros [summary posts] (Hp & _). simpl in Hp. subst posts.
  keeps_go; first [apply on_trace_untouched | by apply append_csv_untouched].
Qed.

(** What can leave the run: the directory, or one of its two files. *)
Definition reddit_error (d ticker : string) (e : exn) : Prop :=
  e = OSError /\
  (can_make d = false \/
   write_error [reddit_summary_file d ticker; reddit_posts_file d ticker] e).

Lemma get_reddit_sentiment_summary_total ticker :
  total (get_reddit_sentiment_summary now ticker).
Proof.
  intros tr. by destruct (get_reddit_sentiment_summary_run ticker tr) as (r & tr' & -> & _).
Qed.

(** The only exception that leaves [fetch_and_save_reddit_sentiment] is
    the [OSError] of its directory or of one of its files. *)
Lemma fetch_and_save_reddit_sentiment_raises ticker d :
  raises_only (reddit_error d ticker) (fetch_and_save_reddit_sentiment now ticker d).
Proof.
  unfold fetch_and_save_reddit_sentiment. apply raises_only_bind.
  { apply raises_only_total, total_print. } intros _.
  apply raises_only_bind.
  { eapply raises_only_weaken; [apply makedirs_raises_only|]. intros e [-> ?].
    split; auto. } intros _.
  apply raises_only_bind.
  { apply raises_only_total, on_trace_total, get_reddit_sentiment_summary_total. }
  intros [summary posts].
  raises_go; try (apply raises_only_total, total_print);
    (eapply raises_only_weaken;
       [first [apply (append_csv_raises_only _ _ [reddit_summary_file d ticker;
                                                   reddit_posts_file d ticker])
              |apply (to_csv_raises_only _ _ [reddit_summary_file d ticker;
                                              reddit_posts_file d ticker])]; set_solver
       |intros e He; split; [apply He|by right]]).
Qed.

(** So it is of [main]. *)
Lemma reddit_main_raises :
  raises_only (reddit_error "/app/data/NVDA" "NVDA") (reddit_main now).
Proof.
  unfold reddit_main. apply raises_only_bind.
  { apply raises_only_total, total_print. } intros _.
  apply raises_only_bind; [apply fetch_and_save_reddit_sentiment_raises|].
  intros [|s l]; [apply raises_only_total, total_print|].
  apply raises_only_total, total_bind; [apply total_print|]. intros _.
  apply total_for. intros _. apply total_print.
Qed.

(** A run that returns a summary has appended exactly that summary,
    one row for the ticker asked for, to the file of the summary, behind
    the rows the file held; a run that returns none has written
    nothing. *)
Theorem fetch_and_save_reddit_sentiment_appends ticker d w summary w' :
  fetch_and_save_reddit_sentiment now ticker d w = (Ok summary, w') ->
  (length summary <= 1)%nat /\ Forall (fun s => r_ticker s = ticker) summary /\
  disk w' = match summary with
            | [] => disk w
            | _ => <[reddit_summary_file d ticker :=
                       content (reddit_summary_file d ticker) w ++ (RSummary <$> summary)]>
                     (disk w)
            end.
Proof.
  unfold fetch_and_save_reddit_sentiment, io_bind at 1, on_trace at 1, print at 1, emit.
  cbn [fst snd]. unfold io_bind at 1, makedirs. destruct (can_make d); [|done].
  cbn [io_ret]. unfold io_bind at 1, on_trace at 1. cbn [w_trace disk].
  destruct (get_reddit_sentiment_summary_run ticker (w_trace w ++ [EPrint]))
    as ([s posts] & tr' & -> & (Hp & Hl & Ht) & _).
  simpl in Hp, Hl, Ht. subst posts. destruct s as [|s0 s].
  - unfold io_bind, io_ret. intros [= <- <-]. by split_and!.
  - unfold io_bind at 1. unfold io_bind at 1.
    destruct (writable (reddit_summary_file d ticker)) eqn:Hw;
      [|by rewrite append_csv_raises].
    rewrite append_csv_spec by done. unfold io_bind, on_trace, print, emit, io_ret.
    cbn. intros [= <- <-]. by split_and!.
Qed.

End SummaryFacts.

(** ** Facts about the posts of Pushshift *)

Section PushshiftFacts.
Context {net : Net} {reddit : Reddit}.
Variables (ticker : string) (start_time end_time limit : Z).

(** The rows of one subreddit. *)
Definition of_subreddit (sub : string) (rows : list reddit_post) : Prop :=
  Forall (fun p => subreddit p = sub) rows.

Lemma post_step_appends sub post : appends (fun p => subreddit p = sub) (post_step sub post).
Proof.
  unfold post_step. destruct (_ <? _)%nat; [|apply appends_ret].
  do 3 (apply appends_bind; [apply appends_lift|]; intros ?). by apply appends_modify.
Qed.

(** A round of the loop over the subreddits never raises: it makes its
    request, appends rows of its subreddit, and sleeps a second, or
    prints a line when something raised. *)
Lemma subreddit_step_run sub tr all_posts :
  exists answer evs rows,
    subreddit_step ticker start_time end_time limit sub (tr, all_posts) =
      (Ok tt, (tr ++ EGet (pushshift_url sub ticker start_time end_time limit) answer :: evs,
               all_posts ++ rows)) /\
    (evs = [ESleep 1000] \/ evs = [EPrint]) /\ of_subreddit sub rows.
Proof.
  unfold subreddit_step, io_try, io_bind at 1, io_zoom at 1, requests_get. cbn [fst snd].
  set (url := pushshift_url _ _ _ _ _).
  assert (Hend : forall answer l (rows : list reddit_post) evs,
    l = all_posts ++ rows -> evs = [ESleep 1000] \/ evs = [EPrint] -> of_subreddit sub rows ->
    exists answer' evs' rows',
      (Ok tt, ((tr ++ [EGet url answer]) ++ evs, l)) =
      (Ok tt, (tr ++ EGet url answer' :: evs', all_posts ++ rows')) /\
      (evs' = [ESleep 1000] \/ evs' = [EPrint]) /\ of_subreddit sub rows').
  { intros answer l rows evs -> He Hr. exists answer, evs, rows. by rewrite <- app_assoc. }
  assert (Hnil : of_subreddit sub []) by constructor.
  assert (E0 : all_posts = all_posts ++ []) by (by rewrite app_nil_r).
  destruct (respond tr url) as [response|]; cbn [from_option].
  2: { by apply (Hend None _ [] [EPrint]); [|right|]. }
  unfold io_bind at 1. destruct (status_code response =? 200)%Z.
  2: { by apply (Hend (Some response) _ [] [ESleep 1000]); [|left|]. }
  unfold io_bind at 1, io_lift at 1. destruct (json_posts response) as [posts|].
  2: { by apply (Hend (Some response) _ [] [EPrint]); [|right|]. }
  destruct (appends_for (fun p => subreddit p = sub) (post_step sub) posts
              (post_step_appends sub) (tr ++ [EGet url (Some response)], all_posts))
    as (rows & E & Hrows).
  destruct (io_for posts _ _) as [[[]|e] s1]; simpl in E; subst s1.
  - by apply (Hend (Some response) _ rows [ESleep 1000]); [|left|].
  - by apply (Hend (Some response) _ rows [EPrint]); [|right|].
Qed.

Lemma subreddits_run subs tr all_posts :
  exists tr' rows,
    io_for subs (subreddit_step ticker start_time end_time limit) (tr, all_posts) =
      (Ok tt, (tr', all_posts ++ rows)) /\
    requested tr' =
      requested tr ++ ((fun s => pushshift_url s ticker start_time end_time limit) <$> subs) /\
    Forall (fun p => subreddit p ∈ subs) rows.
Proof.
  revert tr all_posts. induction subs as [|sub subs IH]; intros tr all_posts.
  { exists tr, []. rewrite !app_nil_r. split; [done|]. split; [done|constructor]. }
  cbn [io_for]. unfold io_bind at 1.
  destruct (subreddit_step_run sub tr all_posts) as (answer & evs & r1 & -> & Hevs & H1).
  cbv beta iota.
  destruct (IH (tr ++ EGet (pushshift_url sub ticker start_time end_time limit) answer :: evs)
              (all_posts ++ r1)) as (tr' & r2 & E2 & Hreq & H2).
  rewrite <- app_assoc in E2. exists tr', (r1 ++ r2). split; [exact E2|]. split.
  - rewrite Hreq, requested_app. cbn [fmap list_fmap]. rewrite <- app_assoc. do 2 f_equal.
    by destruct Hevs as [-> | ->].
  - apply Forall_app. split.
    + eapply Forall_impl; [exact H1|]. intros p ->. by left.
    + eapply Forall_impl; [exact H2|]. intros p Hp. by right.
Qed.

End PushshiftFacts.

Section PushshiftRun.
Context {net : Net} {reddit : Reddit}.

(** C20. [get_reddit_posts_pushshift] never raises and asks each of the
    five subreddits once, in the order of the list, whatever fails on
    the way; every post it returns is of one of the five. *)
Theorem get_reddit_posts_pushshift_requests now ticker days_back limit tr :
  exists posts tr',
    get_reddit_posts_pushshift now ticker days_back limit tr = (Ok posts, tr') /\
    requested tr' =
      requested tr ++
      ((fun s => pushshift_url s ticker (now - days_back * 86400) now limit) <$> subreddits) /\
    Forall (fun p => subreddit p ∈ subreddits) posts.
Proof.
  unfold get_reddit_posts_pushshift, io_try, io_bind, io_locals.
  destruct (subreddits_run ticker (now - days_back * 86400) now limit subreddits tr [])
    as (tr' & rows & -> & Hreq & Hrows).
  by exists rows, tr'.
Qed.

End PushshiftRun.

(** ** A host for the examples *)

#[local] Open Scope Q_scope.

Definition demo_items : list jobject :=
  [[("ticker", VText "AAPL"); ("no_of_comments", VNum 80); ("sentiment", VText "Bearish")];
   [("ticker", VText "nvda"); ("no_of_comments", VNum 120); ("sentiment", VText "Bullish");
    ("sentiment_score", VNum 0.31)];
   [("ticker", VNone); ("no_of_comments", VNum 5)];
   [("ticker", VText "TSLA"); ("no_of_comments", VNum 60)]].

Definition demo_posts : list jobject :=
  [[("title", VText "NVDA earnings beat"); ("selftext", VNone); ("created_utc", VNum 1700000000);
    ("score", VNum 10)];
   [("title", VText "NVDA"); ("selftext", VText "up")];
   [("title", VText "Thoughts on NVDA guidance"); ("selftext", VText "see title")]].

Definition demo_reddit : Reddit :=
  {| json_items := fun _ => Ok demo_items;
     json_posts := fun _ => Ok demo_posts;
     compound := fun _ => Ok 0.5;
     finbert_model := fun _ => Ok "positive";
     number_text := fun _ => "0" |}.

Definition reddit_net : Net :=
  static_net (fun _ => Some {| status_code := 200; text := ""; json_body := None |}).

Lemma find_ticker_first_witness :
  exists pre rest,
    demo_items = pre ++ [("ticker", VText "nvda"); ("no_of_comments", VNum 120);
                         ("sentiment", VText "Bullish"); ("sentiment_score", VNum 0.31)] :: rest /\
    ticker_is (Py.upper "NVDA")
      [("ticker", VText "nvda"); ("no_of_comments", VNum 120);
       ("sentiment", VText "Bullish"); ("sentiment_score", VNum 0.31)] /\
    Forall (fun i => exists t, ticker_is t i /\ t <> Py.upper "NVDA") pre.
Proof. by apply (find_ticker_first "NVDA" demo_items). Defined.

Lemma fetch_and_save_reddit_sentiment_appends_witness :
  let s := {| r_timestamp := "now"; r_ticker := "NVDA"; mentions := VNum 120;
              r_sentiment := VText "Bullish"; sentiment_score := VNum 0.31;
              r_source := "tradestie_reddit" |} in
  (length [s] <= 1)%nat /\ Forall (fun s => r_ticker s = "NVDA") [s] /\
  disk (fetch_and_save_reddit_sentiment (net := reddit_net) (reddit := demo_reddit)
          (D := open_disk) "now" "NVDA" "/app/data/NVDA" empty_world).2 =
    <[reddit_summary_file "/app/data/NVDA" "NVDA" :=
        content (reddit_summary_file "/app/data/NVDA" "NVDA") empty_world ++ (RSummary <$> [s])]>
      (disk empty_world).
Proof.
  apply (fetch_and_save_reddit_sentiment_appends (net := reddit_net) (reddit := demo_reddit)
           (D := open_disk) "now" "NVDA" "/app/data/NVDA" empty_world).
  vm_compute. reflexivity.
Defined.

(** The ticker that stands behind an item without a ticker is never
    found: the search raises, and the method returns [None]. *)
Example tradestie_malformed :
  (get_tradestie_reddit_data (net := reddit_net) (reddit := demo_reddit) "now" "TSLA" []).1
    = Ok None.
Proof. by vm_compute. Qed.

(** Of the three posts of the host the one with a text of seven
    characters is left out; the post with a null as text is kept, scored
    with the word [None] behind its title.  Every subreddit gives the
    same two posts. *)
Example pushshift_posts :
  exists posts tr,
    get_reddit_posts_pushshift (net := reddit_net) (reddit := demo_reddit)
      1700086400 "NVDA" 1 100 [] = (Ok posts, tr) /\
    length posts = 10%nat /\ head (selftext <$> posts) = Some VNone /\
    throttled tr = true.
Proof. eexists _, _. split; [vm_compute; reflexivity|]. by vm_compute. Qed.
