(* ===== verification/Insider.v ===== *)
(** * Insider: the Form 4 filings of GOOGL

    Models src/datafetcher/GOOGL/GOOGLinsider.py: the index of the
    filings ([fetch_form4_filings]), the two parsers of a filing
    ([parse_header_info], [parse_table_i]), the loop over the filings
    ([process_form4], [process_all_form4_filings]), the export and the
    mail ([export_to_csv], [send_email]) and [main_task].

    A filing is the tree of Xml.v, built by the class [XmlParser].  Two
    queries of the parsers go up and sideways in the tree
    ([find_parent], [find_next]); for them an element is known with its
    place, the path of child indices from the root, and the elements of
    a document stand in document order.  The root is the document
    itself, which no query returns.

    A number of a cell is read by [float] as PyRuntime.v has it, on
    decimal numerals; a cell written with an exponent is read as 0.

    The index is read through the class [Edgar].  The exchange with the
    mail host (connect, starttls, login, send_message, quit) is one
    request to that host on the trace; it raises when the host gives no
    answer.  No step of the script but the mail has a [try]. *)

From Stdlib Require Import String Ascii ZArith QArith Qabs Lqa Lia.
From stdpp Require Import base tactics option list strings gmap.
From S2P Require Import Prelude PyRuntime Net Disk Xml.

#[local] Open Scope string_scope.
#[local] Open Scope list_scope.

(** ** The constants *)

Definition GOOGL_CIK : string := "1652044".

Definition EDGAR_URL : string :=
  "https://data.sec.gov/submissions/CIK000" +:+ GOOGL_CIK +:+ ".json".

Definition CSV_FILE : string := "googl_insider_trades.csv".

(** [REQUEST_DELAY], in milliseconds. *)
Definition REQUEST_DELAY : Z := 5.

(** ** [fetch_form4_filings] *)

(** [data.get("filings", {}).get("recent", {})]: the three arrays the
    code reads, each [[]] when its key is missing. *)
Record form_index : Type := {
  forms : list string;
  accession_numbers : list string;
  primary_docs : list string;
}.

Class Edgar := {
  (** [resp.json()] and the three [.get] *)
  json_recent : response -> result form_index;
}.

(** The URL of a filing. *)
Definition form4_url (acc_num doc : string) : string :=
  let acc_no_stripped := Py.remove_char "-" acc_num in
  "https://www.sec.gov/Archives/edgar/data/" +:+ GOOGL_CIK +:+ "/" +:+
  acc_no_stripped +:+ "/" +:+ doc.

(** The body of [for i, form_type in enumerate(forms)]. *)
Definition form4_step (recent : form_index) (i : nat) (form_type : string)
    (form4_urls : list string) : result (list string) :=
  if (form_type =? "4")%string then
    acc_num <- py_index (accession_numbers recent) i ;;
    doc <- py_index (primary_docs recent) i ;;
    Ok (form4_urls ++ [form4_url acc_num doc])
  else Ok form4_urls.

Section Index.
Context {net : Net} {edgar : Edgar}.

Definition fetch_form4_filings : io trace (list string) :=
  print ;;;
  resp <~ requests_get EDGAR_URL ;;
  if negb (status_code resp =? 200)%Z then print ;;; io_ret []
  else
    recent <~ io_lift (json_recent resp) ;;
    form4_urls <~ io_lift (for_enumerate (form4_step recent) 0 (forms recent) []) ;;
    print ;;;
    io_ret form4_urls.

End Index.

(** ** The tree with its places *)

Definition path : Type := list nat.

(** The elements below a node, in document order, each with its place. *)
Fixpoint elements_from (p : path) (n : node) : list (path * node) :=
  match n with
  | Text _ => []
  | Tag _ children =>
      (fix over (i : nat) (l : list node) : list (path * node) :=
         match l with
         | [] => []
         | c :: l' => (p ++ [i], c) :: elements_from (p ++ [i]) c ++ over (S i) l'
         end) 0%nat children
  end.

Definition elements (soup : node) : list (path * node) := elements_from [] soup.

Definition tag_named (name : string) (n : node) : bool :=
  match n with
  | Tag name' _ => (name' =? name)%string
  | Text _ => false
  end.

(** The subtree at a place. *)
Fixpoint subtree (n : node) (p : path) : option node :=
  match p with
  | [] => Some n
  | i :: p' =>
      match n with
      | Tag _ children => children !! i ≫= fun c => subtree c p'
      | Text _ => None
      end
  end.

(** [soup.find(f)]: the first tag of the document of which [f] holds. *)
Definition soup_find (f : node -> bool) (soup : node) : option (path * node) :=
  head (filter (fun e => f e.2) (elements soup)).

(** The places above [p], the nearest first, the document left out. *)
Fixpoint parents (p : path) : list path :=
  match p with
  | [] => []
  | i :: p' => (cons i <$> parents p') ++ (match p' with [] => [] | _ => [[i]] end)
  end.

(** [tag.find_parent(name)] *)
Definition find_parent (name : string) (soup : node) (p : path) : option (path * node) :=
  head (omap (fun q => subtree soup q ≫= fun n =>
                 if tag_named name n then Some (q, n) else None)
             (parents p)).

(** The elements behind a place, in document order. *)
Fixpoint elements_after (p : path) (l : list (path * node)) : list (path * node) :=
  match l with
  | [] => []
  | e :: l' => if bool_decide (e.1 = p) then l' else elements_after p l'
  end.

(** [tag.find_next(name)]: the first tag of that name behind the tag,
    what stands inside the tag included. *)
Definition find_next (name : string) (soup : node) (p : path) : option (path * node) :=
  head (filter (fun e => tag_named name e.2) (elements_after p (elements soup))).

(** [tag.get_text()]: the strings below the tag, as they are. *)
Definition text_of (n : node) : string := foldr String.append "" (strings n).

(** [tag.string]: the one string of a tag, through tags with one child. *)
Fixpoint string_of (n : node) : option string :=
  match n with
  | Text s => Some s
  | Tag _ [c] => string_of c
  | Tag _ _ => None
  end.

(** ** [parse_header_info] *)

Definition officer_label : string := "Officer (give title below)".

(** [", ".join(parts)] *)
Fixpoint join_with (sep : string) (parts : list string) : string :=
  match parts with
  | [] => ""
  | [x] => x
  | x :: parts' => x +:+ sep +:+ join_with sep parts'
  end.

(** [if text and text != "Officer (give title below)": parts.append(text)] *)
Definition append_part (text : string) (relationship_parts : list string) : list string :=
  if negb (text =? "")%string && negb (text =? officer_label)%string
  then relationship_parts ++ [text] else relationship_parts.

(** The body of [for i, row in enumerate(rows)]. *)
Definition relationship_step (rows : list node) (i : nat) (row : node)
    (relationship_parts : list string) : list string :=
  match find_all (Names ["td"]) row with
  | c0 :: c1 :: _ =>
      if Py.contains "X" (text_of c0) then
        let text := get_text c1 in
        let relationship_parts := append_part text relationship_parts in
        if Py.contains "Officer" text then
          match rows !! S i with
          | Some next_row =>
              match find_all (Names ["td"]) next_row with
              | _ :: n1 :: _ => append_part (get_text n1) relationship_parts
              | _ => relationship_parts
              end
          | None => relationship_parts
          end
        else relationship_parts
      else relationship_parts
  | _ => relationship_parts
  end.

(** The label of a box of the header: a [span] whose text holds [label]. *)
Definition is_label (label : string) (n : node) : bool :=
  tag_named "span" n && Py.contains label (text_of n).

(** The name of the reporting person. *)
Definition insider_name_of (soup : node) : string :=
  default "N/A"
    (name_label ← soup_find (is_label "Name and Address of Reporting Person") soup;
     parent_td ← find_parent "td" soup name_label.1;
     a_tag ← find (Names ["a"]) parent_td.2;
     Some (get_text a_tag)).

(** The rows of the table of relationships. *)
Definition relationship_rows (soup : node) : list node :=
  default []
    (rel_label ← soup_find (is_label "Relationship of Reporting Person") soup;
     parent_td ← find_parent "td" soup rel_label.1;
     rel_table ← find_next "table" soup parent_td.1;
     Some (find_all (Names ["tr"]) rel_table.2)).

Definition relationship_of (soup : node) : string :=
  let rows := relationship_rows soup in
  let relationship_parts :=
    foldl (fun parts ir => relationship_step rows ir.1 ir.2 parts) []
      (zip (seq 0 (length rows)) rows) in
  match relationship_parts with
  | [] => "N/A"
  | _ => join_with ", " relationship_parts
  end.

(** [parse_header_info(soup)] *)
Definition parse_header_info (soup : node) : string * string :=
  (insider_name_of soup, relationship_of soup).

(** ** [parse_table_i] *)

(** A dict of [transactions]. *)
Record transaction : Type := {
  trade_date : string;
  transaction_type : string;
  shares : Q;
  shares_bought : Q;
  price_per_share : Q;
  shares_owned_after_transaction : Q;
  total_value : Q;
  avg_book_price : Q;
}.

(** [re.sub(r"\(\d+\)", "", s)], read from left to right: [pending] is
    the part of a marker read so far, its digits behind the bracket. *)
Fixpoint strip_footnotes_from (pending : option string) (s : string) : string :=
  match s with
  | "" => match pending with Some ds => "(" +:+ ds | None => "" end
  | String c s' =>
      let fresh :=
        if (c =? "(")%char then strip_footnotes_from (Some "") s'
        else String c (strip_footnotes_from None s') in
      match pending with
      | None => fresh
      | Some ds =>
          if Py.is_digit c then strip_footnotes_from (Some (ds +:+ String c "")) s'
          else if (c =? ")")%char && negb (ds =? "")%string
               then strip_footnotes_from None s'
               else "(" +:+ ds +:+ fresh
      end
  end.

Definition strip_footnotes (s : string) : string := strip_footnotes_from None s.

(** [float(s) if s else 0.0], and [0.0] when [float] raises. *)
Definition number_or_zero (s : string) : Q :=
  if (s =? "")%string then 0%Q
  else match Py.py_float s with Ok q => q | Raise _ => 0%Q end.

(** The dict of a row of nine cells or more. *)
Definition transaction_of (c1 c3 c5 c6 c7 c8 : node) : transaction :=
  let trade_date := get_text c1 in
  let transaction_code := Py.strip (strip_footnotes (get_text c3)) in
  let amount_str := Py.remove_char "," (get_text c5) in
  let indicator := get_text c6 in
  let price_str :=
    Py.strip (Py.remove_char "," (Py.remove_char "$" (strip_footnotes (get_text c7)))) in
  let owned_str := Py.remove_char "," (get_text c8) in
  let shares := number_or_zero amount_str in
  let shares_bought := if (Py.upper indicator =? "D")%string then (- shares)%Q else shares in
  let price_per_share := number_or_zero price_str in
  let shares_owned := number_or_zero owned_str in
  let total_value := (Qabs shares * price_per_share)%Q in
  let avg_book_price :=
    if Qle_bool shares_owned 0 then 0%Q else (total_value / shares_owned)%Q in
  {| trade_date := trade_date;
     transaction_type := transaction_code;
     shares := shares;
     shares_bought := shares_bought;
     price_per_share := price_per_share;
     shares_owned_after_transaction := shares_owned;
     total_value := total_value;
     avg_book_price := avg_book_price |}.

(** The body of [for row in data_rows]. *)
Definition table_step (row : node) : option transaction :=
  match find_all (Names ["td"]) row with
  | _ :: c1 :: _ :: c3 :: _ :: c5 :: c6 :: c7 :: c8 :: _ =>
      Some (transaction_of c1 c3 c5 c6 c7 c8)
  | _ => None
  end.

Definition table_title : string := "Table I - Non-Derivative Securities Acquired".

(** [soup.find("th", string=lambda s: s and "Table I - ..." in s)] *)
Definition is_table_header (n : node) : bool :=
  tag_named "th" n &&
  match string_of n with
  | Some s => negb (s =? "")%string && Py.contains table_title s
  | None => false
  end.

(** The rows that [parse_table_i] reads. *)
Definition data_rows (soup : node) : list node :=
  default []
    (table_header ← soup_find is_table_header soup;
     table ← find_parent "table" soup table_header.1;
     let rows :=
       match find (Names ["tbody"]) table.2 with
       | Some tbody => find_all (Names ["tr"]) tbody
       | None => find_all (Names ["tr"]) table.2
       end in
     Some (filter (fun row => find_all (Names ["th"]) row = []) rows)).

(** [parse_table_i(soup)] *)
Definition parse_table_i (soup : node) : list transaction :=
  omap table_step (data_rows soup).

(** ** [process_form4] and [process_all_form4_filings] *)

(** A transaction with the two keys that [process_form4] sets. *)
Record insider_trade : Type := {
  tx : transaction;
  insider_name : string;
  relationship_to_issuer : string;
}.

Section Filings.
Context {net : Net} {edgar : Edgar} {parser : XmlParser}.

Definition process_form4 (url : string) : io trace (list insider_trade) :=
  print ;;;
  resp <~ requests_get url ;;
  if negb (status_code resp =? 200)%Z then print ;;; io_ret []
  else
    soup <~ io_lift (soup_of (text resp)) ;;
    let '(insider_name, relationship) := parse_header_info soup in
    let table_transactions := parse_table_i soup in
    io_ret ((fun t => {| tx := t; insider_name := insider_name;
                         relationship_to_issuer := relationship |}) <$> table_transactions).

(** The body of [for url in form4_urls]. *)
Definition form4_filing_step (url : string) (all_transactions : list insider_trade)
  : io trace (list insider_trade) :=
  txs <~ process_form4 url ;;
  sleep REQUEST_DELAY ;;;
  io_ret (all_transactions ++ txs).

Definition process_all_form4_filings : io trace (list insider_trade) :=
  form4_urls <~ fetch_form4_filings ;;
  io_foldl form4_filing_step form4_urls [].

End Filings.

(** ** [export_to_csv], [send_email] and [main_task] *)

Definition smtp_host : string := "smtp://smtp.gmail.com:587".

Section Report.
Context {net : Net} {edgar : Edgar} {parser : XmlParser} {D : Disk}.
Variable GMAIL_APP_PASSWORD : option string.

(** [export_to_csv(transactions, filename)] *)
Definition export_to_csv (transactions : list insider_trade) (filename : string)
  : io (world insider_trade) (option string) :=
  match transactions with
  | [] => on_trace print ;;; io_ret None
  | _ =>
      to_csv filename transactions ;;;
      on_trace print ;;;
      io_ret (Some filename)
  end.

(** [send_email(csv_path)] *)
Definition send_email (csv_path : string) : io (world insider_trade) unit :=
  match GMAIL_APP_PASSWORD with
  | None | Some "" => on_trace print
  | Some _ =>
      attachment <~ read_csv csv_path ;;
      io_try
        (on_trace (requests_get smtp_host) ;;;
         on_trace print)
        (fun e => on_trace print)
  end.

(** [main_task()] *)
Definition main_task : io (world insider_trade) unit :=
  on_trace print ;;;
  transactions <~ on_trace process_all_form4_filings ;;
  match transactions with
  | [] => on_trace print
  | _ =>
      csv_path <~ export_to_csv transactions CSV_FILE ;;
      match csv_path with
      | None | Some "" => io_ret tt
      | Some csv_path => send_email csv_path
      end
  end.

End Report.

(** ** Facts about the index *)

(** An entry of the index: form, accession number, primary document. *)
Definition index_row : Type := string * string * string.

(** The index whose arrays hold the entries [rows]. *)
Definition index_of_rows (rows : list index_row) : form_index :=
  {| forms := (fun r => r.1.1) <$> rows;
     accession_numbers := (fun r => r.1.2) <$> rows;
     primary_docs := (fun r => r.2) <$> rows |}.

(** The URL of an entry, when it is a Form 4. *)
Definition url_of_row (r : index_row) : option string :=
  if (r.1.1 =? "4")%string then Some (form4_url r.1.2 r.2) else None.

Lemma form4_rows pre rows form4_urls :
  for_enumerate (form4_step (index_of_rows (pre ++ rows))) (length pre)
    ((fun r => r.1.1) <$> rows) form4_urls
  = Ok (form4_urls ++ omap url_of_row rows).
Proof.
  revert pre form4_urls. induction rows as [|r rows IH]; intros pre form4_urls.
  { simpl. by rewrite app_nil_r. }
  cbn [fmap list_fmap for_enumerate]. unfold form4_step at 1, url_of_row at 1. cbn [omap list_omap].
  assert (Hpre : pre ++ r :: rows = (pre ++ [r]) ++ rows) by (by rewrite <- app_assoc).
  assert (Hlen : S (length pre) = length (pre ++ [r])) by (rewrite length_app; simpl; lia).
  assert (Ha : py_index (accession_numbers (index_of_rows (pre ++ r :: rows))) (length pre)
               = Ok r.1.2).
  { apply py_index_ok. simpl. rewrite list_lookup_fmap, list_lookup_middle; done. }
  assert (Hd : py_index (primary_docs (index_of_rows (pre ++ r :: rows))) (length pre)
               = Ok r.2).
  { apply py_index_ok. simpl. rewrite list_lookup_fmap, list_lookup_middle; done. }
  destruct (r.1.1 =? "4")%string.
  - rewrite Ha, Hd. cbn [result_bind]. rewrite Hpre, Hlen, IH. by rewrite <- app_assoc.
  - cbn [result_bind]. by rewrite Hpre, Hlen, IH.
Qed.

(** C35. On an index whose three arrays have one entry per filing, the
    loop by position of [fetch_form4_filings] gives the URLs of the
    entries of form 4 and of no other, in the order of the index. *)
Theorem form4_step_refines rows :
  for_enumerate (form4_step (index_of_rows rows)) 0 (forms (index_of_rows rows)) []
  = Ok (omap url_of_row rows).
Proof. apply (form4_rows [] rows []). Qed.

(** An array of accession numbers that is shorter than the forms raises
    at the first Form 4 behind its end. *)
Lemma form4_step_short recent i form4_urls :
  (length (accession_numbers recent) <= i)%nat ->
  form4_step recent i "4" form4_urls = Raise IndexError.
Proof.
  intros Hl. unfold form4_step. simpl.
  destruct (py_index (accession_numbers recent) i) as [a|e] eqn:E; simpl.
  - apply py_index_ok, lookup_lt_Some in E. lia.
  - by apply py_index_raise in E as [_ ->].
Qed.

(** ** Facts about the footnote markers *)

Lemma strip_footnotes_digits pre ds b :
  Py.sall Py.is_digit ds = true -> pre +:+ ds <> "" ->
  strip_footnotes_from (Some pre) (ds +:+ ")" +:+ b) = strip_footnotes_from None b.
Proof.
  revert pre. induction ds as [|d ds IH]; intros pre Hd Hne.
  - rewrite Py.append_empty_r in Hne.
    change (strip_footnotes_from (Some pre) (String ")" b) = strip_footnotes_from None b).
    simpl. by destruct (String.eqb_spec pre "").
  - simpl in Hd. apply andb_prop in Hd as [Hd Hds]. rewrite Py.append_cons.
    cbn [strip_footnotes_from]. rewrite Hd. apply IH; [done|].
    rewrite Py.append_assoc. simpl. by destruct pre.
Qed.

Definition no_bracket (s : string) : Prop :=
  Py.sall (fun c => negb (c =? "(")%char) s = true.

(** A text without an opening bracket stays as it is. *)
Lemma strip_footnotes_plain s : no_bracket s -> strip_footnotes s = s.
Proof.
  unfold strip_footnotes, no_bracket. induction s as [|c s IH]; [done|]. simpl.
  intros [Hc Hs]%andb_prop. apply negb_true_iff in Hc. rewrite Hc. f_equal. auto.
Qed.

(** A marker [(digits)] behind a text without a bracket is taken out,
    and what follows the marker is read in the same way. *)
Theorem strip_footnotes_marker a ds b :
  no_bracket a -> ds <> "" -> Py.sall Py.is_digit ds = true ->
  strip_footnotes (a +:+ "(" +:+ ds +:+ ")" +:+ b) = a +:+ strip_footnotes b.
Proof.
  unfold strip_footnotes, no_bracket. intros Ha Hne Hd.
  induction a as [|c a IH].
  - cbn [String.append strip_footnotes_from]. simpl.
    by apply (strip_footnotes_digits "" ds b).
  - simpl in Ha. apply andb_prop in Ha as [Hc Ha]. apply negb_true_iff in Hc.
    rewrite !Py.append_cons. cbn [strip_footnotes_from]. rewrite Hc. f_equal. auto.
Qed.

(** ** Facts about the transactions *)

#[local] Open Scope Q_scope.

(** A character of a decimal numeral is a digit or the dot. *)
Lemma decimal_chars (Q : ascii -> bool) ds f :
  (forall c, Py.is_digit c = true -> Q c = true) -> Q "."%char = true ->
  Py.numeral ds -> Py.fraction f -> Py.sall Q (ds +:+ f) = true.
Proof.
  intros Hd Hdot [_ Hds] Hf. rewrite Py.sall_app. apply andb_true_intro. split.
  - by eapply Py.sall_impl, Hds.
  - destruct Hf as [->|(fd & -> & _ & Hfd)]; [done|]. simpl. rewrite Hdot.
    by eapply Py.sall_impl, Hfd.
Qed.

Lemma digit_not (d c : ascii) :
  Py.is_digit d = false -> Py.is_digit c = true -> negb (c =? d)%char = true.
Proof. intros Hd Hc. destruct (Ascii.eqb_spec c d) as [->|_]; [congruence|done]. Qed.

(** A text with a bracket is no number: the amount and the count of
    shares owned, which keep their footnote markers, are read as 0. *)
Lemma number_or_zero_bracket a b :
  number_or_zero (Py.remove_char "," (a +:+ "(" +:+ b)) = 0.
Proof.
  unfold number_or_zero. destruct (_ =? "")%string; [done|].
  rewrite Py.py_float_raises; [done|]. unfold Py.remove_char.
  rewrite Py.sfilter_app, Py.sall_app. apply andb_false_intro2.
  by change ("(" +:+ b) with (String "(" b).
Qed.

(** The price under a dollar sign and before a marker is freed of both. *)
Lemma price_of_marked ds f n :
  Py.numeral ds -> Py.fraction f -> Py.numeral n ->
  Py.strip (Py.remove_char "," (Py.remove_char "$"
    (strip_footnotes ("$" +:+ ds +:+ f +:+ "(" +:+ n +:+ ")")))) = ds +:+ f.
Proof.
  intros Hds Hf Hn.
  replace ("$" +:+ ds +:+ f +:+ "(" +:+ n +:+ ")")
    with (String "$" (ds +:+ f) +:+ "(" +:+ n +:+ ")" +:+ "")
    by (by rewrite Py.append_cons, Py.append_assoc).
  rewrite strip_footnotes_marker, Py.append_empty_r; [|..|apply Hn|apply Hn].
  2: { unfold no_bracket. simpl.
       apply decimal_chars; [intros c Hc; by apply digit_not|done..]. }
  unfold Py.remove_char. simpl.
  assert (Hc : forall d, Py.is_digit d = false -> (d =? ".")%char = false ->
                         Py.sall (fun c => negb (c =? d)%char) (ds +:+ f) = true).
  { intros d Hd Hdot. apply decimal_chars; [intros c ?; by apply digit_not| |done..].
    by rewrite Ascii.eqb_sym, Hdot. }
  rewrite (Py.sfilter_fixed _ (ds +:+ f)) by (by apply Hc).
  rewrite Py.sfilter_fixed by (by apply Hc).
  apply Py.strip_fixed, decimal_chars; [apply Py.digit_not_space|done..].
Qed.

(** C30. A row of the table whose amount carries a footnote marker is
    recorded with 0 shares, a total of 0 and an average of 0, whatever
    the amount is, while its price is read from under the dollar sign
    and its own marker: the markers are taken out of the code and the
    price only. *)
Theorem table_step_marked_amount row c0 c1 c2 c3 c4 c5 c6 c7 c8 rest a b ds f n :
  find_all (Names ["td"]) row = c0 :: c1 :: c2 :: c3 :: c4 :: c5 :: c6 :: c7 :: c8 :: rest ->
  get_text c5 = a +:+ "(" +:+ b ->
  get_text c7 = "$" +:+ ds +:+ f +:+ "(" +:+ n +:+ ")" ->
  Py.numeral ds -> Py.fraction f -> Py.numeral n ->
  exists t, table_step row = Some t /\
    shares t = 0 /\ shares_bought t == 0 /\ total_value t == 0 /\
    avg_book_price t == 0 /\
    Py.py_float (ds +:+ f) = Ok (price_per_share t).
Proof.
  intros Hrow H5 H7 Hds Hf Hn. unfold table_step. rewrite Hrow. eexists. split; [done|].
  unfold transaction_of.
  cbn [shares shares_bought total_value avg_book_price price_per_share].
  rewrite H5, number_or_zero_bracket, H7, price_of_marked by done.
  destruct (Py.py_float_decimal ds f Hds Hf) as (q & Hq & _).
  assert (Hp : number_or_zero (ds +:+ f) = q).
  { unfold number_or_zero. rewrite Hq. destruct Hds as [Hne _].
    destruct ds; [done|]. by rewrite Py.append_cons. }
  rewrite Hp. change (Qabs 0) with 0. unfold Qdiv.
  split_and!; [done|by destruct (_ =? _)%string|ring|destruct (Qle_bool _ _); [done|ring]|done].
Qed.

(** No more transactions than rows of data. *)
Lemma parse_table_i_length soup : (length (parse_table_i soup) <= length (data_rows soup))%nat.
Proof. apply omap_length_le. Qed.

(** ** Facts about the places of a tree *)

Lemma subtree_app n p q : subtree n (p ++ q) = subtree n p ≫= fun m => subtree m q.
Proof.
  revert n. induction p as [|i p IH]; intros n; [done|]. simpl.
  destruct n as [|name children]; [done|]. destruct (children !! i) as [c|]; [apply IH|done].
Qed.

(** The children of a tag, from position [i] on, with their places. *)
Definition over_children (p : path) : nat -> list node -> list (path * node) :=
  fix over (i : nat) (l : list node) : list (path * node) :=
    match l with
    | [] => []
    | c :: l' => (p ++ [i], c) :: elements_from (p ++ [i]) c ++ over (S i) l'
    end.

Lemma elements_from_tag p name children :
  elements_from p (Tag name children) = over_children p 0 children.
Proof. done. Qed.

(** Every element stands at its place. *)
Lemma elements_from_subtree soup : forall n p,
  subtree soup p = Some n ->
  forall q m, (q, m) ∈ elements_from p n -> subtree soup q = Some m.
Proof.
  fix IH 1. intros [s|name children] p Hp q m; [by intros ?%elem_of_nil|].
  rewrite elements_from_tag.
  assert (Hover : forall l i, (forall j c, l !! j = Some c -> children !! (i + j)%nat = Some c) ->
            (q, m) ∈ over_children p i l -> subtree soup q = Some m).
  { induction l as [|c l IHl]; intros i Hl; [by intros ?%elem_of_nil|]. simpl.
    assert (Hc : subtree soup (p ++ [i]) = Some c).
    { rewrite subtree_app, Hp. simpl. rewrite <- (Nat.add_0_r i), (Hl 0%nat c eq_refl). done. }
    intros [[= -> ->]|[H|H]%elem_of_app]%elem_of_cons; [done|by eapply IH|].
    apply (IHl (S i)); [|done]. intros j c' Hj.
    replace (S i + j)%nat with (i + S j)%nat by lia. by apply Hl. }
  apply (Hover children 0%nat). by intros j c Hj.
Qed.

Lemma elements_subtree soup q m : (q, m) ∈ elements soup -> subtree soup q = Some m.
Proof. by apply (elements_from_subtree soup soup []). Qed.

(** A place above [p] is a proper part of [p], and not the root. *)
Lemma parents_prefix p q : q ∈ parents p -> q <> [] /\ exists r, r <> [] /\ p = q ++ r.
Proof.
  revert q. induction p as [|i p IH]; intros q; [by intros ?%elem_of_nil|]. simpl.
  intros [(q' & -> & Hq')%list_elem_of_fmap|Hq]%elem_of_app.
  - destruct (IH q' Hq') as (_ & r & Hr & ->). split; [done|]. by exists r.
  - destruct p as [|j p]; [by apply elem_of_nil in Hq|].
    apply list_elem_of_singleton in Hq as ->. split; [done|]. by exists (j :: p).
Qed.

(** What [find_parent] returns is a tag of the name asked for that
    stands in the tree at a place above the place it was asked from, and
    is not the document. *)
Theorem find_parent_above name soup p q n :
  find_parent name soup p = Some (q, n) ->
  subtree soup q = Some n /\ tag_named name n = true /\
  q <> [] /\ exists r, r <> [] /\ p = q ++ r.
Proof.
  unfold find_parent. intros H%head_Some_elem_of.
  apply list_elem_of_omap in H as (q' & Hq' & H).
  destruct (subtree soup q') as [m|] eqn:Em; [|done]. simpl in H.
  destruct (tag_named name m) eqn:Et; [|done]. injection H as <- <-.
  split; [done|]. split; [done|]. by apply parents_prefix.
Qed.

(** ** Facts about the header *)

#[local] Close Scope Q_scope.

(** A part of the relationship: a text, and not the label of the box. *)
Definition part_ok (t : string) : Prop := t <> "" /\ t <> officer_label.

Lemma append_part_ok text parts : Forall part_ok parts -> Forall part_ok (append_part text parts).
Proof.
  intros H. unfold append_part.
  destruct (String.eqb_spec text ""), (String.eqb_spec text officer_label); simpl; try done.
  apply Forall_app. split; [done|]. by repeat constructor.
Qed.

Lemma relationship_step_ok rows i row parts :
  Forall part_ok parts -> Forall part_ok (relationship_step rows i row parts).
Proof.
  intros H. unfold relationship_step.
  repeat (case_match; try done); by repeat apply append_part_ok.
Qed.

(** The relationship that [parse_header_info] returns is [N/A], or
    the parts it found joined by a comma and a space, none of them empty
    and none the label [Officer (give title below)] of the box. *)
Theorem relationship_of_parts soup :
  relationship_of soup = "N/A" \/
  exists parts, parts <> [] /\ Forall part_ok parts /\
                relationship_of soup = join_with ", " parts.
Proof.
  unfold relationship_of. set (rows := relationship_rows soup).
  assert (H : forall l init, Forall part_ok init ->
            Forall part_ok (foldl (fun parts ir => relationship_step rows ir.1 ir.2 parts) init l)).
  { induction l as [|ir l IH]; intros init Hi; [done|]. simpl.
    by apply IH, relationship_step_ok. }
  specialize (H (zip (seq 0 (length rows)) rows) [] (Forall_nil_2 _)).
  destruct (foldl _ _ _) as [|t parts]; [by left|]. right. by exists (t :: parts).
Qed.

(** ** Facts about the run *)

(** A step that raises in every state ends a loop that reaches it. *)
Lemma io_foldl_raises_at {S A T} (body : A -> T -> io S T) l x :
  x ∈ l -> (forall st s, is_ok (body x st s).1 = false) ->
  forall st s, is_ok (io_foldl body l st s).1 = false.
Proof.
  intros Hx Hb. induction l as [|y l IH]; intros st s; [by apply elem_of_nil in Hx|].
  cbn [io_foldl]. unfold io_bind.
  apply elem_of_cons in Hx as [<-|Hx].
  - specialize (Hb st s). by destruct (body x st s) as [[?|?] ?].
  - destruct (body y st s) as [[st1|e] s1]; [by apply IH|done].
Qed.

Section RunFacts.
Context {edgar : Edgar} {parser : XmlParser} {D : Disk}.

(** A filing that the host does not answer for. *)
Lemma process_form4_no_answer pages url tr :
  pages url = None ->
  process_form4 (net := static_net pages) url tr
    = (Raise RequestException, tr ++ [EPrint; EGet url None]).
Proof.
  intros Hp. unfold process_form4, io_bind, print, emit, requests_get. cbn. rewrite Hp. cbn.
  by rewrite <- app_assoc.
Qed.

(** C18. One filing of the index that the host does not answer for loses
    the transactions of all: nothing in the loop over the filings
    catches the exception, so [process_all_form4_filings] raises. *)
Theorem process_all_form4_filings_all_or_nothing pages tr urls tr1 url :
  fetch_form4_filings (net := static_net pages) tr = (Ok urls, tr1) ->
  url ∈ urls -> pages url = None ->
  is_ok (process_all_form4_filings (net := static_net pages) tr).1 = false.
Proof.
  intros Hi Hu Hp. unfold process_all_form4_filings, io_bind at 1. rewrite Hi.
  apply (io_foldl_raises_at _ urls url Hu). intros st s.
  unfold form4_filing_step, io_bind at 1. by rewrite process_form4_no_answer.
Qed.

Variable GMAIL_APP_PASSWORD : option string.

Lemma send_email_disk {net : Net} csv_path w :
  disk (send_email GMAIL_APP_PASSWORD csv_path w).2 = disk w.
Proof.
  unfold send_email. destruct GMAIL_APP_PASSWORD as [[|c pw]|]; try done.
  unfold io_bind at 1, read_csv. destruct (disk w !! csv_path); cbn [from_option]; [|done].
  unfold io_try, io_bind, on_trace. cbn [w_trace disk].
  destruct (requests_get _ _) as [[r|e] tr1]; done.
Qed.

(** The run of [main_task], by what the loop over the filings gives. *)
Lemma main_task_run {net : Net} w :
  main_task GMAIL_APP_PASSWORD w =
    match process_all_form4_filings (w_trace w ++ [EPrint]) with
    | (Ok [], tr) => (Ok tt, {| w_trace := tr ++ [EPrint]; disk := disk w |})
    | (Ok transactions, tr) =>
        if writable CSV_FILE
        then send_email GMAIL_APP_PASSWORD CSV_FILE
               {| w_trace := tr ++ [EPrint]; disk := <[CSV_FILE := transactions]> (disk w) |}
        else (Raise OSError, {| w_trace := tr; disk := disk w |})
    | (Raise e, tr) => (Raise e, {| w_trace := tr; disk := disk w |})
    end.
Proof.
  unfold main_task, io_bind at 1, on_trace at 1, print at 1, emit. cbn [w_trace disk].
  unfold io_bind at 1, on_trace at 1. cbn [w_trace disk].
  destruct (process_all_form4_filings _) as [[[|t txs]|e] tr]; [done| |done].
  unfold io_bind at 1, export_to_csv, io_bind at 1, to_csv.
  by destruct (writable CSV_FILE).
Qed.

(** C17. [main_task] writes nothing, or it writes to the one file all the
    transactions of all the filings, of which there is one at least: a
    run in which the index or a filing raised has written nothing, and
    so has a run that found no transaction. *)
Theorem main_task_writes {net : Net} w :
  disk (main_task GMAIL_APP_PASSWORD w).2 = disk w \/
  exists transactions tr,
    process_all_form4_filings (w_trace w ++ [EPrint]) = (Ok transactions, tr) /\
    transactions <> [] /\
    disk (main_task GMAIL_APP_PASSWORD w).2 = <[CSV_FILE := transactions]> (disk w).
Proof.
  rewrite main_task_run.
  destruct (process_all_form4_filings _) as [[[|t txs]|e] tr] eqn:E; [by left| |by left].
  destruct (writable CSV_FILE); [|by left].
  right. exists (t :: txs), tr. split; [done|]. split; [done|]. by rewrite send_email_disk.
Qed.

End RunFacts.

(** ** A filing and a host for the examples *)

#[local] Open Scope Q_scope.

Definition td_cell (s : string) : node := Tag "td" [Text s].

Definition header_table : node :=
  Tag "table"
    [Tag "tr"
       [Tag "td"
          [Tag "span" [Text "1. Name and Address of Reporting Person"];
           Tag "a" [Text " Pichai Sundar "]];
        Tag "td"
          [Tag "span" [Text "5. Relationship of Reporting Person(s) to Issuer"];
           Tag "table"
             [Tag "tr" [td_cell "X"; td_cell "Director"];
              Tag "tr" [td_cell "X"; td_cell "Officer (give title below)"];
              Tag "tr" [td_cell ""; td_cell "Chief Executive Officer"]]]]].

Definition table_i : node :=
  Tag "table"
    [Tag "thead"
       [Tag "tr"
          [Tag "th"
             [Text "Table I - Non-Derivative Securities Acquired, Disposed of, or Beneficially Owned"]];
        Tag "tr" [Tag "th" [Text "1. Title of Security"]]];
     Tag "tbody"
       [Tag "tr"
          [td_cell "Class C Capital Stock"; td_cell "11/01/2024"; td_cell ""; td_cell "S(1)"; td_cell "";
           td_cell "22,500"; td_cell "D"; td_cell "$171.50(2)"; td_cell "2,187,805"; td_cell "D"];
        Tag "tr"
          [td_cell "Class C Capital Stock"; td_cell "11/04/2024"; td_cell ""; td_cell "A"; td_cell "";
           td_cell "4,000(3)"; td_cell "A"; td_cell "$0"; td_cell "2,191,805"; td_cell "D"];
        Tag "tr" [td_cell "Remarks"]]].

Definition demo_form4 : node :=
  Tag "[document]" [Tag "html" [Tag "body" [header_table; table_i]]].

Definition form4_index : list index_row :=
  [("4", "0001652044-24-000101", "form4a.html");
   ("10-Q", "0001652044-24-000090", "goog-10q.htm");
   ("4", "0001652044-24-000102", "form4b.html")].

Definition form4_page (body : string) : response :=
  {| status_code := 200; text := body; json_body := None |}.

(** A host that has the index, the first filing and the mail host, and
    the second filing when [complete]. *)
Definition insider_pages (complete : bool) (url : string) : option response :=
  if (url =? EDGAR_URL)%string then Some (form4_page "index")
  else if (url =? form4_url "0001652044-24-000101" "form4a.html")%string
       then Some (form4_page "form4")
  else if (url =? form4_url "0001652044-24-000102" "form4b.html")%string
       then (if complete then Some (form4_page "form4") else None)
  else if (url =? smtp_host)%string then Some (form4_page "")
  else None.

Definition demo_edgar : Edgar := {| json_recent := fun _ => Ok (index_of_rows form4_index) |}.

Definition form4_parser : XmlParser := table_parser [("form4", demo_form4)].

(** A row whose amount and price both carry a marker. *)
Definition marked_row : node :=
  Tag "tr"
    [td_cell "Class C Capital Stock"; td_cell "11/04/2024"; td_cell ""; td_cell "A";
     td_cell ""; td_cell "4,000(3)"; td_cell "A"; td_cell "$171.50(2)";
     td_cell "2,191,805"; td_cell "D"].

Lemma table_step_marked_amount_witness :
  exists t, table_step marked_row = Some t /\
    shares t = 0 /\ shares_bought t == 0 /\ total_value t == 0 /\
    avg_book_price t == 0 /\
    Py.py_float ("171" +:+ ".50") = Ok (price_per_share t).
Proof.
  apply (table_step_marked_amount marked_row
           (td_cell "Class C Capital Stock") (td_cell "11/04/2024") (td_cell "")
           (td_cell "A") (td_cell "") (td_cell "4,000(3)") (td_cell "A")
           (td_cell "$171.50(2)") (td_cell "2,191,805") [td_cell "D"]
           "4,000" "3)" "171" ".50" "2");
    [reflexivity|reflexivity|reflexivity|by split|right; exists "50"; by split|by split].
Defined.

Lemma strip_footnotes_marker_witness :
  strip_footnotes ("$171.50" +:+ "(" +:+ "2" +:+ ")" +:+ "") = "$171.50" +:+ strip_footnotes "".
Proof. by apply strip_footnotes_marker. Defined.

Lemma find_parent_above_witness :
  subtree demo_form4 [0; 0; 0; 0; 1]%nat
    = Some (Tag "td"
              [Tag "span" [Text "5. Relationship of Reporting Person(s) to Issuer"];
               Tag "table"
                 [Tag "tr" [td_cell "X"; td_cell "Director"];
                  Tag "tr" [td_cell "X"; td_cell "Officer (give title below)"];
                  Tag "tr" [td_cell ""; td_cell "Chief Executive Officer"]]]) /\
  tag_named "td" (Tag "td"
              [Tag "span" [Text "5. Relationship of Reporting Person(s) to Issuer"];
               Tag "table"
                 [Tag "tr" [td_cell "X"; td_cell "Director"];
                  Tag "tr" [td_cell "X"; td_cell "Officer (give title below)"];
                  Tag "tr" [td_cell ""; td_cell "Chief Executive Officer"]]]) = true /\
  [0; 0; 0; 0; 1]%nat <> [] /\
  exists r, r <> [] /\ [0; 0; 0; 0; 1; 0]%nat = [0; 0; 0; 0; 1]%nat ++ r.
Proof. by apply (find_parent_above "td" demo_form4 [0; 0; 0; 0; 1; 0]%nat). Defined.

Lemma process_all_form4_filings_all_or_nothing_witness :
  is_ok (process_all_form4_filings (net := static_net (insider_pages false))
           (edgar := demo_edgar) (parser := form4_parser) []).1 = false.
Proof.
  eapply (process_all_form4_filings_all_or_nothing (edgar := demo_edgar) (parser := form4_parser)
            (insider_pages false) [] _ _ (form4_url "0001652044-24-000102" "form4b.html"));
    [vm_compute; reflexivity| |done].
  apply (bool_decide_unpack _). by vm_compute.
Defined.

(** What the two parsers read in the filing.  The count of the second
    row has a footnote marker, which only the code and the price are
    freed of: its count is read as 0. *)
Example demo_header :
  parse_header_info demo_form4 = ("Pichai Sundar", "Director, Chief Executive Officer").
Proof. by vm_compute. Qed.

Example form4_table_rows :
  (fun t => (transaction_type t, shares t, shares_bought t, price_per_share t,
             Qred (avg_book_price t))) <$> parse_table_i demo_form4
  = [("S", 22500, -22500, 171.50, Qred (22500 * 171.5 / 2187805));
     ("A", 0, 0, 0, 0)].
Proof. by vm_compute. Qed.

(** A run on the complete host: the index, two filings and the mail
    host are asked, five milliseconds are slept behind each filing and
    none between the index and the first filing; the file holds the
    transactions of both filings. *)
Example demo_main_task :
  exists w,
    main_task (net := static_net (insider_pages true)) (edgar := demo_edgar)
      (parser := form4_parser) (D := open_disk) (Some "pw") empty_world = (Ok tt, w) /\
    requested (w_trace w) =
      [EDGAR_URL; form4_url "0001652044-24-000101" "form4a.html";
       form4_url "0001652044-24-000102" "form4b.html"; smtp_host] /\
    filter (fun e => negb (is_get e || bool_decide (e = EPrint))) (w_trace w)
      = [ESleep 5; ESleep 5] /\
    throttled (w_trace w) = false /\
    length (content CSV_FILE w) = 4%nat.
Proof. eexists. split; [vm_compute; reflexivity|]. by vm_compute. Qed.
