(* ===== verification/Debug13f.v ===== *)
(** * Debug13f: the probe of the documents of one 13F filing

    Models src/datafetcher/debug_13f.py: [debug_13f_structure] asks the
    archive host for five documents of one filing of Berkshire Hathaway,
    prints what it finds in each, and keeps a copy of an answer that
    looks like a table of holdings.

    The host is the class [Net] and the files are the world of Disk.v; a
    sample file is the text that was written to it.  The texts of the
    printed lines are not kept, their number is.  The last section
    relates the documents of the probe to the documents that
    [parse_13f_holdings] of Cascade.v requests. *)

From Stdlib Require Import String Ascii ZArith Lia.
From stdpp Require Import base tactics option list strings gmap.
From S2P Require Import Prelude PyRuntime Net Crawler Disk Cascade.

#[local] Open Scope string_scope.
#[local] Open Scope list_scope.

(** ** The constants *)

(** [cik] and [accession_number] *)
Definition debug_cik : string := "0001067983".
Definition debug_accession_number : string := "0000950123-25-005701".

(** The documents of [url_patterns]. *)
Definition debug_documents : list string :=
  ["infotable.xml"; "primary_doc.xml"; "form13fInfoTable.xml";
   debug_accession_number +:+ ".txt"; "FilingSummary.xml"].

Definition url_patterns : list string :=
  let formatted_cik := Py.zfill 10 debug_cik in
  let accession_clean := Py.remove_char "-" debug_accession_number in
  (fun document =>
     "https://data.sec.gov" +:+ "/Archives/edgar/data/" +:+ formatted_cik +:+ "/" +:+
     accession_clean +:+ "/" +:+ document) <$> debug_documents.

Definition key_terms : list string :=
  ["NVIDIA"; "NVDA"; "APPLE"; "AAPL"; "cusip"; "shares"; "nameOfIssuer"].

(** [term.lower() in content.lower()] *)
Definition mentions_term (content term : string) : bool :=
  Py.contains (Py.lower term) (Py.lower content).

(** The loop that fills [found_terms]. *)
Definition found_terms (content : string) : list string :=
  filter (fun term => mentions_term content term = true) key_terms.

(** [len(content) > 1000 and any(term.lower() in content.lower() for term
    in ['cusip', 'shares', 'nvidia'])] *)
Definition promising (content : string) : bool :=
  (1000 <? String.length content)%nat &&
  existsb (mentions_term content) ["cusip"; "shares"; "nvidia"].

(** [f'/tmp/sample_13f_{i}.txt'] *)
Definition sample_file (i : nat) : string :=
  "/tmp/sample_13f_" +:+ Py.str_of_Z (Z.of_nat i) +:+ ".txt".

(** ** [debug_13f_structure] *)

Section Debug.
Context {net : Net} {D : Disk}.

(** [n] lines printed. *)
Definition prints (n : nat) : io (world string) unit :=
  io_for (replicate n tt) (fun _ => on_trace print).

(** The body of [for i, url in enumerate(url_patterns)], with its
    [try]. *)
Definition debug_step (item : nat * string) : io (world string) unit :=
  let '(i, url) := item in
  on_trace print ;;;
  io_try
    (response <~ on_trace (requests_get url) ;;
     on_trace print ;;;
     (if (status_code response =? 200)%Z then
        let content := text response in
        prints 5 ;;;
        on_trace print ;;;
        (if promising content then
           to_csv (sample_file i) [content] ;;;
           on_trace print
         else io_ret tt)
      else on_trace print) ;;;
     on_trace (sleep 500))
    (fun e => on_trace print).

Definition debug_13f_structure : io (world string) unit :=
  prints 4 ;;;
  io_for (zip (seq 0 (length url_patterns)) url_patterns) debug_step ;;;
  prints 2.

End Debug.

(** ** Facts *)

(** The terms found are key terms, in the order of the list. *)
Lemma found_terms_sublist content : found_terms content `sublist_of` key_terms.
Proof. apply sublist_filter. Qed.

(** The search for a term ignores capitals on both sides. *)
Lemma mentions_term_lower content term :
  mentions_term content (Py.lower term) = mentions_term content term.
Proof.
  unfold mentions_term. f_equal. unfold Py.lower.
  induction term as [|c term IH]; [done|]. cbn. by rewrite Py.lower_char_idemp, IH.
Qed.

Section DebugFacts.
Context {net : Net} {D : Disk}.

Lemma prints_run n (w : world string) :
  prints n w = (Ok tt, {| w_trace := w_trace w ++ replicate n EPrint; disk := disk w |}).
Proof.
  unfold prints. revert w. induction n as [|n IH]; intros w.
  { cbn. rewrite app_nil_r. by destruct w. }
  cbn [replicate io_for]. unfold io_bind at 1, on_trace at 1, print, emit. cbn [w_trace disk].
  rewrite IH. cbn [w_trace disk]. by rewrite <- app_assoc.
Qed.

(** The events of a round behind its request. *)
Definition round_events (i : nat) (answer : option response) : list event :=
  match answer with
  | None => [EPrint]
  | Some response =>
      if (status_code response =? 200)%Z then
        if promising (text response) then
          if writable (sample_file i)
          then replicate 8 EPrint ++ [ESleep 500]
          else replicate 8 EPrint
        else replicate 7 EPrint ++ [ESleep 500]
      else [EPrint; EPrint; ESleep 500]
  end.

(** The sample that a round keeps. *)
Definition sample_of (i : nat) (answer : option response) : option string :=
  match answer with
  | Some response =>
      if (status_code response =? 200)%Z && promising (text response) && writable (sample_file i)
      then Some (text response) else None
  | None => None
  end.

(** A round of the probe never raises.  It asks for its document
    once, and it keeps the answer as a sample exactly when the status is
    200, the text has more than 1000 characters and one of the words
    cusip, shares and nvidia, capitals ignored, and the file can be
    written; it sleeps half a second unless the request or the write
    raised. *)
Theorem debug_step_run i url w :
  let answer := respond (w_trace w ++ [EPrint]) url in
  debug_step (i, url) w =
    (Ok tt,
     {| w_trace := w_trace w ++ [EPrint; EGet url answer] ++ round_events i answer;
        disk := match sample_of i answer with
                | Some content => <[sample_file i := [content]]> (disk w)
                | None => disk w
                end |}).
Proof.
  unfold debug_step, io_try, io_bind at 1, on_trace at 1, print at 1, emit. cbn [w_trace disk].
  unfold io_bind at 1, on_trace at 1, requests_get. cbn [w_trace disk].
  destruct (respond _ url) as [response|]; cbn [from_option round_events sample_of];
    [destruct (status_code response =? 200)%Z, (promising (text response)); cbn [andb];
     [unfold to_csv; destruct (writable (sample_file i))|..]|];
    unfold io_bind, prints, on_trace, print, sleep, emit; cbn;
    by rewrite <- ?app_assoc.
Qed.

Lemma debug_step_total item : total (debug_step item).
Proof. destruct item as [i url]. intros w. by rewrite debug_step_run. Qed.

Lemma debug_step_requested item w :
  requested (w_trace (debug_step item w).2) = requested (w_trace w) ++ [item.2].
Proof.
  destruct item as [i url]. rewrite debug_step_run. cbn [snd w_trace].
  rewrite !requested_app. cbn. f_equal. f_equal.
  destruct (respond _ url) as [response|]; [|done]. simpl.
  repeat case_match; done.
Qed.

Lemma debug_steps_requested items w :
  exists w', io_for items debug_step w = (Ok tt, w') /\
             requested (w_trace w') = requested (w_trace w) ++ items.*2.
Proof.
  revert w. induction items as [|item items IH]; intros w.
  { exists w. by rewrite app_nil_r. }
  cbn [io_for]. unfold io_bind.
  pose proof (debug_step_total item w) as Ht. pose proof (debug_step_requested item w) as Hr.
  destruct (debug_step item w) as [[[]|e] w1]; [|done]. cbn [snd] in Hr.
  destruct (IH w1) as (w' & -> & Hr'). exists w'. split; [done|].
  rewrite Hr', Hr. cbn [fmap list_fmap]. by rewrite <- app_assoc.
Qed.

(** C31. [debug_13f_structure] never raises and asks for each of its five
    documents once, in the order of the list, whatever is answered and
    whatever the disk allows. *)
Theorem debug_13f_structure_requests w :
  exists w', debug_13f_structure w = (Ok tt, w') /\
             requested (w_trace w') = requested (w_trace w) ++ url_patterns.
Proof.
  unfold debug_13f_structure, io_bind at 1. rewrite prints_run. unfold io_bind at 1.
  destruct (debug_steps_requested (zip (seq 0 (length url_patterns)) url_patterns)
              {| w_trace := w_trace w ++ replicate 4 EPrint; disk := disk w |})
    as (w1 & -> & Hr).
  rewrite prints_run. eexists. split; [done|]. cbn [w_trace] in *.
  rewrite requested_app, Hr, requested_app. cbn [replicate requested omap list_omap].
  rewrite !app_nil_r. by f_equal.
Qed.

End DebugFacts.

(** ** The probe and the cascade *)

(** The three documents that [parse_13f_holdings] requests for the
    filing of the probe are among the five of the probe, in the order
    of the cascade: the information table first, the primary document
    second and the full text fourth. *)
Theorem url_patterns_cascade :
  url_patterns !! 0%nat = Some (info_table_url debug_cik debug_accession_number) /\
  url_patterns !! 1%nat = Some (primary_doc_url debug_cik debug_accession_number) /\
  url_patterns !! 3%nat = Some (filing_url debug_cik debug_accession_number).
Proof. by vm_compute. Qed.

(** On a host that answers every request with a long table, a sample is
    kept for each of the five documents. *)
Definition long_table : string :=
  "<nameOfIssuer>NVIDIA CORP</nameOfIssuer><cusip>67066G104</cusip>" +:+
  Py.repeat_char " " 1000.

Example debug_13f_structure_samples :
  exists w,
    debug_13f_structure
      (net := static_net (fun _ => Some {| status_code := 200; text := long_table;
                                           json_body := None |}))
      (D := open_disk) empty_world = (Ok tt, w) /\
    size (disk w) = 5%nat /\
    found_terms long_table = ["NVIDIA"; "cusip"; "nameOfIssuer"] /\
    throttled (w_trace w) = true.
Proof. eexists. split; [vm_compute; reflexivity|]. by vm_compute. Qed.
