(* ===== verification/Deploy.v ===== *)
(** * Deploy: the scripts behind the scheduler

    The scheduler of Scheduler.v starts scripts by their paths and
    counts the runs that ended with status 0.  Eight of the paths of its
    two lists are scripts of this repository, whose [main] the other
    files model.  This file puts them together: the system of the class
    [Os] on which those eight are installed, each ending as its [main]
    ends, and what the scheduler then counts.

    A script ends with status 0 when its module ran to its end and with
    status 1 when an exception left it; no script of the repository
    ends itself in another way.

    The system is an assumption of this file, not code of the
    repository: the eight scripts stand under the paths by which the
    scheduler names them, every directory can be entered, and no script
    runs into the time-out of 600 seconds of [subprocess.run] (a run of
    economic_indicators.py with slow answers can; what a time-out does
    to the scheduler is in Scheduler.v).  The other paths of the two
    lists name scripts that are not under src/; nothing is said of
    them here. *)

From Stdlib Require Import String Ascii ZArith Lia.
From stdpp Require Import base tactics option list strings gmap.
From S2P Require Import Prelude PyRuntime Net Disk Xml Resolver Scheduler Ownership Store Options Vix Economy Prices Reddit Insider.

#[local] Open Scope string_scope.
#[local] Open Scope Z_scope.
#[local] Open Scope list_scope.

(** ** A script as the scheduler sees it *)

(** The status with which the interpreter ends a script that starts in
    the state [s]. *)
Definition exit_status {S A} (m : io S A) (s : S) : Z :=
  if is_ok (m s).1 then 0 else 1.

(** The system on which the scripts of a table are installed. *)
Definition installed (scripts : list (string * Z)) : Os :=
  {| path_exists := fun p => bool_decide (is_Some (dict_get p scripts));
     can_enter := fun _ => true;
     run_script := fun p _ =>
       match dict_get p scripts with
       | Some code => Exit code
       | None => Failed
       end |}.

(** A script of the table that ends with status 0. *)
Definition succeeds (scripts : list (string * Z)) (p : string) : bool :=
  bool_decide (dict_get p scripts = Some 0).

(** The paths under which the scripts of the repository are installed. *)
Definition script_paths : list string :=
  ["/app/GOOGL/GOOGLfetch.py"; "/app/GOOGL/GOOGLinsider.py"; "/app/SPY/spyFetch.py";
   "/app/options_flow.py"; "/app/reddit_sentiment.py"; "/app/vix_fetcher.py";
   "/app/simplified_institutional.py"; "/app/economic_indicators.py"].

Section Repository.
Context {net : Net} {D : Disk} {market : Market} {fred : Fred} {feed : Feed} {news : News}
        {reddit : Reddit} {edgar : Edgar} {parser : XmlParser} {yahoo : Yahoo}.

(** The environment and the clock of a run. *)
Variables FRED_API_KEY NEWSAPI_KEY GMAIL_APP_PASSWORD : option string.
Variable now : string.
Variable now_year : Z.

(** The world in which a script starts. *)
Variable initial : forall row, world row.

(** How the [main] of each script ends. *)
Definition statuses : list Z :=
  [exit_status (googl_main NEWSAPI_KEY) (initial _);
   exit_status (main_task GMAIL_APP_PASSWORD) (initial _);
   exit_status (spy_script NEWSAPI_KEY) (initial _);
   exit_status options_main (initial _);
   exit_status (reddit_main now) (initial _);
   exit_status vix_main (initial _);
   exit_status (simplified_main now_year) (initial _);
   exit_status (economy_main FRED_API_KEY now) (initial _)].

Definition repository : list (string * Z) := zip script_paths statuses.

End Repository.

(** ** Facts about an installed system *)

Lemma dict_get_zip {V} (ks : list string) (vs : list V) (i : nat) k v :
  NoDup ks -> ks !! i = Some k -> vs !! i = Some v -> dict_get k (zip ks vs) = Some v.
Proof.
  revert vs i. induction ks as [|k0 ks IH]; intros [|v0 vs] i Hnd Hk Hv; try done.
  apply NoDup_cons in Hnd as [Hk0 Hnd]. destruct i as [|i]; simpl in *.
  - injection Hk as ->. injection Hv as ->. by rewrite decide_True.
  - rewrite decide_False; [by apply (IH vs i)|].
    intros ->. apply Hk0. by apply list_elem_of_lookup_2 in Hk.
Qed.

Section Installed.
Variable scripts : list (string * Z).

#[local] Instance installed_scripts : Os := installed scripts.

(** An installed script is run, its status decides, and the scheduler
    is back in its directory. *)
Lemma run_fetch_script_installed p code s :
  dict_get p scripts = Some code ->
  run_fetch_script p s =
    (Ok (code =? 0),
     after s (cwd s)
       ([Log INFO; Chdir (dirname p); Run p (dirname p); Chdir (cwd s)] ++
        if code =? 0 then [Log INFO] else [Log ERROR; Log ERROR])).
Proof. intros E. rewrite run_fetch_script_spec. simpl. by rewrite E. Qed.

Lemma status_count (code n : Z) :
  (if code =? 0 then n + 1 else n) = n + if bool_decide (Some code = Some 0) then 1 else 0.
Proof.
  destruct (Z.eqb_spec code 0) as [->|Hc]; [by rewrite bool_decide_eq_true_2|].
  rewrite bool_decide_eq_false_2; [lia|]. by intros [= ?].
Qed.

Lemma run_one_installed script n s :
  exists s', run_one script n s = (Ok (n + if succeeds scripts script.1 then 1 else 0), s') /\
             cwd s' = cwd s.
Proof.
  destruct script as [p name]. unfold run_one, succeeds.
  cbn [fst path_exists installed installed_scripts].
  destruct (dict_get p scripts) as [code|] eqn:E.
  - rewrite bool_decide_eq_true_2 by done. unfold io_bind.
    rewrite (run_fetch_script_installed p code s E). unfold io_ret.
    rewrite status_count. eexists; split; [reflexivity|done].
  - rewrite bool_decide_eq_false_2 by (by intros [? ?]).
    rewrite bool_decide_eq_false_2 by done. rewrite Z.add_0_r.
    eexists; split; [reflexivity|done].
Qed.

Lemma run_loop_installed l : forall n s,
  exists s', io_foldl run_one l n s
             = (Ok (n + Z.of_nat (length (filter (fun p => succeeds scripts p) l.*1))), s') /\
             cwd s' = cwd s.
Proof.
  induction l as [|script l IH]; intros n s.
  { exists s. split; [|done]. simpl. by rewrite Z.add_0_r. }
  cbn [io_foldl]. unfold io_bind.
  destruct (run_one_installed script n s) as (s1 & -> & H1).
  destruct (IH (n + if succeeds scripts script.1 then 1 else 0) s1) as (s2 & -> & H2).
  exists s2. split; [|congruence]. do 2 f_equal. csimpl. rewrite filter_cons.
  destruct (succeeds scripts script.1); simpl length; lia.
Qed.

(** On an installed system a run of a list counts the scripts of the
    list that are installed and end with status 0, and ends in the
    directory in which it started. *)
Lemma run_scripts_installed l s :
  exists s', run_scripts l s
             = (Ok (Z.of_nat (length (filter (fun p => succeeds scripts p) l.*1)),
                    Z.of_nat (length l)), s') /\
             cwd s' = cwd s.
Proof.
  unfold run_scripts, io_bind at 1, logging_info at 1, act. unfold io_bind at 1.
  destruct (run_loop_installed l 0 {| cwd := cwd s; actions := actions s ++ [Log INFO] |})
    as (s1 & -> & H1).
  eexists. split; [reflexivity|done].
Qed.

End Installed.

(** ** How a script of the repository ends *)

Lemma exit_status_ok {S A} (E : exn -> Prop) (m : io S A) s :
  raises_only E m -> (forall e, ~ E e) -> exit_status m s = 0.
Proof.
  intros Hm HE. unfold exit_status. destruct (m s).1 as [a|e] eqn:Hr; [done|].
  destruct (HE e (Hm s e Hr)).
Qed.

Lemma exit_status_raise {S A} (m : io S A) s e : (m s).1 = Raise e -> exit_status m s = 1.
Proof. intros E. unfold exit_status. by rewrite E. Qed.

Section OpenDisk.
Context {net : Net} {market : Market} {fred : Fred} {yahoo : Yahoo} {feed : Feed} {news : News}.
#[local] Existing Instance open_disk.

(** On a disk that takes every directory and every file the three
    weekly scripts end with status 0, whatever the hosts answer. *)
Lemma vix_main_exit w : exit_status vix_main w = 0.
Proof.
  apply (exit_status_ok _ _ _ (fetch_and_save_volatility_data_raises _ _)).
  by intros e [_ [?|[_ (p & _ & ?)]]].
Qed.

Lemma economy_main_exit key now w : exit_status (economy_main key now) w = 0.
Proof.
  apply (exit_status_ok _ _ _ (fetch_and_save_economic_data_raises key now _)).
  by intros e [_ [?|?]].
Qed.

Lemma simplified_main_exit now_year w : exit_status (simplified_main now_year) w = 0.
Proof.
  unfold exit_status, simplified_main.
  by destruct (create_comprehensive_institutional_dataset_result now_year ["NVDA"]
                 "/app/data/INSTITUTIONAL" w) as [->|[_ [?|?]]].
Qed.

(** The script of GOOGL ends with status 0 with or without the key of
    NewsAPI. *)
Lemma googl_main_exit news_key w : exit_status (googl_main news_key) w = 0.
Proof.
  unfold googl_main. apply (exit_status_ok (news_error "GOOGL_news_sentiment.csv")).
  - apply raises_only_bind; [|intros _; apply run_complete_fetch_raises].
    apply raises_only_total. unfold GOOGLFetcher_init.
    destruct news_key as [[|c k]|]; first [apply total_print | apply total_ret].
  - by intros e [_ ?].
Qed.

End OpenDisk.

(** With no key of NewsAPI in the environment the script of SPY raises
    when it is loaded, on every disk. *)
Lemma spy_script_exit {feed : Feed} {news : News} {D : Disk} w :
  exit_status (spy_script None) w = 1.
Proof. by rewrite (exit_status_raise _ _ _ (f_equal fst (spy_script_no_key w))). Qed.


Lemma script_paths_nodup : NoDup script_paths.
Proof. apply (bool_decide_unpack _). by vm_compute. Qed.

(** C23. On a disk that takes every directory and every file the weekly
    run counts three successes of three, whatever the market, the
    archive and FRED answer and whatever the environment holds: a
    success of a weekly script says that the disk took its files, not
    that anything was fetched. *)
Theorem run_weekly_scripts_open_disk {net : Net} {market : Market} {fred : Fred}
    {feed : Feed} {news : News} {reddit : Reddit} {edgar : Edgar} {parser : XmlParser}
    {yahoo : Yahoo} fred_key news_key password now now_year initial s :
  exists s',
    run_weekly_scripts
      (os := installed (repository (D := open_disk) fred_key news_key password now
                          now_year initial)) s
    = (Ok (3, 3), s') /\ cwd s' = cwd s.
Proof.
  destruct (run_scripts_installed
              (repository (D := open_disk) fred_key news_key password now now_year initial)
              weekly_scripts s) as (s' & E & Hc).
  exists s'. split; [|done]. unfold run_weekly_scripts. etrans; [exact E|]. do 3 f_equal.
  assert (forall p i v, script_paths !! i = Some p ->
            statuses (D := open_disk) fred_key news_key password now now_year initial !! i
              = Some v -> v = 0 ->
            succeeds (repository (D := open_disk) fred_key news_key password now
                        now_year initial) p = true) as Hs.
  { intros p i v Hp Hv ->. apply bool_decide_eq_true.
    by apply (dict_get_zip _ _ i), Hv; [apply script_paths_nodup|]. }
  change (weekly_scripts.*1) with ["/app/vix_fetcher.py"; "/app/simplified_institutional.py";
                                   "/app/economic_indicators.py"].
  rewrite !filter_cons, filter_nil.
  rewrite (Hs _ 5%nat _ eq_refl eq_refl (vix_main_exit _)).
  rewrite (Hs _ 6%nat _ eq_refl eq_refl (simplified_main_exit _ _)).
  by rewrite (Hs _ 7%nat _ eq_refl eq_refl (economy_main_exit _ _ _)).
Qed.

(** C38. In an environment without the key of NewsAPI, on a disk that
    takes every file, the scheduler logs the run of the script of SPY
    as failed and the run of the script of GOOGL as completed, whatever
    the feed answers: the first raises when it is loaded and ends with
    status 1 before a price is fetched, the second only skips the
    news.  After each the scheduler is back in its directory. *)
Theorem run_fetch_script_no_key {net : Net} {market : Market} {fred : Fred}
    {feed : Feed} {news : News} {reddit : Reddit} {edgar : Edgar} {parser : XmlParser}
    {yahoo : Yahoo} fred_key password now now_year initial s :
  let os := installed (repository (D := open_disk) fred_key None password now
                         now_year initial) in
  run_fetch_script "/app/SPY/spyFetch.py" s =
    (Ok false,
     after s (cwd s)
       [Log INFO; Chdir "/app/SPY"; Run "/app/SPY/spyFetch.py" "/app/SPY"; Chdir (cwd s);
        Log ERROR; Log ERROR]) /\
  run_fetch_script "/app/GOOGL/GOOGLfetch.py" s =
    (Ok true,
     after s (cwd s)
       [Log INFO; Chdir "/app/GOOGL"; Run "/app/GOOGL/GOOGLfetch.py" "/app/GOOGL";
        Chdir (cwd s); Log INFO]).
Proof.
  intros os. subst os. split.
  - etrans; [apply (run_fetch_script_installed _ _ 1 s)|done].
    unfold repository. erewrite (dict_get_zip _ _ 2); [|apply script_paths_nodup|done..].
    cbn [statuses lookup list_lookup]. by rewrite spy_script_exit.
  - etrans; [apply (run_fetch_script_installed _ _ 0 s)|done].
    unfold repository. erewrite (dict_get_zip _ _ 0); [|apply script_paths_nodup|done..].
    cbn [statuses lookup list_lookup]. by rewrite googl_main_exit.
Qed.

(** The tracker that reads the filing documents is in neither list of
    the scheduler: only the simplified tracker is started. *)
Lemma tracker_not_scheduled :
  "/app/institutional_tracker.py" ∉ (daily_scripts ++ weekly_scripts).*1.
Proof. apply (bool_decide_unpack _). by vm_compute. Qed.
